(* ===== verification/_CoqProject ===== *)
-Q . S2P
Prelude.v
Numeric.v
Text.v
Store.v
Streak.v
Trend.v
Forecast.v
Recommend.v
Achievements.v
Doctor.v
Views.v
Aggregate.v
Accounts.v
Dashboard.v
Models.v
Serializers.v
Api.v
Journals.v
Registration.v
Routes.v
System.v
Schemas.v
Isolation.v
Integrity.v
Tokens.v
Site.v
Credentials.v
Binary64.v
FloatForecast.v
