(* ===== verification/Prelude.v ===== *)
(** * Vyze: a verification development for the mood-tracking application

    ** The program

    Vyze is a Django application in which patients log mood entries
    (an integer 1..10) and journal entries, and doctors review the data of
    the patients assigned to them.  Its sources are

    - [src/accounts/models.py]      the [User] model and patient-id generation,
    - [src/accounts/decorators.py]  the [doctor_required]/[patient_required] guards,
    - [src/accounts/forms.py]       the registration form,
    - [src/dashboard/models.py]     the tables [MoodEntry], [Journal],
                                    [Achievement], [DoctorNote],
                                    [DoctorPatientAssignment],
    - [src/dashboard/views.py]      the HTML views and the analytics helpers
                                    ([calculate_streak], [check_achievements],
                                    [analyze_mood_trends],
                                    [generate_ai_recommendations],
                                    [predict_next_mood],
                                    [calculate_prediction_confidence],
                                    [predict_next_week_mood]),
    - [src/dashboard/api.py]        the REST endpoints and view sets and their
                                    own copies of [calculate_streak] and
                                    [analyze_mood_trends],
    - [src/dashboard/forms.py], [src/dashboard/serializers.py]
                                    the forms and the serializers,
    - [src/dashboard/urls.py], [src/dashboard/api_urls.py],
      [src/vyze_project/urls.py]    the URL tables and [home_redirect].

    A request is resolved by the URL tables to a view; the view is guarded
    by decorators (login, role), reads the relational store, calls the
    analytics helpers on the rows it fetched and renders the result or
    redirects.  The views that write are [log_mood], [add_journal],
    [assign_patient], [add_doctor_note], [patient_dashboard] (which gives
    a patient without a code one), [register_user] and the view sets of
    the REST API.

    ** The files

    - [Prelude] (this file): the exception monad [result] in which fallible
      Python code is written, with its laws and the postconditions
      [ensures]; decision procedures for the order on [Q]; the hint
      database [vyze], the tactics shared by every file and lemmas on
      lists that are used as tables.
    - [Numeric]: Python's numeric primitives as the helpers use them:
      [sum], true division, [round(x, 1)], [min]/[max] clamping, list
      slicing, with their algebraic and order lemmas.
    - [Text]: [str.strip], [str.upper] and slicing on ASCII text.
    - [Store]: the tables of [src/dashboard/models.py] and
      [src/accounts/models.py] as records, the database as a record of
      row lists, the queries the helpers issue ([filter], [exists],
      [count], [order_by], slicing) and the writers that append a row.
    - [Streak]: [calculate_streak] as a fuelled loop over an abstract
      day index (the class [DayIndex]), its specification as the longest
      run of logged days ending today, termination, and the set-based
      variant with its equivalence proof.
    - [Trend]: both copies of [analyze_mood_trends] and the trend test of
      the [ai_mood_prediction] view.
    - [Forecast]: [predict_next_mood], [calculate_prediction_confidence]
      and [predict_next_week_mood].
    - [Recommend]: [generate_ai_recommendations].
    - [Achievements]: [check_achievements], the [log_mood] view that
      calls it and the REST endpoint [MoodEntryViewSet.perform_create] that
      does not, with the invariants of the achievement table along the
      stores reached by [log_mood] requests.
    - [Doctor]: the decorators [login_required], [doctor_required],
      [patient_required] and the permission [IsAuthenticated], generic in
      what the wrapped view returns (the class [Responds]);
      [assign_patient] in its HTML and REST versions, and the creation of
      doctor notes ([add_doctor_note], [create_for_patient]).
    - [Views]: the [ai_mood_prediction] view, which composes the trend
      test, the recommendations, [predict_next_mood] and
      [calculate_prediction_confidence].
    - [Aggregate]: the queries [values().annotate(Avg, Count)] and
      [aggregate(Avg)]: grouping declaratively and by sorting and cutting
      into runs, with the refinement between the two.
    - [Accounts]: [User.save], [generate_patient_id] as a fuelled loop
      over the texts [uuid4] returns, and [Model.save] with the unique
      columns enforced.
    - [Dashboard]: the pages [patient_dashboard], [doctor_dashboard],
      [patient_detail], [progress_analytics] with their contexts, the REST
      endpoints [dashboard_stats], [assigned_patients], [patient_details],
      and the pages of fixed content ([mini_games], [breathing_exercise],
      [positive_quotes], [crisis_support], [emergency_contacts]).
    - [Models]: the methods of the model classes of
      [src/dashboard/models.py]: [get_visible_doctors] and [__str__].
    - [Serializers]: the serializers the endpoints use, with the
      validation the REST framework derives from the model fields.
    - [Api]: the four view sets with the actions of [ModelViewSet] over
      the interface [Model] of a table, [register_user], [current_user],
      and the specification [own_step] of a view set that keeps to the
      rows of its user.
    - [Journals]: the [add_journal] view with [JournalForm].
    - [Registration]: [UserRegistrationForm] of [src/accounts/forms.py]
      and [UserRegistrationSerializer], beside [register_user].
    - [Routes]: the three URL tables as lists of routes, the routes the
      router generates, [resolve], [reverse], and [home_redirect].
    - [System]: the application as one step function: [handle] resolves
      the URL, reads the user of the session and calls the view of the
      route ([serve]); [browse] follows redirects.
    - [Schemas]: [MoodEntryForm], the serializer of the assignments and
      the plain serializers that declare the keys of a response.
    - [Isolation]: what a request may change in the name of its user
      ([confined]), shown of every view and of [handle].
    - [Integrity]: the foreign keys of the tables and the roles of an
      assignment ([linked]) as an invariant of [handle].
    - [Tokens]: the table of the tokens as a finite map, the column of the
      passwords, [Token.objects.get_or_create], [authenticate] and
      [CustomAuthToken.post].
    - [Site]: the application with its credentials: a request carries a
      session or a token, the state has the tables of [Tokens] beside the
      store, [handle_site] finds the user, issues tokens at the log-in
      and the registration and calls [handle]; the registration form
      sets the password; the steps of the whole as a relation
      ([site_step]).
    - [Credentials]: the invariant of the application with its
      credentials ([site_wf]) and the user of a token ([bearer]).
    - [Binary64]: the numeric path of [analyze_mood_trends] on binary64
      floats, beside the exact version of [Trend]; the checks on
      integers that decide how a float rounds.
    - [FloatForecast]: the trend test of [ai_mood_prediction] and
      [predict_next_mood] on binary64 floats, beside the exact versions
      of [Trend] and [Forecast].

    Each file depends on files above it in this list only; [System],
    [Schemas], [Isolation], [Integrity], [Site] and [Credentials] require
    the views of all the others; [Binary64] and [FloatForecast] require
    the numeric files only.

    ** How the model corresponds to the code

    - A Python [int] is a [Z].  A Python [float] is an exact rational [Q]:
      the model computes the real-number result of every float operation.
      The code and the model agree whenever no float operation rounds, and
      may disagree only where a rounded float result falls on the other
      side of a comparison threshold than the exact value.  For
      [analyze_mood_trends], the trend test of [ai_mood_prediction] and
      [predict_next_mood] this is made exact in [Binary64] and
      [FloatForecast], which have the float versions on the binary64
      floats of the kernel ([PrimFloat]: the operations of the processor,
      read as numbers through [FloatOps.Prim2SF]) and compare the two by
      computing both on all sums the windows have: they differ only
      when the exact difference of the half means is one half or ten
      times the value to round is half way between two integers, and in
      such cases they do differ.  A result of [min] or [max] is the
      argument it returns, an integer or a float ([FloatForecast.number]).
      The other helpers are on [Q] only.  Equality of rationals is [Qeq]
      ([==]); functions on [Q] come with [Proper] instances.
    - [round(x, 1)] is round-half-to-even at one decimal digit on the exact
      value ([Numeric.round1]).
    - [variance ** 0.5 < b] is decided on the square:
      [variance < b * b] ([Numeric.sqrt_lt]).
    - A Python exception is a value [Raise e] of [result]; code that may
      raise is written with the bind of the monad.
    - Time stamps are seconds since the epoch in [Z]; the calendar day of a
      time stamp is its quotient by 86400 (the site's time zone is taken to
      be UTC).  [timezone.now()] is a parameter of every definition that
      reads the clock.
    - Randomness is an argument: [uuid.uuid4()] is the stream of the texts
      it will return, with the index of the next one as part of the state;
      [random.choice] is given the number it draws.
    - A Django table is the list of its rows in insertion order; a query is
      a [filter] over it and [order_by] is a stable sort.  A primary key
      is the next integer after the largest key; the key 0 stands for an
      instance that has not been saved.
    - [while True] loops take a fuel argument; each comes with a theorem
      giving an amount of fuel that is enough, computed from the store
      (for [calculate_streak]: one more than the number of mood entries,
      since every round but the last finds an entry on a day of its own;
      for [generate_patient_id]: one draw more than there are users, when
      the draws give codes that differ).  A view that runs out of fuel
      answers nothing ([None], [OutOfFuel]), never a wrong value.
    - A view is a function from the store to a [result] of the new store
      and the [response] (a [handler]), of the response and the context it
      renders (a [page]) or, when it draws, also of the index of the next
      draw.  [request.user] is an argument ([None] for an anonymous
      request), [request.method] and the fields of the request are
      arguments.  Flash messages and rendered HTML are left out: a response
      is the redirect target, the template name or the status code.
    - The REST framework is modelled from its documentation, since it is
      not part of the sources: a [CharField] trims white space, a column
      without default is required, [ModelViewSet] has the six standard
      actions on [get_queryset], and [DefaultRouter] generates the list
      route, the routes of the extra actions and the detail route, in this
      order.  A request without credentials is answered 401.
    - The tables of the tokens and of the passwords are the framework's
      too.  A token belongs to one user and its key is the primary key;
      the keys [os.urandom] gives are a stream like the draws of [uuid4];
      a password is stored as it is, since hashing is taken as exact.
      The settings are not part of the sources: a view of the API is
      taken to authenticate by the session or by the token, and requests
      are not wrapped in a transaction, so that an error leaves what was
      saved before it ([Site.SiteError] carries the state).
    - A URL is the list of the segments of its path.  The tables of
      [admin/] and [accounts/] are not in the sources; a URL below them
      resolves to a view [External], of which the model says nothing.
    - Requests run one after the other.  The single interleaving the
      development looks at, two achievement checks that both read before
      either writes, is stated on the two phases of a rule
      ([Achievements.award_guard] and [Store.create_achievement]).
    - The database constraints the handlers rely on are part of the
      writers: [Doctor.create_assignment] raises [IntegrityError] on a
      second row for a pair, as [unique_together] makes the database do,
      and [Accounts.model_save] on a second user with a name or a code.
    - [str.strip] and [str.upper] are modelled for ASCII text.

    ** What the theorems show

    - [Numeric]: rounding is within half a unit, monotone and fixes
      integers; clamping lands in its interval; sums and means of bounded
      lists are bounded.
    - [Text]: stripping and upper-casing are idempotent and commute.
    - [Streak]: the loop terminates with fuel [length entries + 1], returns
      the length of the maximal run of logged days ending today, returns 0
      when today has no entry, and agrees with the set-based computation.
    - [Trend]: fewer than three points are always "stable", the
      classification is exactly the threshold test on the difference of
      half-means, the level buckets partition the averages, the
      function never raises, and the view's trend labels are inverted with
      respect to chronological order.
    - [Forecast]: the regression denominator is positive from two points on,
      predictions lie in [1, 10], constant input gives a constant
      prediction, the empty store gives the documented flat forecast, the
      two slope formulas agree, confidence is "Low" below five points.
    - [Recommend]: the returned list in closed form: always five entries,
      the two urgent messages first for a declining trend, the bucket of
      the average otherwise, and which of the two activity messages
      survives the cut to five.
    - [Achievements]: the rule engine is idempotent, awards what the count
      calls for and keeps "at most one achievement per user and title";
      along [log_mood] requests the achievements are exactly those the
      counts call for; the REST endpoint breaks this, and so do two checks
      that interleave.
    - [Doctor]: a request that does not come from a doctor leaves the store
      alone; [assign_patient] keeps pairs unique, is idempotent, never
      raises while no assignment has been deactivated and raises
      [IntegrityError] after a deactivation; the REST endpoint writes what
      the view writes; the HTML view for notes lacks the assignment check
      of the REST endpoint and raises on a request without a note.
    - [Views]: [ai_mood_prediction] never raises and shows a prediction
      exactly from seven entries on, with its ranges; a mood that rose
      with every entry is reported as declining, with the urgent warning
      first.
    - [Aggregate]: the groups partition the rows, the counts and averages
      are consistent with the table, and grouping by sorting refines the
      declarative grouping.
    - [Accounts]: the code generated is fresh, the loop ends within one
      draw more than there are users when the draws differ and ends
      exactly when some draw is free; saving keeps keys, names and codes
      unique; the code given is found by the lookup of [assign_patient].
    - [Dashboard]: a doctor's dashboard shows entries of assigned patients
      only; [patient_detail] shows any patient where the endpoint
      [patient_details] answers 403; the endpoints return what the pages
      show; the figures of [progress_analytics] are consistent; the first
      visit of [patient_dashboard] gives a patient a code.
    - [Models]: the doctors [get_visible_doctors] names for an entry are
      those whose dashboard shows it, each once; [__str__] returns for
      rows whose users exist and raises for a dangling key.
    - [Serializers]: creating a row from valid data and representing it
      gives the trimmed data back.
    - [Api]: a view set that keeps to the rows of its user implements
      [own_step] (a refinement, proved once against the interfaces
      [ModelLaws] and [Owned]); what [create] answers, [retrieve] answers
      for the new key; [DoctorNoteViewSet] lets any user write a note in
      any doctor's name; deleting a mood entry leaves its achievement.
    - [Journals]: [add_journal] writes what the REST endpoint writes, and
      the fifth entry changes the recommendations.
    - [Registration]: a registration form that validates is saved
      without an error of the store, as the user it describes;
      [register_user] stores what the serializer for registrations would
      store and checks no password.
    - [Routes]: resolving a reversed URL gives the route back, and the one
      exception: the detail route of the doctor notes, which the route of
      [create_for_patient] shadows.
    - [System]: the constraints of the schema ([wf]) are kept by every
      request, hence hold in every reachable state; a request without
      user changes nothing unless it registers; a patient never reaches a
      view of the doctors and a doctor never a page of the patients; no
      chain of redirects is longer than two, with the rank of a request
      as the variant (fuel 2 for [browse] is enough and is needed).
    - [Schemas]: [log_mood] stores what [MoodEntryForm] cleans; data the
      serializer of the assignments accepts never meet the constraint of
      the store; the dictionaries of [analyze_mood_trends] and
      [dashboard_stats] have the declared keys in one of their two
      branches only.
    - [Isolation]: a request changes the rows of its user only;
      achievements, assignments and doctor notes only grow; the diary of
      a user is the same after any sequence of requests of the others.
      For the doctor notes this rests on the URL table: the view set would
      let a patient delete a note, and no URL reaches that action.
    - [Integrity]: in every reachable state every row refers to users of
      the store and every assignment links a doctor to a patient, so the
      methods of the models that follow a key return.
    - [Tokens]: [get_or_create] is idempotent, keeps the keys of the tokens
      apart, and fails exactly when the key it draws is taken; a key finds
      the user it was issued to.
    - [Site]: [handle_site] refines [handle] (the outcome is the one of
      [handle] for the user the credentials stand for, or 401 for a token
      nobody has, or the failure of a key that collides), and reaches
      every store [handle] reaches; a log-in with a valid name and
      password is answered within [k + 1] tries when the key drawn [k]
      draws from now is free (the variant is [k]: a try that fails draws
      one key).
    - [Binary64]: the float of a mean is within [2 ^ -50] of the mean;
      the float analysis and the exact analysis return the same level,
      the same trend unless the exact slope is one half up or down, and
      the same rounded mean unless the mean is half way between two
      decimals; windows on which they differ.  The comparison is computed
      on all sums of windows of at most 31 moods from 1 to 10 (15 entries
      in the first half), which covers one entry on each day of the
      thirty-day window.
    - [FloatForecast]: the trend test of [ai_mood_prediction] on floats
      is the test on rationals, with no exception; [predict_next_mood]
      on floats returns the float next to the decimal the exact version
      returns unless the fitted value is half way between two decimals,
      and a window on which they differ; the result is the integer 1,
      the integer 10 or a float between them.  The comparison is
      computed on all sums of windows of 3 to 14 moods from 1 to 10, one
      table for each length: the view passes 7 to 14 moods.  The tables
      are kept small for the kernel, which evaluates them without the
      virtual machine: the exact rounding is carried along the sums by
      additions ([Binary64.forall_round]), and a float is compared on
      the leading bits of its mantissa ([Binary64.near]).
    - [Credentials]: the schema, the foreign keys and the constraints of
      the credentials hold in every state the steps reach; a token that
      was issued stands for its user in every later state; a user
      [register_user] creates never has a password, and one whose token
      fails has neither token nor password while the name is taken; a
      request without the session or a token of a user leaves the diary
      of this user alone.

    ** Not modelled

    HTML templates and flash messages; the hashing of passwords; the
    views of the log-in and the log-out of the HTML pages, which are not
    in the sources (a session is the key of its user, given with the
    request); the settings, hence the authentication classes and the
    transactions, which are fixed as said above; the
    tables of [admin/] and [accounts/]; the format suffixes and the root
    view of the router; pagination and content negotiation of the REST
    framework; middleware other than the lookup of the user of a session;
    the format of an e-mail address and the password validators of the
    settings (arguments of [Registration]); the conversion of values by
    the fields of a plain serializer and the text of a time stamp; the
    columns [first_name], [last_name] and [date_joined] of a user;
    cascading deletes (no view deletes a user).  Binary floating point
    rounding is modelled for [analyze_mood_trends], the trend test of
    [ai_mood_prediction] and [predict_next_mood].  It is not modelled for
    [calculate_prediction_confidence] and [predict_next_week_mood]: both
    sum floats with [sum] and raise them to a power with [**], whose
    results depend on the summation of the interpreter's version and on
    the power function of the C library, which IEEE 754 does not fix;
    nor for the averages the database computes.  Requests that overlap
    in time are
    not modelled beyond the one interleaving named above. *)


From Stdlib Require Import ZArith QArith Qround Qminmax Lqa Lia.
From stdpp Require Import base decidable option list.

#[global] Open Scope Z_scope.

(** ** Exceptions as values *)

(** The exceptions the modelled code can raise. *)
Inductive exn : Type :=
| ZeroDivisionError
| IndexError
| KeyError
| DoesNotExist
| MultipleObjectsReturned
| IntegrityError
| TypeError
| NoReverseMatch.

#[global] Instance exn_eq_dec : EqDecision exn.
Proof. solve_decision. Defined.

(** The outcome of a Python computation: a value or a raised exception. *)
Inductive result (A : Type) : Type :=
| Ok (a : A)
| Raise (e : exn).

Arguments Ok {A} a.
Arguments Raise {A} e.

#[global] Instance result_ret : MRet result := fun A a => Ok a.

#[global] Instance result_bind : MBind result := fun A B f m =>
  match m with
  | Ok a => f a
  | Raise e => Raise e
  end.

#[global] Instance result_fmap : FMap result := fun A B f m =>
  match m with
  | Ok a => Ok (f a)
  | Raise e => Raise e
  end.

Definition is_ok {A} (m : result A) : bool :=
  match m with Ok _ => true | Raise _ => false end.

(** The value of a computation, or [d] when it raised. *)
Definition get_or {A} (d : A) (m : result A) : A :=
  match m with Ok a => a | Raise _ => d end.

(** What a computation ensures of its value, when it returns one. *)
Definition ensures {A} (Q : A -> Prop) (m : result A) : Prop :=
  forall a, m = Ok a -> Q a.

#[global] Instance result_eq_dec {A} `{EqDecision A} : EqDecision (result A).
Proof. solve_decision. Defined.

(** ** Decidable order on the rationals *)

#[global] Instance Qeq_decision (x y : Q) : Decision (x == y)%Q := Qeq_dec x y.

#[global] Instance Qlt_decision (x y : Q) : Decision (x < y)%Q :=
  match Qlt_le_dec x y with
  | left H => left H
  | right H => right (Qle_not_lt _ _ H)
  end.

#[global] Instance Qle_decision (x y : Q) : Decision (x <= y)%Q :=
  match Qlt_le_dec y x with
  | left H => right (Qlt_not_le _ _ H)
  | right H => left H
  end.

(** ** Automation *)

Create HintDb vyze discriminated.
Create Rewrite HintDb vyze.

(** Case analysis on the [decide] and [match] of a goal, one at a time. *)
Ltac case_step :=
  match goal with
  | |- context [decide ?P] => destruct (decide P)
  | |- context [match ?x with _ => _ end] => destruct x eqn:?
  end.

(** Inversion of [Ok]/[Raise] equations in the context. *)
Ltac simplify_result :=
  repeat match goal with
  | H : Ok _ = Ok _ |- _ => injection H as H; try subst
  | H : Ok _ = Raise _ |- _ => discriminate H
  | H : Raise _ = Ok _ |- _ => discriminate H
  | H : Raise _ = Raise _ |- _ => injection H as H; try subst
  end.

(** Decide a closed proposition by evaluating its decision procedure. *)
Ltac by_decide :=
  match goal with
  | |- ?P => apply (bool_decide_eq_true_1 P); vm_compute; reflexivity
  end.

(** Close a closed goal by evaluation. *)
Ltac by_compute :=
  vm_compute; first [reflexivity | discriminate | exact I | lia | by_decide].

(** Close a goal over [Q] after unfolding the rational view of integers. *)
Ltac qarith := unfold Qdiv in *; try lra; try nra.

(** ** Laws of the exception monad *)

Section ResultLaws.
Context {A B C : Type}.
Implicit Types (m : result A) (f : A -> result B) (g : B -> result C).

Lemma result_bind_ok f a : (Ok a ≫= f) = f a.
Proof. reflexivity. Qed.

Lemma result_bind_raise f e : (Raise e ≫= f) = Raise e.
Proof. reflexivity. Qed.

Lemma result_bind_ret m : (m ≫= mret) = m.
Proof. by destruct m. Qed.

Lemma result_bind_assoc m f g : ((m ≫= f) ≫= g) = (m ≫= fun a => f a ≫= g).
Proof. by destruct m. Qed.

(** A bind succeeds exactly when both of its stages do. *)
Lemma result_bind_inv_ok m f b :
  (m ≫= f) = Ok b <-> exists a, m = Ok a /\ f a = Ok b.
Proof.
  split.
  - destruct m as [a|e]; [exists a; auto | discriminate].
  - by intros (a & -> & Hf).
Qed.

(** A bind raises when its first stage does, or else when the second does. *)
Lemma result_bind_inv_raise m f e :
  (m ≫= f) = Raise e <-> m = Raise e \/ exists a, m = Ok a /\ f a = Raise e.
Proof.
  split.
  - destruct m as [a|e']; cbn; intros H; [right; exists a; auto | left; congruence].
  - by intros [-> | (a & -> & Hf)].
Qed.

Lemma is_ok_true m : is_ok m = true <-> exists a, m = Ok a.
Proof.
  destruct m as [a|e]; simpl; split; eauto.
  - discriminate.
  - intros [a H]; discriminate H.
Qed.

Lemma get_or_ok (d a : A) : get_or d (Ok a) = a.
Proof. reflexivity. Qed.

End ResultLaws.

#[export] Hint Rewrite @result_bind_ok @result_bind_raise @get_or_ok : vyze.

(** ** Postconditions in the exception monad *)

Section Ensures.
Context {A B : Type}.
Implicit Types (m : result A) (f : A -> result B) (Q : B -> Prop).

Lemma ensures_ok (P : A -> Prop) a : P a -> ensures P (Ok a).
Proof. by intros H ? [= <-]. Qed.

Lemma ensures_raise (P : A -> Prop) e : ensures P (Raise e).
Proof. by intros ?. Qed.

Lemma ensures_bind Q m f : (forall a, ensures Q (f a)) -> ensures Q (m ≫= f).
Proof. intros Hf b (a & _ & E)%result_bind_inv_ok. by apply (Hf a). Qed.

Lemma ensures_fmap Q m (g : A -> B) : ensures (fun a => Q (g a)) m -> ensures Q (g <$> m).
Proof. intros Hm b. destruct m as [a|e]; [|done]. intros [= <-]. by apply Hm. Qed.

Lemma ensures_impl (P P' : A -> Prop) m :
  (forall a, P a -> P' a) -> ensures P m -> ensures P' m.
Proof. intros HP Hm a E. by apply HP, Hm. Qed.

End Ensures.

(** One step of the proof of a postcondition: the head of the computation
    is taken apart. *)
Ltac ensures_step :=
  first
    [ apply ensures_raise
    | apply ensures_ok
    | apply ensures_fmap
    | apply ensures_bind; intros ?
    | case_decide; try done
    | case_match ].

(** ** Lists *)

(** A filter that every element passes changes nothing. *)
Lemma filter_all {A} (P : A -> Prop) `{!forall x, Decision (P x)} (l : list A) :
  Forall P l -> filter P l = l.
Proof. induction 1; [done|]. rewrite filter_cons_True by done. by f_equal. Qed.

(** A filter that no element passes leaves nothing. *)
Lemma filter_none {A} (P : A -> Prop) `{!forall x, Decision (P x)} (l : list A) :
  Forall (fun x => ~ P x) l -> filter P l = [].
Proof. induction 1; [done|]. by rewrite filter_cons_False by done. Qed.

(** Splitting a list by two exclusive predicates. *)
Lemma filter_split_perm {A} (P Q : A -> Prop)
    `{!forall x, Decision (P x), !forall x, Decision (Q x)} (l : list A) :
  (forall x, P x -> Q x -> False) ->
  filter (fun x => P x \/ Q x) l ≡ₚ filter P l ++ filter Q l.
Proof.
  intros Hex. induction l as [|x l IH]; [done|]. rewrite !filter_cons.
  destruct (decide (P x)), (decide (Q x)), (decide (P x \/ Q x)); try tauto.
  - exfalso; eauto.
  - simpl. by f_equiv.
  - rewrite <- Permutation_middle. by f_equiv.
Qed.

(** A column without duplicates is a key: the row with a value of the
    column is where it is, and no other row has the value. *)
Lemma NoDup_fmap_split {A K} (f : A -> K) (l : list A) (x : A) :
  NoDup (f <$> l) -> x ∈ l ->
  exists l1 l2, l = l1 ++ x :: l2 /\ Forall (fun y => f y <> f x) (l1 ++ l2).
Proof.
  intros Hnd (l1 & l2 & ->)%list_elem_of_split. exists l1, l2. split; [done|].
  rewrite fmap_app, fmap_cons in Hnd. apply NoDup_app in Hnd as (_ & H1 & Hnd).
  apply NoDup_cons in Hnd as [H2 _]. apply Forall_app. split; apply Forall_forall.
  - intros y Hy E. apply (H1 (f y)); rewrite ?list_elem_of_fmap; [eauto|]. rewrite E. left.
  - intros y Hy E. apply H2. rewrite <- E, list_elem_of_fmap. eauto.
Qed.

Lemma NoDup_fmap_elem_inj {A K} (f : A -> K) (l : list A) (x y : A) :
  NoDup (f <$> l) -> x ∈ l -> y ∈ l -> f x = f y -> x = y.
Proof.
  intros Hnd Hx Hy E. destruct (NoDup_fmap_split f l x Hnd Hx) as (l1 & l2 & -> & Hne).
  rewrite Forall_forall in Hne.
  apply elem_of_app in Hy as [Hy|[->|Hy]%elem_of_cons]; [|done|];
    (exfalso; apply (Hne y); [rewrite elem_of_app; auto|done]).
Qed.

Lemma fmap_fixed {A} (f : A -> A) (l : list A) : Forall (fun x => f x = x) l -> f <$> l = l.
Proof. induction 1; [done|]. rewrite fmap_cons. by f_equal. Qed.

(** Replacing the row with a key, where the key is that of one row. *)
Lemma fmap_replace_key {A K} `{EqDecision K} (f : A -> K) (k : K) (x' : A) l1 x l2 :
  f x = k -> Forall (fun y => f y <> k) (l1 ++ l2) ->
  (fun y => if decide (f y = k) then x' else y) <$> (l1 ++ x :: l2) = l1 ++ x' :: l2.
Proof.
  intros H0 [H1 H2]%Forall_app. rewrite fmap_app, fmap_cons, decide_True by done.
  f_equal; [|f_equal]; apply fmap_fixed; (eapply Forall_impl; [eassumption|]);
    intros y Hy; simpl; by rewrite decide_False.
Qed.

(** Removing the row with a key. *)
Lemma filter_remove_key {A K} `{EqDecision K} (f : A -> K) (k : K) l1 x l2 :
  f x = k -> Forall (fun y => f y <> k) (l1 ++ l2) ->
  filter (fun y => f y <> k) (l1 ++ x :: l2) = l1 ++ l2.
Proof.
  intros H0 [H1 H2]%Forall_app.
  rewrite filter_app, filter_cons_False by (intros Hn; by apply Hn).
  by rewrite !filter_all.
Qed.

(** Looking a key up, where the key is that of one row. *)
Lemma filter_key {A K} `{EqDecision K} (f : A -> K) (k : K) l1 x l2 :
  f x = k -> Forall (fun y => f y <> k) (l1 ++ l2) ->
  filter (fun y => f y = k) (l1 ++ x :: l2) = [x].
Proof.
  intros H0 [H1 H2]%Forall_app. rewrite filter_app, filter_cons_True by done.
  rewrite !filter_none; [done|..]; (eapply Forall_impl; [eassumption|]); naive_solver.
Qed.

(** A key that selects one row at most is distinct along the list. *)
Lemma NoDup_fmap_unique {A K} `{EqDecision K} (f : A -> K) (l : list A) :
  (forall k, (length (filter (fun a => f a = k) l) <= 1)%nat) -> NoDup (f <$> l).
Proof.
  induction l as [|a l IH]; intros Hl; csimpl; constructor.
  - intros (b & Hb & Hin)%list_elem_of_fmap. specialize (Hl (f a)).
    rewrite filter_cons_True in Hl by done.
    destruct (filter (fun x => f x = f a) l) as [|c k] eqn:E; [|cbn in Hl; lia].
    by apply (filter_nil_not_elem_of _ _ b E).
  - apply IH. intros k. etrans; [|apply (Hl k)]. rewrite filter_cons.
    case_decide; cbn; lia.
Qed.

(** The rows that pass a filter are rows of the list. *)
Lemma filter_subseteq {A} (P : A -> Prop) `{!forall x, Decision (P x)} (l : list A) :
  filter P l ⊆ l.
Proof. apply sublist_subseteq, sublist_filter. Qed.

(** A key column stays one when rows are removed, and when a row with a
    new key is added. *)
Lemma NoDup_fmap_filter {A K} (f : A -> K) (P : A -> Prop) `{!forall x, Decision (P x)}
    (l : list A) :
  NoDup (f <$> l) -> NoDup (f <$> filter P l).
Proof.
  intros Hnd. eapply sublist_NoDup; [done|]. apply fmap_sublist, sublist_filter.
Qed.

Lemma NoDup_fmap_snoc {A K} (f : A -> K) (l : list A) (x : A) :
  f x ∉ f <$> l -> NoDup (f <$> l) -> NoDup (f <$> (l ++ [x])).
Proof.
  intros Hx Hnd. rewrite fmap_app. apply NoDup_app. split_and!; [done| |apply NoDup_singleton].
  by intros k Hk ->%list_elem_of_singleton.
Qed.

(** The first row that passes a filter, after every row is changed in a
    way the filter does not see, and after a row is added at the end. *)
Lemma head_filter_fmap {A} (P : A -> Prop) `{!forall x, Decision (P x)} (f : A -> A)
    (l : list A) :
  Forall (fun x => P (f x) <-> P x) l -> head (filter P (f <$> l)) = f <$> head (filter P l).
Proof.
  induction 1 as [|x l Hx _ IH]; [done|]. rewrite fmap_cons, !filter_cons.
  destruct (decide (P x)); [by rewrite decide_True by tauto|by rewrite decide_False by tauto].
Qed.

Lemma head_filter_snoc {A} (P : A -> Prop) `{!forall x, Decision (P x)} (l : list A) x y :
  head (filter P l) = Some y -> head (filter P (l ++ [x])) = Some y.
Proof. rewrite filter_app. by destruct (filter P l). Qed.
