(* ===== verification/Numeric.v ===== *)
(** * Numeric: the Python arithmetic the analytics helpers rely on

    [sum], [len], true division [/] (which raises [ZeroDivisionError]),
    [round(x, 1)], [min]/[max], [range] and slicing, on integers [Z] and
    exact rationals [Q], with the order and algebra lemmas the component
    files share. *)

From Stdlib Require Import ZArith QArith Qround Qminmax Qabs Lqa Lia.
From stdpp Require Import base decidable option list.
From S2P Require Import Prelude.

(** ** Definitions *)

(** [len(l)] as an integer. *)
Definition len {A} (l : list A) : Z := Z.of_nat (length l).

(** [sum(l)] over integers. *)
Definition sumZ (l : list Z) : Z := foldr Z.add 0 l.

(** [sum(l)] over floats. *)
Definition sumQ (l : list Q) : Q := foldr Qplus 0%Q l.

(** [a / b]: Python's true division. *)
Definition truediv (a b : Q) : result Q :=
  if decide (b == 0)%Q then Raise ZeroDivisionError else Ok (a / b)%Q.

(** [sum(l) / len(l)]. *)
Definition mean (l : list Z) : result Q :=
  truediv (inject_Z (sumZ l)) (inject_Z (len l)).

(** [range(n)]. *)
Definition range (n : nat) : list Z := seqZ 0 (Z.of_nat n).

(** Rounding to the nearest integer, ties to the even neighbour. *)
Definition round_half_even (q : Q) : Z :=
  let f := Qfloor q in
  match (q - inject_Z f ?= 1 # 2)%Q with
  | Lt => f
  | Gt => f + 1
  | Eq => if Z.even f then f else f + 1
  end.

(** [round(q, 1)]. *)
Definition round1 (q : Q) : Q := (inject_Z (round_half_even (q * 10)) / 10)%Q.

(** [max(lo, min(hi, x))], as [predict_next_mood] clamps. *)
Definition clamp_max_min (lo hi x : Q) : Q := Qmax lo (Qmin hi x).

(** [min(hi, max(lo, x))], as [predict_next_week_mood] clamps. *)
Definition clamp_min_max (lo hi x : Q) : Q := Qmin hi (Qmax lo x).

(** [v ** 0.5 < b] for a bound [b >= 0], decided on the square. *)
Definition sqrt_lt (v b : Q) : bool := bool_decide (v < b * b)%Q.

(** The closed interval of integers [lo..hi], as a list predicate. *)
Definition all_between (lo hi : Z) (l : list Z) : Prop :=
  Forall (fun y => lo <= y <= hi) l.

#[global] Instance all_between_dec lo hi l : Decision (all_between lo hi l).
Proof. unfold all_between. apply _. Defined.

#[global] Arguments len : simpl never.
#[global] Arguments sumZ : simpl never.
#[global] Arguments sumQ : simpl never.

(** ** Lengths and sums *)

Lemma len_nonneg {A} (l : list A) : 0 <= len l.
Proof. unfold len; lia. Qed.

Lemma len_nil {A} : len (@nil A) = 0.
Proof. reflexivity. Qed.

Lemma len_cons {A} (x : A) l : len (x :: l) = len l + 1.
Proof. unfold len; simpl length; lia. Qed.

Lemma len_app {A} (l k : list A) : len (l ++ k) = len l + len k.
Proof. unfold len; rewrite length_app; lia. Qed.

Lemma len_pos {A} (l : list A) : l <> [] -> 0 < len l.
Proof. destruct l; [done | rewrite len_cons; pose proof (len_nonneg l); lia]. Qed.

Lemma len_zero {A} (l : list A) : len l = 0 <-> l = [].
Proof. destruct l; [done | rewrite len_cons; pose proof (len_nonneg l); split; [lia | done]]. Qed.

Lemma sumZ_nil : sumZ [] = 0.
Proof. reflexivity. Qed.

Lemma sumZ_cons x l : sumZ (x :: l) = x + sumZ l.
Proof. reflexivity. Qed.

Lemma sumZ_app l k : sumZ (l ++ k) = sumZ l + sumZ k.
Proof. induction l as [|x l IH]; [done | rewrite <- app_comm_cons, !sumZ_cons, IH; lia]. Qed.

#[export] Hint Rewrite @len_nil @len_cons @len_app sumZ_nil sumZ_cons sumZ_app : vyze.

(** Sums and lengths do not depend on the order of the elements. *)
#[global] Instance sumZ_perm : Proper ((≡ₚ) ==> (=)) sumZ.
Proof.
  induction 1; autorewrite with vyze; try congruence; lia.
Qed.

#[global] Instance len_perm {A} : Proper ((≡ₚ) ==> (=)) (@len A).
Proof. intros l k H. unfold len. by rewrite H. Qed.

Lemma len_fmap {A B} (f : A -> B) l : len (f <$> l) = len l.
Proof. unfold len. by rewrite length_fmap. Qed.

Lemma len_reverse {A} (l : list A) : len (reverse l) = len l.
Proof. unfold len. by rewrite length_reverse. Qed.

Lemma len_take_le {A} n (l : list A) : len (take n l) <= len l.
Proof. unfold len. rewrite length_take. lia. Qed.

Lemma len_concat {A} (ls : list (list A)) : len (concat ls) = sumZ (len <$> ls).
Proof.
  induction ls as [|l ls IH]; [done|].
  rewrite fmap_cons. simpl concat. autorewrite with vyze. lia.
Qed.

Lemma sumZ_concat (ls : list (list Z)) : sumZ (concat ls) = sumZ (sumZ <$> ls).
Proof.
  induction ls as [|l ls IH]; [done|].
  rewrite fmap_cons. simpl concat. autorewrite with vyze. lia.
Qed.

Lemma sumZ_replicate n c : sumZ (replicate n c) = Z.of_nat n * c.
Proof. induction n as [|n IH]; [done | simpl replicate; rewrite sumZ_cons, IH; lia]. Qed.

(** A sum of values in [lo..hi] lies in [lo * len .. hi * len]. *)
Lemma sumZ_between lo hi l :
  all_between lo hi l -> lo * len l <= sumZ l <= hi * len l.
Proof.
  induction 1 as [|x l Hx _ IH]; autorewrite with vyze; lia.
Qed.

Lemma sumZ_ge lo l : Forall (fun y => lo <= y) l -> lo * len l <= sumZ l.
Proof. induction 1; autorewrite with vyze; lia. Qed.

(** When every value of [l1] is below every value of [l2], the mean of [l2]
    exceeds the mean of [l1] by at least 1 (stated on the sums). *)
Lemma sum_gap_separated (l1 l2 : list Z) :
  (forall x y, x ∈ l1 -> y ∈ l2 -> x < y) ->
  len l1 * len l2 <= sumZ l2 * len l1 - sumZ l1 * len l2.
Proof.
  induction l1 as [|x l1 IH]; intros Hsep; autorewrite with vyze; [lia|].
  assert ((x + 1) * len l2 <= sumZ l2) as Hx.
  { apply sumZ_ge, Forall_forall. intros y Hy.
    assert (x < y) by (apply Hsep; [by left|done]). lia. }
  assert (len l1 * len l2 <= sumZ l2 * len l1 - sumZ l1 * len l2) as IH'.
  { apply IH. intros x' y Hx' Hy. apply Hsep; [by right | done]. }
  nia.
Qed.

Lemma sumZ_take_drop n l : sumZ (take n l) + sumZ (drop n l) = sumZ l.
Proof. rewrite <- sumZ_app, take_drop; done. Qed.

Lemma all_between_take lo hi n l : all_between lo hi l -> all_between lo hi (take n l).
Proof. apply Forall_take. Qed.

Lemma all_between_drop lo hi n l : all_between lo hi l -> all_between lo hi (drop n l).
Proof. apply Forall_drop. Qed.

#[export] Hint Resolve all_between_take all_between_drop : vyze.

Lemma sumQ_nil : sumQ [] = 0%Q.
Proof. reflexivity. Qed.

Lemma sumQ_cons x l : sumQ (x :: l) = (x + sumQ l)%Q.
Proof. reflexivity. Qed.

Lemma sumQ_between (lo hi : Q) l :
  Forall (fun v => lo <= v <= hi)%Q l ->
  (lo * inject_Z (len l) <= sumQ l <= hi * inject_Z (len l))%Q.
Proof.
  induction 1 as [|v l [H1 H2] _ IH].
  - change (inject_Z (len [])) with 0%Q. change (sumQ []) with 0%Q. lra.
  - rewrite sumQ_cons, len_cons, inject_Z_plus. change (inject_Z 1) with 1%Q. lra.
Qed.

(** ** True division and the mean *)

Lemma inject_Z_len_nonzero {A} (l : list A) : l <> [] -> ~ (inject_Z (len l) == 0)%Q.
Proof.
  intros Hl. pose proof (len_pos l Hl) as Hp.
  unfold Qeq; simpl. lia.
Qed.

Lemma truediv_ok a b : ~ (b == 0)%Q -> truediv a b = Ok (a / b)%Q.
Proof. intros Hb. unfold truediv. by destruct (decide _). Qed.

Lemma truediv_zero a b : (b == 0)%Q -> truediv a b = Raise ZeroDivisionError.
Proof. intros Hb. unfold truediv. by destruct (decide _). Qed.

Lemma mean_ok l : l <> [] -> mean l = Ok (inject_Z (sumZ l) / inject_Z (len l))%Q.
Proof. intros Hl. apply truediv_ok, inject_Z_len_nonzero, Hl. Qed.

Lemma mean_nil : mean [] = Raise ZeroDivisionError.
Proof. reflexivity. Qed.

(** [a <= n / d <= b] from the integer bounds, for a positive [d]. *)
Lemma Qdiv_between (lo hi n d : Z) :
  0 < d -> lo * d <= n <= hi * d ->
  (inject_Z lo <= inject_Z n / inject_Z d <= inject_Z hi)%Q.
Proof.
  intros Hd [H1 H2].
  assert (0 < inject_Z d)%Q as Hq by (unfold Qlt; simpl; lia).
  split.
  - apply Qle_shift_div_l; [done|]. rewrite <- inject_Z_mult, <- Zle_Qle. done.
  - apply Qle_shift_div_r; [done|]. rewrite <- inject_Z_mult, <- Zle_Qle. done.
Qed.

(** The mean of a non-empty list of values in [lo..hi] lies in [lo..hi]. *)
Lemma mean_between lo hi l :
  l <> [] -> all_between lo hi l ->
  exists m, mean l = Ok m /\ (inject_Z lo <= m <= inject_Z hi)%Q.
Proof.
  intros Hl Hb. eexists; split; [by apply mean_ok|].
  apply Qdiv_between; [by apply len_pos | by apply sumZ_between].
Qed.

Lemma mean_replicate n c : (0 < n)%nat ->
  exists m, mean (replicate n c) = Ok m /\ (m == inject_Z c)%Q.
Proof.
  intros Hn. assert (replicate n c <> []) as Hne by (destruct n; [lia | done]).
  eexists; split; [by apply mean_ok|].
  rewrite sumZ_replicate. unfold len. rewrite length_replicate, inject_Z_mult.
  field. unfold Qeq; simpl; lia.
Qed.

(** ** Rounding *)

(** The three cases of [round_half_even], by the fractional part. *)
Lemma round_half_even_cases q :
  ((q - inject_Z (Qfloor q) < 1 # 2)%Q /\ round_half_even q = Qfloor q) \/
  ((q - inject_Z (Qfloor q) == 1 # 2)%Q /\
   round_half_even q = if Z.even (Qfloor q) then Qfloor q else Qfloor q + 1) \/
  ((1 # 2 < q - inject_Z (Qfloor q))%Q /\ round_half_even q = Qfloor q + 1).
Proof.
  unfold round_half_even.
  destruct (Qcompare_spec (q - inject_Z (Qfloor q)) (1 # 2)) as [H|H|H]; auto.
Qed.

(** A rational lies in the unit interval above its floor. *)
Lemma Qfloor_bounds q : (inject_Z (Qfloor q) <= q < inject_Z (Qfloor q) + 1)%Q.
Proof.
  split; [apply Qfloor_le|]. pose proof (Qlt_floor q) as H.
  rewrite inject_Z_plus in H. exact H.
Qed.

(** Rounding moves a number by at most one half. *)
Lemma round_half_even_near q :
  (q - (1 # 2) <= inject_Z (round_half_even q) <= q + (1 # 2))%Q.
Proof.
  pose proof (Qfloor_bounds q) as Hf.
  destruct (round_half_even_cases q) as [[H ->]|[[H ->]|[H ->]]];
    [|destruct (Z.even _)|]; rewrite ?inject_Z_plus; change (inject_Z 1) with 1%Q; lra.
Qed.

(** Integers are fixed by rounding. *)
Lemma round_half_even_Z z : round_half_even (inject_Z z) = z.
Proof.
  destruct (round_half_even_cases (inject_Z z)) as [[H ->]|[[H ->]|[H ->]]];
    rewrite Qfloor_Z in *; try done; lra.
Qed.

Lemma inject_Z_succ_le (a b : Z) : a < b -> (inject_Z a + 1 <= inject_Z b)%Q.
Proof. intros H. change 1%Q with (inject_Z 1). rewrite <- inject_Z_plus, <- Zle_Qle. lia. Qed.

Lemma round_half_even_range q : Qfloor q <= round_half_even q <= Qfloor q + 1.
Proof.
  destruct (round_half_even_cases q) as [[H ->]|[[H ->]|[H ->]]];
    try destruct (Z.even _); lia.
Qed.

(** Rounding is monotone. *)
Lemma round_half_even_mono q q' : (q <= q')%Q -> round_half_even q <= round_half_even q'.
Proof.
  intros Hq. pose proof (Qfloor_resp_le _ _ Hq) as Hf.
  destruct (decide (Qfloor q = Qfloor q')) as [E|E].
  - destruct (round_half_even_cases q) as [[H ->]|[[H ->]|[H ->]]];
    destruct (round_half_even_cases q') as [[H' ->]|[[H' ->]|[H' ->]]];
    rewrite <- ?E in *; try destruct (Z.even (Qfloor q)); try lia; exfalso; lra.
  - pose proof (round_half_even_range q). pose proof (round_half_even_range q'). lia.
Qed.

#[global] Instance round_half_even_proper : Proper (Qeq ==> eq) round_half_even.
Proof.
  intros q q' E. apply Z.le_antisymm; apply round_half_even_mono; rewrite E; apply Qle_refl.
Qed.

Lemma round_half_even_between (lo hi : Z) q :
  (inject_Z lo <= q <= inject_Z hi)%Q -> lo <= round_half_even q <= hi.
Proof.
  intros [H1 H2]. apply round_half_even_mono in H1, H2.
  by rewrite round_half_even_Z in H1, H2.
Qed.

#[global] Instance round1_proper : Proper (Qeq ==> Qeq) round1.
Proof. intros q q' E. unfold round1. by rewrite E. Qed.

(** [round(q, 1)] moves [q] by at most one twentieth. *)
Lemma round1_near q : (q - (1 # 20) <= round1 q <= q + (1 # 20))%Q.
Proof.
  unfold round1. pose proof (round_half_even_near (q * 10)) as [H1 H2].
  split; [apply Qle_shift_div_l | apply Qle_shift_div_r]; lra.
Qed.

Lemma round1_mono q q' : (q <= q')%Q -> (round1 q <= round1 q')%Q.
Proof.
  intros H. unfold round1.
  assert (round_half_even (q * 10) <= round_half_even (q' * 10)) as Hr
    by (apply round_half_even_mono; lra).
  rewrite Zle_Qle in Hr. unfold Qdiv.
  apply Qmult_le_compat_r; [done | discriminate].
Qed.

(** A multiple of one tenth is its own rounding. *)
Lemma round1_tenths (n : Z) : (round1 (inject_Z n / 10) == inject_Z n / 10)%Q.
Proof.
  unfold round1.
  assert (inject_Z n / 10 * 10 == inject_Z n)%Q as -> by field.
  by rewrite round_half_even_Z.
Qed.

Lemma round1_Z (n : Z) : (round1 (inject_Z n) == inject_Z n)%Q.
Proof.
  unfold round1. change (inject_Z n * 10)%Q with (inject_Z n * inject_Z 10)%Q.
  rewrite <- inject_Z_mult, round_half_even_Z, inject_Z_mult. field.
Qed.

Lemma round1_idem q : (round1 (round1 q) == round1 q)%Q.
Proof. unfold round1 at 2 3. apply round1_tenths. Qed.

Lemma round1_between (lo hi : Z) q :
  (inject_Z lo <= q <= inject_Z hi)%Q -> (inject_Z lo <= round1 q <= inject_Z hi)%Q.
Proof.
  intros [H1 H2]. apply round1_mono in H1, H2.
  by rewrite round1_Z in H1, H2.
Qed.

(** ** Clamping *)

Lemma clamp_max_min_between lo hi x :
  (lo <= hi)%Q -> (lo <= clamp_max_min lo hi x <= hi)%Q.
Proof.
  intros H. unfold clamp_max_min.
  destruct (Q.max_spec lo (Qmin hi x)) as [[? ->]|[? ->]];
  destruct (Q.min_spec hi x) as [[? E]|[? E]]; rewrite ?E in *; lra.
Qed.

Lemma clamp_max_min_id lo hi x :
  (lo <= x <= hi)%Q -> (clamp_max_min lo hi x == x)%Q.
Proof.
  intros H. unfold clamp_max_min.
  destruct (Q.max_spec lo (Qmin hi x)) as [[? ->]|[? ->]];
  destruct (Q.min_spec hi x) as [[? E]|[? E]]; rewrite ?E in *; lra.
Qed.

Lemma clamp_min_max_between lo hi x :
  (lo <= hi)%Q -> (lo <= clamp_min_max lo hi x <= hi)%Q.
Proof.
  intros H. unfold clamp_min_max.
  destruct (Q.min_spec hi (Qmax lo x)) as [[? ->]|[? ->]];
  destruct (Q.max_spec lo x) as [[? E]|[? E]]; rewrite ?E in *; lra.
Qed.

Lemma clamp_min_max_id lo hi x :
  (lo <= x <= hi)%Q -> (clamp_min_max lo hi x == x)%Q.
Proof.
  intros H. unfold clamp_min_max.
  destruct (Q.min_spec hi (Qmax lo x)) as [[? ->]|[? ->]];
  destruct (Q.max_spec lo x) as [[? E]|[? E]]; rewrite ?E in *; lra.
Qed.

#[global] Instance clamp_max_min_proper : Proper (Qeq ==> Qeq ==> Qeq ==> Qeq) clamp_max_min.
Proof. intros a a' Ea b b' Eb c c' Ec. unfold clamp_max_min. by rewrite Ea, Eb, Ec. Qed.

#[global] Instance clamp_min_max_proper : Proper (Qeq ==> Qeq ==> Qeq ==> Qeq) clamp_min_max.
Proof. intros a a' Ea b b' Eb c c' Ec. unfold clamp_min_max. by rewrite Ea, Eb, Ec. Qed.

Lemma sqrt_lt_spec v b : sqrt_lt v b = true <-> (v < b * b)%Q.
Proof. unfold sqrt_lt. apply bool_decide_eq_true. Qed.

(** ** Fractions of integers *)

Lemma inject_Z_pos z : (0 < inject_Z z)%Q <-> 0 < z.
Proof. change 0%Q with (inject_Z 0). by rewrite <- Zlt_Qlt. Qed.

Lemma inject_Z_nonneg z : (0 <= inject_Z z)%Q <-> 0 <= z.
Proof. change 0%Q with (inject_Z 0). by rewrite <- Zle_Qle. Qed.

Lemma inject_Z_nonzero z : z <> 0 -> ~ (inject_Z z == 0)%Q.
Proof. intros Hz E. unfold Qeq in E; simpl in E. lia. Qed.

Lemma inject_Z_minus a b : (inject_Z (a - b) == inject_Z a - inject_Z b)%Q.
Proof. unfold Z.sub. rewrite inject_Z_plus, inject_Z_opp. reflexivity. Qed.

Lemma Qdiv_pos_iff n d : (0 < d)%Q -> (0 < n / d)%Q <-> (0 < n)%Q.
Proof.
  intros Hd. split; intros H.
  - assert (n == n / d * d)%Q as -> by (field; lra). 
    apply Qmult_lt_0_compat; done.
  - apply Qlt_shift_div_l; lra.
Qed.

Lemma Qdiv_nonneg_iff n d : (0 < d)%Q -> (0 <= n / d)%Q <-> (0 <= n)%Q.
Proof.
  intros Hd. split; intros H.
  - assert (n == n / d * d)%Q as -> by (field; lra).
    apply Qmult_le_0_compat; lra.
  - apply Qle_shift_div_l; lra.
Qed.

(** The difference between a gap of two fractions and a third fraction, over
    the common denominator. *)
Lemma frac_gap_common (p q a b c d : Z) :
  0 < q -> 0 < b -> 0 < d ->
  (inject_Z a / inject_Z b - inject_Z c / inject_Z d - inject_Z p / inject_Z q ==
   inject_Z (q * (a * d - c * b) - p * b * d) / inject_Z (q * b * d))%Q.
Proof.
  intros Hq Hb Hd.
  rewrite !inject_Z_minus, !inject_Z_mult, inject_Z_minus, !inject_Z_mult.
  field. repeat split; apply inject_Z_nonzero; lia.
Qed.

(** Comparing a fraction with a difference of two fractions, on integers. *)
Lemma frac_gap_lt (p q a b c d : Z) :
  0 < q -> 0 < b -> 0 < d ->
  (inject_Z p / inject_Z q < inject_Z a / inject_Z b - inject_Z c / inject_Z d)%Q <->
  p * b * d < q * (a * d - c * b).
Proof.
  intros Hq Hb Hd.
  assert (0 < inject_Z (q * b * d))%Q as Hden by (apply inject_Z_pos; nia).
  transitivity (0 < inject_Z a / inject_Z b - inject_Z c / inject_Z d - inject_Z p / inject_Z q)%Q;
    [split; intros; lra|].
  rewrite frac_gap_common, Qdiv_pos_iff, inject_Z_pos by done. lia.
Qed.

Lemma frac_gap_le (p q a b c d : Z) :
  0 < q -> 0 < b -> 0 < d ->
  (inject_Z p / inject_Z q <= inject_Z a / inject_Z b - inject_Z c / inject_Z d)%Q <->
  p * b * d <= q * (a * d - c * b).
Proof.
  intros Hq Hb Hd.
  assert (0 < inject_Z (q * b * d))%Q as Hden by (apply inject_Z_pos; nia).
  transitivity (0 <= inject_Z a / inject_Z b - inject_Z c / inject_Z d - inject_Z p / inject_Z q)%Q;
    [split; intros; lra|].
  rewrite frac_gap_common, Qdiv_nonneg_iff, inject_Z_nonneg by done. lia.
Qed.

(** Comparing an integer with a fraction of integers. *)
Lemma Zle_frac (k n d : Z) : 0 < d -> (inject_Z k <= inject_Z n / inject_Z d)%Q <-> k * d <= n.
Proof.
  intros Hd. pose proof (frac_gap_le k 1 n d 0 1) as H.
  assert (inject_Z k / inject_Z 1 == inject_Z k)%Q as E1 by (field).
  assert (inject_Z n / inject_Z d - inject_Z 0 / inject_Z 1 == inject_Z n / inject_Z d)%Q as E2
    by (field; apply inject_Z_nonzero; lia).
  rewrite E1, E2 in H. rewrite H by lia. lia.
Qed.

Lemma frac_lt_Z (k n d : Z) : 0 < d -> (inject_Z n / inject_Z d < inject_Z k)%Q <-> n < k * d.
Proof.
  intros Hd. pose proof (Zle_frac k n d Hd) as H. split; intros HH.
  - apply Z.lt_nge. intros Hc. apply H in Hc. lra.
  - apply Qnot_le_lt. intros Hc. apply H in Hc. lia.
Qed.
