(* ===== verification/Text.v ===== *)
(** * Text: the string operations of the handlers

    [str.strip()], [str.upper()] and slicing [s[:n]], which normalise the
    patient code a doctor types in and cut the code out of a fresh UUID.
    They are modelled for ASCII text, one character per byte.  The lemmas
    show that stripping and upper-casing are idempotent and commute, so that
    normalising a code twice is normalising it once, and that a code without
    blanks and lower-case letters is left as it is. *)

From Stdlib Require Import ZArith Lia Ascii String.
From stdpp Require Import base decidable option list strings.
From S2P Require Import Prelude.

(** ** Definitions *)

(** The whitespace [str.strip()] removes, for ASCII text. *)
Definition is_space (c : ascii) : bool :=
  let n := nat_of_ascii c in
  (n =? 32)%nat || ((9 <=? n)%nat && (n <=? 13)%nat) || ((28 <=? n)%nat && (n <=? 31)%nat).

Fixpoint lstrip (s : list ascii) : list ascii :=
  match s with
  | c :: s' => if is_space c then lstrip s' else s
  | [] => []
  end.

(** [s.strip()]. *)
Definition py_strip (s : string) : string :=
  string_of_list_ascii (rev (lstrip (rev (lstrip (list_ascii_of_string s))))).

Definition upper_char (c : ascii) : ascii :=
  let n := nat_of_ascii c in
  if (97 <=? n)%nat && (n <=? 122)%nat then ascii_of_nat (n - 32) else c.

(** [s.upper()], for ASCII text. *)
Definition py_upper (s : string) : string :=
  string_of_list_ascii (upper_char <$> list_ascii_of_string s).

(** [s[:n]]. *)
Definition py_prefix (n : nat) (s : string) : string :=
  string_of_list_ascii (take n (list_ascii_of_string s)).

(** [s.strip().upper()], the normal form of a patient code. *)
Definition normalise (s : string) : string := py_upper (py_strip s).

(** [s.rstrip()] on the characters. *)
Definition rstrip (s : list ascii) : list ascii := rev (lstrip (rev s)).

(** Text without blanks. *)
Definition no_space (s : list ascii) : Prop := Forall (fun c => is_space c = false) s.

(** Text without lower-case letters. *)
Definition no_lower (s : list ascii) : Prop := Forall (fun c => upper_char c = c) s.

(** ** Lemmas *)

Lemma upper_char_idemp c : upper_char (upper_char c) = upper_char c.
Proof.
  destruct c as [[] [] [] [] [] [] [] []]; reflexivity.
Qed.

Lemma is_space_upper_char c : is_space (upper_char c) = is_space c.
Proof.
  destruct c as [[] [] [] [] [] [] [] []]; reflexivity.
Qed.

Lemma lstrip_upper l : lstrip (upper_char <$> l) = upper_char <$> lstrip l.
Proof.
  induction l as [|c l IH]; [done|]. rewrite fmap_cons. simpl.
  rewrite is_space_upper_char. by destruct (is_space c).
Qed.

Lemma lstrip_idemp l : lstrip (lstrip l) = lstrip l.
Proof.
  induction l as [|c l IH]; [done|]. simpl.
  destruct (is_space c) eqn:E; [done|]. simpl. by rewrite E.
Qed.

Lemma lstrip_snoc l c : is_space c = false -> lstrip (l ++ [c]) = lstrip l ++ [c].
Proof.
  intros Hc. induction l as [|d l IH]; simpl; [by rewrite Hc|].
  by destruct (is_space d).
Qed.

Lemma rstrip_cons c l : is_space c = false -> rstrip (c :: l) = c :: rstrip l.
Proof.
  intros Hc. unfold rstrip. simpl rev. rewrite lstrip_snoc by done.
  by rewrite rev_app_distr.
Qed.

(** Stripping on the right keeps a text stripped on the left. *)
Lemma lstrip_rstrip l : lstrip (rstrip (lstrip l)) = rstrip (lstrip l).
Proof.
  induction l as [|c l IH]; [done|]. simpl.
  destruct (is_space c) eqn:E; [done|]. rewrite rstrip_cons by done. simpl. by rewrite E.
Qed.

Lemma rstrip_idemp l : rstrip (rstrip l) = rstrip l.
Proof. unfold rstrip. by rewrite rev_involutive, lstrip_idemp. Qed.

Lemma lstrip_no_space l : no_space l -> lstrip l = l.
Proof. destruct 1 as [|c l Hc _]; simpl; [done|]. by rewrite Hc. Qed.

Lemma rstrip_no_space l : no_space l -> rstrip l = l.
Proof.
  intros H. unfold rstrip. rewrite lstrip_no_space, rev_involutive; [done|].
  by apply List.Forall_rev.
Qed.

Lemma py_strip_chars s :
  list_ascii_of_string (py_strip s) = rstrip (lstrip (list_ascii_of_string s)).
Proof. unfold py_strip. by rewrite list_ascii_of_string_of_list_ascii. Qed.

Lemma py_upper_chars s :
  list_ascii_of_string (py_upper s) = upper_char <$> list_ascii_of_string s.
Proof. unfold py_upper. by rewrite list_ascii_of_string_of_list_ascii. Qed.

Lemma fmap_rev {A B} (f : A -> B) (l : list A) : f <$> rev l = rev (f <$> l).
Proof.
  induction l as [|x l IH]; [done|]. rewrite fmap_cons. simpl rev.
  by rewrite fmap_app, IH.
Qed.

Lemma rstrip_upper l : rstrip (upper_char <$> l) = upper_char <$> rstrip l.
Proof. unfold rstrip. by rewrite <- fmap_rev, lstrip_upper, fmap_rev. Qed.

Lemma string_of_chars_inj s t :
  list_ascii_of_string s = list_ascii_of_string t -> s = t.
Proof.
  intros H. apply (f_equal string_of_list_ascii) in H.
  by rewrite !string_of_list_ascii_of_string in H.
Qed.

Lemma py_strip_idemp s : py_strip (py_strip s) = py_strip s.
Proof.
  apply string_of_chars_inj. rewrite !py_strip_chars.
  by rewrite lstrip_rstrip, rstrip_idemp.
Qed.

Lemma py_upper_idemp s : py_upper (py_upper s) = py_upper s.
Proof.
  apply string_of_chars_inj. rewrite !py_upper_chars, <- list_fmap_compose.
  apply list_fmap_ext. intros _ c _. apply upper_char_idemp.
Qed.

(** Stripping and upper-casing commute. *)
Lemma py_strip_upper s : py_strip (py_upper s) = py_upper (py_strip s).
Proof.
  apply string_of_chars_inj.
  by rewrite py_strip_chars, !py_upper_chars, py_strip_chars, lstrip_upper, rstrip_upper.
Qed.

Lemma py_strip_no_space s : no_space (list_ascii_of_string s) -> py_strip s = s.
Proof.
  intros H. apply string_of_chars_inj.
  by rewrite py_strip_chars, lstrip_no_space, rstrip_no_space.
Qed.

Lemma py_upper_no_lower s : no_lower (list_ascii_of_string s) -> py_upper s = s.
Proof.
  intros H. apply string_of_chars_inj. rewrite py_upper_chars.
  rewrite <- (list_fmap_id (list_ascii_of_string s)) at 2.
  by apply Forall_fmap_ext_1.
Qed.

Lemma py_upper_upper_chars s : no_lower (list_ascii_of_string (py_upper s)).
Proof.
  rewrite py_upper_chars. apply Forall_fmap, Forall_forall. intros c _.
  apply upper_char_idemp.
Qed.

Lemma no_space_upper l : no_space l -> no_space (upper_char <$> l).
Proof.
  intros H. apply Forall_fmap. eapply Forall_impl; [exact H|].
  intros c Hc. simpl. by rewrite is_space_upper_char.
Qed.

Lemma no_space_take n l : no_space l -> no_space (take n l).
Proof. apply Forall_take. Qed.

Lemma py_prefix_chars n s :
  list_ascii_of_string (py_prefix n s) = take n (list_ascii_of_string s).
Proof. unfold py_prefix. by rewrite list_ascii_of_string_of_list_ascii. Qed.

Lemma normalise_idemp_aux s : normalise (normalise s) = normalise s.
Proof.
  unfold normalise. by rewrite py_strip_upper, py_strip_idemp, py_upper_idemp.
Qed.

Lemma normalise_fixed s :
  no_space (list_ascii_of_string s) -> no_lower (list_ascii_of_string s) -> normalise s = s.
Proof. intros Hs Hl. unfold normalise. by rewrite py_strip_no_space, py_upper_no_lower. Qed.

(** ** Theorems *)

(** Normalising a patient code is idempotent, and it is the identity
    on text without blanks and lower-case letters; stripping and
    upper-casing can be done in either order. *)
Theorem normalise_idemp s :
  normalise (normalise s) = normalise s /\
  py_strip (py_upper s) = py_upper (py_strip s) /\
  (no_space (list_ascii_of_string s) -> no_lower (list_ascii_of_string s) ->
   normalise s = s).
Proof.
  split; [apply normalise_idemp_aux|]. split; [apply py_strip_upper|].
  apply normalise_fixed.
Qed.
