(* ===== verification/Store.v ===== *)
(** * Store: the relational tables and the queries issued on them

    The models of [src/accounts/models.py] and [src/dashboard/models.py] as
    records, a database as the list of rows of each table in insertion
    order, and the query-set operations the views use: [filter] on
    columns, [exists], [count], [order_by] and slicing.  A foreign key is
    the primary key of the row it points to, as in the SQL schema.  The
    file also holds the writers that append one row ([create_mood],
    [create_journal], [create_achievement]) and the request method and
    response types of the views. *)

From Stdlib Require Import ZArith Lia.
From stdpp Require Import base decidable option list strings sorting.
From S2P Require Import Prelude Numeric.

(** ** Time *)

(** Seconds in a day: the unit of [timedelta(days=1)]. *)
Definition day_seconds : Z := 86400.

(** [t.date()]: the calendar day of a time stamp, as a day number. *)
Definition day_of (t : Z) : Z := t / day_seconds.

(** [t - timedelta(days=n)] on time stamps. *)
Definition minus_days (t n : Z) : Z := t - n * day_seconds.

(** ** Rows *)

(** [User.ROLE_CHOICES]. *)
Inductive role : Type := Patient | Doctor.

#[global] Instance role_eq_dec : EqDecision role.
Proof. solve_decision. Defined.

(** [accounts.models.User] (the columns the application declares, plus the
    key, the name and the e-mail address inherited from [AbstractUser]). *)
Record User : Type := mkUser {
  u_id : Z;
  u_username : string;
  u_email : string;
  u_role : role;
  u_date_of_birth : option Z;
  u_phone_number : option string;
  u_patient_id : option string;
  u_specialization : option string;
  u_license_number : option string;
  u_years_experience : Z
}.

(** [dashboard.models.DoctorPatientAssignment]. *)
Record DoctorPatientAssignment : Type := mkAssignment {
  dpa_id : Z;
  dpa_doctor : Z;
  dpa_patient : Z;
  dpa_assigned_date : Z;
  dpa_is_active : bool;
  dpa_notes : string
}.

(** [dashboard.models.MoodEntry]. *)
Record MoodEntry : Type := mkMoodEntry {
  me_id : Z;
  me_user : Z;
  me_mood : Z;
  me_note : string;
  me_tags : string;
  me_date : Z
}.

(** [dashboard.models.Journal]. *)
Record Journal : Type := mkJournal {
  j_id : Z;
  j_user : Z;
  j_title : string;
  j_content : string;
  j_date : Z
}.

(** [dashboard.models.Achievement]. *)
Record Achievement : Type := mkAchievement {
  ach_id : Z;
  ach_user : Z;
  ach_title : string;
  ach_description : string;
  ach_points : Z;
  ach_unlocked_at : Z
}.

(** [dashboard.models.DoctorNote]. *)
Record DoctorNote : Type := mkDoctorNote {
  dn_id : Z;
  dn_patient : Z;
  dn_doctor : Z;
  dn_note : string;
  dn_date : Z;
  dn_is_visible_to_patient : bool
}.

#[global] Instance User_eq_dec : EqDecision User.
Proof. solve_decision. Defined.
#[global] Instance DoctorPatientAssignment_eq_dec : EqDecision DoctorPatientAssignment.
Proof. solve_decision. Defined.
#[global] Instance MoodEntry_eq_dec : EqDecision MoodEntry.
Proof. solve_decision. Defined.
#[global] Instance Journal_eq_dec : EqDecision Journal.
Proof. solve_decision. Defined.
#[global] Instance Achievement_eq_dec : EqDecision Achievement.
Proof. solve_decision. Defined.
#[global] Instance DoctorNote_eq_dec : EqDecision DoctorNote.
Proof. solve_decision. Defined.

(** [MoodEntry.MOOD_CHOICES]: the values the forms accept. *)
Definition MOOD_CHOICES : list Z := seqZ 1 10.

(** ** The database *)

Record DB : Type := mkDB {
  users : list User;
  assignments : list DoctorPatientAssignment;
  moods : list MoodEntry;
  journals : list Journal;
  achievements : list Achievement;
  doctor_notes : list DoctorNote
}.

Definition empty_db : DB := mkDB [] [] [] [] [] [].

(** The key an auto-increment column gives the next row. *)
Definition next_id (ids : list Z) : Z := 1 + foldr Z.max 0 ids.

(** ** Query sets *)

(** [qs.exists()]. *)
Definition qs_exists {A} (qs : list A) : bool :=
  match qs with [] => false | _ :: _ => true end.

(** [qs.count()]. *)
Definition qs_count {A} (qs : list A) : Z := len qs.

(** The order two rows are in by an integer column. *)
Definition key_le {A} (key : A -> Z) (a b : A) : Prop := key a <= key b.

#[global] Instance key_le_dec {A} (key : A -> Z) : RelDecision (key_le key).
Proof. intros a b. unfold key_le. apply _. Defined.

#[global] Instance key_ge_dec {A} (key : A -> Z) : RelDecision (flip (key_le key)).
Proof. intros a b. unfold flip, key_le. apply _. Defined.

(** Insertion of a row into a sorted list, before the first row that does
    not come before it. *)
Fixpoint insert_row {A} (R : relation A) `{!RelDecision R} (x : A) (l : list A) : list A :=
  match l with
  | [] => [x]
  | y :: l' => if decide (R x y) then x :: l else y :: insert_row R x l'
  end.

(** Sorting that keeps rows that compare equal in the order of the table. *)
Definition stable_sort {A} (R : relation A) `{!RelDecision R} (l : list A) : list A :=
  foldr (insert_row R) [] l.

(** [qs.order_by(key)]: ascending on an integer column; rows with the same
    value stay in insertion order. *)
Definition order_by {A} (key : A -> Z) (qs : list A) : list A :=
  stable_sort (key_le key) qs.

(** [qs.order_by('-' + key)]: descending on an integer column. *)
Definition order_by_desc {A} (key : A -> Z) (qs : list A) : list A :=
  stable_sort (flip (key_le key)) qs.

(** [MoodEntry.objects.filter(user=user)]. *)
Definition moods_of (db : DB) (uid : Z) : list MoodEntry :=
  filter (fun e => me_user e = uid) (moods db).

(** [MoodEntry.objects.filter(user=user, date__date=d)]. *)
Definition moods_on (db : DB) (uid d : Z) : list MoodEntry :=
  filter (fun e => me_user e = uid /\ day_of (me_date e) = d) (moods db).

(** [MoodEntry.objects.filter(user=user, date__gte=t)]. *)
Definition moods_since (db : DB) (uid t : Z) : list MoodEntry :=
  filter (fun e => me_user e = uid /\ t <= me_date e) (moods db).

(** [MoodEntry.objects.filter(user=user, date__date__gte=d1, date__date__lte=d2)]. *)
Definition moods_between (db : DB) (uid d1 d2 : Z) : list MoodEntry :=
  filter (fun e => me_user e = uid /\ d1 <= day_of (me_date e) /\ day_of (me_date e) <= d2)
         (moods db).

(** [Journal.objects.filter(user=user)]. *)
Definition journals_of (db : DB) (uid : Z) : list Journal :=
  filter (fun j => j_user j = uid) (journals db).

(** [Achievement.objects.filter(user=user, title=title)]. *)
Definition achievements_titled (db : DB) (uid : Z) (title : string) : list Achievement :=
  filter (fun a => ach_user a = uid /\ ach_title a = title) (achievements db).

(** [Achievement.objects.create(user=.., title=.., description=.., points=..)]
    at time [now]. *)
Definition create_achievement (db : DB) (now uid : Z) (title description : string)
    (points : Z) : DB :=
  let row := mkAchievement (next_id (ach_id <$> achievements db)) uid title description
                           points now in
  mkDB (users db) (assignments db) (moods db) (journals db)
       (achievements db ++ [row]) (doctor_notes db).

(** [MoodEntry(...).save()] for a new row at time [now]. *)
Definition create_mood (db : DB) (now uid mood : Z) (note tags : string) : DB :=
  let row := mkMoodEntry (next_id (me_id <$> moods db)) uid mood note tags now in
  mkDB (users db) (assignments db) (moods db ++ [row]) (journals db)
       (achievements db) (doctor_notes db).

(** [Journal(...).save()] for a new row at time [now]. *)
Definition create_journal (db : DB) (now uid : Z) (title content : string) : DB :=
  let row := mkJournal (next_id (j_id <$> journals db)) uid title content now in
  mkDB (users db) (assignments db) (moods db) (journals db ++ [row])
       (achievements db) (doctor_notes db).

(** ** Requests and responses *)

(** [request.method], for the two methods the views distinguish. *)
Inductive http_method : Type := GET | POST.

#[global] Instance http_method_eq_dec : EqDecision http_method.
Proof. solve_decision. Defined.

(** What a view returns: [redirect(name)], [render(request, template, ..)],
    the 404 page of [get_object_or_404], or the [Response(.., status=..)]
    of a REST endpoint. *)
Inductive response : Type :=
| Redirect (name : string)
| Render (template : string)
| Http404
| Response (status : Z).

#[global] Instance response_eq_dec : EqDecision response.
Proof. solve_decision. Defined.

(** A store for the examples: user 1 logged on days 10, 9 and 7, user 2 on
    day 8; the clock reads one hour into day 10. *)
Definition sample_now : Z := 10 * day_seconds + 3600.

Definition sample_db : DB :=
  mkDB [] []
       [ mkMoodEntry 1 1 6 "" "" (7 * day_seconds + 100);
         mkMoodEntry 2 2 3 "" "" (8 * day_seconds + 200);
         mkMoodEntry 3 1 7 "" "" (9 * day_seconds + 300);
         mkMoodEntry 4 1 8 "" "" (10 * day_seconds + 400) ]
       [] [] [].

(** ** Lemmas on time *)

Lemma day_of_spec t : day_of t * day_seconds <= t < (day_of t + 1) * day_seconds.
Proof.
  unfold day_of, day_seconds.
  pose proof (Z.div_mod t 86400). pose proof (Z.mod_pos_bound t 86400). lia.
Qed.

Lemma day_of_mono t t' : t <= t' -> day_of t <= day_of t'.
Proof. intros H. unfold day_of, day_seconds. apply Z.div_le_mono; lia. Qed.

(** Going back whole days moves the calendar day by as many days. *)
Lemma day_of_minus_days t n : day_of (minus_days t n) = day_of t - n.
Proof.
  unfold day_of, minus_days, day_seconds.
  replace (t - n * 86400) with (t + (- n) * 86400) by lia.
  rewrite Z.div_add by lia. lia.
Qed.

(** ** Lemmas on query sets *)

Lemma qs_exists_true {A} (qs : list A) : qs_exists qs = true <-> qs <> [].
Proof. by destruct qs. Qed.

Lemma qs_exists_false {A} (qs : list A) : qs_exists qs = false <-> qs = [].
Proof. by destruct qs. Qed.

Lemma qs_exists_elem {A} (qs : list A) : qs_exists qs = true <-> exists x, x ∈ qs.
Proof.
  destruct qs as [|x qs]; simpl; split; try done.
  - intros [x Hx]. by apply elem_of_nil in Hx.
  - intros _. exists x. by left.
Qed.

Lemma next_id_pos ids : 0 < next_id ids.
Proof. unfold next_id. induction ids as [|i ids IH]; simpl; lia. Qed.

Lemma next_id_fresh ids : next_id ids ∉ ids.
Proof.
  assert (forall i, i ∈ ids -> i <= foldr Z.max 0 ids) as Hmax.
  { induction ids as [|j ids IH]; intros i Hi; [by apply elem_of_nil in Hi|].
    apply elem_of_cons in Hi as [->|Hi]; simpl; [lia | specialize (IH _ Hi); lia]. }
  intros Hin. apply Hmax in Hin. unfold next_id in Hin. lia.
Qed.

Section StableSort.
Context {A : Type} (R : relation A) `{!RelDecision R}.

Lemma insert_row_perm x l : insert_row R x l ≡ₚ x :: l.
Proof.
  induction l as [|y l IH]; simpl; [done|].
  case_decide; [done|]. by rewrite IH, Permutation_swap.
Qed.

Lemma stable_sort_perm l : stable_sort R l ≡ₚ l.
Proof.
  induction l as [|x l IH]; simpl; [done|]. by rewrite insert_row_perm, IH.
Qed.

Lemma insert_row_sorted `{!Total R, !Transitive R} x l :
  StronglySorted R l -> StronglySorted R (insert_row R x l).
Proof.
  induction 1 as [|y l Hs IH Hy]; simpl; [by repeat constructor|].
  case_decide as Hxy.
  - constructor; [by constructor|]. constructor; [done|].
    eapply Forall_impl; [exact Hy|]. intros z Hz. by etrans.
  - constructor; [done|]. rewrite insert_row_perm. constructor; [|done].
    by destruct (total R x y).
Qed.

Lemma stable_sort_sorted `{!Total R, !Transitive R} l : StronglySorted R (stable_sort R l).
Proof. induction l; simpl; [constructor | by apply insert_row_sorted]. Qed.

(** Insertion does not move a row past a row of a class [P] it belongs
    to, where rows of one class compare equal. *)
Lemma insert_row_filter (P : A -> Prop) `{!forall x, Decision (P x)} x l :
  (forall y, P x -> P y -> R x y) ->
  filter P (insert_row R x l) = filter P (x :: l).
Proof.
  intros HP. induction l as [|y l IH]; simpl; [done|].
  case_decide as Hxy; [done|]. rewrite filter_cons, IH, !filter_cons.
  destruct (decide (P y)), (decide (P x)); naive_solver.
Qed.

Lemma stable_sort_filter (P : A -> Prop) `{!forall x, Decision (P x)} l :
  (forall x y, P x -> P y -> R x y) ->
  filter P (stable_sort R l) = filter P l.
Proof.
  intros HP. induction l as [|x l IH]; simpl; [done|].
  rewrite insert_row_filter by auto. by rewrite !filter_cons, IH.
Qed.

(** A sorted list is left as it is. *)
Lemma insert_row_head x l : Forall (R x) l -> insert_row R x l = x :: l.
Proof. destruct 1; simpl; [done|]. by rewrite decide_True. Qed.

Lemma stable_sort_id l : StronglySorted R l -> stable_sort R l = l.
Proof.
  induction 1 as [|x l Hs IH Hx]; simpl; [done|]. rewrite IH. by apply insert_row_head.
Qed.

End StableSort.

Section OrderBy.
Context {A : Type} (key : A -> Z).

#[local] Instance key_le_total : Total (key_le key).
Proof. intros a b. unfold key_le. lia. Qed.

#[local] Instance key_le_trans : Transitive (key_le key).
Proof. intros a b c. unfold key_le. lia. Qed.

#[local] Instance key_ge_total : Total (flip (key_le key)).
Proof. intros a b. unfold flip, key_le. lia. Qed.

#[local] Instance key_ge_trans : Transitive (flip (key_le key)).
Proof. intros a b c. unfold flip, key_le. lia. Qed.

Lemma order_by_perm qs : order_by key qs ≡ₚ qs.
Proof. apply stable_sort_perm. Qed.

Lemma order_by_sorted qs : StronglySorted (key_le key) (order_by key qs).
Proof. apply stable_sort_sorted; apply _. Qed.

Lemma order_by_desc_perm qs : order_by_desc key qs ≡ₚ qs.
Proof. apply stable_sort_perm. Qed.

Lemma order_by_desc_sorted qs :
  StronglySorted (flip (key_le key)) (order_by_desc key qs).
Proof. apply stable_sort_sorted; apply _. Qed.

(** Ordering is stable: the rows with one value of the column keep the
    order of the table. *)
Lemma order_by_stable k qs :
  filter (fun x => key x = k) (order_by key qs) = filter (fun x => key x = k) qs.
Proof. apply stable_sort_filter. unfold key_le. intros; lia. Qed.

Lemma order_by_desc_stable k qs :
  filter (fun x => key x = k) (order_by_desc key qs) = filter (fun x => key x = k) qs.
Proof. apply stable_sort_filter. unfold flip, key_le. intros; lia. Qed.

Lemma order_by_id qs : StronglySorted (key_le key) qs -> order_by key qs = qs.
Proof. apply stable_sort_id. Qed.

Lemma order_by_idemp qs : order_by key (order_by key qs) = order_by key qs.
Proof. apply order_by_id, order_by_sorted. Qed.

Lemma order_by_length qs : length (order_by key qs) = length qs.
Proof. by rewrite order_by_perm. Qed.

Lemma order_by_nil_iff qs : order_by key qs = [] <-> qs = [].
Proof.
  split; [|by intros ->].
  intros H. apply nil_length_inv. by rewrite <- order_by_length, H.
Qed.

Lemma order_by_elem x qs : x ∈ order_by key qs <-> x ∈ qs.
Proof. by rewrite order_by_perm. Qed.

(** The first [n] rows of the descending order, [qs.order_by('-key')[:n]]:
    rows of the table, at most [n], in descending order, and no row left
    out has a greater value than a row taken. *)
Lemma newest_elem n x qs : x ∈ take n (order_by_desc key qs) -> x ∈ qs.
Proof. intros Hx%subseteq_take. by rewrite order_by_desc_perm in Hx. Qed.

Lemma newest_length n qs :
  length (take n (order_by_desc key qs)) = (n `min` length qs)%nat.
Proof. by rewrite length_take, order_by_desc_perm. Qed.

Lemma newest_sorted n qs :
  StronglySorted (flip (key_le key)) (take n (order_by_desc key qs)).
Proof.
  pose proof (order_by_desc_sorted qs) as Hs.
  rewrite <- (take_drop n (order_by_desc key qs)) in Hs. by apply StronglySorted_app_1_l in Hs.
Qed.

Lemma newest_first n x y qs :
  x ∈ take n (order_by_desc key qs) -> y ∈ drop n (order_by_desc key qs) -> key y <= key x.
Proof.
  intros Hx Hy. pose proof (order_by_desc_sorted qs) as Hs.
  rewrite <- (take_drop n (order_by_desc key qs)) in Hs.
  apply (StronglySorted_app_1_elem_of _ _ _ x y Hs Hx Hy).
Qed.

Lemma newest_all n qs : (length qs <= n)%nat -> take n (order_by_desc key qs) ≡ₚ qs.
Proof.
  intros Hn. rewrite take_ge by (by rewrite order_by_desc_perm). apply order_by_desc_perm.
Qed.

End OrderBy.

Lemma moods_on_elem db uid d e :
  e ∈ moods_on db uid d <-> e ∈ moods db /\ me_user e = uid /\ day_of (me_date e) = d.
Proof. unfold moods_on. rewrite list_elem_of_filter. tauto. Qed.

Lemma moods_of_elem db uid e :
  e ∈ moods_of db uid <-> e ∈ moods db /\ me_user e = uid.
Proof. unfold moods_of. rewrite list_elem_of_filter. tauto. Qed.

Lemma moods_since_elem db uid t e :
  e ∈ moods_since db uid t <-> e ∈ moods db /\ me_user e = uid /\ t <= me_date e.
Proof. unfold moods_since. rewrite list_elem_of_filter. tauto. Qed.

Lemma achievements_titled_elem db uid title a :
  a ∈ achievements_titled db uid title <->
  a ∈ achievements db /\ ach_user a = uid /\ ach_title a = title.
Proof. unfold achievements_titled. rewrite list_elem_of_filter. tauto. Qed.

Lemma moods_of_create_achievement db now uid title descr pts u :
  moods_of (create_achievement db now uid title descr pts) u = moods_of db u.
Proof. reflexivity. Qed.

#[export] Hint Rewrite moods_of_create_achievement : vyze.
