(* ===== verification/Streak.v ===== *)
(** * Streak: [calculate_streak]

    The streak loop of [src/dashboard/views.py] and [src/dashboard/api.py]
    walks backwards from today, one existence query per day, until a day
    without a mood entry.  The loop is written against the interface
    [DayIndex] (which days have an entry), the store implements the
    interface, and the theorems are proved once against the interface:
    enough fuel exists, the result is the length of the maximal run of
    logged days ending today, and the one-query set-based computation
    returns the same number. *)

From Stdlib Require Import ZArith Lia.
From stdpp Require Import base decidable option list strings gmap.
From S2P Require Import Prelude Numeric Store.

(** ** The interface between the loop and the store *)

(** What the loop needs from a store [S]: the existence query of a day and
    the finite set of days for which it answers yes. *)
Class DayIndex (S : Type) : Type := {
  logged : S -> Z -> bool;
  logged_days : S -> gset Z;
  logged_spec : forall s d, logged s d = true <-> d ∈ logged_days s
}.

(** ** The loop *)

(** [while True: if <exists on check_date>: streak += 1; check_date -= 1 day
    else: break].  [None] when the fuel runs out. *)
Fixpoint streak_loop {S} `{DayIndex S} (fuel : nat) (s : S) (check_date streak : Z)
    : option Z :=
  match fuel with
  | O => None
  | Datatypes.S fuel' =>
      if logged s check_date
      then streak_loop fuel' s (check_date - 1) (streak + 1)
      else Some streak
  end.

(** The days of a user that have a mood entry. *)
Definition entry_days (db : DB) (uid : Z) : gset Z :=
  list_to_set ((fun e => day_of (me_date e)) <$> moods_of db uid).

(** The store of one user as a day index: the existence query of the loop. *)
#[global] Program Instance db_day_index : DayIndex (DB * Z) := {|
  logged '(db, uid) d := qs_exists (moods_on db uid d);
  logged_days '(db, uid) := entry_days db uid
|}.
Next Obligation.
  intros [db uid] d. unfold entry_days.
  rewrite qs_exists_elem, elem_of_list_to_set, list_elem_of_fmap.
  split.
  - intros (e & He). apply moods_on_elem in He as (He & Hu & Hd).
    exists e. split; [done|]. by apply moods_of_elem.
  - intros (e & Hd & He). apply moods_of_elem in He as [He Hu].
    exists e. by apply moods_on_elem.
Qed.

(** [calculate_streak(user)] of the views, at time [now]. *)
Definition calculate_streak (db : DB) (now uid : Z) : option Z :=
  let today := day_of now in
  let streak := 0 in
  let check_date := today in
  streak_loop (Datatypes.S (length (moods db))) (db, uid) check_date streak.

(** [calculate_streak(user)] of the REST API: the same loop. *)
Definition api_calculate_streak (db : DB) (now uid : Z) : option Z :=
  let today := day_of now in
  let streak := 0 in
  let check_date := today in
  streak_loop (Datatypes.S (length (moods db))) (db, uid) check_date streak.

(** ** The specification *)

Section Spec.
Context {S : Type} `{DayIndex S}.
Implicit Types (s : S) (d : Z) (k n : nat).

(** The [k] days ending at [d] all have an entry. *)
Definition run s d k : Prop :=
  forall i : nat, (i < k)%nat -> logged s (d - Z.of_nat i) = true.

(** [k] is the streak at [d]: a run of [k] days, and no entry the day before. *)
Definition is_streak s d k : Prop :=
  run s d k /\ logged s (d - Z.of_nat k) = false.

(** The set-based computation: the length of the run of members of [days]
    ending at [d], looking at no more than [fuel] days. *)
Fixpoint count_run (fuel : nat) (days : gset Z) (d : Z) : Z :=
  match fuel with
  | O => 0
  | Datatypes.S fuel' =>
      if decide (d ∈ days) then 1 + count_run fuel' days (d - 1) else 0
  end.

(** The streak from the set of logged days, fetched once. *)
Definition streak_by_set (days : gset Z) (today : Z) : Z :=
  count_run (Datatypes.S (size days)) days today.

(** ** Lemmas *)

Lemma run_0 s d : run s d 0.
Proof. intros i Hi. lia. Qed.

Lemma run_S s d k : run s d (Datatypes.S k) <-> logged s d = true /\ run s (d - 1) k.
Proof.
  split.
  - intros Hr. split.
    + specialize (Hr 0%nat). rewrite Z.sub_0_r in Hr. apply Hr. lia.
    + intros i Hi. specialize (Hr (Datatypes.S i)).
      replace (d - 1 - Z.of_nat i) with (d - Z.of_nat (Datatypes.S i)) by lia.
      apply Hr. lia.
  - intros [H0 Hr] [|i] Hi.
    + by rewrite Z.sub_0_r.
    + replace (d - Z.of_nat (Datatypes.S i)) with (d - 1 - Z.of_nat i) by lia.
      apply Hr. lia.
Qed.

Lemma run_snoc s d k : run s d k -> logged s (d - Z.of_nat k) = true -> run s d (Datatypes.S k).
Proof.
  intros Hr Hk i Hi. destruct (decide (i = k)) as [->|Hne]; [done|]. apply Hr. lia.
Qed.

Lemma is_streak_S s d k :
  logged s d = true -> is_streak s (d - 1) k -> is_streak s d (Datatypes.S k).
Proof.
  intros H0 [Hr Hs]. split; [by apply run_S|].
  by replace (d - Z.of_nat (Datatypes.S k)) with (d - 1 - Z.of_nat k) by lia.
Qed.

(** The streak at a day is unique. *)
Lemma is_streak_unique s d k k' : is_streak s d k -> is_streak s d k' -> k = k'.
Proof.
  intros [Hr Hs] [Hr' Hs'].
  destruct (Nat.lt_trichotomy k k') as [Hlt|[Heq|Hgt]]; [|done|].
  - specialize (Hr' k Hlt). congruence.
  - specialize (Hr k' Hgt). congruence.
Qed.

(** The days of a run are distinct members of the set of logged days, so a
    run is no longer than that set is large. *)
Lemma run_bounded s d k : run s d k -> (k <= size (logged_days s))%nat.
Proof.
  intros Hr.
  set (l := (fun i : nat => d - Z.of_nat i) <$> seq 0 k).
  assert (NoDup l) as Hnd.
  { apply NoDup_fmap_2; [|apply NoDup_seq]. intros i j Hij. lia. }
  assert (list_to_set l ⊆ logged_days s) as Hsub.
  { intros x Hx. apply elem_of_list_to_set, list_elem_of_fmap in Hx as (i & -> & Hi).
    apply logged_spec, Hr. apply elem_of_seq in Hi. lia. }
  apply subseteq_size in Hsub. rewrite size_list_to_set in Hsub by done.
  unfold l in Hsub. by rewrite length_fmap, length_seq in Hsub.
Qed.

(** Looking at [n] days either finds a run of [n] or the streak. *)
Lemma run_or_streak s d n :
  run s d n \/ exists k, (k < n)%nat /\ is_streak s d k.
Proof.
  induction n as [|n [Hr|(k & Hk & Hs)]].
  - left. apply run_0.
  - destruct (logged s (d - Z.of_nat n)) eqn:Hn.
    + left. by apply run_snoc.
    + right. exists n. split; [lia | done].
  - right. exists k. split; [lia | done].
Qed.

(** Every day has a streak, no longer than the set of logged days is large. *)
Lemma streak_exists s d : exists k, (k <= size (logged_days s))%nat /\ is_streak s d k.
Proof.
  destruct (run_or_streak s d (Datatypes.S (size (logged_days s)))) as [Hr|(k & Hk & Hs)].
  - apply run_bounded in Hr. lia.
  - exists k. split; [lia | done].
Qed.

(** The loop returns the streak added to its counter, given fuel for one
    query more than the streak is long. *)
Lemma streak_loop_spec fuel s d acc k :
  (k < fuel)%nat -> is_streak s d k -> streak_loop fuel s d acc = Some (acc + Z.of_nat k).
Proof.
  revert d acc k. induction fuel as [|fuel IH]; intros d acc k Hk [Hr Hs]; [lia|].
  simpl. destruct k as [|k].
  - simpl in Hs. rewrite Z.sub_0_r in Hs. rewrite Hs. f_equal. lia.
  - apply run_S in Hr as [H0 Hr]. rewrite H0.
    rewrite (IH (d - 1) (acc + 1) k); [f_equal; lia | lia |].
    split; [done|]. by replace (d - 1 - Z.of_nat k) with (d - Z.of_nat (Datatypes.S k)) by lia.
Qed.

(** More fuel never changes a result. *)
Lemma streak_loop_fuel_mono fuel fuel' s d acc r :
  (fuel <= fuel')%nat -> streak_loop fuel s d acc = Some r -> streak_loop fuel' s d acc = Some r.
Proof.
  revert fuel' d acc. induction fuel as [|fuel IH]; intros fuel' d acc Hle He; [done|].
  destruct fuel' as [|fuel']; [lia|]. simpl in *.
  destruct (logged s d); [|done]. apply IH; [lia | done].
Qed.

(** The set-based count is the streak, given as many looks. *)
Lemma count_run_spec fuel s d k :
  (k < fuel)%nat -> is_streak s d k -> count_run fuel (logged_days s) d = Z.of_nat k.
Proof.
  revert d k. induction fuel as [|fuel IH]; intros d k Hk [Hr Hs]; [lia|].
  simpl. destruct k as [|k].
  - simpl in Hs. rewrite Z.sub_0_r in Hs.
    destruct (decide _) as [Hin|]; [|done]. apply logged_spec in Hin. congruence.
  - apply run_S in Hr as [H0 Hr]. apply logged_spec in H0.
    destruct (decide _); [|done].
    rewrite (IH (d - 1) k); [lia | lia |].
    split; [done|]. by replace (d - 1 - Z.of_nat k) with (d - Z.of_nat (Datatypes.S k)) by lia.
Qed.

End Spec.

(** A set built from a list is no larger than the list is long. *)
Lemma size_list_to_set_le (l : list Z) : (size (list_to_set l : gset Z) <= length l)%nat.
Proof.
  induction l as [|x l IH]; [done|]. rewrite list_to_set_cons. simpl length.
  destruct (decide (x ∈ (list_to_set l : gset Z))) as [Hin|Hnin].
  - assert ({[x]} ∪ list_to_set l = (list_to_set l : gset Z)) as -> by set_solver. lia.
  - rewrite size_union by set_solver. rewrite size_singleton. lia.
Qed.

(** A user has no more logged days than mood entries. *)
Lemma entry_days_size_user db uid : (size (entry_days db uid) <= length (moods_of db uid))%nat.
Proof.
  unfold entry_days. etransitivity; [apply size_list_to_set_le|]. by rewrite length_fmap.
Qed.

(** A user has no more logged days than the table has rows. *)
Lemma entry_days_size db uid : (size (entry_days db uid) <= length (moods db))%nat.
Proof.
  etransitivity; [apply entry_days_size_user|]. apply length_filter.
Qed.

(** The loop of [calculate_streak] has fuel for the streak of today. *)
Lemma calculate_streak_run db now uid k :
  is_streak (db, uid) (day_of now) k -> calculate_streak db now uid = Some (Z.of_nat k).
Proof.
  intros Hs. destruct (streak_exists (db, uid) (day_of now)) as (k' & Hk' & Hs').
  rewrite (is_streak_unique _ _ _ _ Hs Hs'). unfold calculate_streak.
  rewrite (streak_loop_spec _ _ _ _ k'); [f_equal; lia | | done].
  pose proof (entry_days_size db uid). simpl in Hk'. lia.
Qed.

(** The set-based computation returns the streak of today. *)
Lemma streak_by_set_run db now uid k :
  is_streak (db, uid) (day_of now) k ->
  streak_by_set (entry_days db uid) (day_of now) = Z.of_nat k.
Proof.
  intros Hs. destruct (streak_exists (db, uid) (day_of now)) as (k' & Hk' & Hs').
  rewrite (is_streak_unique _ _ _ _ Hs Hs').
  unfold streak_by_set. change (entry_days db uid) with (logged_days (db, uid)).
  apply count_run_spec; [lia | done].
Qed.

(** ** Theorems *)

(** C1: [calculate_streak] terminates within the fuel it is given and
    returns the streak of today: the number [k] such that each of the [k]
    days ending today has a mood entry of the user and the day before
    them has none. *)
Theorem calculate_streak_correct db now uid :
  exists k : nat,
    calculate_streak db now uid = Some (Z.of_nat k) /\
    is_streak (db, uid) (day_of now) k.
Proof.
  destruct (streak_exists (db, uid) (day_of now)) as (k & _ & Hs).
  exists k. split; [by apply calculate_streak_run | done].
Qed.

(** Without a mood entry today the streak is 0, whatever was logged
    before. *)
Theorem calculate_streak_no_entry_today db now uid :
  moods_on db uid (day_of now) = [] -> calculate_streak db now uid = Some 0.
Proof.
  intros Hnone. unfold calculate_streak. simpl. by rewrite Hnone.
Qed.

Lemma calculate_streak_no_entry_today_witness :
  moods_on sample_db 2 (day_of sample_now) = [] /\
  calculate_streak sample_db sample_now 2 = Some 0.
Proof.
  split; [reflexivity|].
  apply (calculate_streak_no_entry_today sample_db sample_now 2). reflexivity.
Defined.

(** C26: the loop, with its one query per day, returns what the set-based
    computation returns from the set of the user's logged days. *)
Theorem calculate_streak_by_set db now uid :
  calculate_streak db now uid = Some (streak_by_set (entry_days db uid) (day_of now)).
Proof.
  destruct (streak_exists (db, uid) (day_of now)) as (k & _ & Hs).
  by rewrite (calculate_streak_run _ _ _ k Hs), (streak_by_set_run _ _ _ k Hs).
Qed.

(** A streak is never negative and never longer than the number of
    mood entries the user has. *)
Theorem calculate_streak_bounded db now uid r :
  calculate_streak db now uid = Some r -> 0 <= r <= len (moods_of db uid).
Proof.
  destruct (streak_exists (db, uid) (day_of now)) as (k & _ & Hs).
  rewrite (calculate_streak_run _ _ _ k Hs). destruct Hs as [Hr _].
  intros [= <-]. apply run_bounded in Hr. simpl in Hr.
  pose proof (entry_days_size_user db uid). unfold len. lia.
Qed.

Lemma calculate_streak_bounded_witness :
  calculate_streak sample_db sample_now 1 = Some 2 /\ 0 <= 2 <= len (moods_of sample_db 1).
Proof.
  split; [reflexivity|].
  apply (calculate_streak_bounded sample_db sample_now 1 2). reflexivity.
Defined.

(** Entries today, yesterday and three days ago, with a gap the day
    before yesterday, give a streak of 2; the entry another user made on
    the missing day does not bridge the gap. *)
Theorem calculate_streak_gap :
  calculate_streak sample_db sample_now 1 = Some 2 /\
  qs_exists (moods_on sample_db 2 (day_of sample_now - 2)) = true.
Proof. split; reflexivity. Qed.

(** The REST API's copy of the loop computes the same streak as the
    views' copy, and the same as the set-based computation. *)
Theorem api_calculate_streak_by_set db now uid :
  api_calculate_streak db now uid = calculate_streak db now uid /\
  api_calculate_streak db now uid = Some (streak_by_set (entry_days db uid) (day_of now)).
Proof.
  split; [reflexivity|]. change (api_calculate_streak db now uid) with (calculate_streak db now uid).
  destruct (streak_exists (db, uid) (day_of now)) as (k & _ & Hs).
  by rewrite (calculate_streak_run _ _ _ k Hs), (streak_by_set_run _ _ _ k Hs).
Qed.
