(* ===== verification/Trend.v ===== *)
(** * Trend: [analyze_mood_trends] and the trend test of the prediction view

    [analyze_mood_trends] exists twice: in [src/dashboard/views.py] (with the
    mood level and the recommendations) and in [src/dashboard/api.py]
    (trend, rounded average, message and count only).  Both read the mood
    entries of the last thirty days in chronological order, compare the
    averages of the two halves and classify the difference against the
    threshold one half.  The [ai_mood_prediction] view has a third trend test
    of its own, on entries it fetched newest first. *)

From Stdlib Require Import ZArith QArith Qround Qminmax Lqa Lia.
From stdpp Require Import base decidable option list strings sorting.
From S2P Require Import Prelude Numeric Store.

(** ** Data *)

(** The values of the ['trend'] key. *)
Inductive trend : Type := Neutral | Improving | Declining | Stable.

(** The values of the ['mood_level'] key. *)
Inductive mood_level : Type := Excellent | Good | Moderate | NeedsAttention.

#[global] Instance trend_eq_dec : EqDecision trend.
Proof. solve_decision. Defined.
#[global] Instance mood_level_eq_dec : EqDecision mood_level.
Proof. solve_decision. Defined.

(** The string the code stores for a trend. *)
Definition trend_label (t : trend) : string :=
  match t with
  | Neutral => "neutral"
  | Improving => "improving"
  | Declining => "declining"
  | Stable => "stable"
  end.

(** The string the code stores for a level. *)
Definition mood_level_label (l : mood_level) : string :=
  match l with
  | Excellent => "excellent"
  | Good => "good"
  | Moderate => "moderate"
  | NeedsAttention => "needs_attention"
  end.

(** The dictionary [analyze_mood_trends] returns; a key that a branch does
    not set is [None]. *)
Record analysis : Type := mkAnalysis {
  a_trend : trend;
  a_mood_level : option mood_level;
  a_avg_mood : option Q;
  a_message : string;
  a_additional_message : option string;
  a_recommendations : option (list string);
  a_data_points : option Z
}.

(** ** The views' analysis *)

(** The query: the user's entries of the last thirty days, oldest first. *)
Definition recent_moods (db : DB) (now uid : Z) : list MoodEntry :=
  let thirty_days_ago := minus_days now 30 in
  order_by me_date (moods_since db uid thirty_days_ago).

(** [sum(half) / len(half) if half else avg_mood]. *)
Definition half_avg (half : list Z) (avg_mood : Q) : result Q :=
  match half with
  | [] => Ok avg_mood
  | _ :: _ => mean half
  end.

(** [y_values[:len(y_values)//2]]. *)
Definition first_half (y_values : list Z) : list Z :=
  take (length y_values / 2)%nat y_values.

(** [y_values[len(y_values)//2:]]. *)
Definition second_half (y_values : list Z) : list Z :=
  drop (length y_values / 2)%nat y_values.

(** The trend slope: the mean of the second half minus the mean of the first. *)
Definition trend_slope (y_values : list Z) (avg_mood : Q) : result Q :=
  if decide (3 <= len y_values) then
    if decide (1 < len y_values) then
      first_avg ← half_avg (first_half y_values) avg_mood;
      second_avg ← half_avg (second_half y_values) avg_mood;
      mret (second_avg - first_avg)%Q
    else mret 0%Q
  else mret 0%Q.

(** Trend, message and recommendations from the slope. *)
Definition classify_trend (trend_slope : Q) : trend * string * list string :=
  if decide (1 # 2 < trend_slope)%Q then
    (Improving,
     "Your mood has been trending upward! Keep up the great work.",
     ["Continue your current wellness routine";
      "Consider sharing your progress with your doctor";
      "Try new activities that bring you joy"])
  else if decide (trend_slope < - (1 # 2))%Q then
    (Declining,
     "Your mood has been trending downward. Consider reaching out for support.",
     ["Practice deep breathing exercises";
      "Reach out to your assigned doctor";
      "Try mindfulness activities";
      "Consider professional counseling if needed"])
  else
    (Stable,
     "Your mood has been relatively stable. This is a good foundation to build upon.",
     ["Maintain your current routine";
      "Try new wellness activities";
      "Continue journaling your thoughts";
      "Stay connected with your support network"]).

(** Level and additional message from the average. *)
Definition classify_level (avg_mood : Q) : mood_level * string :=
  if decide (8 <= avg_mood)%Q then
    (Excellent,
     "You're doing exceptionally well! Consider how you can maintain this positive state.")
  else if decide (6 <= avg_mood)%Q then
    (Good, "You're in a good place. Small improvements can make a big difference.")
  else if decide (4 <= avg_mood)%Q then
    (Moderate,
     "There's room for improvement. Focus on self-care and professional support.")
  else
    (NeedsAttention,
     "Consider reaching out to mental health professionals for additional support.").

(** The dictionary returned when there is no entry in the window. *)
Definition no_data_analysis : analysis :=
  mkAnalysis Neutral None None
    "Start logging your mood to get personalized insights!"
    None
    (Some ["Log your daily mood"; "Write in your journal"; "Try breathing exercises"])
    None.

(** [analyze_mood_trends(user)] of the views on the rows of its query. *)
Definition analyze_rows (recent : list MoodEntry) : result analysis :=
  if negb (qs_exists recent) then mret no_data_analysis
  else
    avg_mood ← mean (me_mood <$> recent);
    slope ← trend_slope (me_mood <$> recent) avg_mood;
    let '(trend, message, recommendations) := classify_trend slope in
    let '(level, additional_message) := classify_level avg_mood in
    mret (mkAnalysis trend (Some level) (Some (round1 avg_mood)) message
            (Some additional_message) (Some recommendations) (Some (len recent))).

(** [analyze_mood_trends(user)] of the views, at time [now]. *)
Definition analyze_mood_trends (db : DB) (now uid : Z) : result analysis :=
  analyze_rows (recent_moods db now uid).

(** ** The API's analysis *)

(** The API's slope: no inner test on the length. *)
Definition api_trend_slope (y_values : list Z) (avg_mood : Q) : result Q :=
  if decide (3 <= len y_values) then
    first_avg ← half_avg (first_half y_values) avg_mood;
    second_avg ← half_avg (second_half y_values) avg_mood;
    mret (second_avg - first_avg)%Q
  else mret 0%Q.

(** The API's classification: trend and message only. *)
Definition api_classify_trend (trend_slope : Q) : trend * string :=
  if decide (1 # 2 < trend_slope)%Q then
    (Improving, "Your mood has been trending upward! Keep up the great work.")
  else if decide (trend_slope < - (1 # 2))%Q then
    (Declining,
     "Your mood has been trending downward. Consider reaching out for support.")
  else
    (Stable,
     "Your mood has been relatively stable. This is a good foundation to build upon.").

(** [analyze_mood_trends(user)] of the API on the rows of its query. *)
Definition api_analyze_rows (recent : list MoodEntry) : result analysis :=
  if negb (qs_exists recent) then mret no_data_analysis
  else
    avg_mood ← mean (me_mood <$> recent);
    slope ← api_trend_slope (me_mood <$> recent) avg_mood;
    let '(trend, message) := api_classify_trend slope in
    mret (mkAnalysis trend None (Some (round1 avg_mood)) message None None
            (Some (len recent))).

(** [analyze_mood_trends(user)] of the API, at time [now]. *)
Definition api_analyze_mood_trends (db : DB) (now uid : Z) : result analysis :=
  api_analyze_rows (recent_moods db now uid).

(** ** The prediction view's trend test *)

(** The trend of [ai_mood_prediction] on the values it fetched, which are
    in the order of its query: newest first. *)
Definition ai_trend (mood_values : list Z) : result (option (trend * string)) :=
  if decide (7 <= len mood_values) then
    first ← mean (first_half mood_values);
    second ← mean (second_half mood_values);
    if decide (first < second)%Q then
      mret (Some (Improving,
                  "Your mood has been trending upward! Keep up the great work."))
    else if decide (second < first)%Q then
      mret (Some (Declining,
                  "Your mood has been trending downward. Consider reaching out for support."))
    else
      mret (Some (Stable,
                  "Your mood has been relatively stable. This consistency is positive."))
  else mret None.

#[global] Arguments first_half : simpl never.
#[global] Arguments second_half : simpl never.

(** ** Halves *)

Lemma half_le (n : nat) : (n / 2 <= n)%nat.
Proof. apply Nat.Div0.div_le_upper_bound. lia. Qed.

Lemma half_bounds (n : nat) : (2 * (n / 2) <= n <= 2 * (n / 2) + 1)%nat.
Proof.
  pose proof (Nat.div_mod_eq n 2). pose proof (Nat.mod_upper_bound n 2). lia.
Qed.

Lemma length_first_half ys : length (first_half ys) = (length ys / 2)%nat.
Proof. unfold first_half. rewrite length_take. pose proof (half_le (length ys)). lia. Qed.

Lemma length_second_half ys : length (second_half ys) = (length ys - length ys / 2)%nat.
Proof. unfold second_half. by rewrite length_drop. Qed.

Lemma halves_app ys : first_half ys ++ second_half ys = ys.
Proof. apply take_drop. Qed.

(** With an odd number of values the first half is the smaller one. *)
Lemma first_half_le_second ys :
  (length (first_half ys) <= length (second_half ys) <= length (first_half ys) + 1)%nat.
Proof.
  rewrite length_first_half, length_second_half.
  pose proof (half_bounds (length ys)). lia.
Qed.

Lemma halves_nonempty ys : 2 <= len ys -> first_half ys <> [] /\ second_half ys <> [].
Proof.
  unfold len. intros Hn.
  pose proof (length_first_half ys). pose proof (length_second_half ys).
  pose proof (half_bounds (length ys)).
  split; intros E; rewrite E in *; simpl in *; lia.
Qed.

Lemma half_avg_nonempty half avg : half <> [] -> half_avg half avg = mean half.
Proof. by destruct half. Qed.

(** ** The slope *)

(** Below three values the slope is 0. *)
Lemma trend_slope_short ys avg : len ys < 3 -> trend_slope ys avg = Ok 0%Q.
Proof. intros Hn. unfold trend_slope. destruct (decide _); [lia | done]. Qed.

(** From three values on the slope is the difference of the half means. *)
Lemma trend_slope_long ys avg :
  3 <= len ys ->
  trend_slope ys avg =
  Ok (inject_Z (sumZ (second_half ys)) / inject_Z (len (second_half ys)) -
      inject_Z (sumZ (first_half ys)) / inject_Z (len (first_half ys)))%Q.
Proof.
  intros Hn. unfold trend_slope.
  destruct (halves_nonempty ys) as [H1 H2]; [lia|].
  rewrite !decide_True by lia.
  rewrite !half_avg_nonempty, !mean_ok by done. reflexivity.
Qed.

Lemma api_trend_slope_eq ys avg : api_trend_slope ys avg = trend_slope ys avg.
Proof.
  unfold api_trend_slope, trend_slope.
  destruct (decide (3 <= len ys)); [|done]. by rewrite decide_True by lia.
Qed.

Lemma trend_slope_total ys avg : exists s, trend_slope ys avg = Ok s.
Proof.
  destruct (decide (3 <= len ys)).
  - eexists. by apply trend_slope_long.
  - eexists. apply trend_slope_short. lia.
Qed.

(** ** The classifications *)

Lemma classify_trend_improving s : (classify_trend s).1.1 = Improving <-> (1 # 2 < s)%Q.
Proof. unfold classify_trend. repeat case_step; simpl; split; try done; lra. Qed.

Lemma classify_trend_declining s : (classify_trend s).1.1 = Declining <-> (s < - (1 # 2))%Q.
Proof. unfold classify_trend. repeat case_step; simpl; split; try done; lra. Qed.

Lemma classify_trend_stable s :
  (classify_trend s).1.1 = Stable <-> (- (1 # 2) <= s <= 1 # 2)%Q.
Proof. unfold classify_trend. repeat case_step; simpl; split; try done; lra. Qed.

Lemma api_classify_trend_eq s :
  api_classify_trend s = ((classify_trend s).1.1, (classify_trend s).1.2).
Proof. unfold api_classify_trend, classify_trend. by repeat case_step. Qed.

Lemma classify_level_excellent avg : (classify_level avg).1 = Excellent <-> (8 <= avg)%Q.
Proof. unfold classify_level. repeat case_step; simpl; split; try done; lra. Qed.

Lemma classify_level_good avg : (classify_level avg).1 = Good <-> (6 <= avg < 8)%Q.
Proof. unfold classify_level. repeat case_step; simpl; split; try done; lra. Qed.

Lemma classify_level_moderate avg : (classify_level avg).1 = Moderate <-> (4 <= avg < 6)%Q.
Proof. unfold classify_level. repeat case_step; simpl; split; try done; lra. Qed.

Lemma classify_level_needs_attention avg :
  (classify_level avg).1 = NeedsAttention <-> (avg < 4)%Q.
Proof. unfold classify_level. repeat case_step; simpl; split; try done; lra. Qed.

(** The level of an average [s / n], decided on the integers. *)
Lemma classify_level_frac (s n : Z) :
  0 < n ->
  (classify_level (inject_Z s / inject_Z n)).1 =
  if decide (8 * n <= s) then Excellent
  else if decide (6 * n <= s) then Good
  else if decide (4 * n <= s) then Moderate
  else NeedsAttention.
Proof.
  intros Hn. unfold classify_level.
  pose proof (Zle_frac 8 s n Hn). pose proof (Zle_frac 6 s n Hn).
  pose proof (Zle_frac 4 s n Hn).
  change 8%Q with (inject_Z 8). change 6%Q with (inject_Z 6). change 4%Q with (inject_Z 4).
  repeat case_decide; simpl; try done; exfalso; tauto.
Qed.

(** ** The analysis, unfolded *)

(** What [analyze_rows] returns on a non-empty query, in terms of the mean
    and the slope. *)
Lemma analyze_rows_nonempty rows :
  rows <> [] ->
  exists avg slope,
    mean (me_mood <$> rows) = Ok avg /\
    trend_slope (me_mood <$> rows) avg = Ok slope /\
    analyze_rows rows =
    Ok (mkAnalysis (classify_trend slope).1.1 (Some (classify_level avg).1)
          (Some (round1 avg)) (classify_trend slope).1.2
          (Some (classify_level avg).2) (Some (classify_trend slope).2)
          (Some (len rows))).
Proof.
  intros Hne. unfold analyze_rows.
  rewrite (proj2 (qs_exists_true rows) Hne). simpl negb. cbv iota.
  assert (me_mood <$> rows <> []) as Hys by (by destruct rows).
  rewrite (mean_ok _ Hys).
  destruct (trend_slope_total (me_mood <$> rows)
              (inject_Z (sumZ (me_mood <$> rows)) / inject_Z (len (me_mood <$> rows)))) as [s Hs].
  eexists _, s. split; [done|]. split; [done|].
  cbn. rewrite Hs. cbn.
  by destruct (classify_trend s) as [[? ?] ?], (classify_level _).
Qed.

Lemma api_analyze_rows_nonempty rows :
  rows <> [] ->
  exists avg slope,
    mean (me_mood <$> rows) = Ok avg /\
    trend_slope (me_mood <$> rows) avg = Ok slope /\
    api_analyze_rows rows =
    Ok (mkAnalysis (classify_trend slope).1.1 None (Some (round1 avg))
          (classify_trend slope).1.2 None None (Some (len rows))).
Proof.
  intros Hne. unfold api_analyze_rows.
  rewrite (proj2 (qs_exists_true rows) Hne). simpl negb. cbv iota.
  assert (me_mood <$> rows <> []) as Hys by (by destruct rows).
  rewrite (mean_ok _ Hys).
  destruct (trend_slope_total (me_mood <$> rows)
              (inject_Z (sumZ (me_mood <$> rows)) / inject_Z (len (me_mood <$> rows)))) as [s Hs].
  eexists _, s. split; [done|]. split; [done|].
  cbn. rewrite api_trend_slope_eq, Hs. cbn.
  by rewrite api_classify_trend_eq.
Qed.

(** ** Slopes on integers *)

Lemma half_as_frac : (1 # 2 == inject_Z 1 / inject_Z 2)%Q.
Proof. reflexivity. Qed.

(** The slope exceeds one half: the test on the sums and lengths of the halves. *)
Lemma slope_gt_half (s1 n1 s2 n2 : Z) :
  0 < n1 -> 0 < n2 ->
  (1 # 2 < inject_Z s2 / inject_Z n2 - inject_Z s1 / inject_Z n1)%Q <->
  n1 * n2 < 2 * (s2 * n1 - s1 * n2).
Proof.
  intros H1 H2. rewrite half_as_frac, frac_gap_lt by lia. lia.
Qed.

(** The slope is below minus one half, likewise. *)
Lemma slope_lt_neg_half (s1 n1 s2 n2 : Z) :
  0 < n1 -> 0 < n2 ->
  (inject_Z s2 / inject_Z n2 - inject_Z s1 / inject_Z n1 < - (1 # 2))%Q <->
  n1 * n2 < 2 * (s1 * n2 - s2 * n1).
Proof.
  intros H1 H2.
  transitivity (1 # 2 < inject_Z s1 / inject_Z n1 - inject_Z s2 / inject_Z n2)%Q;
    [split; lra|].
  rewrite slope_gt_half by lia. lia.
Qed.

(** The halves of an increasing list are separated. *)
Lemma halves_separated_incr ys x y :
  StronglySorted Z.lt ys -> x ∈ first_half ys -> y ∈ second_half ys -> x < y.
Proof.
  intros Hs. rewrite <- (halves_app ys) in Hs.
  by apply StronglySorted_app_1_elem_of.
Qed.

(** The halves of the reversal of an increasing list are separated the
    other way round. *)
Lemma halves_separated_rev ys x y :
  StronglySorted Z.lt ys ->
  x ∈ second_half (reverse ys) -> y ∈ first_half (reverse ys) -> x < y.
Proof.
  intros Hs Hx Hy.
  assert (ys = reverse (second_half (reverse ys)) ++ reverse (first_half (reverse ys))) as E.
  { rewrite <- reverse_app, halves_app. by rewrite reverse_involutive. }
  rewrite E in Hs.
  apply (StronglySorted_app_1_elem_of _ _ _ x y Hs); by apply elem_of_reverse.
Qed.

(** On a strictly increasing sequence of three or more values the slope
    is at least 1. *)
Lemma trend_slope_increasing ys avg :
  3 <= len ys -> StronglySorted Z.lt ys ->
  exists s, trend_slope ys avg = Ok s /\ (1 <= s)%Q.
Proof.
  intros Hn Hs. eexists. split; [by apply trend_slope_long|].
  destruct (halves_nonempty ys) as [H1 H2]; [lia|].
  apply len_pos in H1, H2.
  pose proof (sum_gap_separated (first_half ys) (second_half ys)
                (fun x y => halves_separated_incr ys x y Hs)) as Hgap.
  change 1%Q with (inject_Z 1 / inject_Z 1)%Q.
  apply frac_gap_le; lia.
Qed.

Lemma ai_trend_increasing_reversed ys :
  7 <= len ys -> StronglySorted Z.lt ys ->
  ai_trend (reverse ys) =
  Ok (Some (Declining,
            "Your mood has been trending downward. Consider reaching out for support.")).
Proof.
  intros Hn Hs. unfold ai_trend.
  assert (len (reverse ys) = len ys) as Hlen by (unfold len; by rewrite length_reverse).
  rewrite decide_True by lia.
  destruct (halves_nonempty (reverse ys)) as [H1 H2]; [lia|].
  rewrite !mean_ok by done. cbn.
  pose proof (sum_gap_separated (second_half (reverse ys)) (first_half (reverse ys))
                (fun x y => halves_separated_rev ys x y Hs)) as Hgap.
  apply len_pos in H1, H2.
  assert (inject_Z 1 / inject_Z 1 <=
          inject_Z (sumZ (first_half (reverse ys))) / inject_Z (len (first_half (reverse ys))) -
          inject_Z (sumZ (second_half (reverse ys))) / inject_Z (len (second_half (reverse ys))))%Q
    as Hq by (apply frac_gap_le; lia).
  change (inject_Z 1 / inject_Z 1)%Q with 1%Q in Hq.
  rewrite decide_False by lra. by rewrite decide_True by lra.
Qed.

(** ** The query *)

(** The window of the analysis: exactly the user's entries stamped no
    earlier than thirty days before [now]. *)
Lemma recent_moods_elem db now uid e :
  e ∈ recent_moods db now uid <->
  e ∈ moods db /\ me_user e = uid /\ now - 30 * day_seconds <= me_date e.
Proof. unfold recent_moods. by rewrite order_by_elem, moods_since_elem. Qed.

Lemma recent_moods_sorted db now uid :
  StronglySorted (key_le me_date) (recent_moods db now uid).
Proof. apply order_by_sorted. Qed.

Lemma recent_moods_nil db now uid :
  recent_moods db now uid = [] <-> moods_since db uid (minus_days now 30) = [].
Proof. apply order_by_nil_iff. Qed.

(** The analysis returns. *)
Lemma analyze_mood_trends_ok db now uid : exists a, analyze_mood_trends db now uid = Ok a.
Proof.
  unfold analyze_mood_trends.
  destruct (decide (recent_moods db now uid = [])) as [E|Hne].
  - rewrite E. by eexists.
  - destruct (analyze_rows_nonempty _ Hne) as (avg & s & _ & _ & ->). by eexists.
Qed.

(** The two copies of the analysis, side by side. *)
Lemma api_analysis_agrees db now uid :
  exists a a',
    analyze_mood_trends db now uid = Ok a /\
    api_analyze_mood_trends db now uid = Ok a' /\
    a_trend a' = a_trend a /\ a_avg_mood a' = a_avg_mood a /\
    a_message a' = a_message a /\ a_data_points a' = a_data_points a /\
    (recent_moods db now uid = [] /\ a' = a \/
     recent_moods db now uid <> [] /\ a_mood_level a' = None /\
     a_additional_message a' = None /\ a_recommendations a' = None).
Proof.
  unfold analyze_mood_trends, api_analyze_mood_trends.
  destruct (decide (recent_moods db now uid = [])) as [E|Hne].
  - rewrite E. exists no_data_analysis, no_data_analysis. repeat split; auto.
  - destruct (analyze_rows_nonempty _ Hne) as (avg & s & Havg & Hs & ->).
    destruct (api_analyze_rows_nonempty _ Hne) as (avg' & s' & Havg' & Hs' & ->).
    rewrite Havg in Havg'. injection Havg' as <-.
    rewrite Hs in Hs'. injection Hs' as <-.
    eexists _, _. repeat split; auto.
Qed.

(** ** Theorems *)

(** [analyze_mood_trends] never raises: the division by the number of
    rows is guarded by the emptiness test and the halves of three or more
    values are not empty. *)
Theorem analyze_mood_trends_total db now uid :
  exists a, analyze_mood_trends db now uid = Ok a.
Proof. apply analyze_mood_trends_ok. Qed.

(** Without a mood entry in the last thirty days the analysis is the
    fixed neutral dictionary with its three generic recommendations. *)
Theorem analyze_mood_trends_no_data db now uid :
  moods_since db uid (minus_days now 30) = [] ->
  analyze_mood_trends db now uid = Ok no_data_analysis /\
  a_trend no_data_analysis = Neutral /\
  a_recommendations no_data_analysis =
    Some ["Log your daily mood"; "Write in your journal"; "Try breathing exercises"].
Proof.
  intros E. apply recent_moods_nil in E. unfold analyze_mood_trends. by rewrite E.
Qed.

Lemma analyze_mood_trends_no_data_witness :
  moods_since sample_db 3 (minus_days sample_now 30) = [] /\
  analyze_mood_trends sample_db sample_now 3 = Ok no_data_analysis.
Proof.
  split; [reflexivity|].
  apply (analyze_mood_trends_no_data sample_db sample_now 3). reflexivity.
Defined.

(** With one or two entries in the window the trend is "stable",
    whatever the values are. *)
Theorem analyze_mood_trends_short db now uid a :
  0 < len (recent_moods db now uid) < 3 ->
  analyze_mood_trends db now uid = Ok a ->
  a_trend a = Stable.
Proof.
  intros [Hpos Hlt]. unfold analyze_mood_trends.
  destruct (analyze_rows_nonempty (recent_moods db now uid)) as (avg & s & _ & Hs & ->).
  { intros E. rewrite E in Hpos. done. }
  rewrite trend_slope_short in Hs by (unfold len in *; by rewrite length_fmap).
  intros [= <-]. injection Hs as <-. reflexivity.
Qed.

Lemma analyze_mood_trends_short_witness :
  exists a, analyze_mood_trends sample_db sample_now 2 = Ok a /\ a_trend a = Stable.
Proof.
  eexists. split; [reflexivity|].
  eapply (analyze_mood_trends_short sample_db sample_now 2); [by vm_compute | reflexivity].
Defined.

(** C14: from three entries on, the trend is decided by the sums [s1], [s2]
    and lengths [n1], [n2] of the two halves of the chronological values:
    "improving" exactly when [s2/n2 - s1/n1 > 1/2], "declining" exactly
    when it is below [-1/2], and "stable" otherwise. *)
Theorem analyze_mood_trends_threshold db now uid a :
  let ys := me_mood <$> recent_moods db now uid in
  let s1 := sumZ (first_half ys) in
  let n1 := len (first_half ys) in
  let s2 := sumZ (second_half ys) in
  let n2 := len (second_half ys) in
  3 <= len ys ->
  analyze_mood_trends db now uid = Ok a ->
  (a_trend a = Improving <-> n1 * n2 < 2 * (s2 * n1 - s1 * n2)) /\
  (a_trend a = Declining <-> n1 * n2 < 2 * (s1 * n2 - s2 * n1)) /\
  (a_trend a = Stable <-> 2 * Z.abs (s2 * n1 - s1 * n2) <= n1 * n2).
Proof.
  intros ys s1 n1 s2 n2 Hn. unfold analyze_mood_trends.
  destruct (analyze_rows_nonempty (recent_moods db now uid)) as (avg & s & _ & Hs & ->).
  { intros E. subst ys. rewrite E in Hn. done. }
  fold ys in Hs. rewrite trend_slope_long in Hs by done. injection Hs as <-.
  intros [= <-]. simpl.
  destruct (halves_nonempty ys) as [H1 H2]; [lia|]. apply len_pos in H1, H2.
  rewrite classify_trend_improving, classify_trend_declining, classify_trend_stable.
  pose proof (slope_gt_half s1 n1 s2 n2 H1 H2) as Hup.
  pose proof (slope_lt_neg_half s1 n1 s2 n2 H1 H2) as Hdown.
  fold s1 n1 s2 n2. split; [done|]. split; [done|].
  split; intros HH.
  - assert (~ n1 * n2 < 2 * (s2 * n1 - s1 * n2)) by (rewrite <- Hup; lra).
    assert (~ n1 * n2 < 2 * (s1 * n2 - s2 * n1)) by (rewrite <- Hdown; lra). lia.
  - split; apply Qnot_lt_le; [rewrite Hdown | rewrite Hup]; lia.
Qed.

Lemma analyze_mood_trends_threshold_witness :
  exists a, analyze_mood_trends sample_db sample_now 1 = Ok a /\ a_trend a = Improving.
Proof.
  eexists. split; [reflexivity|].
  apply (analyze_mood_trends_threshold sample_db sample_now 1); [by vm_compute | reflexivity|].
  by vm_compute.
Defined.

(** The mood level is decided by the sum [s] and number [n] of the
    values in the window: "excellent" from an average of 8, "good" from 6,
    "moderate" from 4, "needs_attention" below. *)
Theorem analyze_mood_trends_level db now uid a :
  let ys := me_mood <$> recent_moods db now uid in
  let s := sumZ ys in
  let n := len ys in
  0 < n ->
  analyze_mood_trends db now uid = Ok a ->
  (a_mood_level a = Some Excellent <-> 8 * n <= s) /\
  (a_mood_level a = Some Good <-> 6 * n <= s < 8 * n) /\
  (a_mood_level a = Some Moderate <-> 4 * n <= s < 6 * n) /\
  (a_mood_level a = Some NeedsAttention <-> s < 4 * n).
Proof.
  intros ys s n Hn. unfold analyze_mood_trends.
  destruct (analyze_rows_nonempty (recent_moods db now uid)) as (avg & sl & Havg & _ & ->).
  { intros E. subst n ys. rewrite E in Hn. done. }
  fold ys in Havg. rewrite mean_ok in Havg by (intros E; subst n; by rewrite E in Hn).
  injection Havg as <-. intros [= <-]. simpl. fold s n.
  rewrite (classify_level_frac s n Hn).
  repeat case_decide; repeat split; intros; simplify_eq; lia.
Qed.

Lemma analyze_mood_trends_level_witness :
  exists a, analyze_mood_trends sample_db sample_now 1 = Ok a /\ a_mood_level a = Some Good.
Proof.
  eexists. split; [reflexivity|].
  apply (analyze_mood_trends_level sample_db sample_now 1); [by vm_compute | reflexivity|].
  by vm_compute.
Defined.

(** When the moods in the window are values 1..10, the reported
    average is the mean rounded to one decimal: it lies in [1, 10] and
    within one twentieth of the exact mean; the reported number of data
    points is the number of rows in the window. *)
Theorem analyze_mood_trends_avg db now uid a :
  let ys := me_mood <$> recent_moods db now uid in
  ys <> [] -> all_between 1 10 ys ->
  analyze_mood_trends db now uid = Ok a ->
  exists avg r,
    mean ys = Ok avg /\ a_avg_mood a = Some r /\
    (1 <= r <= 10)%Q /\ (avg - (1 # 20) <= r <= avg + (1 # 20))%Q /\
    a_data_points a = Some (qs_count (moods_since db uid (minus_days now 30))).
Proof.
  intros ys Hne Hb. unfold analyze_mood_trends.
  destruct (analyze_rows_nonempty (recent_moods db now uid)) as (avg & sl & Havg & _ & ->).
  { intros E. subst ys. by rewrite E in Hne. }
  intros [= <-]. exists avg, (round1 avg). simpl.
  destruct (mean_between 1 10 ys Hne Hb) as (m & Hm & Hr).
  fold ys in Havg. rewrite Havg in Hm. injection Hm as <-.
  repeat split; try done; try apply round1_near.
  - by apply (round1_between 1 10).
  - by apply (round1_between 1 10).
  - unfold qs_count, len, recent_moods. by rewrite order_by_length.
Qed.

Lemma analyze_mood_trends_avg_witness :
  exists a, analyze_mood_trends sample_db sample_now 1 = Ok a /\
            a_avg_mood a = Some (70 # 10) /\ a_data_points a = Some 3.
Proof.
  destruct (analyze_mood_trends_avg sample_db sample_now 1
              (get_or no_data_analysis (analyze_mood_trends sample_db sample_now 1)))
    as (avg & r & _ & Hr & _ & _ & Hn);
    [by_compute | by_decide | reflexivity |].
  eexists. split; [reflexivity|]. split; reflexivity.
Defined.

(** The API's analysis never raises and agrees with the views'
    analysis on trend, rounded average, message and number of data
    points; with data in the window it has no mood level, additional
    message or recommendation list. *)
Theorem api_analyze_mood_trends_agrees db now uid :
  exists a a',
    analyze_mood_trends db now uid = Ok a /\
    api_analyze_mood_trends db now uid = Ok a' /\
    a_trend a' = a_trend a /\ a_avg_mood a' = a_avg_mood a /\
    a_message a' = a_message a /\ a_data_points a' = a_data_points a /\
    (recent_moods db now uid = [] /\ a' = a \/
     recent_moods db now uid <> [] /\ a_mood_level a' = None /\
     a_additional_message a' = None /\ a_recommendations a' = None).
Proof. apply api_analysis_agrees. Qed.

(** C2: the prediction view labels trends the wrong way round.  On mood
    values that rise with every entry (seven or more), the dashboard
    analysis, which reads them oldest first, finds a slope of at least 1
    and says "improving", while the prediction view's test, which reads
    the same values newest first, says "declining". *)
Theorem ai_trend_inverted ys avg :
  7 <= len ys -> StronglySorted Z.lt ys ->
  (exists s, trend_slope ys avg = Ok s /\ (classify_trend s).1.1 = Improving) /\
  ai_trend (reverse ys) =
  Ok (Some (Declining,
            "Your mood has been trending downward. Consider reaching out for support.")).
Proof.
  intros Hn Hs. split; [|by apply ai_trend_increasing_reversed].
  destruct (trend_slope_increasing ys avg) as (s & E & Hge); [lia | done |].
  exists s. split; [done|]. apply classify_trend_improving. lra.
Qed.

Lemma ai_trend_inverted_witness :
  (exists s, trend_slope [1; 2; 3; 4; 5; 6; 7] 4 = Ok s /\
             (classify_trend s).1.1 = Improving) /\
  ai_trend [7; 6; 5; 4; 3; 2; 1] =
  Ok (Some (Declining,
            "Your mood has been trending downward. Consider reaching out for support.")).
Proof.
  apply (ai_trend_inverted [1; 2; 3; 4; 5; 6; 7] 4); [by vm_compute|].
  repeat (constructor; [|repeat (constructor; try lia)]). constructor.
Defined.
