(* ===== verification/Forecast.v ===== *)
(** * Forecast: [predict_next_mood], [calculate_prediction_confidence],
    [predict_next_week_mood]

    The three forecasting helpers of [src/dashboard/views.py].  The
    single-value predictor fits a least-squares line through the points
    [(i, y_i)] in the closed form with raw sums; the weekly forecaster
    computes the slope in the mean-centred form and projects seven damped
    steps from the last observed value.  Both clamp to [1, 10] and round
    to one decimal. *)

From Stdlib Require Import ZArith QArith Qround Qminmax Lqa Lia.
From stdpp Require Import base decidable option list strings sorting.
From S2P Require Import Prelude Numeric Store.

(** ** The single-value predictor *)

(** [n * sum_xy - sum_x * sum_y]: the numerator of the slope. *)
Definition ols_num (y_values : list Z) : Z :=
  let n := len y_values in
  let x_values := range (length y_values) in
  let sum_x := sumZ x_values in
  let sum_y := sumZ y_values in
  let sum_xy := sumZ (zip_with Z.mul x_values y_values) in
  n * sum_xy - sum_x * sum_y.

(** [n * sum_xx - sum_x * sum_x]: the denominator of the slope. *)
Definition ols_den (n : nat) : Z :=
  let x_values := range n in
  let sum_x := sumZ x_values in
  let sum_xx := sumZ ((fun x => x * x) <$> x_values) in
  Z.of_nat n * sum_xx - sum_x * sum_x.

(** [predict_next_mood(mood_values)]. *)
Definition predict_next_mood (mood_values : list Z) : result Q :=
  if decide (len mood_values < 3) then mean mood_values
  else
    let n := len mood_values in
    let x_values := range (length mood_values) in
    let y_values := mood_values in
    let sum_x := sumZ x_values in
    let sum_y := sumZ y_values in
    slope ← truediv (inject_Z (ols_num y_values)) (inject_Z (ols_den (length y_values)));
    intercept ← truediv (inject_Z sum_y - slope * inject_Z sum_x) (inject_Z n);
    let next_x := n in
    let predicted := (slope * inject_Z next_x + intercept)%Q in
    mret (clamp_max_min 1 10 (round1 predicted)).

(** ** The confidence of a prediction *)

(** The values of the confidence labels. *)
Inductive confidence : Type := Low | Medium | High.

#[global] Instance confidence_eq_dec : EqDecision confidence.
Proof. solve_decision. Defined.

(** The label [calculate_prediction_confidence] returns. *)
Definition confidence_label (c : confidence) : string :=
  match c with Low => "Low" | Medium => "Medium" | High => "High" end.

(** The label [predict_next_week_mood] returns. *)
Definition weekly_confidence_label (c : confidence) : string :=
  match c with Low => "low" | Medium => "medium" | High => "high" end.

(** [sum((x - mean) ** 2 for x in mood_values)]. *)
Definition sum_sq_dev (mood_values : list Z) (mean : Q) : Q :=
  sumQ ((fun x => (inject_Z x - mean) ^ 2)%Q <$> mood_values).

(** [n^2] times the sum of squared deviations from the mean [s / n], on
    integers. *)
Definition scaled_sq_dev (l : list Z) (s n : Z) : Z :=
  sumZ ((fun x => (n * x - s) ^ 2) <$> l).

(** [calculate_prediction_confidence(mood_values)]. *)
Definition calculate_prediction_confidence (mood_values : list Z) : result confidence :=
  if decide (len mood_values < 5) then mret Low
  else
    mean ← mean mood_values;
    variance ← truediv (sum_sq_dev mood_values mean) (inject_Z (len mood_values));
    if sqrt_lt variance 1 then mret High
    else if sqrt_lt variance 2 then mret Medium
    else mret Low.

(** ** The weekly forecaster *)

(** The values of the ['prediction'] key. *)
Inductive prediction : Type := PNeutral | Positive | PStable | Challenging.

#[global] Instance prediction_eq_dec : EqDecision prediction.
Proof. solve_decision. Defined.

Definition prediction_label (p : prediction) : string :=
  match p with
  | PNeutral => "neutral"
  | Positive => "positive"
  | PStable => "stable"
  | Challenging => "challenging"
  end.

(** The dictionary [predict_next_week_mood] returns; the no-data branch
    sets no ['avg_predicted']. *)
Record forecast : Type := mkForecast {
  f_prediction : prediction;
  f_confidence : confidence;
  f_message : string;
  f_weekly_forecast : list Q;
  f_avg_predicted : option Q
}.

(** The query: the user's entries of today and the fourteen days before,
    ordered by calendar day. *)
Definition fortnight_moods (db : DB) (now uid : Z) : list MoodEntry :=
  let end_date := day_of now in
  let start_date := end_date - 14 in
  order_by (fun e => day_of (me_date e)) (moods_between db uid start_date end_date).

(** The slope in mean-centred form:
    [sum((x - mean_x) * (y - avg_mood)) / sum((x - mean_x) ** 2)]. *)
Definition centred_slope (mood_values : list Z) (avg_mood : Q) : result Q :=
  if decide (1 < len mood_values) then
    let x_values := range (length mood_values) in
    mean_x ← mean x_values;
    truediv
      (sumQ (zip_with (fun x y => (inject_Z x - mean_x) * (inject_Z y - avg_mood))%Q
                      x_values mood_values))
      (sumQ ((fun x => (inject_Z x - mean_x) ^ 2)%Q <$> x_values))
  else mret 0%Q.

(** [mood_values[-1] if mood_values else 5]. *)
Definition base_mood (mood_values : list Z) : Z :=
  match last mood_values with
  | Some y => y
  | None => 5
  end.

(** The projected value of day [i] (0-based):
    [round(min(10, max(1, base_mood + slope * (i + 1) * 0.1)), 1)]. *)
Definition forecast_day (base : Z) (slope : Q) (i : Z) : Q :=
  let predicted_mood :=
    clamp_min_max 1 10 (inject_Z base + slope * inject_Z (i + 1) * (1 # 10))%Q in
  round1 predicted_mood.

(** The seven projected values. *)
Definition weekly_values (base : Z) (slope : Q) : list Q :=
  forecast_day base slope <$> range 7.

(** Prediction and message from the average of the projected values. *)
Definition classify_prediction (avg_predicted : Q) : prediction * string :=
  if decide (7 <= avg_predicted)%Q then
    (Positive, "Your mood trend suggests a positive week ahead!")
  else if decide (4 <= avg_predicted)%Q then
    (PStable, "Your mood is likely to remain stable this week.")
  else
    (Challenging,
     "You might face some challenging days. Consider reaching out for support.").

(** Confidence from the number of data points. *)
Definition weekly_confidence (n : Z) : confidence :=
  if decide (7 <= n) then High else if decide (3 <= n) then Medium else Low.

(** The dictionary returned when the fortnight has no entry. *)
Definition no_data_forecast : forecast :=
  mkForecast PNeutral Low "Need more mood data for accurate predictions"
             [5; 5; 5; 5; 5; 5; 5]%Q None.

(** [predict_next_week_mood(user)] on the rows of its query. *)
Definition forecast_rows (recent : list MoodEntry) : result forecast :=
  if negb (qs_exists recent) then mret no_data_forecast
  else
    let mood_values := me_mood <$> recent in
    avg_mood ← mean mood_values;
    slope ← centred_slope mood_values avg_mood;
    let weekly_forecast := weekly_values (base_mood mood_values) slope in
    avg_predicted ← truediv (sumQ weekly_forecast) (inject_Z (len weekly_forecast));
    let '(prediction, message) := classify_prediction avg_predicted in
    let confidence := weekly_confidence (len mood_values) in
    mret (mkForecast prediction confidence message weekly_forecast
            (Some (round1 avg_predicted))).

(** [predict_next_week_mood(user)], at time [now]. *)
Definition predict_next_week_mood (db : DB) (now uid : Z) : result forecast :=
  forecast_rows (fortnight_moods db now uid).

#[global] Arguments ols_num : simpl never.
#[global] Arguments ols_den : simpl never.
#[global] Arguments weekly_values : simpl never.

(** ** Sums over [range] *)

Lemma range_S n : range (S n) = range n ++ [Z.of_nat n].
Proof.
  unfold range. rewrite Nat2Z.inj_succ, <- Z.add_1_r.
  rewrite seqZ_app by lia. f_equal.
Qed.

Lemma length_range n : length (range n) = n.
Proof. unfold range. rewrite length_seqZ. lia. Qed.

Lemma len_range n : len (range n) = Z.of_nat n.
Proof. unfold len. by rewrite length_range. Qed.

Lemma sumZ_fmap_app (f : Z -> Z) l k :
  sumZ (f <$> (l ++ k)) = sumZ (f <$> l) + sumZ (f <$> k).
Proof. by rewrite fmap_app, sumZ_app. Qed.

Lemma sumZ_singleton x : sumZ [x] = x.
Proof. unfold sumZ. simpl. lia. Qed.

(** [0 + 1 + ... + (n-1)]. *)
Lemma sum_range n : 2 * sumZ (range n) = Z.of_nat n * (Z.of_nat n - 1).
Proof.
  induction n as [|n IH]; [done|].
  rewrite range_S, sumZ_app, sumZ_singleton. lia.
Qed.

(** [0 + 1 + 4 + ... + (n-1)^2]. *)
Lemma sum_sq_range n :
  6 * sumZ ((fun x => x * x) <$> range n) =
  (Z.of_nat n - 1) * Z.of_nat n * (2 * Z.of_nat n - 1).
Proof.
  induction n as [|n IH]; [done|].
  rewrite range_S, sumZ_fmap_app. simpl fmap. rewrite sumZ_singleton. lia.
Qed.

(** The denominator of the slope in closed form. *)
Lemma ols_den_closed n :
  12 * ols_den n = Z.of_nat n * Z.of_nat n * (Z.of_nat n * Z.of_nat n - 1).
Proof.
  unfold ols_den. pose proof (sum_range n). pose proof (sum_sq_range n). nia.
Qed.

(** From two points on the denominator is positive: the regression never
    divides by zero. *)
Lemma ols_den_pos n : (2 <= n)%nat -> 0 < ols_den n.
Proof. intros Hn. pose proof (ols_den_closed n). nia. Qed.

Lemma sumZ_affine a b l : sumZ ((fun x => a + b * x) <$> l) = a * len l + b * sumZ l.
Proof.
  induction l as [|x l IH]; [rewrite fmap_nil; autorewrite with vyze; lia|].
  rewrite fmap_cons. autorewrite with vyze. lia.
Qed.

Lemma sumZ_mul_affine a b l :
  sumZ ((fun x => x * (a + b * x)) <$> l) = a * sumZ l + b * sumZ ((fun x => x * x) <$> l).
Proof.
  induction l as [|x l IH]; [rewrite !fmap_nil; autorewrite with vyze; lia|].
  rewrite !fmap_cons. autorewrite with vyze. lia.
Qed.

Lemma zip_with_mul_fmap (f : Z -> Z) l :
  zip_with Z.mul l (f <$> l) = (fun x => x * f x) <$> l.
Proof. induction l as [|x l IH]; [done|]. csimpl. by rewrite IH. Qed.

(** On the points of a line [y = a + b x] the numerator is [b] times the
    denominator. *)
Lemma ols_num_affine a b n :
  ols_num ((fun x => a + b * x) <$> range n) = b * ols_den n.
Proof.
  unfold ols_num, ols_den. rewrite length_fmap, length_range.
  unfold len at 1. rewrite length_fmap, length_range.
  rewrite zip_with_mul_fmap, sumZ_mul_affine, sumZ_affine, len_range. lia.
Qed.

(** ** [predict_next_mood] unfolded *)

Lemma predict_next_mood_short ys : len ys < 3 -> predict_next_mood ys = mean ys.
Proof. intros Hn. unfold predict_next_mood. by rewrite decide_True. Qed.

(** From three values on, the prediction is the clamped, rounded value of
    the fitted line at [n]. *)
Lemma predict_next_mood_long ys :
  3 <= len ys ->
  let slope := (inject_Z (ols_num ys) / inject_Z (ols_den (length ys)))%Q in
  let intercept :=
    ((inject_Z (sumZ ys) - slope * inject_Z (sumZ (range (length ys)))) / inject_Z (len ys))%Q in
  predict_next_mood ys =
  Ok (clamp_max_min 1 10 (round1 (slope * inject_Z (len ys) + intercept))).
Proof.
  intros Hn slope intercept. unfold predict_next_mood.
  rewrite decide_False by lia.
  rewrite truediv_ok by (apply inject_Z_nonzero; pose proof (ols_den_pos (length ys)); unfold len in Hn; lia).
  cbn. rewrite truediv_ok by (apply inject_Z_nonzero; lia). reflexivity.
Qed.

Lemma fmap_const_range c n : (fun x => c + 0 * x) <$> range n = replicate n c.
Proof.
  induction n as [|n IH]; [done|].
  rewrite replicate_S_end, range_S, fmap_app, IH. f_equal. csimpl. f_equal. lia.
Qed.

(** On the points of a line the prediction is the value of the line at
    [n], clamped. *)
Lemma predict_next_mood_line a b n :
  (3 <= n)%nat ->
  exists r, predict_next_mood ((fun x => a + b * x) <$> range n) = Ok r /\
            (r == clamp_max_min 1 10 (inject_Z (a + b * Z.of_nat n)))%Q.
Proof.
  intros Hn.
  assert (len ((fun x => a + b * x) <$> range n) = Z.of_nat n) as Hlen
    by (unfold len; by rewrite length_fmap, length_range).
  eexists. split; [apply predict_next_mood_long; lia|].
  rewrite Hlen, length_fmap, length_range, ols_num_affine, sumZ_affine, len_range.
  pose proof (ols_den_pos n ltac:(lia)) as Hden.
  assert (inject_Z (b * ols_den n) / inject_Z (ols_den n) == inject_Z b)%Q as ->.
  { rewrite inject_Z_mult. field. apply inject_Z_nonzero. lia. }
  assert (inject_Z b * inject_Z (Z.of_nat n) +
          (inject_Z (a * Z.of_nat n + b * sumZ (range n)) - inject_Z b * inject_Z (sumZ (range n))) /
          inject_Z (Z.of_nat n) == inject_Z (a + b * Z.of_nat n))%Q as ->.
  { rewrite !inject_Z_plus, !inject_Z_mult. field. apply inject_Z_nonzero. lia. }
  by rewrite round1_Z.
Qed.

(** ** The variance on integers *)

Lemma scaled_sq_dev_nonneg l s n : 0 <= scaled_sq_dev l s n.
Proof.
  unfold scaled_sq_dev. induction l as [|x l IH]; [done|].
  rewrite fmap_cons, sumZ_cons. nia.
Qed.

Lemma sum_sq_dev_scaled l s n :
  n <> 0 ->
  (sum_sq_dev l (inject_Z s / inject_Z n) ==
   inject_Z (scaled_sq_dev l s n) / inject_Z (n * n))%Q.
Proof.
  intros Hn. pose proof (inject_Z_nonzero n Hn) as Hq.
  unfold sum_sq_dev, scaled_sq_dev. induction l as [|x l IH].
  - rewrite !fmap_nil, sumZ_nil, sumQ_nil. rewrite inject_Z_mult. field. done.
  - rewrite !fmap_cons, sumZ_cons, sumQ_cons, IH.
    rewrite inject_Z_plus, !inject_Z_mult.
    replace ((n * x - s) ^ 2) with ((n * x - s) * (n * x - s)) by lia.
    rewrite inject_Z_mult, inject_Z_minus, inject_Z_mult. field. done.
Qed.

(** The variance of a non-empty list is [d / n^3] for the scaled sum of
    squared deviations [d]. *)
Lemma variance_scaled l :
  l <> [] ->
  (sum_sq_dev l (inject_Z (sumZ l) / inject_Z (len l)) / inject_Z (len l) ==
   inject_Z (scaled_sq_dev l (sumZ l) (len l)) / inject_Z (len l * len l * len l))%Q.
Proof.
  intros Hne. pose proof (len_pos l Hne) as Hn.
  rewrite sum_sq_dev_scaled by lia. rewrite !inject_Z_mult.
  field. apply inject_Z_nonzero. lia.
Qed.

Lemma sqrt_lt_frac (d m b : Z) v :
  0 < m -> (v == inject_Z d / inject_Z m)%Q ->
  sqrt_lt v (inject_Z b) = bool_decide (d < b * b * m).
Proof.
  intros Hm E. unfold sqrt_lt. apply bool_decide_ext.
  rewrite E, <- inject_Z_mult. apply frac_lt_Z. done.
Qed.

(** [calculate_prediction_confidence] from five values on, on integers:
    with [d] the scaled sum of squared deviations and [n] the number of
    values, the standard deviation is below [b] when [d < b^2 n^3]. *)
Lemma calculate_prediction_confidence_long ys :
  5 <= len ys ->
  let n := len ys in
  let d := scaled_sq_dev ys (sumZ ys) n in
  calculate_prediction_confidence ys =
  Ok (if decide (d < n * n * n) then High
      else if decide (d < 4 * (n * n * n)) then Medium else Low).
Proof.
  intros Hn n d. unfold calculate_prediction_confidence.
  assert (ys <> []) as Hne by (intros ->; done).
  rewrite decide_False by lia. rewrite mean_ok by done. cbn.
  rewrite truediv_ok by (apply inject_Z_nonzero; lia). cbn.
  pose proof (variance_scaled ys Hne) as Hv. fold n d in Hv.
  change 1%Q with (inject_Z 1). change 2%Q with (inject_Z 2).
  rewrite !(sqrt_lt_frac d (n * n * n)) by (done || nia).
  repeat case_bool_decide; repeat case_decide; try done; lia.
Qed.

(** ** The mean-centred sums *)

Lemma centred_cross_sum (xs ys : list Z) (p q : Q) :
  length xs = length ys ->
  (sumQ (zip_with (fun x y => (inject_Z x - p) * (inject_Z y - q)) xs ys) ==
   inject_Z (sumZ (zip_with Z.mul xs ys)) - q * inject_Z (sumZ xs) -
   p * inject_Z (sumZ ys) + inject_Z (len xs) * p * q)%Q.
Proof.
  revert ys. induction xs as [|x xs IH]; intros [|y ys] Hlen; try done.
  - unfold sumQ, sumZ, len. simpl. ring.
  - injection Hlen as Hlen. simpl zip_with.
    rewrite sumQ_cons, !sumZ_cons, len_cons, (IH ys Hlen).
    rewrite !inject_Z_plus, inject_Z_mult. change (inject_Z 1) with 1%Q. ring.
Qed.

Lemma centred_sq_sum (xs : list Z) (p : Q) :
  (sumQ ((fun x => (inject_Z x - p) ^ 2) <$> xs) ==
   inject_Z (sumZ ((fun x : Z => (x * x)%Z) <$> xs)) - 2 * p * inject_Z (sumZ xs) +
   inject_Z (len xs) * p * p)%Q.
Proof.
  induction xs as [|x xs IH].
  - unfold sumQ, sumZ, len. simpl. ring.
  - rewrite !fmap_cons, sumQ_cons, !sumZ_cons, len_cons, IH.
    rewrite !inject_Z_plus, inject_Z_mult. change (inject_Z 1) with 1%Q. ring.
Qed.

(** The centred denominator is the raw one divided by [n]. *)
Lemma centred_den_ols n :
  (0 < n)%nat ->
  (sumQ ((fun x => (inject_Z x - inject_Z (sumZ (range n)) / inject_Z (len (range n))) ^ 2)
           <$> range n) ==
   inject_Z (ols_den n) / inject_Z (Z.of_nat n))%Q.
Proof.
  intros Hn. rewrite centred_sq_sum, len_range. unfold ols_den.
  rewrite inject_Z_minus, !inject_Z_mult. field. apply inject_Z_nonzero. lia.
Qed.

(** The centred numerator is the raw one divided by [n], when [avg] is the
    mean of the values. *)
Lemma centred_num_ols ys :
  ys <> [] ->
  (sumQ (zip_with (fun x y =>
           (inject_Z x - inject_Z (sumZ (range (length ys))) / inject_Z (len (range (length ys)))) *
           (inject_Z y - inject_Z (sumZ ys) / inject_Z (len ys)))
         (range (length ys)) ys) ==
   inject_Z (ols_num ys) / inject_Z (len ys))%Q.
Proof.
  intros Hne. pose proof (len_pos ys Hne) as Hn.
  rewrite centred_cross_sum by apply length_range.
  rewrite len_range. fold (len ys). unfold ols_num.
  rewrite inject_Z_minus, !inject_Z_mult. field. apply inject_Z_nonzero. lia.
Qed.

(** The two slope formulas agree: from two values on, the mean-centred
    slope of the weekly forecaster is the raw-sum slope of
    [predict_next_mood]. *)
Lemma centred_slope_ols ys avg :
  2 <= len ys -> mean ys = Ok avg ->
  exists s, centred_slope ys avg = Ok s /\
            (s == inject_Z (ols_num ys) / inject_Z (ols_den (length ys)))%Q.
Proof.
  intros Hn Havg. assert (ys <> []) as Hne by (intros ->; done).
  rewrite mean_ok in Havg by done. injection Havg as <-.
  assert (0 < length ys)%nat as Hl by (unfold len in Hn; lia).
  pose proof (ols_den_pos (length ys) ltac:(unfold len in Hn; lia)) as Hden.
  pose proof (centred_den_ols (length ys) Hl) as Ed.
  pose proof (centred_num_ols ys Hne) as En.
  unfold centred_slope. rewrite decide_True by lia.
  rewrite mean_ok by (intros E; apply (f_equal length) in E; rewrite length_range in E; simpl in E; lia).
  cbn. 
  assert (0 < inject_Z (ols_den (length ys)) / inject_Z (Z.of_nat (length ys)))%Q as Hpos.
  { apply Qdiv_pos_iff; apply inject_Z_pos; lia. }
  eexists. split.
  - apply truediv_ok. rewrite Ed. lra.
  - rewrite Ed, En. unfold len. field.
    split; apply inject_Z_nonzero; lia.
Qed.

(** ** The projected values *)

#[global] Instance forecast_day_proper base :
  Proper (Qeq ==> eq ==> Qeq) (forecast_day base).
Proof. intros s s' Es i i' <-. unfold forecast_day. by rewrite Es. Qed.

Lemma forecast_day_between base slope i : (1 <= forecast_day base slope i <= 10)%Q.
Proof.
  unfold forecast_day. apply (round1_between 1 10), clamp_min_max_between. done.
Qed.

(** With a zero slope every projected value is the base mood. *)
Lemma forecast_day_flat base i :
  1 <= base <= 10 -> (forecast_day base 0 i == inject_Z base)%Q.
Proof.
  intros Hb. unfold forecast_day.
  assert (inject_Z base + 0 * inject_Z (i + 1) * (1 # 10) == inject_Z base)%Q as -> by ring.
  rewrite clamp_min_max_id, round1_Z; [done|].
  change 1%Q with (inject_Z 1). change 10%Q with (inject_Z 10). rewrite <- !Zle_Qle. lia.
Qed.

Lemma weekly_values_length base slope : length (weekly_values base slope) = 7%nat.
Proof. unfold weekly_values. by rewrite length_fmap, length_range. Qed.

Lemma weekly_values_between base slope :
  Forall (fun v => 1 <= v <= 10)%Q (weekly_values base slope).
Proof.
  unfold weekly_values. apply Forall_fmap, Forall_forall. intros i _.
  apply forecast_day_between.
Qed.

Lemma weekly_values_proper base s s' :
  (s == s')%Q -> Forall2 Qeq (weekly_values base s) (weekly_values base s').
Proof.
  intros E. unfold weekly_values. apply Forall2_fmap, Forall_Forall2_diag, Forall_forall.
  intros i _. by rewrite E.
Qed.

(** The average of the seven projected values is defined and lies in
    [1, 10]. *)
Lemma weekly_average base slope :
  exists avg, truediv (sumQ (weekly_values base slope))
                      (inject_Z (len (weekly_values base slope))) = Ok avg /\
              (avg == sumQ (weekly_values base slope) / 7)%Q /\ (1 <= avg <= 10)%Q.
Proof.
  assert (len (weekly_values base slope) = 7) as Hl by (unfold len; by rewrite weekly_values_length).
  rewrite Hl. eexists. split; [by apply truediv_ok|]. split; [done|].
  pose proof (sumQ_between 1 10 _ (weekly_values_between base slope)) as Hs.
  rewrite Hl in Hs. change (inject_Z 7) with 7%Q in *.
  split; [apply Qle_shift_div_l | apply Qle_shift_div_r]; lra.
Qed.

(** ** The slope, unfolded *)

Lemma centred_slope_short ys avg : len ys <= 1 -> centred_slope ys avg = Ok 0%Q.
Proof. intros Hn. unfold centred_slope. by rewrite decide_False by lia. Qed.

(** The centred slope never divides by zero. *)
Lemma centred_slope_total ys avg : exists s, centred_slope ys avg = Ok s.
Proof.
  destruct (decide (len ys <= 1)) as [Hs|Hl]; [eexists; by apply centred_slope_short|].
  unfold centred_slope. rewrite decide_True by lia.
  assert (2 <= length ys)%nat as Hn by (unfold len in Hl; lia).
  rewrite mean_ok
    by (intros E; apply (f_equal length) in E; rewrite length_range in E; simpl in E; lia).
  pose proof (centred_den_ols (length ys) ltac:(lia)) as Ed.
  cbn. eexists. apply truediv_ok. rewrite Ed.
  pose proof (ols_den_pos (length ys) Hn).
  assert (0 < inject_Z (ols_den (length ys)) / inject_Z (Z.of_nat (length ys)))%Q
    by (apply Qdiv_pos_iff; apply inject_Z_pos; lia).
  lra.
Qed.

(** On a constant history the slope is zero. *)
Lemma centred_slope_constant n c avg :
  (0 < n)%nat -> mean (replicate n c) = Ok avg ->
  exists s, centred_slope (replicate n c) avg = Ok s /\ (s == 0)%Q.
Proof.
  intros Hn Havg. destruct (decide (n <= 1)%nat) as [Hs|Hl].
  - exists 0%Q. split; [|done]. apply centred_slope_short.
    unfold len. rewrite length_replicate. lia.
  - destruct (centred_slope_ols (replicate n c) avg) as (s & Hs & E); [|done|].
    { unfold len. rewrite length_replicate. lia. }
    exists s. split; [done|]. rewrite E, <- fmap_const_range, ols_num_affine.
    rewrite Z.mul_0_l. change (inject_Z 0) with 0%Q. unfold Qdiv. ring.
Qed.

(** ** The forecast, unfolded *)

Lemma forecast_rows_nonempty rows :
  rows <> [] ->
  exists avg slope avgp,
    mean (me_mood <$> rows) = Ok avg /\
    centred_slope (me_mood <$> rows) avg = Ok slope /\
    (avgp == sumQ (weekly_values (base_mood (me_mood <$> rows)) slope) / 7)%Q /\
    (1 <= avgp <= 10)%Q /\
    forecast_rows rows =
    Ok (mkForecast (classify_prediction avgp).1 (weekly_confidence (len (me_mood <$> rows)))
          (classify_prediction avgp).2
          (weekly_values (base_mood (me_mood <$> rows)) slope)
          (Some (round1 avgp))).
Proof.
  intros Hne. unfold forecast_rows.
  rewrite (proj2 (qs_exists_true rows) Hne). simpl negb. cbv iota zeta.
  assert (me_mood <$> rows <> []) as Hys by (by destruct rows).
  rewrite (mean_ok _ Hys). cbn.
  destruct (centred_slope_total (me_mood <$> rows)
              (inject_Z (sumZ (me_mood <$> rows)) / inject_Z (len (me_mood <$> rows)))) as [s Hs].
  rewrite Hs. cbn.
  destruct (weekly_average (base_mood (me_mood <$> rows)) s) as (avgp & Hp & Ep & Hr).
  rewrite Hp. cbn.
  eexists _, s, avgp. repeat split; try done; try apply Hr.
  by destruct (classify_prediction avgp).
Qed.

(** ** Theorems on the single-value predictor *)

(** [predict_next_mood] raises [ZeroDivisionError] on the empty list
    and only there: from three values on the regression's denominator
    [n * sum_xx - sum_x * sum_x] is positive, and below three the mean
    divides by a positive length. *)
Theorem predict_next_mood_raises ys :
  (predict_next_mood ys = Raise ZeroDivisionError <-> ys = []) /\
  (is_ok (predict_next_mood ys) = true <-> ys <> []).
Proof.
  destruct (decide (ys = [])) as [->|Hne]; [split; split; done|].
  assert (exists r, predict_next_mood ys = Ok r) as [r Hr].
  { destruct (decide (len ys < 3)).
    - rewrite predict_next_mood_short, mean_ok by done. by eexists.
    - eexists. apply predict_next_mood_long. lia. }
  rewrite Hr. split; split; done.
Qed.

(** The prediction lies in [1, 10]: always from three values on, and
    for one or two values whenever these are moods 1..10 (the short branch
    returns the plain mean, unclamped). *)
Theorem predict_next_mood_range ys r :
  3 <= len ys \/ (ys <> [] /\ all_between 1 10 ys) ->
  predict_next_mood ys = Ok r ->
  (1 <= r <= 10)%Q.
Proof.
  intros Hcase. destruct (decide (len ys < 3)) as [Hs|Hl].
  - destruct Hcase as [?|[Hne Hb]]; [lia|].
    rewrite predict_next_mood_short by done.
    destruct (mean_between 1 10 ys Hne Hb) as (m & -> & Hm). by intros [= <-].
  - rewrite predict_next_mood_long by lia. intros [= <-].
    by apply clamp_max_min_between.
Qed.

Lemma predict_next_mood_range_witness :
  predict_next_mood [1; 5; 2; 8; 3] = Ok (59 # 10) /\ (1 <= 59 # 10 <= 10)%Q.
Proof.
  split; [reflexivity|].
  apply (predict_next_mood_range [1; 5; 2; 8; 3] (59 # 10)); [left; by_compute | reflexivity].
Defined.

(** C11: least squares recovers a line.  On values [a + b * i] for
    [i = 0 .. n-1], three or more, the prediction is the next point of the
    line, [a + b * n], clamped to [1, 10]. *)
Theorem predict_next_mood_affine a b n :
  (3 <= n)%nat ->
  exists r, predict_next_mood ((fun x => a + b * x) <$> range n) = Ok r /\
            (r == clamp_max_min 1 10 (inject_Z (a + b * Z.of_nat n)))%Q.
Proof. apply predict_next_mood_line. Qed.

Lemma predict_next_mood_affine_witness :
  exists r, predict_next_mood [2; 4; 6] = Ok r /\ (r == 8)%Q.
Proof.
  destruct (predict_next_mood_affine 2 2 3) as (r & Hr & E); [lia|].
  exists r. split; [exact Hr|]. rewrite E. reflexivity.
Defined.

(** A flat history predicts itself: on [n >= 1] copies of a mood [c]
    in 1..10 the prediction is [c]. *)
Theorem predict_next_mood_constant c n :
  (0 < n)%nat -> 1 <= c <= 10 ->
  exists r, predict_next_mood (replicate n c) = Ok r /\ (r == inject_Z c)%Q.
Proof.
  intros Hn Hc. destruct (decide (n < 3)%nat) as [Hs|Hl].
  - rewrite predict_next_mood_short by (unfold len; rewrite length_replicate; lia).
    by apply mean_replicate.
  - destruct (predict_next_mood_line c 0 n) as (r & Hr & E); [lia|].
    rewrite fmap_const_range in Hr. exists r. split; [done|].
    rewrite E, clamp_max_min_id; [f_equiv; lia|].
    replace (c + 0 * Z.of_nat n) with c by lia.
    change 1%Q with (inject_Z 1). change 10%Q with (inject_Z 10).
    rewrite <- !Zle_Qle. lia.
Qed.

Lemma predict_next_mood_constant_witness :
  predict_next_mood [5; 5; 5; 5; 5] = Ok (50 # 10) /\
  exists r, predict_next_mood (replicate 5 5) = Ok r /\ (r == 5)%Q.
Proof.
  split; [reflexivity|]. apply (predict_next_mood_constant 5 5); lia.
Defined.

(** ** Theorems on the confidence *)

(** Below five data points the confidence is "Low" whatever the
    values are, and the function never raises. *)
Theorem calculate_prediction_confidence_low ys :
  (len ys < 5 -> calculate_prediction_confidence ys = Ok Low) /\
  exists c, calculate_prediction_confidence ys = Ok c.
Proof.
  destruct (decide (len ys < 5)) as [Hs|Hl].
  - assert (calculate_prediction_confidence ys = Ok Low) as E
      by (unfold calculate_prediction_confidence; by rewrite decide_True).
    split; [done | by exists Low].
  - split; [lia|]. eexists. apply calculate_prediction_confidence_long. lia.
Qed.

(** From five data points on the confidence is decided by the
    variance: with [n] values of sum [s] and [d] the sum of the
    [(n * y - s)^2], it is "High" when [d < n^3] (standard deviation below
    1), "Medium" when [d < 4 n^3] (below 2) and "Low" otherwise. *)
Theorem calculate_prediction_confidence_variance ys :
  let n := len ys in
  let d := scaled_sq_dev ys (sumZ ys) n in
  5 <= n ->
  (calculate_prediction_confidence ys = Ok High <-> d < n * n * n) /\
  (calculate_prediction_confidence ys = Ok Medium <-> n * n * n <= d < 4 * (n * n * n)) /\
  (calculate_prediction_confidence ys = Ok Low <-> 4 * (n * n * n) <= d).
Proof.
  intros n d Hn. rewrite calculate_prediction_confidence_long by done. fold n d.
  repeat case_decide; repeat split; intros; simplify_eq; lia.
Qed.

Lemma calculate_prediction_confidence_variance_witness :
  calculate_prediction_confidence [5; 6; 7; 5; 4; 6] = Ok High /\
  calculate_prediction_confidence [1; 10; 1; 10; 1] = Ok Low.
Proof.
  split.
  - apply (calculate_prediction_confidence_variance [5; 6; 7; 5; 4; 6]); by_compute.
  - apply (calculate_prediction_confidence_variance [1; 10; 1; 10; 1]); by_compute.
Defined.

(** ** Theorems on the weekly forecaster *)

(** The fortnight query returns exactly the user's entries of today and
    the fourteen calendar days before it. *)
Lemma fortnight_moods_elem db now uid e :
  e ∈ fortnight_moods db now uid <->
  e ∈ moods db /\ me_user e = uid /\
  day_of now - 14 <= day_of (me_date e) <= day_of now.
Proof.
  unfold fortnight_moods, moods_between. rewrite order_by_elem, list_elem_of_filter. tauto.
Qed.

Lemma fortnight_moods_nil db now uid :
  fortnight_moods db now uid = [] <->
  moods_between db uid (day_of now - 14) (day_of now) = [].
Proof. apply order_by_nil_iff. Qed.

(** The forecast returns, and its seven values are numbers of tenths
    between 1 and 10. *)
Lemma predict_next_week_mood_ok db now uid :
  exists f, predict_next_week_mood db now uid = Ok f /\
            Forall (fun v => (1 <= v <= 10)%Q /\ (round1 v == v)%Q) (f_weekly_forecast f).
Proof.
  unfold predict_next_week_mood.
  destruct (decide (fortnight_moods db now uid = [])) as [E|Hne].
  - rewrite E. eexists. split; [done|]. by repeat constructor.
  - destruct (forecast_rows_nonempty _ Hne) as (avg & s & avgp & _ & _ & _ & _ & ->).
    eexists. split; [done|]. cbn [f_weekly_forecast]. unfold weekly_values.
    apply Forall_fmap, Forall_forall. intros i _. split; [apply forecast_day_between|].
    apply round1_idem.
Qed.

(** [predict_next_week_mood] never raises: the mean is taken of a
    non-empty list, the centred denominator is positive from two values
    on, and the forecast has seven values. *)
Theorem predict_next_week_mood_total db now uid :
  exists f, predict_next_week_mood db now uid = Ok f.
Proof. destruct (predict_next_week_mood_ok db now uid) as (f & -> & _). by eexists. Qed.

(** Without an entry in the fortnight the forecast is the documented
    fallback: seven times 5, prediction "neutral", confidence "low". *)
Theorem predict_next_week_mood_no_data db now uid :
  moods_between db uid (day_of now - 14) (day_of now) = [] ->
  predict_next_week_mood db now uid = Ok no_data_forecast /\
  f_weekly_forecast no_data_forecast = [5; 5; 5; 5; 5; 5; 5]%Q /\
  f_confidence no_data_forecast = Low.
Proof.
  intros E. apply fortnight_moods_nil in E. unfold predict_next_week_mood. by rewrite E.
Qed.

Lemma predict_next_week_mood_no_data_witness :
  moods_between sample_db 3 (day_of sample_now - 14) (day_of sample_now) = [] /\
  predict_next_week_mood sample_db sample_now 3 = Ok no_data_forecast.
Proof.
  split; [by_compute|].
  apply (predict_next_week_mood_no_data sample_db sample_now 3). by_compute.
Defined.

(** C25: every forecast has exactly seven values, each in [1, 10], and its
    reported average, when there is one, lies in [1, 10] too, whatever the
    stored moods are. *)
Theorem predict_next_week_mood_range db now uid f :
  predict_next_week_mood db now uid = Ok f ->
  length (f_weekly_forecast f) = 7%nat /\
  Forall (fun v => 1 <= v <= 10)%Q (f_weekly_forecast f) /\
  (forall r, f_avg_predicted f = Some r -> (1 <= r <= 10)%Q).
Proof.
  unfold predict_next_week_mood.
  destruct (decide (fortnight_moods db now uid = [])) as [E|Hne].
  - rewrite E. intros [= <-]. split; [done|]. split; [|done].
    repeat constructor; done.
  - destruct (forecast_rows_nonempty _ Hne) as (avg & s & avgp & _ & _ & _ & Hr & ->).
    intros [= <-]. cbn [f_weekly_forecast f_avg_predicted].
    split; [by rewrite weekly_values_length|].
    split; [apply weekly_values_between|].
    intros r [= <-]. by apply (round1_between 1 10).
Qed.

Lemma predict_next_week_mood_range_witness :
  exists f, predict_next_week_mood sample_db sample_now 1 = Ok f /\
            f_weekly_forecast f = [81 # 10; 82 # 10; 83 # 10; 84 # 10; 85 # 10; 86 # 10; 87 # 10]%Q /\
            Forall (fun v => 1 <= v <= 10)%Q (f_weekly_forecast f).
Proof.
  eexists. split; [by_compute|]. split; [reflexivity|].
  eapply (predict_next_week_mood_range sample_db sample_now 1). by_compute.
Defined.

(** The two slope formulas agree.  When [avg] is the mean of two or
    more values, the mean-centred slope of the weekly forecaster equals the
    raw-sum slope [(n sum_xy - sum_x sum_y) / (n sum_xx - sum_x^2)] of
    [predict_next_mood]. *)
Theorem centred_slope_is_ols ys avg :
  2 <= len ys -> mean ys = Ok avg ->
  exists s, centred_slope ys avg = Ok s /\
            (s == inject_Z (ols_num ys) / inject_Z (ols_den (length ys)))%Q.
Proof. intros Hn Havg. by apply centred_slope_ols. Qed.

Lemma centred_slope_is_ols_witness :
  exists s, centred_slope [1; 5; 2; 8; 3] (19 # 5) = Ok s /\ (s == 7 # 10)%Q.
Proof.
  destruct (centred_slope_is_ols [1; 5; 2; 8; 3] (19 # 5)) as (s & Hs & E);
    [by_compute | by_compute |].
  exists s. split; [exact Hs|]. rewrite E. by_compute.
Defined.

(** The confidence of a forecast with data counts the rows of the
    fortnight: "high" from seven, "medium" from three, "low" below. *)
Theorem predict_next_week_mood_confidence db now uid f :
  let n := len (fortnight_moods db now uid) in
  0 < n ->
  predict_next_week_mood db now uid = Ok f ->
  (f_confidence f = High <-> 7 <= n) /\
  (f_confidence f = Medium <-> 3 <= n < 7) /\
  (f_confidence f = Low <-> n < 3).
Proof.
  intros n Hn. unfold predict_next_week_mood.
  destruct (forecast_rows_nonempty (fortnight_moods db now uid))
    as (avg & s & avgp & _ & _ & _ & _ & ->).
  { intros E. subst n. by rewrite E in Hn. }
  intros [= <-]. simpl. unfold weekly_confidence, len. rewrite length_fmap. fold (len (fortnight_moods db now uid)). fold n.
  repeat case_decide; repeat split; intros; simplify_eq; lia.
Qed.

Lemma predict_next_week_mood_confidence_witness :
  exists f, predict_next_week_mood sample_db sample_now 1 = Ok f /\ f_confidence f = Medium.
Proof.
  eexists. split; [by_compute|].
  apply (predict_next_week_mood_confidence sample_db sample_now 1);
    [by_compute | by_compute | by_compute].
Defined.

(** A constant history gives a flat forecast.  When every entry of
    the fortnight has the same mood [c] in 1..10, each of the seven values
    equals [c]. *)
Theorem predict_next_week_mood_constant db now uid c f :
  fortnight_moods db now uid <> [] ->
  1 <= c <= 10 ->
  Forall (fun e => me_mood e = c) (fortnight_moods db now uid) ->
  predict_next_week_mood db now uid = Ok f ->
  Forall (fun v => v == inject_Z c)%Q (f_weekly_forecast f).
Proof.
  intros Hne Hc Hall. unfold predict_next_week_mood.
  destruct (forecast_rows_nonempty _ Hne) as (avg & s & avgp & Havg & Hs & _ & _ & ->).
  intros [= <-]. simpl.
  set (rows := fortnight_moods db now uid) in *.
  assert (me_mood <$> rows = replicate (length rows) c) as Hrep.
  { clear -Hall. induction Hall as [|e l He _ IH]; [done|]. csimpl. by rewrite He, IH. }
  rewrite Hrep in *.
  assert (0 < length rows)%nat as Hlen by (destruct rows; [done | simpl; lia]).
  destruct (centred_slope_constant _ c avg Hlen Havg) as (s' & Hs' & E).
  rewrite Hs in Hs'. injection Hs' as <-.
  assert (base_mood (replicate (length rows) c) = c) as ->.
  { unfold base_mood. destruct (length rows) as [|k]; [lia|].
    by rewrite replicate_S_end, last_snoc. }
  apply Forall_forall. intros v Hv.
  pose proof (weekly_values_proper c s 0 E) as Hp.
  apply list_elem_of_lookup in Hv as [i Hi].
  destruct (Forall2_lookup_l _ _ _ _ _ Hp Hi) as (v0 & Hi0 & Ev).
  unfold weekly_values in Hi0. apply list_lookup_fmap_Some in Hi0 as (j & -> & _).
  rewrite Ev. by apply forecast_day_flat.
Qed.

Lemma predict_next_week_mood_constant_witness :
  exists f, predict_next_week_mood sample_db sample_now 2 = Ok f /\
            Forall (fun v => v == 3)%Q (f_weekly_forecast f).
Proof.
  eexists. split; [by_compute|].
  apply (predict_next_week_mood_constant sample_db sample_now 2 3);
    [by_compute | lia | by_decide | by_compute].
Defined.

(** The forecaster's window is today and the fourteen calendar days
    before it, fifteen days in all: an entry of the user is used exactly
    when its day lies in that range, and the rows are used in the order of
    their days. *)
Theorem predict_next_week_mood_window db now uid :
  (forall e, e ∈ fortnight_moods db now uid <->
             e ∈ moods db /\ me_user e = uid /\
             day_of now - 14 <= day_of (me_date e) <= day_of now) /\
  StronglySorted (key_le (fun e => day_of (me_date e))) (fortnight_moods db now uid).
Proof. split; [apply fortnight_moods_elem | apply order_by_sorted]. Qed.
