(* ===== verification/Recommend.v ===== *)
(** * Recommend: [generate_ai_recommendations]

    The rule table of [src/dashboard/views.py] that turns an average mood,
    a trend label and the user's journal count into at most five
    recommendation strings: four from the bucket of the average, two
    urgent messages inserted in front for a declining trend, a journaling
    message and a games message appended, and the first five kept. *)

From Stdlib Require Import ZArith QArith Lqa Lia.
From stdpp Require Import base decidable option list strings.
From S2P Require Import Prelude Numeric Store Trend.

(** ** Definitions *)

(** [l.insert(i, x)] for an index [i >= 0]: beyond the end it appends. *)
Definition py_insert {A} (i : nat) (x : A) (l : list A) : list A :=
  take i l ++ x :: drop i l.

(** The recommendations for an average below 4. *)
Definition support_recommendations : list string :=
  ["Consider speaking with a mental health professional";
   "Try daily gratitude journaling to shift perspective";
   "Practice deep breathing exercises for 5 minutes daily";
   "Reach out to trusted friends or family for support"].

(** The recommendations for an average from 4 and below 6. *)
Definition maintenance_recommendations : list string :=
  ["Continue with your current wellness activities";
   "Try adding mindfulness meditation to your routine";
   "Consider light exercise like walking";
   "Track your sleep patterns for better rest"].

(** The recommendations for an average from 6. *)
Definition reinforcement_recommendations : list string :=
  ["Great job maintaining positive mental health!";
   "Consider helping others by sharing your coping strategies";
   "Try advanced mindfulness techniques";
   "Continue your current healthy habits"].

(** The two messages inserted for a declining trend. *)
Definition urgent_message : string :=
  "⚠️ URGENT: Your mood trend suggests you may need additional support".

Definition provider_message : string :=
  "Consider contacting a healthcare provider soon".

(** The messages appended from the user's activity. *)
Definition journaling_message : string :=
  "Try journaling more frequently to process your emotions".

Definition games_message : string :=
  "Engage with our wellness games for stress relief".

(** The bucket of an average mood. *)
Definition bucket (avg_mood : Q) : list string :=
  if decide (avg_mood < 4)%Q then support_recommendations
  else if decide (avg_mood < 6)%Q then maintenance_recommendations
  else reinforcement_recommendations.

(** [generate_ai_recommendations(avg_mood, trend, user)]; [trend] is the
    label the caller computed. *)
Definition generate_ai_recommendations (db : DB) (avg_mood : Q) (trend : string)
    (uid : Z) : list string :=
  let recommendations := [] in
  let recommendations := recommendations ++ bucket avg_mood in
  let recommendations :=
    if decide (trend = "declining")
    then py_insert 1 provider_message (py_insert 0 urgent_message recommendations)
    else recommendations in
  let journal_count := qs_count (journals_of db uid) in
  let recommendations :=
    if decide (journal_count < 5)
    then recommendations ++ [journaling_message]
    else recommendations in
  let game_sessions := 0 in
  let recommendations :=
    if decide (game_sessions < 3)
    then recommendations ++ [games_message]
    else recommendations in
  take 5 recommendations.

(** ** Lemmas *)

Lemma py_insert_0 {A} (x : A) l : py_insert 0 x l = x :: l.
Proof. unfold py_insert. by rewrite take_0, drop_0. Qed.

Lemma py_insert_length {A} i (x : A) l : length (py_insert i x l) = S (length l).
Proof.
  unfold py_insert. rewrite length_app, length_cons, length_take, length_drop. lia.
Qed.

(** Beyond the end of the list the element is appended. *)
Lemma py_insert_ge {A} i (x : A) l : (length l <= i)%nat -> py_insert i x l = l ++ [x].
Proof. intros Hi. unfold py_insert. by rewrite take_ge, drop_ge by lia. Qed.

(** Every bucket has four recommendations. *)
Lemma bucket_length avg : length (bucket avg) = 4%nat.
Proof. unfold bucket. by repeat case_decide. Qed.

Lemma bucket_cases avg :
  exists a b c d, bucket avg = [a; b; c; d].
Proof. unfold bucket. repeat case_decide; by eexists _, _, _, _. Qed.

(** The returned list in closed form. *)
Lemma generate_ai_recommendations_closed db avg_mood trend uid :
  generate_ai_recommendations db avg_mood trend uid =
  if decide (trend = "declining")
  then urgent_message :: provider_message :: take 3 (bucket avg_mood)
  else bucket avg_mood ++
       [if decide (qs_count (journals_of db uid) < 5)
        then journaling_message else games_message].
Proof.
  unfold generate_ai_recommendations.
  destruct (bucket_cases avg_mood) as (a & b & c & d & ->).
  rewrite decide_True by lia.
  destruct (decide (trend = "declining")), (decide (qs_count (journals_of db uid) < 5));
    reflexivity.
Qed.

(** ** Theorems *)

(** C32: the list [generate_ai_recommendations] returns, in full.  For a
    declining trend it is the two urgent messages followed by the first
    three recommendations of the bucket; otherwise it is the four
    recommendations of the bucket followed by the journaling message when
    the user has fewer than five journal entries and by the games message
    when they have five or more. *)
Theorem generate_ai_recommendations_spec db avg_mood trend uid :
  let rs := generate_ai_recommendations db avg_mood trend uid in
  let journal_count := qs_count (journals_of db uid) in
  (trend = "declining" ->
   rs = urgent_message :: provider_message :: take 3 (bucket avg_mood)) /\
  (trend <> "declining" -> journal_count < 5 ->
   rs = bucket avg_mood ++ [journaling_message]) /\
  (trend <> "declining" -> 5 <= journal_count ->
   rs = bucket avg_mood ++ [games_message]).
Proof.
  cbv zeta. rewrite generate_ai_recommendations_closed.
  repeat split; intros; repeat case_decide; done || lia.
Qed.

(** The list always has exactly five entries. *)
Theorem generate_ai_recommendations_length db avg_mood trend uid :
  length (generate_ai_recommendations db avg_mood trend uid) = 5%nat.
Proof.
  rewrite generate_ai_recommendations_closed.
  destruct (decide _); simpl; rewrite ?length_app, ?length_take, bucket_length;
    simpl; lia.
Qed.

(** For a declining trend the first two entries are the urgent-support
    messages, and neither the journaling nor the games message is shown. *)
Theorem generate_ai_recommendations_declining db avg_mood uid :
  let rs := generate_ai_recommendations db avg_mood "declining" uid in
  (rs !! 0%nat) = Some urgent_message /\
  (rs !! 1%nat) = Some provider_message /\
  (journaling_message ∉ rs) /\ (games_message ∉ rs).
Proof.
  intros rs. subst rs. rewrite generate_ai_recommendations_closed.
  rewrite decide_True by done. split; [done|]. split; [done|].
  unfold bucket. repeat case_decide; split; by_decide.
Qed.

(** The bucket is chosen by the average: support below 4,
    maintenance from 4 and below 6, reinforcement from 6; for a trend that
    is not declining the four recommendations of the bucket lead the
    list. *)
Theorem generate_ai_recommendations_bucket db avg_mood trend uid :
  trend <> "declining" ->
  take 4 (generate_ai_recommendations db avg_mood trend uid) =
  if decide (avg_mood < 4)%Q then support_recommendations
  else if decide (avg_mood < 6)%Q then maintenance_recommendations
  else reinforcement_recommendations.
Proof.
  intros Ht. rewrite generate_ai_recommendations_closed, decide_False by done.
  rewrite take_app_length' by (by rewrite bucket_length). reflexivity.
Qed.

Lemma generate_ai_recommendations_bucket_witness :
  take 4 (generate_ai_recommendations sample_db (7 # 2) "stable" 1) = support_recommendations.
Proof.
  apply (generate_ai_recommendations_bucket sample_db (7 # 2) "stable" 1). by_compute.
Defined.
