(* ===== verification/Achievements.v ===== *)
(** * Achievements: [check_achievements] and the mood-logging write path

    [check_achievements] of [src/dashboard/views.py] counts the user's mood
    entries and creates the achievement "Week Warrior" from seven entries
    and "Monthly Master" from thirty, each only when the user has no
    achievement of that title yet.  [log_mood] saves a validated entry and
    runs the check.  The theorems show that the check is idempotent, that
    it establishes the achievements the count calls for, that it keeps
    "at most one achievement per user and title", and that along any
    sequence of logged moods the achievements are exactly those the count
    calls for. *)

From Stdlib Require Import ZArith Lia.
From stdpp Require Import base decidable option list strings.
From S2P Require Import Prelude Numeric Text Store.

(** ** Definitions *)

(** The condition of one rule: [mood_count >= threshold and not
    Achievement.objects.filter(user=user, title=title).exists()]. *)
Definition award_guard (db : DB) (uid mood_count threshold : Z) (title : string) : bool :=
  bool_decide (threshold <= mood_count) &&
  negb (qs_exists (achievements_titled db uid title)).

(** One rule: [if <condition>: Achievement.objects.create(...)]. *)
Definition award (db : DB) (now uid mood_count threshold : Z)
    (title description : string) (points : Z) : DB :=
  if award_guard db uid mood_count threshold title
  then create_achievement db now uid title description points
  else db.

(** [check_achievements(user)], at time [now]. *)
Definition check_achievements (db : DB) (now uid : Z) : DB :=
  let mood_count := qs_count (moods_of db uid) in
  let db := award db now uid mood_count 7 "Week Warrior" "Logged mood for 7 days!" 10 in
  let db := award db now uid mood_count 30 "Monthly Master" "Logged mood for 30 days!" 50 in
  db.

(** [MoodEntryForm.is_valid()]: the mood is one of [MOOD_CHOICES]. *)
Definition valid_mood (mood : Z) : bool := bool_decide (mood ∈ MOOD_CHOICES).

(** [log_mood(request)] for the logged-in user [uid]: a POST with a valid
    form saves the entry with the note as the form cleaned it (trimmed)
    and the selected tags, checks the achievements and redirects to the
    dashboard; every other request renders the form and leaves the store
    as it is. *)
Definition log_mood (db : DB) (now uid : Z) (method : http_method) (mood : Z)
    (note selected_tags : string) : DB * response :=
  match method with
  | POST =>
      if valid_mood mood then
        let db := create_mood db now uid mood (py_strip note) selected_tags in
        let db := check_achievements db now uid in
        (db, Redirect "patient_dashboard")
      else (db, Render "dashboard/log_mood.html")
  | GET => (db, Render "dashboard/log_mood.html")
  end.

(** [MoodEntryViewSet.perform_create] of [src/dashboard/api.py], behind the
    serializer's validation: the entry is saved for the requesting user;
    the serializer has no [tags] field, so the column takes its default. *)
Definition api_mood_create (db : DB) (now uid mood : Z) (note : string) : DB :=
  if valid_mood mood then create_mood db now uid mood note "" else db.

(** The user has an achievement with this title. *)
Definition has_achievement (db : DB) (uid : Z) (title : string) : Prop :=
  achievements_titled db uid title <> [].

#[global] Instance has_achievement_dec db uid title : Decision (has_achievement db uid title).
Proof. unfold has_achievement. apply _. Defined.

(** The uniqueness invariant: at most one achievement per user and title. *)
Definition unique_achievements (db : DB) : Prop :=
  forall uid title, (length (achievements_titled db uid title) <= 1)%nat.

(** The achievements are those the counts call for: a user has "Week
    Warrior" exactly from seven mood entries and "Monthly Master" exactly
    from thirty, and there are no other titles. *)
Definition achievements_match (db : DB) : Prop :=
  forall uid,
    (has_achievement db uid "Week Warrior" <-> 7 <= qs_count (moods_of db uid)) /\
    (has_achievement db uid "Monthly Master" <-> 30 <= qs_count (moods_of db uid)) /\
    (forall title, has_achievement db uid title ->
                   title = "Week Warrior" \/ title = "Monthly Master").

(** The stores reached from the empty one by logging moods. *)
Inductive logged_from_empty : DB -> Prop :=
| lfe_empty : logged_from_empty empty_db
| lfe_log db now uid method mood note tags :
    logged_from_empty db ->
    logged_from_empty (log_mood db now uid method mood note tags).1.

(** Stores for the examples: user 1 has logged [n] moods through the
    API, which awards nothing. *)
Definition api_logged (n : nat) : DB :=
  Nat.iter n (fun db => api_mood_create db sample_now 1 5 "") empty_db.

(** ** Lemmas *)

(** *** The writers and the queries *)

Lemma achievements_titled_create_achievement db now uid t d p u t' :
  achievements_titled (create_achievement db now uid t d p) u t' =
  achievements_titled db u t' ++
  (if decide (uid = u /\ t = t')
   then [mkAchievement (next_id (ach_id <$> achievements db)) uid t d p now] else []).
Proof.
  unfold achievements_titled, create_achievement. cbn. by rewrite filter_app.
Qed.

Lemma achievements_titled_create_mood db now uid m n tg u t :
  achievements_titled (create_mood db now uid m n tg) u t = achievements_titled db u t.
Proof. reflexivity. Qed.

Lemma qs_count_moods_create_mood db now uid m n tg u :
  qs_count (moods_of (create_mood db now uid m n tg) u) =
  qs_count (moods_of db u) + (if decide (u = uid) then 1 else 0).
Proof.
  unfold qs_count, moods_of, create_mood. cbn.
  rewrite filter_app, len_app, filter_cons, filter_nil. cbn.
  repeat case_decide; try congruence; reflexivity.
Qed.

(** *** One rule *)

Section Award.
Context (db : DB) (now uid c th : Z) (t d : string) (p : Z).

Lemma moods_of_award u : moods_of (award db now uid c th t d p) u = moods_of db u.
Proof. unfold award. by case_match. Qed.

(** A rule whose achievement is there whenever its threshold is met does
    nothing. *)
Lemma award_noop : (th <= c -> has_achievement db uid t) -> award db now uid c th t d p = db.
Proof.
  unfold award, award_guard, has_achievement. intros H.
  destruct (bool_decide_reflect (th <= c)) as [Hc|]; [|done]. cbn.
  apply H, qs_exists_true in Hc. by rewrite Hc.
Qed.

(** The rule fires when the threshold is met and the achievement is not
    there; it then adds exactly one row for its user and title. *)
Lemma award_fires :
  th <= c -> achievements_titled db uid t = [] ->
  award db now uid c th t d p = create_achievement db now uid t d p.
Proof.
  unfold award, award_guard. intros Hc He. by rewrite bool_decide_eq_true_2, He.
Qed.

Lemma award_cases :
  ((th <= c -> has_achievement db uid t) /\ award db now uid c th t d p = db) \/
  (th <= c /\ achievements_titled db uid t = [] /\
   award db now uid c th t d p = create_achievement db now uid t d p).
Proof.
  destruct (decide (th <= c -> has_achievement db uid t)) as [H|H].
  - left. split; [done|]. by apply award_noop.
  - right. unfold has_achievement in H.
    destruct (decide (th <= c)) as [Hc|]; [|tauto].
    destruct (decide (achievements_titled db uid t = [])) as [He|]; [|tauto].
    auto using award_fires.
Qed.

Lemma has_achievement_award u t' :
  has_achievement (award db now uid c th t d p) u t' <->
  has_achievement db u t' \/ (th <= c /\ u = uid /\ t' = t).
Proof.
  destruct award_cases as [[H ->]|(Hc & He & ->)].
  - split; [auto|]. intros [?|(Hc & -> & ->)]; auto.
  - unfold has_achievement. rewrite achievements_titled_create_achievement.
    case_decide as Hd.
    + destruct Hd as [-> ->]. split; [auto|]. intros _ E. by apply app_eq_nil in E as [_ ?].
    + rewrite app_nil_r. split; [auto|]. intros [?|(_ & -> & ->)]; tauto.
Qed.

Lemma length_achievements_titled_award u t' :
  (length (achievements_titled db u t') <= 1)%nat ->
  (length (achievements_titled (award db now uid c th t d p) u t') <= 1)%nat.
Proof.
  destruct award_cases as [[H ->]|(Hc & He & ->)]; [done|].
  rewrite achievements_titled_create_achievement, length_app.
  case_decide as Hd; [destruct Hd as [-> ->]; rewrite He|]; simpl; lia.
Qed.

End Award.

(** *** The rule engine *)

Lemma moods_of_check_achievements db now uid u :
  moods_of (check_achievements db now uid) u = moods_of db u.
Proof. unfold check_achievements. by rewrite !moods_of_award. Qed.

(** The achievements after a check: those there before, and for the
    checked user the ones the count calls for. *)
Lemma has_achievement_check_achievements db now uid u t :
  has_achievement (check_achievements db now uid) u t <->
  has_achievement db u t \/
  (u = uid /\ ((t = "Week Warrior" /\ 7 <= qs_count (moods_of db uid)) \/
               (t = "Monthly Master" /\ 30 <= qs_count (moods_of db uid)))).
Proof. unfold check_achievements. rewrite !has_achievement_award. tauto. Qed.

Lemma has_achievement_create_mood db now uid m n tg u t :
  has_achievement (create_mood db now uid m n tg) u t <-> has_achievement db u t.
Proof. reflexivity. Qed.

Lemma unique_achievements_check db now uid :
  unique_achievements db -> unique_achievements (check_achievements db now uid).
Proof.
  intros H u t. unfold check_achievements. by do 2 apply length_achievements_titled_award.
Qed.

Lemma unique_achievements_empty : unique_achievements empty_db.
Proof. intros u t. cbn. lia. Qed.

(** *** Logging a mood *)

Lemma log_mood_cases db now uid method mood note tags :
  (log_mood db now uid method mood note tags).1 = db \/
  (log_mood db now uid method mood note tags).1 =
    check_achievements (create_mood db now uid mood (py_strip note) tags) now uid.
Proof. unfold log_mood. destruct method, (valid_mood mood); auto. Qed.

Lemma unique_achievements_log_mood db now uid method mood note tags :
  unique_achievements db ->
  unique_achievements (log_mood db now uid method mood note tags).1.
Proof.
  intros H. destruct (log_mood_cases db now uid method mood note tags) as [->| ->]; [done|].
  by apply unique_achievements_check.
Qed.

Lemma achievements_match_check_create db now uid mood note tags :
  achievements_match db ->
  achievements_match (check_achievements (create_mood db now uid mood note tags) now uid).
Proof.
  intros H u. destruct (H u) as (Hw & Hm & Ho).
  rewrite !has_achievement_check_achievements, moods_of_check_achievements.
  setoid_rewrite has_achievement_check_achievements.
  rewrite !has_achievement_create_mood, !qs_count_moods_create_mood.
  rewrite decide_True by done. rewrite Hw, Hm.
  repeat split; try (case_decide; simplify_eq; intuition (try discriminate; lia)).
  intros t [Ht|Ht]; [by apply Ho|tauto].
Qed.

Lemma achievements_match_empty : achievements_match empty_db.
Proof.
  intros u. unfold has_achievement. cbn. unfold qs_count, len. cbn.
  repeat split; try done; lia.
Qed.

(** A store with no achievements and fewer than seven mood entries. *)
Lemma achievements_match_fresh db :
  achievements db = [] -> len (moods db) < 7 -> achievements_match db.
Proof.
  intros Ha Hm u. unfold has_achievement, achievements_titled. rewrite Ha.
  assert (qs_count (moods_of db u) < 7).
  { pose proof (length_filter (fun e => me_user e = u) (moods db)).
    unfold qs_count, moods_of, len in *. lia. }
  repeat split; try done; lia.
Qed.

Lemma award_frame db now uid c th t d p :
  users (award db now uid c th t d p) = users db /\
  assignments (award db now uid c th t d p) = assignments db /\
  moods (award db now uid c th t d p) = moods db /\
  journals (award db now uid c th t d p) = journals db /\
  doctor_notes (award db now uid c th t d p) = doctor_notes db /\
  achievements db `prefix_of` achievements (award db now uid c th t d p).
Proof.
  destruct (award_cases db now uid c th t d p) as [[_ ->]|(_ & _ & ->)]; [done|].
  repeat split. by apply prefix_app_r.
Qed.

(** ** Theorems *)

(** [check_achievements] is idempotent: run a second time, at any
    later time, on the store it produced, it changes nothing. *)
Theorem check_achievements_idempotent db now now' uid :
  check_achievements (check_achievements db now uid) now' uid =
  check_achievements db now uid.
Proof.
  set (db1 := check_achievements db now uid). unfold check_achievements at 1. cbv zeta.
  assert (forall t, t = "Week Warrior" /\ 7 <= qs_count (moods_of db1 uid) \/
                    t = "Monthly Master" /\ 30 <= qs_count (moods_of db1 uid) ->
                    has_achievement db1 uid t) as Has.
  { intros t Ht. apply has_achievement_check_achievements.
    unfold db1 in Ht. rewrite moods_of_check_achievements in Ht. auto. }
  rewrite (award_noop db1) by auto. apply award_noop; auto.
Qed.

(** What [check_achievements] awards: from seven mood entries the
    user has "Week Warrior" afterwards, from thirty "Monthly Master", and
    below seven the store is left as it is. *)
Theorem check_achievements_awards db now uid :
  let mood_count := qs_count (moods_of db uid) in
  let db' := check_achievements db now uid in
  (7 <= mood_count -> has_achievement db' uid "Week Warrior") /\
  (30 <= mood_count -> has_achievement db' uid "Monthly Master") /\
  (mood_count < 7 -> db' = db).
Proof.
  cbv zeta. rewrite !has_achievement_check_achievements. repeat split; auto 6.
  intros Hc. unfold check_achievements. rewrite !award_noop; auto; lia.
Qed.

(** [check_achievements] keeps "at most one achievement per user and
    title". *)
Theorem check_achievements_unique db now uid :
  unique_achievements db -> unique_achievements (check_achievements db now uid).
Proof. intros H. apply unique_achievements_check. exact H. Qed.

Lemma check_achievements_unique_witness :
  unique_achievements (check_achievements (api_logged 7) sample_now 1).
Proof.
  apply (check_achievements_unique (api_logged 7) sample_now 1).
  intros u t. vm_compute. lia.
Defined.

(** [check_achievements] writes only the achievement table, and only
    by appending: every other table is as before and the old achievements
    are a prefix of the new. *)
Theorem check_achievements_frame db now uid :
  let db' := check_achievements db now uid in
  users db' = users db /\ assignments db' = assignments db /\
  moods db' = moods db /\ journals db' = journals db /\
  doctor_notes db' = doctor_notes db /\
  achievements db `prefix_of` achievements db'.
Proof.
  cbv zeta. unfold check_achievements.
  destruct (award_frame db now uid (qs_count (moods_of db uid)) 7
              "Week Warrior" "Logged mood for 7 days!" 10) as (U & A & M & J & N & P).
  destruct (award_frame (award db now uid (qs_count (moods_of db uid)) 7
              "Week Warrior" "Logged mood for 7 days!" 10) now uid
              (qs_count (moods_of db uid)) 30
              "Monthly Master" "Logged mood for 30 days!" 50) as (U' & A' & M' & J' & N' & P').
  rewrite U', A', M', J', N'. repeat split; try done. by etrans.
Qed.

(** C4: in every store reached from the empty one by [log_mood] requests,
    each user has at most one achievement per title, has "Week Warrior"
    exactly when they have at least seven mood entries and "Monthly
    Master" exactly when they have at least thirty, and has no other
    achievement. *)
Theorem log_mood_invariant db :
  logged_from_empty db -> unique_achievements db /\ achievements_match db.
Proof.
  induction 1 as [|db now uid method mood note tags _ [IHu IHm]].
  - split; [apply unique_achievements_empty | apply achievements_match_empty].
  - split; [by apply unique_achievements_log_mood|].
    destruct (log_mood_cases db now uid method mood note tags) as [->| ->]; [done|].
    by apply achievements_match_check_create.
Qed.

Lemma log_mood_invariant_witness :
  unique_achievements (log_mood empty_db sample_now 1 POST 5 "" "").1 /\
  achievements_match (log_mood empty_db sample_now 1 POST 5 "" "").1.
Proof.
  apply (log_mood_invariant (log_mood empty_db sample_now 1 POST 5 "" "").1).
  apply lfe_log, lfe_empty.
Defined.

(** The REST endpoint that creates mood entries does not run the rule
    engine: when the seventh entry of a user arrives through it, the user
    has seven entries and no "Week Warrior". *)
Theorem api_mood_create_skips_check db now uid mood note :
  achievements_match db ->
  qs_count (moods_of db uid) = 6 ->
  valid_mood mood = true ->
  let db' := api_mood_create db now uid mood note in
  qs_count (moods_of db' uid) = 7 /\ ~ has_achievement db' uid "Week Warrior".
Proof.
  intros H Hc Hv. cbv zeta. unfold api_mood_create. rewrite Hv.
  rewrite qs_count_moods_create_mood, decide_True, has_achievement_create_mood by done.
  split; [lia|]. destruct (H uid) as (Hw & _). rewrite Hw. lia.
Qed.

Lemma api_mood_create_skips_check_witness :
  qs_count (moods_of (api_mood_create (api_logged 6) sample_now 1 5 "") 1) = 7 /\
  ~ has_achievement (api_mood_create (api_logged 6) sample_now 1 5 "") 1 "Week Warrior".
Proof.
  apply (api_mood_create_skips_check (api_logged 6) sample_now 1 5 "");
    [|by_compute|by_compute].
  apply achievements_match_fresh; by_compute.
Defined.

(** The check and the creation are not one atomic step: when two
    requests both evaluate the condition of a rule on the same store
    before either creates, the user ends with two achievements of the same
    title. *)
Theorem check_achievements_race db now now' uid c th t d p :
  award_guard db uid c th t = true ->
  let db1 := create_achievement db now uid t d p in
  let db2 := create_achievement db1 now' uid t d p in
  length (achievements_titled db2 uid t) = 2%nat /\ ~ unique_achievements db2.
Proof.
  intros Hg. cbv zeta. unfold award_guard in Hg.
  apply andb_true_iff in Hg as [_ He]. apply negb_true_iff, qs_exists_false in He.
  assert (length (achievements_titled
            (create_achievement (create_achievement db now uid t d p) now' uid t d p)
            uid t) = 2%nat) as E.
  { rewrite !achievements_titled_create_achievement, He, !decide_True by done. done. }
  split; [done|]. intros U. specialize (U uid t). lia.
Qed.

Lemma check_achievements_race_witness :
  length (achievements_titled
    (create_achievement
       (create_achievement (api_logged 7) sample_now 1 "Week Warrior" "Logged mood for 7 days!" 10)
       sample_now 1 "Week Warrior" "Logged mood for 7 days!" 10) 1 "Week Warrior") = 2%nat /\
  ~ unique_achievements
    (create_achievement
       (create_achievement (api_logged 7) sample_now 1 "Week Warrior" "Logged mood for 7 days!" 10)
       sample_now 1 "Week Warrior" "Logged mood for 7 days!" 10).
Proof.
  apply (check_achievements_race (api_logged 7) sample_now sample_now 1 7 7
           "Week Warrior" "Logged mood for 7 days!" 10).
  by_compute.
Defined.
