(* ===== verification/Doctor.v ===== *)
(** * Doctor: the role guards and the doctor's handlers

    The decorators [doctor_required] and [patient_required] of
    [src/accounts/decorators.py], and the handlers through which a doctor
    writes: [assign_patient] (HTML view and REST endpoint) and the creation
    of doctor notes ([add_doctor_note] of the views, [create_for_patient]
    of the API).  The theorems show that the guards run the view for the
    right role only and leave the store alone otherwise, that assignment
    keeps the pair (doctor, patient) unique and is idempotent, when it
    raises, and where the HTML views and the REST endpoints differ in what
    they authorise. *)

From Stdlib Require Import ZArith Lia Ascii String.
From stdpp Require Import base decidable option list strings.
From S2P Require Import Prelude Numeric Store Text.

(** ** Definitions *)

(** A handler: it reads and writes the store, answers, and may raise. *)
Definition handler : Type := DB -> result (DB * response).

(** What a decorator asks of the views it wraps: that an answer can be
    given at once, with the state left as it is ([return redirect(...)]
    before the view is called).  [S] is the state the view runs in and [T]
    what it returns. *)
Class Responds (S T : Type) : Type := respond : S -> response -> T.

#[global] Instance handler_responds : Responds DB (result (DB * response)) :=
  fun db r => Ok (db, r).

(** *** The decorators *)

(** [doctor_required(view_func)]; [user] is [None] for a request that is
    not authenticated. *)
Definition doctor_required {S T} `{!Responds S T} (view_func : User -> S -> T)
    (user : option User) : S -> T :=
  fun db =>
    match user with
    | None => respond db (Redirect "login")
    | Some u =>
        if decide (u_role u <> Doctor) then respond db (Redirect "patient_dashboard")
        else view_func u db
    end.

(** [patient_required(view_func)]. *)
Definition patient_required {S T} `{!Responds S T} (view_func : User -> S -> T)
    (user : option User) : S -> T :=
  fun db =>
    match user with
    | None => respond db (Redirect "login")
    | Some u =>
        if decide (u_role u <> Patient) then respond db (Redirect "doctor_dashboard")
        else view_func u db
    end.

(** [@login_required] of Django: a request without a user is sent to the
    login page; the view gets the request of a user. *)
Definition login_required {S T} `{!Responds S T} (view_func : User -> S -> T)
    (user : option User) : S -> T :=
  fun db =>
    match user with
    | None => respond db (Redirect "login")
    | Some u => view_func u db
    end.

(** [@permission_classes([permissions.IsAuthenticated])] of the REST
    framework: a request without credentials is refused before the view
    runs (with 401, or 403 under authentication classes that send no
    challenge; the settings decide). *)
Definition NOT_AUTHENTICATED : Z := 401.

Definition is_authenticated {S T} `{!Responds S T} (view_func : User -> S -> T)
    (user : option User) : S -> T :=
  fun db =>
    match user with
    | None => respond db (Response NOT_AUTHENTICATED)
    | Some u => view_func u db
    end.

(** The request a decorator hands to the decorator below it, once it has
    found the user. *)
Definition on_user {X} (view_func : option User -> X) (u : User) : X :=
  view_func (Some u).

(** *** Queries and writers *)

(** [qs.get()]. *)
Definition qs_get {A} (qs : list A) : result A :=
  match qs with
  | [] => Raise DoesNotExist
  | [x] => Ok x
  | _ => Raise MultipleObjectsReturned
  end.

(** [User.objects.filter(patient_id=patient_id, role='patient')]. *)
Definition patients_coded (db : DB) (patient_id : string) : list User :=
  filter (fun u => u_patient_id u = Some patient_id /\ u_role u = Patient) (users db).

(** [User.objects.filter(id=id, role='patient')]. *)
Definition patients_with_id (db : DB) (id : Z) : list User :=
  filter (fun u => u_id u = id /\ u_role u = Patient) (users db).

(** [DoctorPatientAssignment.objects.filter(doctor=.., patient=..,
    is_active=True)]. *)
Definition active_assignments (db : DB) (doctor patient : Z) : list DoctorPatientAssignment :=
  filter (fun a => dpa_doctor a = doctor /\ dpa_patient a = patient /\ dpa_is_active a = true)
         (assignments db).

(** The rows of a pair, active or not: what [unique_together] looks at. *)
Definition pair_assignments (db : DB) (doctor patient : Z) : list DoctorPatientAssignment :=
  filter (fun a => dpa_doctor a = doctor /\ dpa_patient a = patient) (assignments db).

(** [DoctorPatientAssignment.objects.create(doctor=.., patient=..)]: the
    store refuses a second row for the pair. *)
Definition create_assignment (db : DB) (now doctor patient : Z) : result DB :=
  if qs_exists (pair_assignments db doctor patient) then Raise IntegrityError
  else
    let row := mkAssignment (next_id (dpa_id <$> assignments db)) doctor patient now true "" in
    mret (mkDB (users db) (assignments db ++ [row]) (moods db) (journals db)
               (achievements db) (doctor_notes db)).

(** [DoctorNote.objects.create(patient=.., doctor=.., note=..,
    is_visible_to_patient=..)]. *)
Definition create_doctor_note (db : DB) (now patient doctor : Z) (note : string)
    (is_visible : bool) : DB :=
  let row := mkDoctorNote (next_id (dn_id <$> doctor_notes db)) patient doctor note now
                          is_visible in
  mkDB (users db) (assignments db) (moods db) (journals db) (achievements db)
       (doctor_notes db ++ [row]).

(** *** The handlers *)

(** The body of the HTML view [assign_patient], behind its decorators. *)
Definition assign_patient_view (now : Z) (method : http_method) (patient_id : string)
    (user : User) : handler :=
  fun db =>
    match method with
    | POST =>
        let patient_id := py_upper (py_strip patient_id) in
        match qs_get (patients_coded db patient_id) with
        | Ok patient =>
            if qs_exists (active_assignments db (u_id user) (u_id patient))
            then mret (db, Render "dashboard/assign_patient.html")
            else
              db ← create_assignment db now (u_id user) (u_id patient);
              mret (db, Render "dashboard/assign_patient.html")
        | Raise DoesNotExist => mret (db, Render "dashboard/assign_patient.html")
        | Raise e => Raise e
        end
    | GET => mret (db, Render "dashboard/assign_patient.html")
    end.

(** [assign_patient(request)] of the views. *)
Definition assign_patient (now : Z) (method : http_method) (patient_id : string) :
    option User -> handler :=
  login_required (on_user (doctor_required (assign_patient_view now method patient_id))).

(** The body of the REST endpoint [assign_patient]. *)
Definition api_assign_patient_view (now : Z) (patient_id : string) (user : User) : handler :=
  fun db =>
    let patient_id := py_upper (py_strip patient_id) in
    match qs_get (patients_coded db patient_id) with
    | Ok patient =>
        if qs_exists (active_assignments db (u_id user) (u_id patient))
        then mret (db, Response 400)
        else
          db ← create_assignment db now (u_id user) (u_id patient);
          mret (db, Response 201)
    | Raise DoesNotExist => mret (db, Response 404)
    | Raise e => Raise e
    end.

(** [assign_patient(request)] of the API. *)
Definition api_assign_patient (now : Z) (patient_id : string) : option User -> handler :=
  is_authenticated (on_user (doctor_required (api_assign_patient_view now patient_id))).

(** [get_object_or_404(User, id=patient_id, role='patient')]. *)
Definition get_object_or_404 (db : DB) (patient_id : Z) : result (option User) :=
  match qs_get (patients_with_id db patient_id) with
  | Ok patient => mret (Some patient)
  | Raise DoesNotExist => mret None
  | Raise e => Raise e
  end.

(** [request.POST[key]]: [KeyError] when the request has no such field. *)
Definition post_item {A} (field : option A) : result A :=
  match field with
  | Some v => mret v
  | None => Raise KeyError
  end.

(** The body of the HTML view [add_doctor_note]; [note] is the field of
    the request with this name, if it has one, and [is_visible] is the
    value of [request.POST.get('is_visible_to_patient', False) == 'on']. *)
Definition add_doctor_note_view (now : Z) (method : http_method) (patient_id : Z)
    (note : option string) (is_visible : bool) (user : User) : handler :=
  fun db =>
    patient ← get_object_or_404 db patient_id;
    match patient with
    | None => mret (db, Http404)
    | Some patient =>
        match method with
        | POST =>
            note ← post_item note;
            let db := create_doctor_note db now (u_id patient) (u_id user) note is_visible in
            mret (db, Redirect "patient_detail")
        | GET => mret (db, Render "dashboard/add_note.html")
        end
    end.

(** [add_doctor_note(request, patient_id)] of the views. *)
Definition add_doctor_note (now : Z) (method : http_method) (patient_id : Z)
    (note : option string) (is_visible : bool) : option User -> handler :=
  login_required (on_user (doctor_required (add_doctor_note_view now method patient_id note is_visible))).

(** [DoctorNoteViewSet.create_for_patient] of the API for an authenticated
    user; [valid] is the outcome of the serializer's validation. *)
Definition create_for_patient (now : Z) (patient_id : Z) (note : string)
    (is_visible valid : bool) (user : User) : handler :=
  fun db =>
    if decide (u_role user <> Doctor) then mret (db, Response 403)
    else
      match qs_get (patients_with_id db patient_id) with
      | Ok patient =>
          if negb (qs_exists (active_assignments db (u_id user) (u_id patient)))
          then mret (db, Response 403)
          else if valid then
            let db := create_doctor_note db now (u_id patient) (u_id user) note is_visible in
            mret (db, Response 201)
          else mret (db, Response 400)
      | Raise DoesNotExist => mret (db, Response 404)
      | Raise e => Raise e
      end.

(** [DoctorNoteViewSet.get_queryset]: the notes a user sees. *)
Definition visible_notes (db : DB) (user : User) : list DoctorNote :=
  if decide (u_role user = Doctor)
  then filter (fun n => dn_doctor n = u_id user) (doctor_notes db)
  else filter (fun n => dn_patient n = u_id user /\ dn_is_visible_to_patient n = true)
              (doctor_notes db).

(** *** Invariants *)

(** [unique_together = ['doctor', 'patient']]. *)
Definition unique_pairs (db : DB) : Prop :=
  forall doctor patient, (length (pair_assignments db doctor patient) <= 1)%nat.

(** [patient_id] is [unique=True]. *)
Definition unique_codes (db : DB) : Prop :=
  forall code, (length (filter (fun u => u_patient_id u = Some code) (users db)) <= 1)%nat.

(** No assignment has been deactivated. *)
Definition all_active (db : DB) : Prop :=
  Forall (fun a => dpa_is_active a = true) (assignments db).

(** A store for the examples: doctor 10, patient 1 with the code
    ["AB12CD34"], patient 2, and no assignment. *)
Definition dr_house : User := mkUser 10 "house" "" Doctor None None None None None 0.
Definition pat_one : User := mkUser 1 "one" "" Patient None None (Some "AB12CD34") None None 0.
Definition pat_two : User := mkUser 2 "two" "" Patient None None (Some "EF56GH78") None None 0.

Definition clinic_db : DB := mkDB [dr_house; pat_one; pat_two] [] [] [] [] [].

(** The same clinic after doctor 10 was assigned patient 1 and the
    assignment was deactivated. *)
Definition discharged_db : DB :=
  mkDB [dr_house; pat_one; pat_two] [mkAssignment 1 10 1 0 false ""] [] [] [] [].

(** ** Lemmas *)

Lemma qs_get_ok {A} (qs : list A) x : qs_get qs = Ok x <-> qs = [x].
Proof. destruct qs as [|y [|z qs]]; cbn; split; intros; by simplify_eq. Qed.

Lemma qs_get_does_not_exist {A} (qs : list A) : qs_get qs = Raise DoesNotExist <-> qs = [].
Proof. destruct qs as [|y [|z qs]]; cbn; split; intros; by simplify_eq. Qed.

Lemma qs_get_multiple {A} (qs : list A) e :
  qs_get qs = Raise e -> e <> DoesNotExist -> (2 <= length qs)%nat.
Proof. destruct qs as [|y [|z qs]]; cbn; intros; simplify_eq; lia. Qed.

(** The active rows of a pair are among its rows, and are all of them in a
    store without deactivated assignments. *)
Lemma active_assignments_pair db doctor patient :
  active_assignments db doctor patient =
  filter (fun a => dpa_is_active a = true) (pair_assignments db doctor patient).
Proof.
  unfold active_assignments, pair_assignments. rewrite list_filter_filter.
  apply list_filter_iff. tauto.
Qed.

Lemma active_assignments_all_active db doctor patient :
  all_active db -> active_assignments db doctor patient = pair_assignments db doctor patient.
Proof.
  intros H. rewrite active_assignments_pair. apply filter_all.
  unfold pair_assignments, all_active in *. rewrite Forall_forall in *.
  intros a [_ Ha]%list_elem_of_filter. auto.
Qed.

Lemma patients_coded_unique db code :
  unique_codes db -> (length (patients_coded db code) <= 1)%nat.
Proof.
  intros H. etrans; [|apply (H code)]. unfold patients_coded.
  rewrite (list_filter_iff _ (fun u => u_role u = Patient /\ u_patient_id u = Some code))
    by tauto.
  rewrite <- list_filter_filter. apply length_filter.
Qed.

Lemma create_assignment_inv db db' now doctor patient :
  create_assignment db now doctor patient = Ok db' ->
  pair_assignments db doctor patient = [] /\
  db' = mkDB (users db)
             (assignments db ++
              [mkAssignment (next_id (dpa_id <$> assignments db)) doctor patient now true ""])
             (moods db) (journals db) (achievements db) (doctor_notes db).
Proof.
  unfold create_assignment. destruct (qs_exists _) eqn:E; [done|].
  intros [= <-]. split; [by apply qs_exists_false|done].
Qed.

Section CreateAssignment.
Context (db db' : DB) (now doctor patient : Z).
Context (Hcreate : create_assignment db now doctor patient = Ok db').

Lemma create_assignment_fresh : pair_assignments db doctor patient = [].
Proof. by destruct (create_assignment_inv _ _ _ _ _ Hcreate). Qed.

Lemma create_assignment_assignments :
  assignments db' =
  assignments db ++ [mkAssignment (next_id (dpa_id <$> assignments db)) doctor patient now true ""].
Proof. by destruct (create_assignment_inv _ _ _ _ _ Hcreate) as [_ ->]. Qed.

Lemma create_assignment_frame :
  users db' = users db /\ moods db' = moods db /\ journals db' = journals db /\
  achievements db' = achievements db /\ doctor_notes db' = doctor_notes db.
Proof. by destruct (create_assignment_inv _ _ _ _ _ Hcreate) as [_ ->]. Qed.

Lemma pair_assignments_create d p :
  pair_assignments db' d p =
  pair_assignments db d p ++
  (if decide (doctor = d /\ patient = p)
   then [mkAssignment (next_id (dpa_id <$> assignments db)) doctor patient now true ""]
   else []).
Proof.
  unfold pair_assignments. rewrite create_assignment_assignments. by rewrite filter_app.
Qed.

Lemma active_assignments_create :
  active_assignments db' doctor patient <> [].
Proof.
  rewrite active_assignments_pair, pair_assignments_create, create_assignment_fresh.
  by rewrite decide_True.
Qed.

Lemma unique_pairs_create : unique_pairs db -> unique_pairs db'.
Proof.
  intros H d p. specialize (H d p). rewrite pair_assignments_create, length_app.
  case_decide as Hd; [destruct Hd as [<- <-]; rewrite create_assignment_fresh|];
    simpl; lia.
Qed.

Lemma all_active_create : all_active db -> all_active db'.
Proof.
  unfold all_active. rewrite create_assignment_assignments, Forall_app, Forall_singleton.
  by split.
Qed.

End CreateAssignment.

Lemma create_assignment_ok db now doctor patient :
  pair_assignments db doctor patient = [] -> is_ok (create_assignment db now doctor patient) = true.
Proof. intros H. unfold create_assignment. by rewrite H. Qed.

Lemma create_assignment_raises db now doctor patient :
  pair_assignments db doctor patient <> [] ->
  create_assignment db now doctor patient = Raise IntegrityError.
Proof. intros H. unfold create_assignment. apply qs_exists_true in H. by rewrite H. Qed.

(** *** The guards and the handlers *)

(** [@login_required] above a role decorator answers as the decorator does. *)
Lemma login_required_doctor {S T} `{!Responds S T} (view : User -> S -> T) user s :
  login_required (on_user (doctor_required view)) user s = doctor_required view user s.
Proof. by destruct user. Qed.

Lemma login_required_patient {S T} `{!Responds S T} (view : User -> S -> T) user s :
  login_required (on_user (patient_required view)) user s = patient_required view user s.
Proof. by destruct user. Qed.

Lemma doctor_required_doctor view u db :
  u_role u = Doctor -> doctor_required view (Some u) db = view u db.
Proof. intros H. unfold doctor_required. by rewrite decide_False by (rewrite H; auto). Qed.

Lemma doctor_required_inv view user db db' r :
  doctor_required view user db = Ok (db', r) ->
  db' = db \/ exists u, user = Some u /\ u_role u = Doctor /\ view u db = Ok (db', r).
Proof.
  unfold doctor_required. destruct user as [u|]; [|intros [= <- _]; by left].
  case_decide as Hr; [intros [= <- _]; by left|].
  right. exists u. by destruct (u_role u).
Qed.

(** The outcomes of the assignment view that return. *)
Lemma assign_patient_view_inv now method pid user db db' r :
  assign_patient_view now method pid user db = Ok (db', r) ->
  r = Render "dashboard/assign_patient.html" /\
  (db' = db \/
   exists patient,
     method = POST /\
     patients_coded db (py_upper (py_strip pid)) = [patient] /\
     create_assignment db now (u_id user) (u_id patient) = Ok db').
Proof.
  unfold assign_patient_view. destruct method; [intros [= <- <-]; auto|].
  destruct (qs_get _) as [patient|e] eqn:Eg.
  - apply qs_get_ok in Eg. destruct (qs_exists _); [intros [= <- <-]; auto|].
    destruct (create_assignment _ _ _ _) as [db1|] eqn:Ec; [|done].
    intros [= <- <-]. split; [done|]. right. by exists patient.
  - destruct e; try done. intros [= <- <-]. auto.
Qed.

(** The REST endpoint writes what the view writes on a POST. *)
Lemma api_assign_patient_view_store now pid user db :
  fst <$> api_assign_patient_view now pid user db =
  fst <$> assign_patient_view now POST pid user db.
Proof.
  unfold api_assign_patient_view, assign_patient_view.
  destruct (qs_get _) as [patient|[]]; try done.
  destruct (qs_exists _); [done|]. by destruct (create_assignment _ _ _ _).
Qed.

(** What a patient sees of the notes does not depend on the assignments:
    a visible note stays visible after its author was unassigned. *)
Lemma visible_notes_patient db user n :
  u_role user = Patient ->
  n ∈ visible_notes db user <->
  n ∈ doctor_notes db /\ dn_patient n = u_id user /\ dn_is_visible_to_patient n = true.
Proof.
  intros Hr. unfold visible_notes. rewrite decide_False by (rewrite Hr; discriminate).
  rewrite list_elem_of_filter. tauto.
Qed.

(** A doctor sees the notes they wrote, on any patient. *)
Lemma visible_notes_doctor db user n :
  u_role user = Doctor ->
  n ∈ visible_notes db user <-> n ∈ doctor_notes db /\ dn_doctor n = u_id user.
Proof.
  intros Hr. unfold visible_notes. rewrite decide_True by done.
  rewrite list_elem_of_filter. tauto.
Qed.

(** ** Theorems *)

(** A request that does not come from a doctor never reaches a view
    behind [doctor_required]: the store is left as it is and the answer is
    the redirect to the login page for an anonymous request and to the
    patient dashboard for a patient. *)
Theorem doctor_required_denies view user db :
  (forall u, user = Some u -> u_role u = Patient) ->
  doctor_required view user db =
  Ok (db, Redirect (if user is Some _ then "patient_dashboard" else "login")).
Proof.
  intros H. unfold doctor_required. destruct user as [u|]; [|done].
  rewrite decide_True; [done|]. rewrite (H u eq_refl). discriminate.
Qed.

Lemma doctor_required_denies_witness :
  doctor_required (assign_patient_view sample_now POST "AB12CD34") (Some pat_two) clinic_db =
  Ok (clinic_db, Redirect "patient_dashboard").
Proof.
  apply (doctor_required_denies (assign_patient_view sample_now POST "AB12CD34")
           (Some pat_two) clinic_db).
  intros u [= <-]. reflexivity.
Defined.

(** C16: [assign_patient] keeps the pair (doctor, patient) unique, leaves
    the users alone and deactivates nothing. *)
Theorem assign_patient_unique_pairs now method pid user db db' r :
  unique_pairs db ->
  assign_patient now method pid user db = Ok (db', r) ->
  unique_pairs db' /\ users db' = users db /\ (all_active db -> all_active db').
Proof.
  intros Hu [->|(u & _ & _ & Hv)]%doctor_required_inv; [done|].
  apply assign_patient_view_inv in Hv as [_ [->|(patient & _ & _ & Hc)]]; [done|].
  split; [by eapply unique_pairs_create|].
  split; [by eapply create_assignment_frame|by eapply all_active_create].
Qed.

Lemma assign_patient_unique_pairs_witness :
  let db' := get_or clinic_db
               (fst <$> assign_patient sample_now POST " ab12cd34 " (Some dr_house) clinic_db) in
  unique_pairs db' /\ users db' = users clinic_db /\ (all_active clinic_db -> all_active db').
Proof.
  apply (assign_patient_unique_pairs sample_now POST " ab12cd34 " (Some dr_house) clinic_db _
           (Render "dashboard/assign_patient.html")).
  - intros d p. cbn. lia.
  - by_compute.
Defined.

(** In a store whose patient codes are unique and in which no
    assignment has been deactivated, [assign_patient] never raises. *)
Theorem assign_patient_total now method pid user db :
  unique_codes db -> all_active db ->
  is_ok (assign_patient now method pid user db) = true.
Proof.
  intros Hc Ha. unfold assign_patient. rewrite login_required_doctor. unfold doctor_required.
  destruct user as [u|]; [|done]. case_decide; [done|].
  unfold assign_patient_view. destruct method; [done|].
  destruct (qs_get _) as [patient|e] eqn:Eg.
  - rewrite active_assignments_all_active by done.
    destruct (qs_exists _) eqn:Ee; [done|]. apply qs_exists_false in Ee.
    pose proof (create_assignment_ok db now (u_id u) (u_id patient) Ee).
    by destruct (create_assignment _ _ _ _).
  - destruct (decide (e = DoesNotExist)) as [->|Hne]; [done|].
    apply qs_get_multiple in Eg; [|done].
    pose proof (patients_coded_unique db (py_upper (py_strip pid)) Hc). lia.
Qed.

Lemma assign_patient_total_witness :
  is_ok (assign_patient sample_now POST " ab12cd34 " (Some dr_house) clinic_db) = true.
Proof.
  apply (assign_patient_total sample_now POST " ab12cd34 " (Some dr_house) clinic_db).
  - intros code. unfold clinic_db. cbn [users]. rewrite !filter_cons, filter_nil.
    repeat case_decide; simplify_eq/=; lia.
  - constructor.
Defined.

(** C39: assigning a patient whose assignment to the doctor was deactivated
    raises [IntegrityError]: the view looks for an active assignment only,
    and the store refuses the second row of the pair. *)
Theorem assign_patient_inactive_raises now pid user patient a db :
  u_role user = Doctor ->
  patients_coded db (py_upper (py_strip pid)) = [patient] ->
  pair_assignments db (u_id user) (u_id patient) = [a] ->
  dpa_is_active a = false ->
  assign_patient now POST pid (Some user) db = Raise IntegrityError.
Proof.
  intros Hr Hp Ha Hi. unfold assign_patient. rewrite login_required_doctor, doctor_required_doctor by done.
  unfold assign_patient_view. rewrite Hp. cbn.
  rewrite active_assignments_pair, Ha, filter_cons_False, filter_nil by (by rewrite Hi).
  cbn. rewrite create_assignment_raises; [done|]. by rewrite Ha.
Qed.

Lemma assign_patient_inactive_raises_witness :
  assign_patient sample_now POST "ab12cd34" (Some dr_house) discharged_db = Raise IntegrityError.
Proof.
  apply (assign_patient_inactive_raises sample_now "ab12cd34" dr_house pat_one
           (mkAssignment 1 10 1 0 false "") discharged_db); by_compute.
Defined.

(** A successful assignment request creates exactly one active row for
    the doctor and the patient with the given code, whatever the case and
    the surrounding blanks of the code typed in. *)
Theorem assign_patient_assigns now pid user patient db :
  u_role user = Doctor ->
  patients_coded db (py_upper (py_strip pid)) = [patient] ->
  pair_assignments db (u_id user) (u_id patient) = [] ->
  exists db',
    assign_patient now POST pid (Some user) db = Ok (db', Render "dashboard/assign_patient.html") /\
    active_assignments db' (u_id user) (u_id patient) =
      [mkAssignment (next_id (dpa_id <$> assignments db)) (u_id user) (u_id patient) now true ""].
Proof.
  intros Hr Hp Ha. unfold assign_patient. rewrite login_required_doctor, doctor_required_doctor by done.
  unfold assign_patient_view. rewrite Hp. cbn.
  rewrite active_assignments_pair, Ha. cbn.
  destruct (create_assignment db now (u_id user) (u_id patient)) as [db'|] eqn:Ec.
  - eexists. split; [done|].
    rewrite active_assignments_pair, (pair_assignments_create _ _ _ _ _ Ec), Ha.
    by rewrite decide_True.
  - pose proof (create_assignment_ok db now (u_id user) (u_id patient) Ha) as Hok.
    by rewrite Ec in Hok.
Qed.

Lemma assign_patient_assigns_witness :
  exists db',
    assign_patient sample_now POST " ab12cd34 " (Some dr_house) clinic_db =
      Ok (db', Render "dashboard/assign_patient.html") /\
    active_assignments db' 10 1 = [mkAssignment 1 10 1 sample_now true ""].
Proof.
  apply (assign_patient_assigns sample_now " ab12cd34 " dr_house pat_one clinic_db);
    by_compute.
Defined.

(** Repeating an assignment request that returned changes nothing:
    the second request finds the active assignment (or again no patient)
    and leaves the store as the first left it. *)
Theorem assign_patient_idempotent now now' method pid user db db' r :
  assign_patient now method pid user db = Ok (db', r) ->
  assign_patient now' method pid user db' = Ok (db', r).
Proof.
  intros H. unfold assign_patient in *. rewrite login_required_doctor in *.
  unfold doctor_required, respond, handler_responds in *.
  destruct user as [u|]; [|by simplify_eq]. case_decide; [by simplify_eq|].
  pose proof H as [-> Hv]%assign_patient_view_inv.
  unfold assign_patient_view, mret, result_ret in *. destruct method; [by simplify_eq|].
  destruct Hv as [->|(patient & _ & Hp & Hc)].
  - destruct (qs_get _) as [patient|[]]; try done.
    destruct (qs_exists _) eqn:Ee; [done|].
    destruct (create_assignment _ _ _ _) as [db1|] eqn:Ec; [|done].
    injection H as ->. apply create_assignment_inv in Ec as [_ Ec].
    apply (f_equal assignments) in Ec. cbn in Ec.
    apply (f_equal length) in Ec. rewrite length_app in Ec. simpl in Ec. lia.
  - unfold patients_coded in *. destruct (create_assignment_frame _ _ _ _ _ Hc) as [-> _].
    rewrite Hp. cbn. pose proof (active_assignments_create _ _ _ _ _ Hc) as Ha.
    apply qs_exists_true in Ha. by rewrite Ha.
Qed.

Lemma assign_patient_idempotent_witness :
  let db' := get_or clinic_db
               (fst <$> assign_patient sample_now POST "AB12CD34" (Some dr_house) clinic_db) in
  assign_patient (sample_now + 60) POST "AB12CD34" (Some dr_house) db' =
  Ok (db', Render "dashboard/assign_patient.html").
Proof.
  apply (assign_patient_idempotent sample_now (sample_now + 60) POST "AB12CD34"
           (Some dr_house) clinic_db).
  by_compute.
Defined.

(** The REST endpoint [assign_patient] writes exactly what the HTML
    view writes on a POST and raises when it raises; it answers 201 when it
    created the assignment, 400 when the patient was assigned already and
    404 when no patient has the code. *)
Theorem api_assign_patient_agrees now pid user db :
  fst <$> api_assign_patient now pid user db = fst <$> assign_patient now POST pid user db /\
  (u_role <$> user = Some Doctor ->
   forall db' r, api_assign_patient now pid user db = Ok (db', r) ->
     match patients_coded db (py_upper (py_strip pid)) with
     | [] => r = Response 404 /\ db' = db
     | patient :: _ =>
         if qs_exists (active_assignments db (default 0 (u_id <$> user)) (u_id patient))
         then r = Response 400 /\ db' = db
         else r = Response 201 /\ db' <> db
     end).
Proof.
  unfold api_assign_patient, assign_patient, is_authenticated, login_required, on_user,
    doctor_required. split.
  - destruct user as [u|]; [|done]. case_decide; [done|].
    apply api_assign_patient_view_store.
  - destruct user as [u|]; [|done]. cbn. intros [= Hr] db' r.
    rewrite decide_False by (rewrite Hr; auto). unfold api_assign_patient_view.
    destruct (patients_coded db _) as [|patient [|p2 ps]]; cbn; [by intros [= <- <-]| |done].
    destruct (qs_exists _); [by intros [= <- <-]|].
    destruct (create_assignment _ _ _ _) as [db1|] eqn:Ec; [|done].
    intros [= <- <-]. split; [done|]. intros ->.
    apply create_assignment_inv in Ec as [_ Ec]. apply (f_equal assignments) in Ec.
    apply (f_equal length) in Ec. cbn in Ec. rewrite length_app in Ec. simpl in Ec. lia.
Qed.

(** C40: the HTML view [add_doctor_note] lets a doctor write a note on any
    patient and raises [KeyError] for a request without a note,
    while the REST endpoint [create_for_patient] refuses with 403
    unless the doctor has an active assignment to the patient. *)
Theorem add_doctor_note_unassigned now pid note is_visible user patient db :
  u_role user = Doctor ->
  patients_with_id db pid = [patient] ->
  active_assignments db (u_id user) (u_id patient) = [] ->
  add_doctor_note now POST pid (Some note) is_visible (Some user) db =
    Ok (create_doctor_note db now (u_id patient) (u_id user) note is_visible,
        Redirect "patient_detail") /\
  add_doctor_note now POST pid None is_visible (Some user) db = Raise KeyError /\
  create_for_patient now pid note is_visible true user db = Ok (db, Response 403).
Proof.
  intros Hr Hp Ha. split_and!.
  - unfold add_doctor_note. rewrite login_required_doctor, doctor_required_doctor by done.
    unfold add_doctor_note_view, get_object_or_404. by rewrite Hp.
  - unfold add_doctor_note. rewrite login_required_doctor, doctor_required_doctor by done.
    unfold add_doctor_note_view, get_object_or_404. by rewrite Hp.
  - unfold create_for_patient. rewrite decide_False by (rewrite Hr; auto).
    rewrite Hp. cbn. by rewrite Ha.
Qed.

Lemma add_doctor_note_unassigned_witness :
  add_doctor_note sample_now POST 1 (Some "rest") true (Some dr_house) clinic_db =
    Ok (create_doctor_note clinic_db sample_now 1 10 "rest" true, Redirect "patient_detail") /\
  add_doctor_note sample_now POST 1 None true (Some dr_house) clinic_db = Raise KeyError /\
  create_for_patient sample_now 1 "rest" true true dr_house clinic_db =
    Ok (clinic_db, Response 403).
Proof.
  apply (add_doctor_note_unassigned sample_now 1 "rest" true dr_house pat_one clinic_db);
    by_compute.
Defined.
