(* ===== verification/Views.v ===== *)
(** * Views: the [ai_mood_prediction] view

    The view of [src/dashboard/views.py] that puts the analytics helpers
    together: it takes the fourteen latest mood entries of the patient and,
    from seven entries on, computes their average, the trend of the two
    halves, the recommendations, the predicted next mood and the confidence
    of the prediction.  The theorems show that the view never raises, when
    it shows a prediction, the ranges of what it shows, and that its trend
    is the reverse of the chronological one. *)

From Stdlib Require Import ZArith QArith Lqa Lia.
From stdpp Require Import base decidable option list strings sorting.
From S2P Require Import Prelude Numeric Store Trend Forecast Recommend.

(** ** Definitions *)

(** The dictionary [prediction_data]. *)
Record prediction_data : Type := mkPredictionData {
  pd_avg_mood : Q;
  pd_trend : trend;
  pd_trend_message : string;
  pd_recommendations : list string;
  pd_data_points : Z;
  pd_predicted_mood : Q;
  pd_confidence : confidence
}.

(** [MoodEntry.objects.filter(user=request.user).order_by('-date')[:14]]. *)
Definition latest_moods (db : DB) (uid : Z) : list MoodEntry :=
  take 14 (order_by_desc me_date (moods_of db uid)).

(** [ai_mood_prediction(request)] for the logged-in user: the response and
    the [prediction_data] of its context. *)
Definition ai_mood_prediction (db : DB) (user : User) :
    result (response * option prediction_data) :=
  if decide (u_role user <> Patient) then mret (Redirect "doctor_dashboard", None)
  else
    let recent_moods := latest_moods db (u_id user) in
    if decide (7 <= len recent_moods) then
      let mood_values := me_mood <$> recent_moods in
      avg_mood ← mean mood_values;
      t ← ai_trend mood_values;
      match t with
      | Some (trend, trend_message) =>
          let recommendations :=
            generate_ai_recommendations db avg_mood (trend_label trend) (u_id user) in
          predicted_mood ← predict_next_mood mood_values;
          confidence ← calculate_prediction_confidence mood_values;
          mret (Render "dashboard/ai_mood_prediction.html",
                Some (mkPredictionData (round1 avg_mood) trend trend_message recommendations
                        (len mood_values) predicted_mood confidence))
      | None => mret (Render "dashboard/ai_mood_prediction.html", None)
      end
    else mret (Render "dashboard/ai_mood_prediction.html", None).

(** A store for the examples: patient 1 has logged the moods 1 to 8, one
    a day. *)
Definition rising_db : DB :=
  foldl (fun db i => create_mood db (i * day_seconds) 1 i "" "") empty_db (seqZ 1 8).

Definition patient_one : User := mkUser 1 "one" "" Patient None None (Some "AB12CD34") None None 0.

(** ** Lemmas *)

Lemma len_latest_moods db uid :
  len (latest_moods db uid) = Z.min 14 (qs_count (moods_of db uid)).
Proof.
  unfold latest_moods, qs_count, len.
  rewrite length_take, (Permutation_length (order_by_desc_perm me_date _)). lia.
Qed.

(** From seven values on the trend test of the view returns a label. *)
Lemma ai_trend_ok ys :
  7 <= len ys -> exists t m, ai_trend ys = Ok (Some (t, m)) /\ t <> Neutral.
Proof.
  intros Hn. unfold ai_trend. rewrite decide_True by done.
  destruct (halves_nonempty ys) as [H1 H2]; [lia|].
  rewrite !mean_ok by done. cbn.
  repeat case_decide; eexists _, _; (split; [reflexivity|discriminate]).
Qed.

(** The view on a patient with seven or more entries. *)
Lemma ai_mood_prediction_data db user :
  u_role user = Patient -> 7 <= len (latest_moods db (u_id user)) ->
  let ys := me_mood <$> latest_moods db (u_id user) in
  exists t m p c,
    ai_trend ys = Ok (Some (t, m)) /\ t <> Neutral /\
    predict_next_mood ys = Ok p /\ (1 <= p <= 10)%Q /\
    calculate_prediction_confidence ys = Ok c /\
    ai_mood_prediction db user =
    Ok (Render "dashboard/ai_mood_prediction.html",
        Some (mkPredictionData
                (round1 (inject_Z (sumZ ys) / inject_Z (len ys)))
                t m
                (generate_ai_recommendations db (inject_Z (sumZ ys) / inject_Z (len ys))
                   (trend_label t) (u_id user))
                (len ys) p c)).
Proof.
  intros Hr Hn ys. unfold ai_mood_prediction.
  rewrite decide_False by (rewrite Hr; auto). rewrite decide_True by done.
  fold ys. assert (7 <= len ys) as Hy by (unfold ys; by rewrite len_fmap).
  destruct (ai_trend_ok ys Hy) as (t & m & Et & Hne).
  assert (ys <> []) as Hnil by (intros E; rewrite E in Hy; by compute in Hy).
  pose proof (predict_next_mood_long ys ltac:(lia)) as Ep. cbv zeta in Ep.
  pose proof (calculate_prediction_confidence_long ys ltac:(lia)) as Ec. cbv zeta in Ec.
  exists t, m. eexists _, _. rewrite mean_ok, Et, Ep, Ec by done.
  repeat split; try done; by apply clamp_max_min_between.
Qed.

(** ** Theorems *)

(** [ai_mood_prediction] never raises: every division it reaches is
    by the length of a list of seven values or more, or by a positive
    regression denominator. *)
Theorem ai_mood_prediction_total db user :
  is_ok (ai_mood_prediction db user) = true.
Proof.
  destruct (decide (u_role user = Patient)) as [Hr|Hr].
  - destruct (decide (7 <= len (latest_moods db (u_id user)))) as [Hn|Hn].
    + destruct (ai_mood_prediction_data db user Hr Hn) as (t & m & p & c & _ & _ & _ & _ & _ & ->).
      reflexivity.
    + unfold ai_mood_prediction. by rewrite decide_False, decide_False by (rewrite ?Hr; auto).
  - unfold ai_mood_prediction. by rewrite decide_True.
Qed.

(** A patient is shown a prediction exactly when they have seven mood
    entries or more; it is computed from the fourteen latest entries at
    most, its predicted mood lies in [1, 10], its trend is improving,
    declining or stable, and it carries five recommendations. *)
Theorem ai_mood_prediction_shows db user :
  u_role user = Patient ->
  exists data,
    ai_mood_prediction db user = Ok (Render "dashboard/ai_mood_prediction.html", data) /\
    (is_Some data <-> 7 <= qs_count (moods_of db (u_id user))) /\
    (forall d, data = Some d ->
       pd_data_points d = Z.min 14 (qs_count (moods_of db (u_id user))) /\
       (1 <= pd_predicted_mood d <= 10)%Q /\
       pd_trend d <> Neutral /\
       length (pd_recommendations d) = 5%nat).
Proof.
  intros Hr. pose proof (len_latest_moods db (u_id user)) as Hl.
  destruct (decide (7 <= len (latest_moods db (u_id user)))) as [Hn|Hn].
  - destruct (ai_mood_prediction_data db user Hr Hn) as (t & m & p & c & _ & Ht & _ & Hp & _ & ->).
    eexists. split; [reflexivity|]. split; [split; [lia|by eexists]|].
    intros d [= <-]. cbn. rewrite len_fmap.
    repeat split; try done; try apply Hp. apply generate_ai_recommendations_length.
  - exists None. unfold ai_mood_prediction.
    rewrite decide_False, decide_False by (rewrite ?Hr; auto).
    split; [done|]. split; [|done]. split; [by intros [? ?]|lia].
Qed.

Lemma ai_mood_prediction_shows_witness :
  exists data,
    ai_mood_prediction rising_db patient_one =
      Ok (Render "dashboard/ai_mood_prediction.html", data) /\
    (is_Some data <-> 7 <= qs_count (moods_of rising_db (u_id patient_one))) /\
    (forall d, data = Some d ->
       pd_data_points d = Z.min 14 (qs_count (moods_of rising_db (u_id patient_one))) /\
       (1 <= pd_predicted_mood d <= 10)%Q /\
       pd_trend d <> Neutral /\
       length (pd_recommendations d) = 5%nat).
Proof. apply (ai_mood_prediction_shows rising_db patient_one). reflexivity. Defined.

(** C3: a patient whose mood rose with every one of their latest entries
    (seven or more) is told the opposite: the view reads the entries
    newest first, so it reports the trend "declining" and puts the urgent
    warning at the head of the recommendations. *)
Theorem ai_mood_prediction_inverted db user :
  u_role user = Patient ->
  7 <= len (latest_moods db (u_id user)) ->
  StronglySorted Z.lt (reverse (me_mood <$> latest_moods db (u_id user))) ->
  exists d,
    ai_mood_prediction db user = Ok (Render "dashboard/ai_mood_prediction.html", Some d) /\
    pd_trend d = Declining /\
    pd_recommendations d !! 0%nat = Some urgent_message.
Proof.
  intros Hr Hn Hs.
  destruct (ai_mood_prediction_data db user Hr Hn) as (t & m & p & c & Et & _ & _ & _ & _ & ->).
  assert (7 <= len (reverse (me_mood <$> latest_moods db (u_id user)))) as Hn'
    by (by rewrite len_reverse, len_fmap).
  pose proof (ai_trend_increasing_reversed _ Hn' Hs) as Er.
  rewrite reverse_involutive, Et in Er. injection Er as -> ->.
  eexists. split; [reflexivity|]. split; [reflexivity|]. cbn [pd_recommendations].
  by rewrite generate_ai_recommendations_closed.
Qed.

Lemma ai_mood_prediction_inverted_witness :
  exists d,
    ai_mood_prediction rising_db patient_one =
      Ok (Render "dashboard/ai_mood_prediction.html", Some d) /\
    pd_trend d = Declining /\
    pd_recommendations d !! 0%nat = Some urgent_message.
Proof.
  apply (ai_mood_prediction_inverted rising_db patient_one); by_compute.
Defined.
