(* ===== verification/Accounts.v ===== *)
(** * Accounts: saving users and generating patient codes

    [User.save] of [src/accounts/models.py] gives every patient without a
    code a fresh one before the row is written; [generate_patient_id]
    draws UUIDs until the first eight characters, upper-cased, are a code
    no user has.  The random source is an argument: the sequence of texts
    [uuid.uuid4()] will return.  The loop takes fuel; the theorems give
    the fuel that is enough (one draw more than there are users, when the
    draws differ), show that the code returned is fresh, that saving keeps
    the codes unique, and that the code a patient was given is found again
    by the normalised lookup of [assign_patient]. *)

From Stdlib Require Import ZArith Lia Ascii String.
From stdpp Require Import base decidable option list strings.
From S2P Require Import Prelude Numeric Text Store Doctor.

(** ** Definitions *)

(** The texts [str(uuid.uuid4())] returns, draw by draw. *)
Definition uuid_source : Type := nat -> string.

(** [User.objects.filter(patient_id=patient_id)]. *)
Definition users_coded (db : DB) (patient_id : string) : list User :=
  filter (fun u => u_patient_id u = Some patient_id) (users db).

(** [str(uuid.uuid4())[:8].upper()] for draw [n]. *)
Definition draw_patient_id (draws : uuid_source) (n : nat) : string :=
  py_upper (py_prefix 8 (draws n)).

(** [generate_patient_id(self)] from draw [n] on: the code and the index
    of the next draw. *)
Fixpoint generate_patient_id (fuel : nat) (draws : uuid_source) (n : nat) (db : DB)
    : option (string * nat) :=
  match fuel with
  | O => None
  | S fuel' =>
      let patient_id := draw_patient_id draws n in
      if negb (qs_exists (users_coded db patient_id)) then Some (patient_id, S n)
      else generate_patient_id fuel' draws (S n) db
  end.

(** [not self.patient_id or self.patient_id == '']. *)
Definition missing_code (u : User) : bool :=
  match u_patient_id u with
  | None => true
  | Some s => bool_decide (s = "")
  end.

(** The user with another patient code. *)
Definition with_patient_id (u : User) (patient_id : option string) : User :=
  mkUser (u_id u) (u_username u) (u_email u) (u_role u) (u_date_of_birth u)
         (u_phone_number u) patient_id (u_specialization u) (u_license_number u)
         (u_years_experience u).

(** The user with another key. *)
Definition with_id (u : User) (id : Z) : User :=
  mkUser id (u_username u) (u_email u) (u_role u) (u_date_of_birth u)
         (u_phone_number u) (u_patient_id u) (u_specialization u) (u_license_number u)
         (u_years_experience u).

(** The rows that the unique columns [username] and [patient_id] do not
    allow beside [u]. *)
Definition conflicting (db : DB) (u : User) : list User :=
  filter (fun v => u_id v <> u_id u /\
                   (u_username v = u_username u \/
                    (is_Some (u_patient_id u) /\ u_patient_id v = u_patient_id u)))
         (users db).

(** [super().save()]: the row is updated when its key is in the table and
    inserted otherwise, with the next key for an instance that has none
    (key 0); the unique columns are enforced. *)
Definition model_save (db : DB) (u : User) : result (DB * User) :=
  if qs_exists (conflicting db u) then Raise IntegrityError
  else if qs_exists (filter (fun v => u_id v = u_id u) (users db)) then
    mret (mkDB ((fun v => if decide (u_id v = u_id u) then u else v) <$> users db)
               (assignments db) (moods db) (journals db) (achievements db)
               (doctor_notes db), u)
  else
    let u := if decide (u_id u = 0) then with_id u (next_id (u_id <$> users db)) else u in
    mret (mkDB (users db ++ [u]) (assignments db) (moods db) (journals db)
               (achievements db) (doctor_notes db), u).

(** [User.save(self)] from draw [n] on: [None] when the fuel of the
    generation loop runs out. *)
Definition user_save (fuel : nat) (draws : uuid_source) (n : nat) (db : DB) (u : User)
    : option (result (DB * User) * nat) :=
  if bool_decide (u_role u = Patient) && missing_code u then
    '(patient_id, n) ← generate_patient_id fuel draws n db;
    Some (model_save db (with_patient_id u (Some patient_id)), n)
  else Some (model_save db u, n).

(** [User.__str__]. *)
Definition user_str (u : User) : string :=
  match u_role u, u_patient_id u with
  | Patient, Some patient_id =>
      if bool_decide (patient_id = "") then u_username u
      else u_username u +:+ " (ID: " +:+ patient_id +:+ ")"
  | _, _ => u_username u
  end.

(** [UserRegistrationForm.save(commit=True)] for cleaned data that passed
    validation: a new user with the fields of the form, saved. *)
Definition registration_save (fuel : nat) (draws : uuid_source) (n : nat) (db : DB)
    (username email : string) (r : role) (date_of_birth : option Z)
    (phone_number : option string) : option (result (DB * User) * nat) :=
  let user := mkUser 0 username email r date_of_birth phone_number None None None 0 in
  user_save fuel draws n db user.

(** The [m] draws from [n] on give codes that differ. *)
Definition distinct_draws (draws : uuid_source) (n m : nat) : Prop :=
  NoDup (draw_patient_id draws <$> seq n m).

#[global] Instance distinct_draws_dec draws n m : Decision (distinct_draws draws n m).
Proof. unfold distinct_draws. apply _. Defined.

(** A source for the examples: the first two draws collide with the code
    of a patient of the clinic, the third does not. *)
Definition sample_draws : uuid_source := fun n =>
  match n with
  | 0%nat => "ab12cd34-0000-4000-8000-000000000000"
  | 1%nat => "ef56gh78-0000-4000-8000-000000000000"
  | 2%nat => "0f9e8d7c-0000-4000-8000-000000000000"
  | 3%nat => "11111111-0000-4000-8000-000000000000"
  | _ => "22222222-0000-4000-8000-000000000000"
  end.

(** The keys of the users are distinct. *)
Definition unique_ids (db : DB) : Prop := NoDup (u_id <$> users db).

(** [username] is [unique=True]. *)
Definition unique_usernames (db : DB) : Prop := NoDup (u_username <$> users db).

(** No user has the code of draw [i]. *)
Definition free (draws : uuid_source) (db : DB) (i : nat) : Prop :=
  users_coded db (draw_patient_id draws i) = [].

#[global] Instance free_dec draws db i : Decision (free draws db i).
Proof. unfold free. apply _. Defined.

(** The codes in use. *)
Definition used_codes (db : DB) : list string := omap u_patient_id (users db).

(** ** Lemmas *)

(** *** The generation loop *)

Section Generate.
Context (draws : uuid_source) (db : DB).

Lemma generate_patient_id_inv fuel n pid n' :
  generate_patient_id fuel draws n db = Some (pid, n') ->
  exists k, (k < fuel)%nat /\ n' = S (n + k) /\ pid = draw_patient_id draws (n + k) /\
            free draws db (n + k) /\ forall j, (j < k)%nat -> ~ free draws db (n + j).
Proof.
  unfold free. revert n. induction fuel as [|fuel IH]; intros n; [done|]. simpl.
  destruct (qs_exists _) eqn:E; simpl.
  - intros (k & Hk & -> & -> & Hf & Hb)%IH. exists (S k).
    rewrite <- !Nat.add_succ_comm in *. split_and!; [lia|done|done|done|].
    intros [|j] Hj; [rewrite Nat.add_0_r; by apply qs_exists_true|].
    rewrite <- Nat.add_succ_comm. apply Hb. lia.
  - intros [= <- <-]. exists 0%nat. rewrite Nat.add_0_r.
    split_and!; [lia|done|done|by apply qs_exists_false|lia].
Qed.

Lemma generate_patient_id_first fuel n k :
  (k < fuel)%nat -> free draws db (n + k) ->
  (forall j, (j < k)%nat -> ~ free draws db (n + j)) ->
  generate_patient_id fuel draws n db =
  Some (draw_patient_id draws (n + k), S (n + k)).
Proof.
  unfold free. revert n k. induction fuel as [|fuel IH]; intros n k Hk Hf Hb; [lia|]. simpl.
  destruct k as [|k].
  - rewrite Nat.add_0_r in *. apply qs_exists_false in Hf. by rewrite Hf.
  - assert (users_coded db (draw_patient_id draws n) <> []) as Hn
      by (specialize (Hb 0%nat); rewrite Nat.add_0_r in Hb; apply Hb; lia).
    apply qs_exists_true in Hn. rewrite Hn. simpl.
    rewrite <- Nat.add_succ_comm in *. apply IH; [lia|done|].
    intros j Hj. specialize (Hb (S j)). rewrite <- Nat.add_succ_comm in Hb. apply Hb. lia.
Qed.

(** The code returned is the code of the last draw made. *)
Lemma generate_patient_id_last fuel n pid n' :
  generate_patient_id fuel draws n db = Some (pid, n') ->
  pid = draw_patient_id draws (pred n').
Proof. by intros (k & _ & -> & -> & _)%generate_patient_id_inv. Qed.

(** A free draw within the fuel makes the loop return. *)
Lemma generate_patient_id_some fuel n k :
  (k < fuel)%nat -> free draws db (n + k) ->
  is_Some (generate_patient_id fuel draws n db).
Proof.
  revert fuel. induction k as [k IH] using lt_wf_ind. intros fuel Hk Hf.
  destruct (decide (Forall (fun j => ~ free draws db (n + j)) (seq 0 k))) as [Hb|Hb].
  - rewrite (generate_patient_id_first fuel n k); [done..|].
    intros j Hj. rewrite Forall_forall in Hb. apply Hb, elem_of_seq. lia.
  - apply not_Forall_Exists in Hb; [|apply _].
    apply Exists_exists in Hb as (j & Hj%elem_of_seq & Hfj).
    apply (IH j); [lia..|]. by destruct (decide (free draws db (n + j))).
Qed.

End Generate.

(** *** Counting the codes in use *)

Lemma free_used_codes draws db i :
  free draws db i <-> draw_patient_id draws i ∉ used_codes db.
Proof.
  unfold free, users_coded, used_codes. rewrite list_elem_of_omap. split.
  - intros E (u & Hu & Hc).
    assert (u ∈ filter (fun u => u_patient_id u = Some (draw_patient_id draws i)) (users db))
      as Hin by (by apply list_elem_of_filter).
    rewrite E in Hin. by apply elem_of_nil in Hin.
  - intros Hn. apply filter_none, Forall_forall. intros u Hu Hc. apply Hn. eauto.
Qed.

Lemma length_used_codes db : (length (used_codes db) <= length (users db))%nat.
Proof.
  unfold used_codes. induction (users db) as [|u l IH]; csimpl; [done|].
  destruct (u_patient_id u); csimpl; lia.
Qed.

(** Among one draw more than there are users, with codes that differ, one
    is free. *)
Lemma distinct_draws_free draws db n :
  distinct_draws draws n (S (length (users db))) ->
  exists k, (k <= length (users db))%nat /\ free draws db (n + k).
Proof.
  intros Hd.
  destruct (decide (Exists (free draws db) (seq n (S (length (users db)))))) as [He|Hn].
  - apply Exists_exists in He as (k & Hk%elem_of_seq & Hf). exists (k - n)%nat.
    split; [lia|]. by replace (n + (k - n))%nat with k by lia.
  - exfalso. apply not_Exists_Forall in Hn; [|apply _]. rewrite Forall_forall in Hn.
    assert (draw_patient_id draws <$> seq n (S (length (users db))) ⊆+ used_codes db)
      as Hsub.
    { apply NoDup_submseteq; [done|]. intros c (k & -> & Hk)%list_elem_of_fmap.
      destruct (decide (draw_patient_id draws k ∈ used_codes db)) as [|Hc]; [done|].
      apply free_used_codes in Hc. by apply Hn in Hk. }
    apply submseteq_length in Hsub. pose proof (length_used_codes db).
    rewrite length_fmap, length_seq in Hsub. lia.
Qed.

(** *** Saving a row *)

(** What [model_save] does to the table when it returns: the saved row
    [u'] stands where the row with its key stood ([old]) or at the end, and
    no other row has its key, its name or its code. *)
Definition saved_shape (db db' : DB) (u u' : User) : Prop :=
  exists l1 old l2,
    users db = l1 ++ old ++ l2 /\ users db' = l1 ++ u' :: l2 /\
    (length old <= 1)%nat /\
    Forall (fun v => u_id v <> u_id u' /\ u_username v <> u_username u' /\
                     (is_Some (u_patient_id u') -> u_patient_id v <> u_patient_id u'))
           (l1 ++ l2) /\
    u' = (if decide (u_id u = 0 /\ old = []) then with_id u (u_id u') else u).

Lemma split_row (i : Z) (l : list User) :
  NoDup (u_id <$> l) -> forall v0, v0 ∈ l -> u_id v0 = i ->
  exists l1 l2, l = l1 ++ v0 :: l2 /\ Forall (fun v => u_id v <> i) (l1 ++ l2).
Proof.
  intros Hnd v0 Hv <-. apply (NoDup_fmap_split u_id l v0 Hnd Hv).
Qed.

Lemma replace_row_fmap (u : User) l1 v0 l2 :
  u_id v0 = u_id u -> Forall (fun v => u_id v <> u_id u) (l1 ++ l2) ->
  (fun v => if decide (u_id v = u_id u) then u else v) <$> (l1 ++ v0 :: l2) = l1 ++ u :: l2.
Proof. apply fmap_replace_key. Qed.

Lemma conflicting_nil db u v :
  conflicting db u = [] -> v ∈ users db -> u_id v <> u_id u ->
  u_username v <> u_username u /\
  (is_Some (u_patient_id u) -> u_patient_id v <> u_patient_id u).
Proof.
  intros E Hv Hid. split; [intros Hn|intros Hs Hc];
    (assert (v ∈ conflicting db u) as Hin
       by (unfold conflicting; rewrite list_elem_of_filter; tauto));
    rewrite E in Hin; by apply elem_of_nil in Hin.
Qed.

Lemma model_save_shape db u db' u' :
  unique_ids db -> model_save db u = Ok (db', u') ->
  saved_shape db db' u u' /\
  assignments db' = assignments db /\ moods db' = moods db /\
  journals db' = journals db /\ achievements db' = achievements db /\
  doctor_notes db' = doctor_notes db.
Proof.
  intros Hnd. unfold model_save.
  destruct (qs_exists (conflicting db u)) eqn:Ec; [done|]. apply qs_exists_false in Ec.
  destruct (qs_exists (filter _ _)) eqn:Ee.
  - intros [= <- <-]. split; [|done].
    apply qs_exists_elem in Ee as (v0 & [Hi Hv]%list_elem_of_filter).
    destruct (split_row (u_id u) _ Hnd v0 Hv Hi) as (l1 & l2 & El & Hne).
    exists l1, [v0], l2. cbn [users]. rewrite El, replace_row_fmap by done.
    split_and!; [done|done|simpl; lia| |by rewrite decide_False by naive_solver].
    rewrite Forall_forall in Hne |- *. intros v Hv'.
    assert (v ∈ users db) as Hvu
      by (rewrite El, elem_of_app, elem_of_cons; apply elem_of_app in Hv'; tauto).
    specialize (Hne v Hv'). destruct (conflicting_nil db u v Ec Hvu Hne). done.
  - apply qs_exists_false in Ee. intros [= <- <-]. split; [|done].
    exists (users db), [], []. cbn [users]. rewrite !app_nil_r.
    assert (Forall (fun v => u_id v <> u_id u) (users db)) as Hne.
    { apply Forall_forall. intros v Hv Hi.
      assert (v ∈ filter (fun v => u_id v = u_id u) (users db)) as Hin
        by (by apply list_elem_of_filter).
      rewrite Ee in Hin. by apply elem_of_nil in Hin. }
    split_and!; [done|done|simpl; lia| |].
    + rewrite Forall_forall in Hne |- *. intros v Hv.
      destruct (conflicting_nil db u v Ec Hv (Hne v Hv)) as [Hn Hc].
      case_decide as H0; [|by split_and!; auto].
      cbn. split_and!; [|done|done].
      intros E. apply (next_id_fresh (u_id <$> users db)). rewrite <- E.
      apply list_elem_of_fmap. eauto.
    + case_decide as H0; [by rewrite decide_True|by rewrite decide_False by tauto].
Qed.

Section SavedShape.
Context (db db' : DB) (u u' : User) (Hshape : saved_shape db db' u u').

Lemma saved_shape_elem : u' ∈ users db'.
Proof.
  destruct Hshape as (l1 & old & l2 & _ & -> & _). rewrite elem_of_app, elem_of_cons. auto.
Qed.

Lemma saved_shape_unique_ids : unique_ids db -> unique_ids db'.
Proof.
  destruct Hshape as (l1 & old & l2 & E & E' & _ & Hne & _).
  unfold unique_ids. rewrite E, E', !fmap_app, fmap_cons.
  intros (H1 & H12 & H2)%NoDup_app. apply NoDup_app in H2 as (_ & _ & H2).
  apply Forall_app in Hne as [Hn1 Hn2]. rewrite Forall_forall in Hn1, Hn2.
  apply NoDup_app. split_and!; [done| |].
  - intros i Hi [->|Hi2]%elem_of_cons.
    + apply list_elem_of_fmap in Hi as (v & Ev & Hv). by destruct (Hn1 v Hv).
    + apply (H12 i Hi). rewrite elem_of_app. auto.
  - apply NoDup_cons. split; [|done].
    intros (v & Ev & Hv)%list_elem_of_fmap. by destruct (Hn2 v Hv).
Qed.

Lemma saved_shape_unique_codes : unique_codes db -> unique_codes db'.
Proof.
  destruct Hshape as (l1 & old & l2 & E & E' & _ & Hne & _).
  intros Hu c. specialize (Hu c). rewrite E in Hu. rewrite E'.
  rewrite !filter_app, !length_app in Hu. rewrite filter_app, filter_cons, length_app.
  destruct (decide (u_patient_id u' = Some c)) as [Hc|Hc]; [|simpl; lia].
  apply Forall_app in Hne as [Hn1 Hn2].
  rewrite !filter_none; [simpl; lia| |]; (eapply Forall_impl; [eassumption|]);
    intros v (_ & _ & Hv); simpl; rewrite <- Hc; apply Hv; by rewrite Hc.
Qed.

Lemma saved_shape_unique_usernames : unique_usernames db -> unique_usernames db'.
Proof.
  destruct Hshape as (l1 & old & l2 & E & E' & _ & Hne & _).
  unfold unique_usernames. rewrite E, E', !fmap_app, fmap_cons.
  intros (H1 & H12 & H2)%NoDup_app. apply NoDup_app in H2 as (_ & _ & H2).
  apply Forall_app in Hne as [Hn1 Hn2]. rewrite Forall_forall in Hn1, Hn2.
  apply NoDup_app. split_and!; [done| |].
  - intros i Hi [->|Hi2]%elem_of_cons.
    + apply list_elem_of_fmap in Hi as (v & Ev & Hv). by destruct (Hn1 v Hv) as (_ & ? & _).
    + apply (H12 i Hi). rewrite elem_of_app. auto.
  - apply NoDup_cons. split; [|done].
    intros (v & Ev & Hv)%list_elem_of_fmap. by destruct (Hn2 v Hv) as (_ & ? & _).
Qed.

(** The saved patient is the one the lookup by code finds. *)
Lemma saved_shape_patients_coded c :
  u_patient_id u' = Some c -> u_role u' = Patient -> patients_coded db' c = [u'].
Proof.
  destruct Hshape as (l1 & old & l2 & E & E' & _ & Hne & _). intros Hc Hr.
  unfold patients_coded. rewrite E', filter_app, filter_cons_True by done.
  apply Forall_app in Hne as [Hn1 Hn2].
  rewrite !filter_none; [done| |]; (eapply Forall_impl; [eassumption|]);
    intros v (_ & _ & Hv) [Hvc _]; simpl in *; apply Hv; by rewrite Hc.
Qed.

End SavedShape.

(** Giving a row of the table a code that no user has does not raise. *)
Lemma model_save_code db u code :
  unique_usernames db -> u ∈ users db -> users_coded db code = [] ->
  exists db', model_save db (with_patient_id u (Some code)) =
              Ok (db', with_patient_id u (Some code)).
Proof.
  intros Hn Hu Hc. unfold model_save.
  assert (conflicting db (with_patient_id u (Some code)) = []) as ->.
  { apply filter_none, Forall_forall. intros v Hv [Hid [Hname|[_ Hcode]]]; simpl in *.
    - apply Hid. f_equal. by apply (NoDup_fmap_elem_inj u_username (users db)).
    - assert (v ∈ users_coded db code) as Hin by (by apply list_elem_of_filter).
      rewrite Hc in Hin. by apply elem_of_nil in Hin. }
  simpl. destruct (qs_exists (filter _ _)) eqn:E; [by eexists|].
  apply qs_exists_false in E.
  assert (u ∈ filter (fun v => u_id v = u_id u) (users db)) as Hin
    by (by apply list_elem_of_filter).
  rewrite E in Hin. by apply elem_of_nil in Hin.
Qed.

(** Inserting a new user whose name and code nobody has does not raise:
    the row is appended with the next key. *)
Lemma model_save_new db u :
  Forall (fun v => u_id v <> 0) (users db) -> u_id u = 0 ->
  Forall (fun v => u_username v <> u_username u) (users db) ->
  (forall code, u_patient_id u = Some code -> users_coded db code = []) ->
  model_save db u =
  Ok (mkDB (users db ++ [with_id u (next_id (u_id <$> users db))]) (assignments db) (moods db)
           (journals db) (achievements db) (doctor_notes db),
      with_id u (next_id (u_id <$> users db))).
Proof.
  intros Hpos H0 Hname Hcode. unfold model_save.
  assert (conflicting db u = []) as ->.
  { apply filter_none, Forall_forall. intros v Hv [_ [Hn|[[c Hc] Hvc]]].
    - rewrite Forall_forall in Hname. by apply (Hname v).
    - assert (v ∈ users_coded db c) as Hin
        by (apply list_elem_of_filter; split; [congruence|done]).
      rewrite (Hcode c Hc) in Hin. by apply elem_of_nil in Hin. }
  assert (filter (fun v => u_id v = u_id u) (users db) = []) as ->.
  { apply filter_none. eapply Forall_impl; [exact Hpos|]. intros v Hv. simpl. congruence. }
  simpl. by rewrite decide_True.
Qed.

(** Saving a new user without a code: a patient is given the generated
    code, and the row is appended with the next key. *)
Lemma user_save_new fuel draws n db u code n' :
  Forall (fun v => u_id v <> 0) (users db) -> u_id u = 0 -> u_patient_id u = None ->
  Forall (fun v => u_username v <> u_username u) (users db) ->
  generate_patient_id fuel draws n db = Some (code, n') ->
  let v := if decide (u_role u = Patient) then with_patient_id u (Some code) else u in
  let u' := with_id v (next_id (u_id <$> users db)) in
  user_save fuel draws n db u =
  Some (Ok (mkDB (users db ++ [u']) (assignments db) (moods db) (journals db)
                 (achievements db) (doctor_notes db), u'),
        if decide (u_role u = Patient) then n' else n).
Proof.
  intros Hpos H0 Hnone Hname Hg v u'.
  assert (users_coded db code = []) as Hc
    by (apply generate_patient_id_inv in Hg as (? & _ & _ & -> & ? & _); done).
  unfold user_save, missing_code. rewrite Hnone. subst u' v.
  destruct (decide (u_role u = Patient)) as [Hr|Hr].
  - rewrite bool_decide_eq_true_2, Hg by done. cbn [andb mbind option_bind].
    rewrite model_save_new; [done..|]. by intros c [= <-].
  - rewrite bool_decide_eq_false_2 by done. cbn [andb].
    rewrite model_save_new; [done..|]. intros c. by rewrite Hnone.
Qed.

Lemma missing_code_with u code : code <> "" -> missing_code (with_patient_id u (Some code)) = false.
Proof. intros Hc. unfold missing_code. simpl. by apply bool_decide_eq_false. Qed.

(** A user with a code is saved as it is. *)
Lemma user_save_coded fuel draws n db u :
  missing_code u = false -> user_save fuel draws n db u = Some (model_save db u, n).
Proof. intros Hm. unfold user_save. by rewrite Hm, andb_false_r. Qed.

Lemma user_save_inv fuel draws n db u r n' :
  user_save fuel draws n db u = Some (r, n') ->
  (u_role u = Patient /\ missing_code u = true /\
   exists patient_id, generate_patient_id fuel draws n db = Some (patient_id, n') /\
                      r = model_save db (with_patient_id u (Some patient_id))) \/
  (~ (u_role u = Patient /\ missing_code u = true) /\ n' = n /\ r = model_save db u).
Proof.
  unfold user_save. destruct (bool_decide (u_role u = Patient) && missing_code u) eqn:E.
  - apply andb_true_iff in E as [Hr%bool_decide_eq_true Hm].
    destruct (generate_patient_id fuel draws n db) as [[patient_id m]|] eqn:Eg; [|done].
    simpl. intros [= <- <-]. left. eauto.
  - intros [= <- <-]. right. split; [|done]. intros [Hr Hm].
    by rewrite bool_decide_eq_true_2, Hm in E.
Qed.

(** ** Theorems *)

(** The code [generate_patient_id] returns is the code of the last
    draw it made, no user has it, and every draw before it gave a code in
    use. *)
Theorem generate_patient_id_fresh fuel draws n db patient_id n' :
  generate_patient_id fuel draws n db = Some (patient_id, n') ->
  (n < n')%nat /\
  patient_id = draw_patient_id draws (pred n') /\
  users_coded db patient_id = [] /\
  forall i, (n <= i < pred n')%nat -> users_coded db (draw_patient_id draws i) <> [].
Proof.
  intros (k & _ & -> & -> & Hf & Hb)%generate_patient_id_inv. simpl.
  split_and!; [lia|done|done|].
  intros i Hi. replace i with (n + (i - n))%nat by lia. apply Hb. lia.
Qed.

Lemma generate_patient_id_fresh_witness :
  (0 < 3)%nat /\
  "0F9E8D7C" = draw_patient_id sample_draws (pred 3) /\
  users_coded clinic_db "0F9E8D7C" = [] /\
  forall i, (0 <= i < pred 3)%nat -> users_coded clinic_db (draw_patient_id sample_draws i) <> [].
Proof.
  apply (generate_patient_id_fresh 3 sample_draws 0 clinic_db "0F9E8D7C" 3). by_compute.
Defined.

(** C19: when one draw more than there are users give codes that differ,
    [generate_patient_id] returns within these draws. *)
Theorem generate_patient_id_terminates draws n db :
  distinct_draws draws n (S (length (users db))) ->
  is_Some (generate_patient_id (S (length (users db))) draws n db).
Proof.
  intros (k & Hk & Hf)%(distinct_draws_free draws db n).
  apply (generate_patient_id_some draws db _ n k); [lia|done].
Qed.

Lemma generate_patient_id_terminates_witness :
  is_Some (generate_patient_id (S (length (users clinic_db))) sample_draws 0 clinic_db).
Proof.
  apply (generate_patient_id_terminates sample_draws 0 clinic_db). by_decide.
Defined.

(** [generate_patient_id] returns, given enough fuel, exactly when
    some draw from [n] on gives a code that no user has; when every draw
    collides it does not return with any fuel. *)
Theorem generate_patient_id_eventually draws n db :
  (exists fuel, is_Some (generate_patient_id fuel draws n db)) <->
  (exists i, (n <= i)%nat /\ free draws db i).
Proof.
  split.
  - intros (fuel & [[pid n'] (k & _ & _ & _ & Hf & _)%generate_patient_id_inv]).
    exists (n + k)%nat. split; [lia|done].
  - intros (i & Hi & Hf). exists (S (i - n)).
    apply (generate_patient_id_some draws db _ n (i - n)); [lia|].
    by replace (n + (i - n))%nat with i by lia.
Qed.

(** [User.save] keeps the keys and the patient codes of the users
    unique, puts the saved row in the table and touches no other table. *)
Theorem user_save_invariant fuel draws n db u db' u' n' :
  unique_ids db -> unique_codes db ->
  user_save fuel draws n db u = Some (Ok (db', u'), n') ->
  unique_ids db' /\ unique_codes db' /\ u' ∈ users db' /\
  assignments db' = assignments db /\ moods db' = moods db /\
  journals db' = journals db /\ achievements db' = achievements db /\
  doctor_notes db' = doctor_notes db.
Proof.
  intros Hi Hc Hs.
  assert (exists v, model_save db v = Ok (db', u')) as [v Hv].
  { apply user_save_inv in Hs as [(_ & _ & pid & _ & E)|(_ & _ & E)]; eauto. }
  destruct (model_save_shape db v db' u' Hi Hv) as (Hsh & ?).
  split_and!; try tauto.
  - by eapply saved_shape_unique_ids.
  - by eapply saved_shape_unique_codes.
  - by eapply saved_shape_elem.
Qed.

Lemma user_save_invariant_witness :
  let r := user_save 3 sample_draws 0 clinic_db
             (mkUser 0 "three" "" Patient None None None None None 0) in
  exists db' u' n',
    r = Some (Ok (db', u'), n') /\
    unique_ids db' /\ unique_codes db' /\ u' ∈ users db' /\
    assignments db' = assignments clinic_db /\ moods db' = moods clinic_db /\
    journals db' = journals clinic_db /\ achievements db' = achievements clinic_db /\
    doctor_notes db' = doctor_notes clinic_db.
Proof.
  eexists _, _, _. split; [by_compute|].
  eapply (user_save_invariant 3 sample_draws 0 clinic_db
            (mkUser 0 "three" "" Patient None None None None None 0)).
  - by_decide.
  - intros code. unfold clinic_db. cbn [users]. rewrite !filter_cons, filter_nil.
    repeat case_decide; simplify_eq/=; lia.
  - by_compute.
Defined.

(** The code a patient is given on saving is in normal form, and the
    lookup of [assign_patient] by that code, however it is typed in, finds
    the patient and nobody else. *)
Theorem user_save_code_found fuel draws n db u db' u' n' typed :
  unique_ids db ->
  u_role u = Patient -> missing_code u = true ->
  user_save fuel draws n db u = Some (Ok (db', u'), n') ->
  no_space (list_ascii_of_string (draws (pred n'))) ->
  exists code,
    u_patient_id u' = Some code /\ normalise code = code /\
    (normalise typed = code ->
     qs_get (patients_coded db' (py_upper (py_strip typed))) = Ok u').
Proof.
  intros Hi Hr Hm Hs Hns.
  apply user_save_inv in Hs as [(_ & _ & pid & Hg & E)|([] & _)]; [|done].
  symmetry in E. destruct (model_save_shape db _ db' u' Hi E) as (Hsh & _).
  apply generate_patient_id_last in Hg as ->.
  assert (u_patient_id u' = Some (draw_patient_id draws (pred n')) /\ u_role u' = Patient)
    as [Hc Hr'].
  { destruct Hsh as (l1 & old & l2 & _ & _ & _ & _ & Eu). rewrite Eu. by case_decide. }
  eexists. split; [exact Hc|]. split.
  - apply normalise_fixed; unfold draw_patient_id; [|apply py_upper_upper_chars].
    rewrite py_upper_chars, py_prefix_chars. by apply no_space_upper, no_space_take.
  - intros Ht. unfold normalise in Ht. rewrite Ht.
    by rewrite (saved_shape_patients_coded db db' _ u' Hsh).
Qed.

Lemma user_save_code_found_witness :
  exists code,
    u_patient_id (mkUser 11 "three" "" Patient None None (Some "0F9E8D7C") None None 0) =
      Some code /\
    normalise code = code /\
    (normalise " 0f9e8d7c " = code ->
     qs_get (patients_coded
               (mkDB (users clinic_db ++
                      [mkUser 11 "three" "" Patient None None (Some "0F9E8D7C") None None 0])
                     [] [] [] [] [])
               (py_upper (py_strip " 0f9e8d7c "))) =
     Ok (mkUser 11 "three" "" Patient None None (Some "0F9E8D7C") None None 0)).
Proof.
  apply (user_save_code_found 3 sample_draws 0 clinic_db
           (mkUser 0 "three" "" Patient None None None None None 0) _ _ 3 " 0f9e8d7c ");
    [by_decide|reflexivity|reflexivity|by_compute|by_decide].
Defined.
