(* ===== verification/Dashboard.v ===== *)
(** * Dashboard: the pages that show a patient's data

    The reading views of [src/dashboard/views.py] ([patient_dashboard],
    [doctor_dashboard], [patient_detail], [progress_analytics]) and the
    REST endpoints of [src/dashboard/api.py] that return the same data
    ([dashboard_stats], [assigned_patients], [patient_details]).  A page
    is the response and the context it renders.  [patient_dashboard] is the
    one view here that writes: it gives a patient without a code a fresh
    one.  The pages of fixed content ([mini_games], [breathing_exercise],
    [positive_quotes], [crisis_support], [emergency_contacts]) are here
    too.  The theorems show what a page shows and to whom: that the
    statistics are consistent with the table, that a doctor's dashboard
    shows entries of assigned patients only while [patient_detail] shows
    any patient, and that the endpoints return what the pages show. *)

From Stdlib Require Import ZArith QArith Lia Ascii String.
From stdpp Require Import base decidable option list sorting strings.
From S2P Require Import Prelude Numeric Text Store Streak Trend Forecast Aggregate Doctor Accounts.

(** ** Definitions *)

(** A page: the response, and the context when a template is rendered (or
    the data of a REST response). *)
Definition page (C : Type) : Type := result (response * option C).

#[global] Instance page_responds C : Responds DB (page C) :=
  fun _ r => Ok (r, None).

(** A page of a view that may write and draws random values: the state is
    the store and the index of the next draw; [None] when the fuel of a
    loop ran out. *)
Definition writing_page (C : Type) : Type :=
  option (result (DB * nat * response * option C)).

#[global] Instance writing_page_responds C : Responds (DB * nat) (writing_page C) :=
  fun s r => Some (Ok (s, r, None)).

(** *** Queries *)

(** [Journal.objects.filter(user=.., date__date__gte=d1, date__date__lte=d2)]. *)
Definition journals_between (db : DB) (uid d1 d2 : Z) : list Journal :=
  filter (fun j => j_user j = uid /\ d1 <= day_of (j_date j) /\ day_of (j_date j) <= d2)
         (journals db).

(** [Achievement.objects.filter(user=user)]. *)
Definition achievements_of (db : DB) (uid : Z) : list Achievement :=
  filter (fun a => ach_user a = uid) (achievements db).

(** [DoctorNote.objects.filter(patient=user, is_visible_to_patient=True)]. *)
Definition notes_for (db : DB) (uid : Z) : list DoctorNote :=
  filter (fun n => dn_patient n = uid /\ dn_is_visible_to_patient n = true) (doctor_notes db).

(** [User.objects.filter(assigned_patients__patient=user,
    assigned_patients__is_active=True).distinct()]: the users that are the
    doctor of an active assignment of the patient, each once. *)
Definition assigned_doctors (db : DB) (patient : Z) : list User :=
  filter (fun u => active_assignments db (u_id u) patient <> []) (users db).

(** [User.objects.filter(assigned_doctors__doctor=user,
    assigned_doctors__is_active=True).distinct()]. *)
Definition assigned_patients (db : DB) (doctor : Z) : list User :=
  filter (fun u => active_assignments db doctor (u_id u) <> []) (users db).

(** [MoodEntry.objects.filter(user__in=patients)]. *)
Definition moods_in (db : DB) (patients : list User) : list MoodEntry :=
  filter (fun e => me_user e ∈ u_id <$> patients) (moods db).

(** *** The patient's dashboard *)

Record patient_context : Type := mkPatientContext {
  pc_recent_moods : list MoodEntry;
  pc_streak : option Z;
  pc_achievements : list Achievement;
  pc_recent_journals : list Journal;
  pc_doctor_notes : list DoctorNote;
  pc_assigned_doctors : list User;
  pc_patient_id : option string;
  pc_mood_analysis : analysis
}.

(** The context of [patient_dashboard], for the user as saved. *)
Definition patient_dashboard_context (now : Z) (user : User) (db : DB)
    : result patient_context :=
  let recent_moods := take 7 (order_by_desc me_date (moods_of db (u_id user))) in
  let streak := calculate_streak db now (u_id user) in
  let achievements := achievements_of db (u_id user) in
  let recent_journals := take 5 (order_by_desc j_date (journals_of db (u_id user))) in
  let doctor_notes := take 5 (order_by_desc dn_date (notes_for db (u_id user))) in
  let assigned_doctors := assigned_doctors db (u_id user) in
  mood_analysis ← analyze_mood_trends db now (u_id user);
  mret (mkPatientContext recent_moods streak achievements recent_journals doctor_notes
          assigned_doctors (u_patient_id user) mood_analysis).

(** The body of [patient_dashboard]: a user without a code is given one
    and saved, then the page is rendered. *)
Definition patient_dashboard_view (fuel : nat) (draws : uuid_source) (now : Z) (user : User)
    : DB * nat -> writing_page patient_context :=
  fun '(db, n) =>
    '(saved, n) ←
      (if missing_code user then
         '(patient_id, n) ← generate_patient_id fuel draws n db;
         user_save fuel draws n db (with_patient_id user (Some patient_id))
       else Some (Ok (db, user), n));
    Some ('(db, user) ← saved;
          context ← patient_dashboard_context now user db;
          mret (db, n, Render "dashboard/patient_dashboard.html", Some context)).

(** [patient_dashboard(request)]. *)
Definition patient_dashboard (fuel : nat) (draws : uuid_source) (now : Z)
    : option User -> DB * nat -> writing_page patient_context :=
  login_required (on_user (patient_required (patient_dashboard_view fuel draws now))).

(** *** The doctor's dashboard *)

Record doctor_context : Type := mkDoctorContext {
  dc_patients : list User;
  dc_recent_entries : list MoodEntry
}.

(** The body of [doctor_dashboard]. *)
Definition doctor_dashboard_view (user : User) : DB -> page doctor_context :=
  fun db =>
    let assigned_patients := assigned_patients db (u_id user) in
    let recent_entries := take 20 (order_by_desc me_date (moods_in db assigned_patients)) in
    mret (Render "dashboard/doctor_dashboard.html",
          Some (mkDoctorContext assigned_patients recent_entries)).

(** [doctor_dashboard(request)]. *)
Definition doctor_dashboard : option User -> DB -> page doctor_context :=
  login_required (on_user (doctor_required doctor_dashboard_view)).

(** [assigned_patients(request)] of the REST API. *)
Definition api_assigned_patients : option User -> DB -> page (list User) :=
  is_authenticated (on_user (doctor_required (fun user db =>
    let patients := assigned_patients db (u_id user) in
    mret (Response 200, Some patients)))).

(** *** A patient's figures *)

(** The dictionary [stats] (or [patient_stats]) of a page. *)
Record patient_stats : Type := mkPatientStats {
  ps_total_moods : Z;
  ps_total_journals : Z;
  ps_avg_mood : Q;
  ps_avg_mood_percentage : Z;
  ps_current_streak : option Z
}.

(** What [patient_detail] and the endpoint [patient_details] show. *)
Record detail_context : Type := mkDetailContext {
  dt_patient : User;
  dt_mood_entries : list MoodEntry;
  dt_journals : list Journal;
  dt_mood_trend : list avg_row;
  dt_mood_distribution : list (Z * Z);
  dt_patient_stats : patient_stats
}.

(** The body of [patient_detail]. *)
Definition patient_detail_view (now : Z) (patient_id : Z) (user : User)
    : DB -> page detail_context :=
  fun db =>
    found ← get_object_or_404 db patient_id;
    match found with
    | None => mret (Http404, None)
    | Some patient =>
        let mood_entries := order_by_desc me_date (moods_of db (u_id patient)) in
        let journals := order_by_desc j_date (journals_of db (u_id patient)) in
        let end_date := day_of now in
        let start_date := end_date - 30 in
        let mood_trend :=
          avg_count_by (fun e => day_of (me_date e)) me_mood
                       (moods_between db (u_id patient) start_date end_date) in
        let total_moods := qs_count mood_entries in
        let total_journals := qs_count journals in
        let avg_mood := round_avg_or_zero (aggregate_avg me_mood (moods_of db (u_id patient))) in
        let current_streak := calculate_streak db now (u_id patient) in
        let mood_distribution := count_by me_mood (moods_of db (u_id patient)) in
        mret (Render "dashboard/patient_detail.html",
              Some (mkDetailContext patient mood_entries journals mood_trend mood_distribution
                      (mkPatientStats total_moods total_journals avg_mood
                         (py_int (avg_mood * 10)) current_streak)))
    end.

(** [patient_detail(request, patient_id)]. *)
Definition patient_detail (now : Z) (patient_id : Z) : option User -> DB -> page detail_context :=
  login_required (on_user (doctor_required (patient_detail_view now patient_id))).

(** The body of the endpoint [patient_details] of the REST API. *)
Definition patient_details_view (now : Z) (patient_id : Z) (user : User)
    : DB -> page detail_context :=
  fun db =>
    match qs_get (patients_with_id db patient_id) with
    | Raise DoesNotExist => mret (Response 404, None)
    | Raise e => Raise e
    | Ok patient =>
        if negb (qs_exists (active_assignments db (u_id user) (u_id patient))) then
          mret (Response 403, None)
        else
          let mood_entries := order_by_desc me_date (moods_of db (u_id patient)) in
          let journals := order_by_desc j_date (journals_of db (u_id patient)) in
          let end_date := day_of now in
          let start_date := end_date - 30 in
          let mood_trend :=
            avg_count_by (fun e => day_of (me_date e)) me_mood
                         (moods_between db (u_id patient) start_date end_date) in
          let mood_distribution := count_by me_mood (moods_of db (u_id patient)) in
          let total_moods := qs_count mood_entries in
          let total_journals := qs_count journals in
          let avg_mood :=
            round_avg_or_zero (aggregate_avg me_mood (moods_of db (u_id patient))) in
          let current_streak := api_calculate_streak db now (u_id patient) in
          mret (Response 200,
                Some (mkDetailContext patient mood_entries journals mood_trend
                        mood_distribution
                        (mkPatientStats total_moods total_journals avg_mood
                           (py_int (avg_mood * 10)) current_streak)))
    end.

(** [patient_details(request, patient_id)]. *)
Definition patient_details (now : Z) (patient_id : Z)
    : option User -> DB -> page detail_context :=
  is_authenticated (on_user (doctor_required (patient_details_view now patient_id))).

(** *** The patient's analytics *)

Record analytics_context : Type := mkAnalyticsContext {
  an_mood_trend : list avg_row;
  an_journal_activity : list (Z * Z);
  an_recent_achievements : list Achievement;
  an_stats : patient_stats;
  an_mood_distribution : list (Z * Z);
  an_mood_prediction : forecast;
  an_weekly_forecast_with_percentages : list (Q * Z)
}.

(** The body of [progress_analytics]. *)
Definition progress_analytics_view (now : Z) (user : User) : DB -> page analytics_context :=
  fun db =>
    if decide (u_role user <> Patient) then mret (Redirect "doctor_dashboard", None)
    else
      let end_date := day_of now in
      let start_date := end_date - 30 in
      let mood_trend :=
        avg_count_by (fun e => day_of (me_date e)) me_mood
                     (moods_between db (u_id user) start_date end_date) in
      let journal_activity :=
        count_by (fun j => day_of (j_date j))
                 (journals_between db (u_id user) start_date end_date) in
      let recent_achievements :=
        take 5 (order_by_desc ach_unlocked_at (achievements_of db (u_id user))) in
      let total_moods := qs_count (moods_of db (u_id user)) in
      let total_journals := qs_count (journals_of db (u_id user)) in
      let current_streak := calculate_streak db now (u_id user) in
      let avg_mood := round_avg_or_zero (aggregate_avg me_mood (moods_of db (u_id user))) in
      let mood_distribution := count_by me_mood (moods_of db (u_id user)) in
      mood_prediction ← predict_next_week_mood db now (u_id user);
      let avg_mood_percentage := py_int (avg_mood * 10) in
      let weekly_forecast_with_percentages :=
        (fun mood => (mood, py_int (mood * 10))) <$> f_weekly_forecast mood_prediction in
      mret (Render "dashboard/progress_analytics.html",
            Some (mkAnalyticsContext mood_trend journal_activity recent_achievements
                    (mkPatientStats total_moods total_journals avg_mood avg_mood_percentage
                       current_streak)
                    mood_distribution mood_prediction weekly_forecast_with_percentages)).

(** [progress_analytics(request)]. *)
Definition progress_analytics (now : Z) : option User -> DB -> page analytics_context :=
  login_required (progress_analytics_view now).

(** [mini_games(request)] and [breathing_exercise(request)]: a template
    for patients. *)
Definition patient_page (template : string) : option User -> DB -> page unit :=
  login_required (fun user db =>
    if decide (u_role user <> Patient) then mret (Redirect "doctor_dashboard", None)
    else mret (Render template, None)).

Definition mini_games : option User -> DB -> page unit :=
  patient_page "dashboard/mini_games.html".

Definition breathing_exercise : option User -> DB -> page unit :=
  patient_page "dashboard/breathing_exercise.html".

(** The quotes of [positive_quotes]. *)
Definition quotes : list string :=
  [ "You are stronger than you think.";
    "Every day is a new beginning.";
    "Your mental health matters.";
    "Small steps lead to big changes.";
    "You are not alone in this journey.";
    "Be kind to yourself today.";
    "Your feelings are valid.";
    "Progress, not perfection.";
    "You deserve peace and happiness.";
    "One day at a time." ].

(** [random.choice(seq)], where [draw] is the number the generator gives:
    [IndexError] on an empty sequence. *)
Definition random_choice {A} (draw : nat) (seq : list A) : result A :=
  match seq !! (draw mod length seq)%nat with
  | Some x => Ok x
  | None => Raise IndexError
  end.

(** [positive_quotes(request)]. *)
Definition positive_quotes (draw : nat) : option User -> DB -> page string :=
  login_required (fun user db =>
    if decide (u_role user <> Patient) then mret (Redirect "doctor_dashboard", None)
    else
      selected_quote ← random_choice draw quotes;
      mret (Render "dashboard/positive_quotes.html", Some selected_quote)).

(** An entry of the list [emergency_contacts] of [crisis_support]. *)
Record contact : Type := mkContact {
  ct_name : string;
  ct_number : string;
  ct_description : string
}.

Definition crisis_contacts : list contact :=
  [ mkContact "National Suicide Prevention Lifeline" "988"
              "24/7 support for suicide prevention and mental health crisis";
    mkContact "Crisis Text Line" "Text HOME to 741741"
              "Free 24/7 crisis counseling via text message";
    mkContact "Emergency Services" "911"
              "For immediate danger or medical emergency" ].

(** An entry of the list [resources] of [crisis_support]. *)
Record resource_link : Type := mkResourceLink {
  rl_title : string;
  rl_description : string;
  rl_url : string;
  rl_icon : string
}.

Definition crisis_resources : list resource_link :=
  [ mkResourceLink "Mental Health America" "Screening tools and mental health resources"
                   "https://www.mhanational.org/" "fas fa-brain";
    mkResourceLink "NAMI (National Alliance on Mental Illness)"
                   "Support for individuals and families affected by mental illness"
                   "https://www.nami.org/" "fas fa-users";
    mkResourceLink "Psychology Today" "Find therapists and mental health professionals"
                   "https://www.psychologytoday.com/" "fas fa-user-md" ].

(** The context of [crisis_support]. *)
Record crisis_context : Type := mkCrisisContext {
  cc_emergency_contacts : list contact;
  cc_resources : list resource_link
}.

(** [crisis_support(request)]. *)
Definition crisis_support : option User -> DB -> page crisis_context :=
  login_required (fun user db =>
    if decide (u_role user <> Patient) then mret (Redirect "doctor_dashboard", None)
    else
      let context := mkCrisisContext crisis_contacts crisis_resources in
      mret (Render "dashboard/crisis_support.html", Some context)).

(** [emergency_contacts(request)]: the doctors assigned to the patient. *)
Definition emergency_contacts : option User -> DB -> page (list User) :=
  login_required (on_user (patient_required (fun user db =>
    let assigned_doctors := assigned_doctors db (u_id user) in
    mret (Render "dashboard/emergency_contacts.html", Some assigned_doctors)))).

(** *** The endpoint [dashboard_stats] *)

(** The dictionary a patient gets. *)
Record patient_data : Type := mkPatientData {
  st_total_moods : Z;
  st_total_journals : Z;
  st_current_streak : option Z;
  st_avg_mood : Q;
  st_mood_distribution : list (Z * Z);
  st_recent_entries : list MoodEntry;
  st_recent_journals : list Journal;
  st_achievements : list Achievement;
  st_doctor_notes : list DoctorNote;
  st_assigned_doctors : list User;
  st_mood_analysis : analysis
}.

(** The dictionary [stats]: of a patient, or of any other user. *)
Inductive dashboard_data : Type :=
| PatientData (data : patient_data)
| DoctorData (data : doctor_context).

(** The body of [dashboard_stats]. *)
Definition dashboard_stats_view (now : Z) (user : User) : DB -> page dashboard_data :=
  fun db =>
    if decide (u_role user = Patient) then
      let recent_moods := take 7 (order_by_desc me_date (moods_of db (u_id user))) in
      let recent_journals := take 5 (order_by_desc j_date (journals_of db (u_id user))) in
      let achievements := achievements_of db (u_id user) in
      let doctor_notes := take 5 (order_by_desc dn_date (notes_for db (u_id user))) in
      let streak := api_calculate_streak db now (u_id user) in
      let assigned_doctors := assigned_doctors db (u_id user) in
      mood_analysis ← api_analyze_mood_trends db now (u_id user);
      mret (Response 200,
            Some (PatientData
                    (mkPatientData (qs_count (moods_of db (u_id user)))
                       (qs_count (journals_of db (u_id user)))
                       streak
                       (round_avg_or_zero (aggregate_avg me_mood (moods_of db (u_id user))))
                       (count_by me_mood (moods_of db (u_id user)))
                       recent_moods recent_journals achievements doctor_notes
                       assigned_doctors mood_analysis)))
    else
      let assigned_patients := assigned_patients db (u_id user) in
      let recent_entries := take 20 (order_by_desc me_date (moods_in db assigned_patients)) in
      mret (Response 200, Some (DoctorData (mkDoctorContext assigned_patients recent_entries))).

(** [dashboard_stats(request)]. *)
Definition dashboard_stats (now : Z) : option User -> DB -> page dashboard_data :=
  is_authenticated (dashboard_stats_view now).

(** A store for the examples: the clinic with the entries of the sample
    store, doctor 10 assigned to patient 1 and not to patient 2, a journal
    and two notes on patient 1, one of them hidden. *)
Definition ward_db : DB :=
  mkDB [dr_house; pat_one; pat_two]
       [mkAssignment 1 10 1 0 true ""]
       (moods sample_db)
       [mkJournal 1 1 "day nine" "slept well" (9 * day_seconds + 500)]
       []
       [mkDoctorNote 1 1 10 "rest" (9 * day_seconds) true;
        mkDoctorNote 2 1 10 "review dosage" (9 * day_seconds + 60) false].

(** A patient of the clinic without a code. *)
Definition pat_new : User := mkUser 3 "three" "" Patient None None None None None 0.

Definition intake_db : DB := mkDB [dr_house; pat_one; pat_two; pat_new] [] [] [] [] [].

(** ** Lemmas *)

(** *** The queries *)

Lemma elem_of_assigned_patients db doctor p :
  p ∈ assigned_patients db doctor <->
  p ∈ users db /\ active_assignments db doctor (u_id p) <> [].
Proof. unfold assigned_patients. rewrite list_elem_of_filter. tauto. Qed.

Lemma elem_of_assigned_doctors db patient d :
  d ∈ assigned_doctors db patient <->
  d ∈ users db /\ active_assignments db (u_id d) patient <> [].
Proof. unfold assigned_doctors. rewrite list_elem_of_filter. tauto. Qed.

Lemma elem_of_moods_in db patients e :
  e ∈ moods_in db patients <->
  e ∈ moods db /\ exists p, p ∈ patients /\ u_id p = me_user e.
Proof. unfold moods_in. rewrite list_elem_of_filter, list_elem_of_fmap. naive_solver. Qed.

(** The entries of assigned patients are entries of patients with an
    active assignment to the doctor. *)
Lemma moods_in_assigned db doctor e :
  e ∈ moods_in db (assigned_patients db doctor) ->
  e ∈ moods db /\ active_assignments db doctor (me_user e) <> [].
Proof.
  intros [He (p & [_ Hp]%elem_of_assigned_patients & E)]%elem_of_moods_in.
  by rewrite <- E.
Qed.

(** *** The decorators on pages *)

Lemma page_doctor {C} (view : User -> DB -> page C) u db :
  u_role u = Doctor ->
  login_required (on_user (doctor_required view)) (Some u) db = view u db.
Proof.
  intros Hr. unfold login_required, on_user, doctor_required.
  by rewrite decide_False by (rewrite Hr; auto).
Qed.

Lemma api_doctor {C} (view : User -> DB -> page C) u db :
  u_role u = Doctor ->
  is_authenticated (on_user (doctor_required view)) (Some u) db = view u db.
Proof.
  intros Hr. unfold is_authenticated, on_user, doctor_required.
  by rewrite decide_False by (rewrite Hr; auto).
Qed.

(** A request that does not come from a doctor gets no data from a page
    behind [doctor_required]. *)
Lemma page_not_doctor {C} (view : User -> DB -> page C) user db :
  u_role <$> user <> Some Doctor ->
  snd <$> login_required (on_user (doctor_required view)) user db = Ok None /\
  snd <$> is_authenticated (on_user (doctor_required view)) user db = Ok None.
Proof.
  intros Hr. destruct user as [u|]; [|done].
  unfold login_required, is_authenticated, on_user, doctor_required.
  rewrite decide_True; [done|]. intros E. apply Hr. simpl. by rewrite E.
Qed.

(** *** The page and the endpoint of a patient's details *)

(** The endpoint computes what the page computes once it has let the
    doctor through. *)
Lemma patient_details_view_assigned now pid u db p :
  patients_with_id db pid = [p] -> active_assignments db (u_id u) (u_id p) <> [] ->
  snd <$> patient_details_view now pid u db = snd <$> patient_detail_view now pid u db.
Proof.
  intros Hp Ha%qs_exists_true.
  unfold patient_details_view, patient_detail_view, get_object_or_404.
  rewrite Hp. cbn [qs_get mbind result_bind mret result_ret]. by rewrite Ha.
Qed.

Lemma patient_details_view_missing now pid u db :
  (forall p, patients_with_id db pid <> [p]) ->
  snd <$> patient_details_view now pid u db = snd <$> patient_detail_view now pid u db.
Proof.
  intros Hp. unfold patient_details_view, patient_detail_view, get_object_or_404.
  destruct (patients_with_id db pid) as [|p [|p' ps]]; [done| |done]. by destruct (Hp p).
Qed.

(** *** The figures *)

Section Figures.
Context (db : DB) (uid : Z).
Context (Hvalid : Forall (fun e => 1 <= me_mood e <= 10) (moods_of db uid)).

#[local] Notation "'avg_mood'" :=
  (round_avg_or_zero (aggregate_avg me_mood (moods_of db uid))).

(** The rounded average is 0 without entries and a mood value otherwise. *)
Lemma avg_mood_empty : moods_of db uid = [] -> avg_mood = round1 0.
Proof. by intros ->. Qed.

Lemma avg_mood_between : moods_of db uid <> [] -> (1 <= avg_mood <= 10)%Q.
Proof.
  intros Hne. unfold round_avg_or_zero. rewrite aggregate_avg_some by done.
  apply (round1_between 1 10), (aggregate_avg_between me_mood (moods_of db uid)); [done|].
  by apply aggregate_avg_some.
Qed.

(** The percentage of the progress bar is ten times the rounded average. *)
Lemma avg_mood_percentage_exact : (inject_Z (py_int (avg_mood * 10)) == avg_mood * 10)%Q.
Proof. apply py_int_tenths, round1_idem. Qed.

Lemma avg_mood_percentage_between : 0 <= py_int (avg_mood * 10) <= 100.
Proof.
  destruct (decide (moods_of db uid = [])) as [E|Hne]; [by rewrite E|].
  pose proof (py_int_tenths_between 1 10 avg_mood (round1_idem _) (avg_mood_between Hne)).
  lia.
Qed.

End Figures.

(** The percentages of a forecast. *)
Lemma forecast_percentages (weekly_forecast : list Q) :
  Forall (fun v => (1 <= v <= 10)%Q /\ (round1 v == v)%Q) weekly_forecast ->
  Forall (fun mp => (inject_Z mp.2 == mp.1 * 10)%Q /\ 10 <= mp.2 <= 100)
         ((fun mood => (mood, py_int (mood * 10))) <$> weekly_forecast).
Proof.
  intros H. apply Forall_fmap. eapply Forall_impl; [exact H|]. intros v [Hb Hr]. simpl.
  split; [by apply py_int_tenths|]. by apply (py_int_tenths_between 1 10).
Qed.

(** [random.choice] returns an element of a sequence that is not empty. *)
Lemma random_choice_elem {A} draw (seq : list A) :
  seq <> [] -> exists x, random_choice draw seq = Ok x /\ x ∈ seq.
Proof.
  intros Hne. unfold random_choice.
  assert (draw mod length seq < length seq)%nat as Hlt
    by (apply Nat.mod_upper_bound; by destruct seq).
  apply lookup_lt_is_Some_2 in Hlt as [x Hx]. rewrite Hx. exists x. split; [done|].
  by eapply list_elem_of_lookup_2.
Qed.

(** ** Theorems *)

(** C24: a doctor's dashboard lists the users with an active assignment to
    the doctor and shows mood entries of such users only: at most twenty,
    newest first, and none of a patient who is not, or no longer, assigned
    to the doctor. *)
Theorem doctor_dashboard_assigned_only db u :
  u_role u = Doctor ->
  exists ctx,
    doctor_dashboard (Some u) db =
      Ok (Render "dashboard/doctor_dashboard.html", Some ctx) /\
    (forall p, p ∈ dc_patients ctx <->
               p ∈ users db /\ active_assignments db (u_id u) (u_id p) <> []) /\
    Forall (fun e => e ∈ moods db /\ active_assignments db (u_id u) (me_user e) <> [])
           (dc_recent_entries ctx) /\
    (length (dc_recent_entries ctx) <= 20)%nat /\
    StronglySorted (flip (key_le me_date)) (dc_recent_entries ctx).
Proof.
  intros Hr. eexists. unfold doctor_dashboard. rewrite page_doctor by done.
  split; [reflexivity|]. cbn [dc_patients dc_recent_entries]. split_and!.
  - intros p. apply elem_of_assigned_patients.
  - apply Forall_forall. intros e He%newest_elem. by apply moods_in_assigned.
  - rewrite newest_length. lia.
  - apply newest_sorted.
Qed.

Lemma doctor_dashboard_assigned_only_witness :
  exists ctx,
    doctor_dashboard (Some dr_house) ward_db =
      Ok (Render "dashboard/doctor_dashboard.html", Some ctx) /\
    dc_patients ctx = [pat_one] /\ me_id <$> dc_recent_entries ctx = [4; 3; 1].
Proof.
  destruct (doctor_dashboard_assigned_only ward_db dr_house) as (ctx & E & _); [done|].
  exists ctx. split; [exact E|]. vm_compute in E. by simplify_eq.
Defined.

(** C30: the page [patient_detail] shows a doctor the entries and the
    journals of any patient, while the endpoint [patient_details] refuses
    with 403 a doctor who has no active assignment to the patient. *)
Theorem patient_detail_unassigned now db u p :
  u_role u = Doctor -> patients_with_id db (u_id p) = [p] ->
  active_assignments db (u_id u) (u_id p) = [] ->
  patient_details now (u_id p) (Some u) db = Ok (Response 403, None) /\
  exists ctx,
    patient_detail now (u_id p) (Some u) db =
      Ok (Render "dashboard/patient_detail.html", Some ctx) /\
    dt_patient ctx = p /\
    dt_mood_entries ctx ≡ₚ moods_of db (u_id p) /\
    dt_journals ctx ≡ₚ journals_of db (u_id p).
Proof.
  intros Hr Hp Ha. unfold patient_details, patient_detail.
  rewrite api_doctor, page_doctor by done.
  unfold patient_details_view, patient_detail_view, get_object_or_404.
  rewrite Hp. cbn [qs_get mbind result_bind mret result_ret]. rewrite Ha.
  cbn [qs_exists negb].
  split; [done|]. eexists. split; [reflexivity|].
  cbn [dt_patient dt_mood_entries dt_journals]. split_and!; [done|..];
    apply order_by_desc_perm.
Qed.

Lemma patient_detail_unassigned_witness :
  patient_details sample_now 2 (Some dr_house) ward_db = Ok (Response 403, None) /\
  exists ctx,
    patient_detail sample_now 2 (Some dr_house) ward_db =
      Ok (Render "dashboard/patient_detail.html", Some ctx) /\
    dt_patient ctx = pat_two /\
    dt_mood_entries ctx ≡ₚ moods_of ward_db 2 /\
    dt_journals ctx ≡ₚ journals_of ward_db 2.
Proof.
  apply (patient_detail_unassigned sample_now ward_db dr_house pat_two); by_compute.
Defined.

(** For a doctor with an active assignment to the patient, and for
    every request that is refused or finds no patient, the endpoint
    [patient_details] returns the data the page [patient_detail] shows. *)
Theorem patient_details_agrees now pid user db :
  (forall u p, user = Some u -> patients_with_id db pid = [p] ->
               active_assignments db (u_id u) (u_id p) <> []) ->
  snd <$> patient_details now pid user db = snd <$> patient_detail now pid user db.
Proof.
  intros Ha. unfold patient_details, patient_detail.
  destruct (decide (u_role <$> user = Some Doctor)) as [Hr|Hr].
  - destruct user as [u|]; [|done]. injection Hr as Hr.
    rewrite api_doctor, page_doctor by done.
    destruct (patients_with_id db pid) as [|p [|p' ps]] eqn:Hp.
    + apply patient_details_view_missing. by rewrite Hp.
    + eapply patient_details_view_assigned; eauto.
    + apply patient_details_view_missing. by rewrite Hp.
  - by destruct (page_not_doctor (patient_detail_view now pid) user db Hr) as [-> _],
      (page_not_doctor (patient_details_view now pid) user db Hr) as [_ ->].
Qed.

Lemma patient_details_agrees_witness :
  snd <$> patient_details sample_now 1 (Some dr_house) ward_db =
  snd <$> patient_detail sample_now 1 (Some dr_house) ward_db.
Proof.
  apply (patient_details_agrees sample_now 1 (Some dr_house) ward_db).
  intros u p [= <-] Hp. vm_compute in Hp. by simplify_eq.
Defined.

(** [progress_analytics] renders for a patient, and its figures are
    consistent: the counts of the mood distribution and of the thirty-day
    trend add up to the numbers of entries they are taken from, the
    rounded average is a mood value (0 without entries), and every
    percentage is exactly ten times the value it stands for, within the
    progress bar. *)
Theorem progress_analytics_stats now db u :
  u_role u = Patient ->
  Forall (fun e => 1 <= me_mood e <= 10) (moods_of db (u_id u)) ->
  exists ctx,
    progress_analytics now (Some u) db =
      Ok (Render "dashboard/progress_analytics.html", Some ctx) /\
    let stats := an_stats ctx in
    ps_total_moods stats = sumZ (an_mood_distribution ctx).*2 /\
    sumZ (ar_count <$> an_mood_trend ctx) =
      len (moods_between db (u_id u) (day_of now - 30) (day_of now)) /\
    (ps_total_moods stats = 0 -> ps_avg_mood stats = round1 0) /\
    (0 < ps_total_moods stats -> (1 <= ps_avg_mood stats <= 10)%Q) /\
    (inject_Z (ps_avg_mood_percentage stats) == ps_avg_mood stats * 10)%Q /\
    0 <= ps_avg_mood_percentage stats <= 100 /\
    Forall (fun mp => (inject_Z mp.2 == mp.1 * 10)%Q /\ 10 <= mp.2 <= 100)
           (an_weekly_forecast_with_percentages ctx).
Proof.
  intros Hr Hv. unfold progress_analytics, login_required, progress_analytics_view.
  rewrite decide_False by (rewrite Hr; auto).
  destruct (predict_next_week_mood_ok db now (u_id u)) as (f & -> & Hf).
  eexists. split; [reflexivity|]. cbv zeta.
  cbn [an_stats an_mood_distribution an_mood_trend an_weekly_forecast_with_percentages
       ps_total_moods ps_avg_mood ps_avg_mood_percentage].
  unfold qs_count. refine (conj _ (conj _ (conj _ (conj _ (conj _ (conj _ _)))))).
  - by rewrite count_by_total.
  - unfold avg_count_by. rewrite <- list_fmap_compose.
    rewrite <- (count_by_total (fun e => day_of (me_date e))).
    unfold count_by. by rewrite <- list_fmap_compose.
  - intros E%len_zero. by apply avg_mood_empty.
  - intros Hp. apply avg_mood_between; [done|]. intros E. rewrite E in Hp. by cbn in Hp.
  - apply avg_mood_percentage_exact.
  - by apply avg_mood_percentage_between.
  - by apply forecast_percentages.
Qed.

Lemma progress_analytics_stats_witness :
  exists ctx,
    progress_analytics sample_now (Some pat_one) ward_db =
      Ok (Render "dashboard/progress_analytics.html", Some ctx) /\
    ps_total_moods (an_stats ctx) = 3 /\ ps_avg_mood_percentage (an_stats ctx) = 70 /\
    an_mood_distribution ctx = [(6, 1); (7, 1); (8, 1)].
Proof.
  destruct (progress_analytics_stats sample_now ward_db pat_one) as (ctx & E & _);
    [done|by_decide|].
  exists ctx. split; [exact E|]. vm_compute in E. by simplify_eq.
Defined.

(** The first visit of [patient_dashboard] by a patient without a code
    gives the patient the code [generate_patient_id] returns: the page
    shows it, no user had it, the lookup by code now finds this patient
    and nobody else, the keys and the names of the users stay unique, and
    no other table is touched. *)
Theorem patient_dashboard_assigns_code fuel draws now n db u code n' :
  unique_ids db -> unique_usernames db -> u ∈ users db ->
  u_role u = Patient -> missing_code u = true ->
  generate_patient_id fuel draws n db = Some (code, n') -> code <> "" ->
  exists db' ctx,
    patient_dashboard fuel draws now (Some u) (db, n) =
      Some (Ok (db', n', Render "dashboard/patient_dashboard.html", Some ctx)) /\
    pc_patient_id ctx = Some code /\
    users_coded db code = [] /\
    patients_coded db' code = [with_patient_id u (Some code)] /\
    unique_ids db' /\ unique_usernames db' /\
    assignments db' = assignments db /\ moods db' = moods db.
Proof.
  intros Hi Hn Hu Hr Hm Hg Hc.
  pose proof Hg as (k & _ & _ & _ & Hf & _)%generate_patient_id_inv.
  assert (users_coded db code = []) as Hfree
    by (apply generate_patient_id_inv in Hg as (? & _ & _ & -> & ? & _); done).
  destruct (model_save_code db u code Hn Hu Hfree) as [db' Hs].
  destruct (model_save_shape db _ db' _ Hi Hs) as (Hsh & Ha & Hmo & _).
  destruct (analyze_mood_trends_ok db' now (u_id u)) as [a Ea].
  exists db'. eexists. unfold patient_dashboard.
  rewrite login_required_patient. unfold patient_required, patient_dashboard_view.
  rewrite decide_False by (rewrite Hr; auto). rewrite Hm, Hg. cbn [mbind option_bind].
  rewrite user_save_coded by (by apply missing_code_with). rewrite Hs.
  cbn [mbind option_bind result_bind]. unfold patient_dashboard_context.
  cbn [u_id with_patient_id]. rewrite Ea. cbn [mbind result_bind mret result_ret].
  split; [reflexivity|]. cbn [pc_patient_id u_patient_id with_patient_id].
  split_and!; [done|done| |by eapply saved_shape_unique_ids
              |by eapply saved_shape_unique_usernames|done|done].
  by apply (saved_shape_patients_coded db db' _ _ Hsh).
Qed.

Lemma patient_dashboard_assigns_code_witness :
  exists db' ctx,
    patient_dashboard 3 sample_draws sample_now (Some pat_new) (intake_db, 0%nat) =
      Some (Ok (db', 3%nat, Render "dashboard/patient_dashboard.html", Some ctx)) /\
    pc_patient_id ctx = Some "0F9E8D7C" /\
    users_coded intake_db "0F9E8D7C" = [] /\
    patients_coded db' "0F9E8D7C" = [with_patient_id pat_new (Some "0F9E8D7C")] /\
    unique_ids db' /\ unique_usernames db' /\
    assignments db' = assignments intake_db /\ moods db' = moods intake_db.
Proof.
  apply (patient_dashboard_assigns_code 3 sample_draws sample_now 0 intake_db pat_new);
    by_decide.
Defined.

(** A patient who has a code is shown the page and nothing is written. *)
Theorem patient_dashboard_reads fuel draws now n db u :
  u_role u = Patient -> missing_code u = false ->
  exists ctx,
    patient_dashboard fuel draws now (Some u) (db, n) =
      Some (Ok (db, n, Render "dashboard/patient_dashboard.html", Some ctx)) /\
    pc_patient_id ctx = u_patient_id u.
Proof.
  intros Hr Hm. destruct (analyze_mood_trends_ok db now (u_id u)) as [a Ea].
  eexists. unfold patient_dashboard. rewrite login_required_patient.
  unfold patient_required, patient_dashboard_view.
  rewrite decide_False by (rewrite Hr; auto). rewrite Hm.
  cbn [mbind option_bind result_bind]. unfold patient_dashboard_context. rewrite Ea.
  by cbn.
Qed.

Lemma patient_dashboard_reads_witness :
  exists ctx,
    patient_dashboard 0 sample_draws sample_now (Some pat_one) (ward_db, 0%nat) =
      Some (Ok (ward_db, 0%nat, Render "dashboard/patient_dashboard.html", Some ctx)) /\
    pc_patient_id ctx = u_patient_id pat_one.
Proof.
  apply (patient_dashboard_reads 0 sample_draws sample_now 0 ward_db pat_one); by_compute.
Defined.

(** The endpoint [dashboard_stats] returns to a patient the rows the
    page [patient_dashboard] shows (recent entries and journals,
    achievements, visible notes, assigned doctors, the streak, and the
    trend and the average of the analysis) with totals that match the
    distribution, and to any other user what [doctor_dashboard] shows. *)
Theorem dashboard_stats_agrees now db u :
  exists data,
    dashboard_stats now (Some u) db = Ok (Response 200, Some data) /\
    match data with
    | PatientData d =>
        u_role u = Patient /\
        exists ctx,
          patient_dashboard_context now u db = Ok ctx /\
          st_recent_entries d = pc_recent_moods ctx /\
          st_recent_journals d = pc_recent_journals ctx /\
          st_achievements d = pc_achievements ctx /\
          st_doctor_notes d = pc_doctor_notes ctx /\
          st_assigned_doctors d = pc_assigned_doctors ctx /\
          st_current_streak d = pc_streak ctx /\
          a_trend (st_mood_analysis d) = a_trend (pc_mood_analysis ctx) /\
          a_avg_mood (st_mood_analysis d) = a_avg_mood (pc_mood_analysis ctx) /\
          st_total_moods d = sumZ (st_mood_distribution d).*2
    | DoctorData d =>
        u_role u = Doctor /\
        doctor_dashboard (Some u) db =
          Ok (Render "dashboard/doctor_dashboard.html", Some d)
    end.
Proof.
  unfold dashboard_stats, is_authenticated, dashboard_stats_view.
  case_decide as Hr.
  - destruct (api_analysis_agrees db now (u_id u)) as (a & a' & Ea & -> & Ht & Hm & _).
    eexists. split; [reflexivity|]. split; [done|].
    unfold patient_dashboard_context. rewrite Ea. eexists. split; [reflexivity|].
    cbn. unfold qs_count. by rewrite count_by_total.
  - assert (u_role u = Doctor) as Hd by (by destruct (u_role u)).
    eexists. split; [reflexivity|]. split; [done|].
    unfold doctor_dashboard. by rewrite page_doctor.
Qed.

(** The pages for patients ([mini_games], [breathing_exercise],
    [positive_quotes], [crisis_support], [emergency_contacts]) send a
    request without user to the login page and a doctor to the doctor's
    dashboard, and render their template for a patient; the quote shown is
    one of the ten. *)
Theorem patient_pages_guard draw user db :
  let answers :=
    [ fst <$> mini_games user db; fst <$> breathing_exercise user db;
      fst <$> positive_quotes draw user db; fst <$> crisis_support user db;
      fst <$> emergency_contacts user db ] in
  match u_role <$> user with
  | None => Forall (fun r => r = Ok (Redirect "login")) answers
  | Some Doctor => Forall (fun r => r = Ok (Redirect "doctor_dashboard")) answers
  | Some Patient =>
      answers = Ok <$> [ Render "dashboard/mini_games.html";
                         Render "dashboard/breathing_exercise.html";
                         Render "dashboard/positive_quotes.html";
                         Render "dashboard/crisis_support.html";
                         Render "dashboard/emergency_contacts.html" ] /\
      exists quote, positive_quotes draw user db =
                      Ok (Render "dashboard/positive_quotes.html", Some quote) /\
                    quote ∈ quotes
  end.
Proof.
  destruct user as [u|]; [|by repeat constructor]. cbn [fmap option_fmap option_map].
  unfold mini_games, breathing_exercise, patient_page, positive_quotes, crisis_support,
    emergency_contacts, login_required, on_user, patient_required.
  destruct (random_choice_elem draw quotes) as (quote & Eq & Hq); [done|].
  destruct (u_role u) eqn:Hr.
  - rewrite !decide_False by auto. rewrite Eq. split; [done|]. by exists quote.
  - rewrite !decide_True by done. by repeat constructor.
Qed.
