(* ===== verification/Models.v ===== *)
(** * Models: the methods of the model classes

    [MoodEntry.get_visible_doctors] and the [__str__] methods of
    [src/dashboard/models.py].  A method that follows a foreign key reads
    the table of users; the text of a time stamp is an argument.  The
    theorems show that the doctors [get_visible_doctors] names are those
    whose dashboard shows the entry, each once, and that [__str__] returns
    for the rows whose users exist. *)

From Stdlib Require Import ZArith Lia Ascii String DecimalString.
From stdpp Require Import base decidable option list sorting strings.
From S2P Require Import Prelude Numeric Text Store Doctor Accounts Dashboard.

(** ** Definitions *)

(** [str(n)] of an integer. *)
Definition str_int (n : Z) : string := NilZero.string_of_int (Z.to_int n).

(** [instance.user]: the row a foreign key refers to. *)
Definition related_user (db : DB) (id : Z) : result User :=
  qs_get (filter (fun u => u_id u = id) (users db)).

(** [DoctorPatientAssignment.__str__]; a patient without a code is shown
    with [None]. *)
Definition assignment_str (db : DB) (a : DoctorPatientAssignment) : result string :=
  doctor ← related_user db (dpa_doctor a);
  patient ← related_user db (dpa_patient a);
  mret ("Dr. " +:+ u_username doctor +:+ " → " +:+ u_username patient +:+ " (" +:+
        default "None" (u_patient_id patient) +:+ ")").

(** [MoodEntry.__str__]. *)
Definition mood_entry_str (str_date : Z -> string) (db : DB) (e : MoodEntry) : result string :=
  user ← related_user db (me_user e);
  mret (u_username user +:+ " - " +:+ str_int (me_mood e) +:+ " on " +:+ str_date (me_date e)).

(** [MoodEntry.get_visible_doctors]: the keys of the doctors of the
    active assignments of the user, in the order of the model
    ([ordering = ['-assigned_date']]). *)
Definition get_visible_doctors (db : DB) (e : MoodEntry) : list Z :=
  dpa_doctor <$>
    order_by_desc dpa_assigned_date
      (filter (fun a => dpa_patient a = me_user e /\ dpa_is_active a = true) (assignments db)).

(** [Journal.__str__] and [Achievement.__str__]. *)
Definition journal_str (j : Journal) : string := j_title j.

Definition achievement_str (a : Achievement) : string := ach_title a.

(** [DoctorNote.__str__]. *)
Definition doctor_note_str (db : DB) (n : DoctorNote) : result string :=
  patient ← related_user db (dn_patient n);
  doctor ← related_user db (dn_doctor n);
  mret ("Note for " +:+ u_username patient +:+ " by " +:+ u_username doctor).

(** A store for the examples: doctor 10 is assigned the patients 1 and 2
    and has written a note on patient 1, who has logged a mood. *)
Definition rounds_db : DB :=
  mkDB [dr_house; pat_one; pat_two]
       [mkAssignment 1 10 1 100 true ""; mkAssignment 2 10 2 200 true ""]
       [mkMoodEntry 1 1 7 "" "" 300] [] []
       [mkDoctorNote 1 1 10 "rest" 400 true].

(** ** Lemmas *)

(** The row a key refers to, when keys are distinct. *)
Lemma related_user_elem db u : unique_ids db -> u ∈ users db -> related_user db (u_id u) = Ok u.
Proof.
  intros Hk Hu. unfold related_user.
  destruct (NoDup_fmap_split u_id _ u Hk Hu) as (l1 & l2 & -> & Hne).
  by rewrite (filter_key u_id (u_id u) l1 u l2 eq_refl Hne).
Qed.

(** A key that refers to no row: the ORM raises. *)
Lemma related_user_dangling db id : id ∉ u_id <$> users db -> related_user db id = Raise DoesNotExist.
Proof.
  intros Hid. unfold related_user. rewrite filter_none; [done|].
  apply Forall_forall. intros u Hu <-. apply Hid, list_elem_of_fmap. eauto.
Qed.

Lemma elem_of_get_visible_doctors db e d :
  d ∈ get_visible_doctors db e <-> active_assignments db d (me_user e) <> [].
Proof.
  unfold get_visible_doctors, active_assignments. rewrite list_elem_of_fmap. split.
  - intros (a & -> & Ha). rewrite order_by_desc_perm in Ha.
    apply list_elem_of_filter in Ha as [[Hp Hact] Ha]. intros Hnil.
    apply (filter_nil_not_elem_of _ _ a Hnil); [by split_and!|done].
  - intros Hne. destruct (filter _ _) as [|a l] eqn:E; [done|].
    assert (a ∈ a :: l) as Ha by left. rewrite <- E in Ha.
    apply list_elem_of_filter in Ha as [(Hd & Hp & Hact) Ha]. exists a. split; [done|].
    rewrite order_by_desc_perm. apply list_elem_of_filter. by split_and!.
Qed.

(** ** Theorems *)

(** The doctors [get_visible_doctors] names for an entry of a user of the
    store are those on whose dashboard the entry is among the entries of
    the assigned patients. *)
Theorem get_visible_doctors_dashboard db e doctor :
  e ∈ moods db -> me_user e ∈ u_id <$> users db ->
  doctor ∈ get_visible_doctors db e <-> e ∈ moods_in db (assigned_patients db doctor).
Proof.
  intros He Hu. rewrite elem_of_get_visible_doctors. unfold moods_in, assigned_patients.
  rewrite list_elem_of_filter, list_elem_of_fmap. split.
  - intros Ha. split; [|done]. apply list_elem_of_fmap in Hu as (u & Hid & Hu).
    exists u. split; [done|]. apply list_elem_of_filter. by rewrite <- Hid.
  - intros [(u & -> & [Ha _]%list_elem_of_filter) _]. done.
Qed.

(** With at most one assignment for a pair, [get_visible_doctors] names
    each doctor once, the doctor of the latest assignment first. *)
Theorem get_visible_doctors_NoDup db e : unique_pairs db -> NoDup (get_visible_doctors db e).
Proof.
  intros Hp. unfold get_visible_doctors. rewrite order_by_desc_perm.
  apply NoDup_fmap_unique. intros d. etrans; [|apply (Hp d (me_user e))].
  unfold pair_assignments. rewrite list_filter_filter.
  rewrite (list_filter_iff _ (fun a => dpa_is_active a = true /\
                                       (dpa_doctor a = d /\ dpa_patient a = me_user e)))
    by (intros a; tauto).
  rewrite <- list_filter_filter. apply length_filter.
Qed.

Lemma get_visible_doctors_NoDup_witness :
  NoDup (get_visible_doctors rounds_db (mkMoodEntry 1 1 7 "" "" 300)).
Proof.
  apply get_visible_doctors_NoDup. intros doctor patient.
  unfold pair_assignments, rounds_db. cbn [assignments].
  rewrite !filter_cons, filter_nil. repeat case_decide; cbn in *; lia.
Defined.

(** [__str__] returns for the rows whose users exist, and raises
    [DoesNotExist] for a note whose patient is no row of the store. *)
Theorem doctor_note_str_spec db n :
  unique_ids db ->
  (forall patient doctor,
     patient ∈ users db -> doctor ∈ users db ->
     dn_patient n = u_id patient -> dn_doctor n = u_id doctor ->
     doctor_note_str db n =
       Ok ("Note for " +:+ u_username patient +:+ " by " +:+ u_username doctor)) /\
  (dn_patient n ∉ u_id <$> users db -> doctor_note_str db n = Raise DoesNotExist).
Proof.
  intros Hk. unfold doctor_note_str. split.
  - intros patient doctor Hp Hd -> ->. by rewrite !related_user_elem.
  - intros Hn. by rewrite (related_user_dangling db (dn_patient n)).
Qed.

Lemma doctor_note_str_spec_witness :
  doctor_note_str rounds_db (mkDoctorNote 1 1 10 "rest" 400 true) = Ok "Note for one by house".
Proof.
  assert (unique_ids rounds_db) as Hk by by_decide.
  apply (proj1 (doctor_note_str_spec rounds_db (mkDoctorNote 1 1 10 "rest" 400 true) Hk)
               pat_one dr_house); (by_decide || done).
Defined.
