(* ===== verification/Serializers.v ===== *)
(** * Serializers: what the REST API reads and returns

    The model serializers of [src/dashboard/serializers.py].  A serializer
    is its list of fields: the representation is the row projected on the
    fields, the data of a request are the fields that are not read-only,
    each present or absent, and validation is what the REST framework
    derives from the columns of the model (a column without default is
    required, a text column that is not [blank] must not be empty once
    trimmed, [choices] and [max_length] are checked, a foreign key must be
    the key of a row).  [partial] is [True] for PATCH, where no field is
    required.  The theorems show that validated data give rows the forms
    would accept, that writing a row and reading it back returns the data
    up to trimming, and that representing is idempotent under posting
    back. *)

From Stdlib Require Import ZArith Lia Ascii String.
From stdpp Require Import base decidable option list strings.
From S2P Require Import Prelude Numeric Text Store Achievements.

(** ** Definitions *)

(** A [ModelSerializer] for rows [R], request data [Data] and
    representation [Repr]. *)
Record serializer (R Data Repr : Type) : Type := mkSerializer {
  (** [serializer.data] for an instance *)
  to_representation : DB -> R -> Repr;
  (** [serializer.is_valid()] *)
  is_valid : bool -> DB -> Data -> bool;
  (** [Model.objects.create] with the validated data, at time [now] with
      key [id];
      a foreign key that is no field of the serializer is 0 until the
      keyword arguments of [save] set it *)
  create : Z -> Z -> Data -> R;
  (** [serializer.update(instance, validated_data)] *)
  update : R -> Data -> R
}.

#[global] Arguments mkSerializer {R Data Repr} _ _ _ _.
#[global] Arguments to_representation {R Data Repr} _ _ _.
#[global] Arguments is_valid {R Data Repr} _ _ _ _.
#[global] Arguments create {R Data Repr} _ _ _ _.
#[global] Arguments update {R Data Repr} _ _ _.

(** *** Fields *)

(** [CharField.to_internal_value] with [trim_whitespace=True]. *)
Definition char_value (s : string) : string := py_strip s.

(** A required [CharField(allow_blank=False, max_length=n)]; [n = None]
    for a [TextField]. *)
Definition char_field_valid (partial : bool) (max_length : option nat) (v : option string)
    : bool :=
  match v with
  | None => partial
  | Some s =>
      negb (bool_decide (char_value s = "")) &&
      match max_length with
      | Some n => bool_decide (String.length (char_value s) <= n)%nat
      | None => true
      end
  end.

(** A [PrimaryKeyRelatedField(queryset=User.objects.all())]. *)
Definition user_key_valid (partial : bool) (db : DB) (v : option Z) : bool :=
  match v with
  | None => partial
  | Some id => qs_exists (filter (fun u => u_id u = id) (users db))
  end.

(** *** [MoodEntrySerializer] *)

Record MoodEntryData : Type := mkMoodEntryData {
  med_mood : option Z;
  med_note : option string
}.

Record MoodEntryRepr : Type := mkMoodEntryRepr {
  mer_id : Z;
  mer_mood : Z;
  mer_note : string;
  mer_date : Z
}.

#[global] Instance MoodEntryRepr_eq_dec : EqDecision MoodEntryRepr.
Proof. solve_decision. Defined.

Definition MoodEntrySerializer : serializer MoodEntry MoodEntryData MoodEntryRepr :=
  mkSerializer
    (fun _ e => mkMoodEntryRepr (me_id e) (me_mood e) (me_note e) (me_date e))
    (fun partial _ data =>
       match med_mood data with
       | Some mood => valid_mood mood
       | None => partial
       end)
    (fun now id data =>
       mkMoodEntry id 0 (default 0 (med_mood data))
                   (default "" (char_value <$> med_note data)) "" now)
    (fun e data =>
       mkMoodEntry (me_id e) (me_user e) (default (me_mood e) (med_mood data))
                   (default (me_note e) (char_value <$> med_note data))
                   (me_tags e) (me_date e)).

(** *** [JournalSerializer] *)

Record JournalData : Type := mkJournalData {
  jd_title : option string;
  jd_content : option string
}.

Record JournalRepr : Type := mkJournalRepr {
  jr_id : Z;
  jr_title : string;
  jr_content : string;
  jr_date : Z
}.

#[global] Instance JournalRepr_eq_dec : EqDecision JournalRepr.
Proof. solve_decision. Defined.

Definition JournalSerializer : serializer Journal JournalData JournalRepr :=
  mkSerializer
    (fun _ j => mkJournalRepr (j_id j) (j_title j) (j_content j) (j_date j))
    (fun partial _ data =>
       char_field_valid partial (Some 200%nat) (jd_title data) &&
       char_field_valid partial None (jd_content data))
    (fun now id data =>
       mkJournal id 0 (default "" (char_value <$> jd_title data))
                 (default "" (char_value <$> jd_content data)) now)
    (fun j data =>
       mkJournal (j_id j) (j_user j) (default (j_title j) (char_value <$> jd_title data))
                 (default (j_content j) (char_value <$> jd_content data)) (j_date j)).

(** *** [AchievementSerializer] *)

Record AchievementRepr : Type := mkAchievementRepr {
  acr_id : Z;
  acr_title : string;
  acr_description : string;
  acr_points : Z;
  acr_unlocked_at : Z
}.

(** The view set of achievements is read-only: only the representation
    is used. *)
Definition achievement_representation (a : Achievement) : AchievementRepr :=
  mkAchievementRepr (ach_id a) (ach_title a) (ach_description a) (ach_points a)
                    (ach_unlocked_at a).

(** *** [DoctorNoteSerializer] *)

Record DoctorNoteData : Type := mkDoctorNoteData {
  dnd_patient : option Z;
  dnd_doctor : option Z;
  dnd_note : option string;
  dnd_is_visible_to_patient : option bool
}.

Record DoctorNoteRepr : Type := mkDoctorNoteRepr {
  dnr_id : Z;
  dnr_patient : Z;
  dnr_doctor : Z;
  dnr_note : string;
  dnr_date : Z;
  dnr_is_visible_to_patient : bool;
  dnr_doctor_name : string;
  dnr_patient_name : string
}.

(** [source='doctor.username']: the name of the user with a key. *)
Definition username_of (db : DB) (id : Z) : string :=
  default "" (u_username <$> head (filter (fun u => u_id u = id) (users db))).

Definition DoctorNoteSerializer : serializer DoctorNote DoctorNoteData DoctorNoteRepr :=
  mkSerializer
    (fun db n =>
       mkDoctorNoteRepr (dn_id n) (dn_patient n) (dn_doctor n) (dn_note n) (dn_date n)
                        (dn_is_visible_to_patient n) (username_of db (dn_doctor n))
                        (username_of db (dn_patient n)))
    (fun partial db data =>
       user_key_valid partial db (dnd_patient data) &&
       user_key_valid partial db (dnd_doctor data) &&
       char_field_valid partial None (dnd_note data))
    (fun now id data =>
       mkDoctorNote id (default 0 (dnd_patient data)) (default 0 (dnd_doctor data))
                    (default "" (char_value <$> dnd_note data)) now
                    (default true (dnd_is_visible_to_patient data)))
    (fun n data =>
       mkDoctorNote (dn_id n) (default (dn_patient n) (dnd_patient data))
                    (default (dn_doctor n) (dnd_doctor data))
                    (default (dn_note n) (char_value <$> dnd_note data)) (dn_date n)
                    (default (dn_is_visible_to_patient n) (dnd_is_visible_to_patient data))).

(** *** [UserSerializer] *)

(** The fields of [UserSerializer] that are columns of the model's
    [User]; [first_name], [last_name] and [date_joined], columns of
    [AbstractUser] that the application does not read, are left out. *)
Record UserData : Type := mkUserData {
  ud_username : option string;
  ud_email : option string;
  ud_role : option role;
  ud_date_of_birth : option Z;
  ud_phone_number : option string
}.

Record UserRepr : Type := mkUserRepr {
  ur_id : Z;
  ur_username : string;
  ur_email : string;
  ur_role : role;
  ur_patient_id : option string;
  ur_date_of_birth : option Z;
  ur_phone_number : option string
}.

Definition UserSerializer : serializer User UserData UserRepr :=
  mkSerializer
    (fun _ u =>
       mkUserRepr (u_id u) (u_username u) (u_email u) (u_role u) (u_patient_id u)
                  (u_date_of_birth u) (u_phone_number u))
    (fun partial db data =>
       char_field_valid partial (Some 150%nat) (ud_username data) &&
       match ud_username data with
       | Some name =>
           negb (qs_exists (filter (fun u => u_username u = char_value name) (users db)))
       | None => true
       end &&
       match ud_phone_number data with
       | Some phone => bool_decide (String.length (char_value phone) <= 15)%nat
       | None => true
       end)
    (fun _ id data =>
       mkUser id (default "" (char_value <$> ud_username data))
              (default "" (char_value <$> ud_email data))
              (default Patient (ud_role data)) (ud_date_of_birth data)
              (char_value <$> ud_phone_number data) None None None 0)
    (fun u data =>
       mkUser (u_id u) (default (u_username u) (char_value <$> ud_username data))
              (default (u_email u) (char_value <$> ud_email data))
              (default (u_role u) (ud_role data))
              (match ud_date_of_birth data with Some d => Some d | None => u_date_of_birth u end)
              (match ud_phone_number data with
               | Some p => Some (char_value p)
               | None => u_phone_number u
               end)
              (u_patient_id u) (u_specialization u) (u_license_number u)
              (u_years_experience u)).

(** The data that, posted back, write what a representation shows. *)
Definition mood_entry_data_of (r : MoodEntryRepr) : MoodEntryData :=
  mkMoodEntryData (Some (mer_mood r)) (Some (mer_note r)).

Definition journal_data_of (r : JournalRepr) : JournalData :=
  mkJournalData (Some (jr_title r)) (Some (jr_content r)).

(** ** Lemmas *)

Lemma char_value_idemp s : char_value (char_value s) = char_value s.
Proof. apply py_strip_idemp. Qed.

(** A text field that validates holds, once trimmed, a text that is not
    empty and not longer than the column. *)
Lemma char_field_valid_spec max_length s :
  char_field_valid false max_length (Some s) = true <->
  char_value s <> "" /\
  forall n, max_length = Some n -> (String.length (char_value s) <= n)%nat.
Proof.
  unfold char_field_valid. rewrite andb_true_iff, negb_true_iff, bool_decide_eq_false.
  destruct max_length as [n|]; [rewrite bool_decide_eq_true|]; naive_solver.
Qed.

(** A value that validated validates again once trimmed. *)
Lemma char_field_valid_trimmed partial max_length s :
  char_field_valid false max_length (Some s) = true ->
  char_field_valid partial max_length (Some (char_value s)) = true.
Proof. unfold char_field_valid. by rewrite char_value_idemp. Qed.

Lemma valid_mood_spec mood : valid_mood mood = true <-> 1 <= mood <= 10.
Proof.
  unfold valid_mood, MOOD_CHOICES. rewrite bool_decide_eq_true, elem_of_seqZ. lia.
Qed.

(** ** Theorems *)

(** The mood entries and the journals the REST API writes are rows
    the forms accept, and reading a written row and posting what was read
    writes the same row again: the data are stored trimmed, so the
    representation is a fixed point of the serializer. *)
Theorem serializers_roundtrip db now id :
  (forall data,
     is_valid MoodEntrySerializer false db data = true ->
     let e := create MoodEntrySerializer now id data in
     let r := to_representation MoodEntrySerializer db e in
     1 <= mer_mood r <= 10 /\ med_mood data = Some (mer_mood r) /\
     is_valid MoodEntrySerializer false db (mood_entry_data_of r) = true /\
     update MoodEntrySerializer e (mood_entry_data_of r) = e) /\
  (forall data,
     is_valid JournalSerializer false db data = true ->
     let j := create JournalSerializer now id data in
     let r := to_representation JournalSerializer db j in
     jr_title r <> "" /\ (String.length (jr_title r) <= 200)%nat /\ jr_content r <> "" /\
     is_valid JournalSerializer false db (journal_data_of r) = true /\
     update JournalSerializer j (journal_data_of r) = j).
Proof.
  split; intros [v1 v2]; cbn -[Z.le valid_mood char_value char_field_valid].
  - destruct v1 as [mood|]; [|done]. intros Hv. pose proof Hv as Hm%valid_mood_spec.
    cbn -[Z.le valid_mood char_value]. split_and!; [lia..|done|done|]. f_equal.
    destruct v2; cbn -[char_value]; [apply char_value_idemp|done].
  - destruct v1 as [title|], v2 as [content|]; cbn -[char_value char_field_valid];
      try done; [|by rewrite andb_false_r].
    intros [Ht Hc]%andb_true_iff.
    pose proof Ht as [Ht1 Ht2]%char_field_valid_spec.
    pose proof Hc as [Hc1 _]%char_field_valid_spec.
    split_and!; [done|by apply Ht2|done| |by rewrite !char_value_idemp].
    apply andb_true_iff. split; by apply char_field_valid_trimmed.
Qed.
