(* ===== verification/Api.v ===== *)
(** * Api: the view sets of the REST API

    The view sets of [src/dashboard/api.py] ([MoodEntryViewSet],
    [JournalViewSet], [AchievementViewSet], [DoctorNoteViewSet]) and the
    endpoints [register_user] and [current_user].  A view set is its
    serializer, its [get_queryset] and the keyword arguments its
    [perform_create] passes to [save]; the actions ([list], [retrieve],
    [create], [update], [partial_update], [destroy]) are those of the REST
    framework's [ModelViewSet], written once for every view set over the
    interface [Model] of a table.  The theorems are proved against the
    interface where they hold for every view set that keeps to its owner's
    rows, and show where [DoctorNoteViewSet] does not: its [create] lets
    any user write a note in any doctor's name. *)

From Stdlib Require Import ZArith Lia Ascii String.
From stdpp Require Import base decidable option list strings.
From S2P Require Import Prelude Numeric Text Store Achievements Doctor Accounts Serializers.

(** ** Definitions *)

(** *** Tables *)

(** A table of the store: its rows, how they are replaced, and the
    primary key. *)
Class Model (R : Type) : Type := {
  objects : DB -> list R;
  set_objects : list R -> DB -> DB;
  pk : R -> Z
}.

#[global] Instance User_model : Model User := {|
  objects := users;
  set_objects l db :=
    mkDB l (assignments db) (moods db) (journals db) (achievements db) (doctor_notes db);
  pk := u_id
|}.

#[global] Instance DoctorPatientAssignment_model : Model DoctorPatientAssignment := {|
  objects := assignments;
  set_objects l db :=
    mkDB (users db) l (moods db) (journals db) (achievements db) (doctor_notes db);
  pk := dpa_id
|}.

#[global] Instance MoodEntry_model : Model MoodEntry := {|
  objects := moods;
  set_objects l db :=
    mkDB (users db) (assignments db) l (journals db) (achievements db) (doctor_notes db);
  pk := me_id
|}.

#[global] Instance Journal_model : Model Journal := {|
  objects := journals;
  set_objects l db :=
    mkDB (users db) (assignments db) (moods db) l (achievements db) (doctor_notes db);
  pk := j_id
|}.

#[global] Instance Achievement_model : Model Achievement := {|
  objects := achievements;
  set_objects l db :=
    mkDB (users db) (assignments db) (moods db) (journals db) l (doctor_notes db);
  pk := ach_id
|}.

#[global] Instance DoctorNote_model : Model DoctorNote := {|
  objects := doctor_notes;
  set_objects l db :=
    mkDB (users db) (assignments db) (moods db) (journals db) (achievements db) l;
  pk := dn_id
|}.

(** *** View sets *)

(** What an endpoint returns: the store it leaves, the response and its
    data. *)
Definition api_answer (Repr : Type) : Type := result (DB * response * option Repr).

#[global] Instance api_answer_responds Repr : Responds DB (api_answer Repr) :=
  fun db r => Ok (db, r, None).

(** A [ModelViewSet] class: [serializer_class], [get_queryset] and the
    keyword arguments of [serializer.save] in [perform_create]. *)
Record view_set (R Data Repr : Type) : Type := mkViewSet {
  serializer_class : serializer R Data Repr;
  get_queryset : User -> DB -> list R;
  save_kwargs : User -> R -> R
}.

#[global] Arguments mkViewSet {R Data Repr} _ _ _.
#[global] Arguments serializer_class {R Data Repr} _.
#[global] Arguments get_queryset {R Data Repr} _ _ _.
#[global] Arguments save_kwargs {R Data Repr} _ _ _.

Section Actions.
Context {R Data Repr : Type} `{Model R} (vs : view_set R Data Repr).

(** [self.get_object()]: the row of the query set with the key of the
    URL, [None] for the 404 answer. *)
Definition get_object (id : Z) (user : User) (db : DB) : result (option R) :=
  match qs_get (filter (fun r => pk r = id) (get_queryset vs user db)) with
  | Ok r => mret (Some r)
  | Raise DoesNotExist => mret None
  | Raise e => Raise e
  end.

(** [ListModelMixin.list]. *)
Definition list_action (user : User) (db : DB) : api_answer (list Repr) :=
  let queryset := get_queryset vs user db in
  mret (db, Response 200, Some (to_representation (serializer_class vs) db <$> queryset)).

(** [RetrieveModelMixin.retrieve]. *)
Definition retrieve (id : Z) (user : User) (db : DB) : api_answer Repr :=
  instance ← get_object id user db;
  match instance with
  | None => mret (db, Response 404, None)
  | Some instance =>
      mret (db, Response 200, Some (to_representation (serializer_class vs) db instance))
  end.

(** [CreateModelMixin.create], with the [perform_create] of the view
    set. *)
Definition create_action (now : Z) (data : Data) (user : User) (db : DB) : api_answer Repr :=
  if is_valid (serializer_class vs) false db data then
    let instance :=
      save_kwargs vs user
        (create (serializer_class vs) now (next_id (pk <$> objects db)) data) in
    let db := set_objects (objects db ++ [instance]) db in
    mret (db, Response 201, Some (to_representation (serializer_class vs) db instance))
  else mret (db, Response 400, None).

(** [UpdateModelMixin.update]; [partial] for [partial_update]. *)
Definition update_action (partial : bool) (id : Z) (data : Data) (user : User) (db : DB)
    : api_answer Repr :=
  instance ← get_object id user db;
  match instance with
  | None => mret (db, Response 404, None)
  | Some instance =>
      if is_valid (serializer_class vs) partial db data then
        let instance := update (serializer_class vs) instance data in
        let db :=
          set_objects ((fun r => if decide (pk r = id) then instance else r) <$> objects db)
                      db in
        mret (db, Response 200, Some (to_representation (serializer_class vs) db instance))
      else mret (db, Response 400, None)
  end.

(** [DestroyModelMixin.destroy]. *)
Definition destroy (id : Z) (user : User) (db : DB) : api_answer Repr :=
  instance ← get_object id user db;
  match instance with
  | None => mret (db, Response 404, None)
  | Some instance =>
      mret (set_objects (filter (fun r => pk r <> id) (objects db)) db, Response 204, None)
  end.

End Actions.

(** [MoodEntryViewSet]. *)
Definition MoodEntryViewSet : view_set MoodEntry MoodEntryData MoodEntryRepr :=
  mkViewSet MoodEntrySerializer
    (fun user db => moods_of db (u_id user))
    (fun user e =>
       mkMoodEntry (me_id e) (u_id user) (me_mood e) (me_note e) (me_tags e) (me_date e)).

(** [JournalViewSet]. *)
Definition JournalViewSet : view_set Journal JournalData JournalRepr :=
  mkViewSet JournalSerializer
    (fun user db => journals_of db (u_id user))
    (fun user j => mkJournal (j_id j) (u_id user) (j_title j) (j_content j) (j_date j)).

(** [AchievementViewSet], a [ReadOnlyModelViewSet]: there are no data a
    request could post. *)
Definition AchievementViewSet : view_set Achievement Empty_set AchievementRepr :=
  mkViewSet
    (mkSerializer (fun _ => achievement_representation) (fun _ _ _ => false)
                  (fun _ _ (data : Empty_set) => match data return Achievement with end)
                  (fun a _ => a))
    (fun user db => filter (fun a => ach_user a = u_id user) (achievements db))
    (fun _ a => a).

(** [DoctorNoteViewSet]: [perform_create] is the framework's, which
    passes no keyword argument to [save]. *)
Definition DoctorNoteViewSet : view_set DoctorNote DoctorNoteData DoctorNoteRepr :=
  mkViewSet DoctorNoteSerializer (fun user db => visible_notes db user) (fun _ n => n).

(** [DoctorNoteViewSet.create_for_patient] on the data of the request:
    the serializer validates the data, [save] takes the doctor and the
    patient from the request and the URL. *)
Definition create_for_patient_action (now : Z) (patient_id : Z) (data : DoctorNoteData)
    (user : User) : handler :=
  fun db =>
    create_for_patient now patient_id
      (default "" (char_value <$> dnd_note data))
      (default true (dnd_is_visible_to_patient data))
      (is_valid DoctorNoteSerializer false db data) user db.

(** [current_user(request)]. *)
Definition current_user : option User -> DB -> api_answer UserRepr :=
  is_authenticated (fun user db =>
    mret (db, Response 200, Some (to_representation UserSerializer db user))).

(** [register_user(request)], from draw [n] on: the user is created from
    the validated data of [UserSerializer] and saved with [User.save];
    the token is not modelled.  [None] when the fuel of the generation
    of the patient code runs out. *)
Definition register_user (fuel : nat) (draws : uuid_source) (n : nat) (data : UserData)
    (db : DB) : option (api_answer UserRepr * nat) :=
  if is_valid UserSerializer false db data then
    '(saved, n) ← user_save fuel draws n db (create UserSerializer 0 0 data);
    Some (match saved with
          | Ok (db, user) =>
              Ok (db, Response 201, Some (to_representation UserSerializer db user))
          | Raise e => Raise e
          end, n)
  else Some (Ok (db, Response 400, None), n).

(** A store for the examples: user 1 has logged seven moods through the
    view, which awarded "Week Warrior". *)
Definition week_db : DB :=
  Nat.iter 7 (fun db => check_achievements (create_mood db sample_now 1 5 "" "") sample_now 1)
           empty_db.

(** The requests the router sends to a view set: the action and what the
    URL and the body carry. *)
Inductive action (Data : Type) : Type :=
| List
| Retrieve (id : Z)
| Create (data : Data)
| Update (partial : bool) (id : Z) (data : Data)
| Destroy (id : Z).

#[global] Arguments List {Data}.
#[global] Arguments Retrieve {Data} _.
#[global] Arguments Create {Data} _.
#[global] Arguments Update {Data} _ _ _.
#[global] Arguments Destroy {Data} _.

(** A view set with [permission_classes = [permissions.IsAuthenticated]],
    as a handler of its actions. *)
Definition dispatch {R Data Repr} `{Model R} (vs : view_set R Data Repr) (now : Z)
    (a : action Data) : option User -> handler :=
  is_authenticated (fun user db =>
    match a with
    | List => fst <$> list_action vs user db
    | Retrieve id => fst <$> retrieve vs id user db
    | Create data => fst <$> create_action vs now data user db
    | Update partial id data => fst <$> update_action vs partial id data user db
    | Destroy id => fst <$> destroy vs id user db
    end).

(** *** What a view set promises *)

(** The laws of a table. *)
Class ModelLaws (R : Type) `{Model R} : Prop := {
  objects_set_objects l db : objects (set_objects l db) = l;
  set_objects_objects db : set_objects (objects db) db = db;
  set_objects_twice l l' db : set_objects l' (set_objects l db) = set_objects l' db
}.

(** A view set keeps to the rows of the user: its query set is the rows
    the user owns, [perform_create] makes the user the owner, and the
    serializer changes neither owner nor key. *)
Class Owned {R Data Repr} `{Model R} (vs : view_set R Data Repr) (owner : R -> Z) : Prop := {
  owned_queryset user db :
    get_queryset vs user db = filter (fun r => owner r = u_id user) (objects db);
  owned_kwargs user r :
    owner (save_kwargs vs user r) = u_id user /\ pk (save_kwargs vs user r) = pk r;
  owned_create now id data : pk (create (serializer_class vs) now id data) = id;
  owned_update r data :
    owner (update (serializer_class vs) r data) = owner r /\
    pk (update (serializer_class vs) r data) = pk r
}.

(** A view set keeps the keys of its table: its query set holds rows of
    the table, a row is created with the key it is given and keeps its
    key when it is updated. *)
Class Keyed {R Data Repr} `{Model R} (vs : view_set R Data Repr) : Prop := {
  keyed_queryset user db : get_queryset vs user db ⊆ objects db;
  keyed_create user now id data :
    pk (save_kwargs vs user (create (serializer_class vs) now id data)) = id;
  keyed_update r data : pk (update (serializer_class vs) r data) = pk r
}.

(** What a request of user [u] may do to a table: nothing, add a row of
    [u] with a new key, replace a row of [u] by a row of [u] with its key,
    or remove a row of [u]. *)
Inductive own_step {R} `{Model R} (owner : R -> Z) (u : Z) : list R -> list R -> Prop :=
| own_read l : own_step owner u l l
| own_insert l r :
    owner r = u -> pk r ∉ pk <$> l -> own_step owner u l (l ++ [r])
| own_replace l1 r l2 r' :
    owner r = u -> owner r' = u -> pk r' = pk r ->
    own_step owner u (l1 ++ r :: l2) (l1 ++ r' :: l2)
| own_delete l1 r l2 :
    owner r = u -> own_step owner u (l1 ++ r :: l2) (l1 ++ l2).

(** The keys of a table are distinct. *)
Definition unique_keys (R : Type) `{Model R} (db : DB) : Prop :=
  NoDup (pk <$> objects (R:=R) db).

(** ** Lemmas *)

#[global] Instance User_laws : ModelLaws User.
Proof. split; [done|by intros []|done]. Qed.
#[global] Instance DoctorPatientAssignment_laws : ModelLaws DoctorPatientAssignment.
Proof. split; [done|by intros []|done]. Qed.
#[global] Instance MoodEntry_laws : ModelLaws MoodEntry.
Proof. split; [done|by intros []|done]. Qed.
#[global] Instance Journal_laws : ModelLaws Journal.
Proof. split; [done|by intros []|done]. Qed.
#[global] Instance Achievement_laws : ModelLaws Achievement.
Proof. split; [done|by intros []|done]. Qed.
#[global] Instance DoctorNote_laws : ModelLaws DoctorNote.
Proof. split; [done|by intros []|done]. Qed.

#[global] Instance MoodEntryViewSet_owned : Owned MoodEntryViewSet me_user.
Proof. by split. Qed.
#[global] Instance JournalViewSet_owned : Owned JournalViewSet j_user.
Proof. by split. Qed.

#[global] Instance MoodEntryViewSet_keyed : Keyed MoodEntryViewSet.
Proof. split; [intros; apply filter_subseteq|done..]. Qed.
#[global] Instance JournalViewSet_keyed : Keyed JournalViewSet.
Proof. split; [intros; apply filter_subseteq|done..]. Qed.
#[global] Instance AchievementViewSet_keyed : Keyed AchievementViewSet.
Proof. split; [intros; apply filter_subseteq|by intros ? ? ? []|done]. Qed.
#[global] Instance DoctorNoteViewSet_keyed : Keyed DoctorNoteViewSet.
Proof.
  split; [|done..]. intros user db. cbn. unfold visible_notes.
  case_decide; apply filter_subseteq.
Qed.

(** *** Every view set keeps the keys distinct *)

Lemma fst_ok_inv {A B} (m : result (A * B)) (a : A) :
  fst <$> m = Ok a -> exists b, m = Ok (a, b).
Proof. destruct m as [[a' b]|e]; [|done]. intros [= <-]. by exists b. Qed.

Section KeyedActions.
Context {R Data Repr : Type} `{ModelLaws R} (vs : view_set R Data Repr) `{!Keyed vs}.

Lemma get_object_filter id user db r :
  get_object vs id user db = Ok (Some r) ->
  r ∈ filter (fun r => pk r = id) (get_queryset vs user db).
Proof.
  unfold get_object. destruct (qs_get _) as [r'|[]] eqn:E; try done. intros [= ->].
  apply qs_get_ok in E. rewrite E. left.
Qed.

Lemma get_object_key id user db r : get_object vs id user db = Ok (Some r) -> pk r = id.
Proof. by intros [? _]%get_object_filter%list_elem_of_filter. Qed.

(** The object of a request is a row of the table. *)
Lemma get_object_elem id user db r : get_object vs id user db = Ok (Some r) -> r ∈ objects db.
Proof.
  intros [_ Hr]%get_object_filter%list_elem_of_filter. by apply (keyed_queryset user db).
Qed.

(** An update leaves the list of keys as it is. *)
Lemma update_keys id r data (l : list R) :
  pk r = id ->
  pk <$> ((fun x => if decide (pk x = id) then update (serializer_class vs) r data else x) <$> l)
  = pk <$> l.
Proof.
  intros Hr. rewrite <- list_fmap_compose. apply list_fmap_ext. intros _ x _. cbn.
  case_decide; [|done]. rewrite keyed_update. congruence.
Qed.

(** Whatever the action, the table keeps distinct keys and the other
    tables are left as they are. *)
Lemma dispatch_keys now a user db db' resp :
  unique_keys R db ->
  dispatch vs now a user db = Ok (db', resp) ->
  unique_keys R db' /\ db' = set_objects (objects db') db.
Proof.
  intros Hk. unfold dispatch, is_authenticated, unique_keys in *.
  assert (forall d, d = db -> NoDup (pk <$> objects d) /\ d = set_objects (objects d) db)
    as Hread by (intros d ->; split; [done|by rewrite set_objects_objects]).
  destruct user as [user|]; [|by intros [= <- _]; apply Hread].
  destruct a as [|id|data|partial id data|id]; intros [rep E]%fst_ok_inv.
  - apply Hread. by injection E as <-.
  - apply Hread. unfold retrieve in E.
    destruct (get_object vs id user db) as [[r|]|]; [by injection E as <-..|done].
  - unfold create_action in E. destruct (is_valid _ _ _ _); injection E as <- _ _;
      [|by apply Hread].
    rewrite !objects_set_objects. split; [|done].
    apply NoDup_fmap_snoc; [|done]. rewrite keyed_create. apply next_id_fresh.
  - unfold update_action in E.
    destruct (get_object vs id user db) as [[r|]|] eqn:Eg; cbn in E;
      [|by injection E as <- _ _; apply Hread|done].
    destruct (is_valid _ _ _ _); injection E as <- _ _; [|by apply Hread].
    rewrite !objects_set_objects, (update_keys id r data) by by eapply get_object_key.
    done.
  - unfold destroy in E.
    destruct (get_object vs id user db) as [[r|]|] eqn:Eg; cbn in E;
      [|by injection E as <- _ _; apply Hread|done].
    injection E as <- _. rewrite !objects_set_objects. split; [|done].
    by apply NoDup_fmap_filter.
Qed.

End KeyedActions.

(** *** What [own_step] allows *)

Section OwnStep.
Context {R : Type} `{Model R} (owner : R -> Z) (u : Z).

(** The rows of the other users are left as they are. *)
Lemma own_step_private l l' :
  own_step owner u l l' ->
  filter (fun r => owner r <> u) l' = filter (fun r => owner r <> u) l.
Proof.
  destruct 1 as [l|l r Hr _|l1 r l2 r' Hr Hr' _|l1 r l2 Hr];
    rewrite ?filter_app, ?filter_cons, ?filter_nil;
    repeat case_decide; try done; by rewrite ?app_nil_r.
Qed.

(** What holds of the rows of the table and of every row of the user
    holds of the rows after the step. *)
Lemma own_step_Forall (P : R -> Prop) l l' :
  (forall r, owner r = u -> P r) -> own_step owner u l l' -> Forall P l -> Forall P l'.
Proof.
  intros Hu. destruct 1 as [l|l r Hr _|l1 r l2 r' _ Hr' _|l1 r l2 _];
    rewrite ?Forall_app, ?Forall_cons, ?Forall_nil; naive_solver.
Qed.

(** The keys stay distinct. *)
Lemma own_step_keys l l' : own_step owner u l l' -> NoDup (pk <$> l) -> NoDup (pk <$> l').
Proof.
  destruct 1 as [l|l r _ Hr|l1 r l2 r' _ _ Hpk|l1 r l2 _]; [done|..];
    rewrite ?fmap_app, ?fmap_cons, ?fmap_nil, ?Hpk.
  - intros Hnd. apply NoDup_app. split_and!; [done| |apply NoDup_singleton].
    by intros k Hk ->%list_elem_of_singleton.
  - done.
  - rewrite !NoDup_app, NoDup_cons. intros (H1 & H12 & _ & H2). split_and!; [done| |done].
    intros k Hk Hk2. apply (H12 k Hk). by right.
Qed.

End OwnStep.

(** *** The actions of a view set that keeps to the user's rows *)

Section OwnedActions.
Context {R Data Repr : Type} `{ModelLaws R} (vs : view_set R Data Repr) (owner : R -> Z).
Context `{!Owned vs owner}.

Lemma get_object_inv id user db r :
  get_object vs id user db = Ok (Some r) ->
  r ∈ objects db /\ owner r = u_id user /\ pk r = id.
Proof.
  unfold get_object. destruct (qs_get _) as [r'|[]] eqn:E; try done. intros [= ->].
  apply qs_get_ok in E.
  assert (r ∈ filter (fun r => pk r = id) (get_queryset vs user db)) as Hin
    by (rewrite E; left).
  rewrite owned_queryset in Hin.
  by apply list_elem_of_filter in Hin as [? [? ?]%list_elem_of_filter].
Qed.

(** With distinct keys, the object of a request is one row of the table
    and no other row has its key. *)
Lemma get_object_split id user db r :
  unique_keys R db -> get_object vs id user db = Ok (Some r) ->
  owner r = u_id user /\ pk r = id /\
  exists l1 l2, objects db = l1 ++ r :: l2 /\ Forall (fun x => pk x <> id) (l1 ++ l2).
Proof.
  intros Hk (Hin & Ho & Hp)%get_object_inv. split_and!; [done..|].
  destruct (NoDup_fmap_split pk _ r Hk Hin) as (l1 & l2 & E & Hne).
  exists l1, l2. by rewrite <- Hp.
Qed.

Lemma create_action_inv now data user db db' resp rep :
  create_action vs now data user db = Ok (db', resp, rep) ->
  (db' = db /\ resp = Response 400 /\ rep = None) \/
  exists r, db' = set_objects (objects db ++ [r]) db /\ resp = Response 201 /\
            rep = Some (to_representation (serializer_class vs) db' r) /\
            owner r = u_id user /\ pk r = next_id (pk <$> objects db) /\
            is_valid (serializer_class vs) false db data = true.
Proof.
  unfold create_action. destruct (is_valid _ _ _ _) eqn:Ev; intros [= <- <- <-]; [|by left].
  right. eexists. split_and!; [done..| | |done].
  - apply owned_kwargs.
  - destruct (owned_kwargs (vs:=vs) user
                (create (serializer_class vs) now (next_id (pk <$> objects db)) data))
      as [_ ->]. apply owned_create.
Qed.

Lemma update_action_inv partial id data user db db' resp rep :
  unique_keys R db ->
  update_action vs partial id data user db = Ok (db', resp, rep) ->
  db' = db \/
  exists l1 r l2 r',
    objects db = l1 ++ r :: l2 /\ db' = set_objects (l1 ++ r' :: l2) db /\
    r' = update (serializer_class vs) r data /\ owner r = u_id user /\ pk r = id /\
    resp = Response 200.
Proof.
  intros Hk. unfold update_action.
  destruct (get_object vs id user db) as [[r|]|] eqn:Eg; cbn; [|by intros [= <- _ _]; left|done].
  destruct (is_valid _ _ _ _); [|by intros [= <- _ _]; left].
  apply get_object_split in Eg as (Ho & Hp & l1 & l2 & El & Hne); [|done].
  intros [= <- <- <-]. right. exists l1, r, l2, (update (serializer_class vs) r data).
  rewrite El at 2. by rewrite (fmap_replace_key pk id _ l1 r l2 Hp Hne).
Qed.

Lemma destroy_inv id user db db' resp rep :
  unique_keys R db ->
  destroy vs id user db = Ok (db', resp, rep) ->
  db' = db \/
  exists l1 r l2,
    objects db = l1 ++ r :: l2 /\ db' = set_objects (l1 ++ l2) db /\
    owner r = u_id user /\ pk r = id /\ resp = Response 204.
Proof.
  intros Hk. unfold destroy.
  destruct (get_object vs id user db) as [[r|]|] eqn:Eg; cbn; [|by intros [= <- _ _]; left|done].
  apply get_object_split in Eg as (Ho & Hp & l1 & l2 & El & Hne); [|done].
  intros [= <- <- <-]. right. exists l1, r, l2.
  rewrite El at 2. by rewrite (filter_remove_key pk id l1 r l2 Hp Hne).
Qed.

(** A view set that keeps to the user's rows implements [own_step], and
    touches its own table only. *)
Lemma dispatch_own_step now a user db db' resp :
  unique_keys R db ->
  dispatch vs now a (Some user) db = Ok (db', resp) ->
  own_step owner (u_id user) (objects db) (objects db') /\
  db' = set_objects (objects db') db.
Proof.
  intros Hk. unfold dispatch, is_authenticated.
  assert (forall d, d = db -> own_step owner (u_id user) (objects db) (objects d) /\
                              d = set_objects (objects d) db) as Hread
    by (intros d ->; split; [constructor|by rewrite set_objects_objects]).
  destruct a as [|id|data|partial id data|id]; intros [rep E]%fst_ok_inv.
  - apply Hread. by injection E as <-.
  - apply Hread. unfold retrieve in E.
    destruct (get_object vs id user db) as [[r|]|]; [by injection E as <-..|done].
  - apply create_action_inv in E as [(-> & _)|(r & -> & _ & _ & Ho & Hp & _)]; [by apply Hread|].
    rewrite !objects_set_objects. split; [|done]. constructor; [done|].
    rewrite Hp. apply next_id_fresh.
  - apply update_action_inv in E as [->|(l1 & r & l2 & r' & El & -> & -> & Ho & Hp & _)];
      [by apply Hread| |done].
    rewrite !objects_set_objects, El. split; [|done].
    destruct (owned_update (vs:=vs) r data) as [Ho' Hp']. constructor; congruence.
  - apply destroy_inv in E as [->|(l1 & r & l2 & El & -> & Ho & Hp & _)];
      [by apply Hread| |done].
    rewrite !objects_set_objects, El. split; [|done]. by constructor.
Qed.

(** With distinct keys, a row of the user is the object of the request
    for its key. *)
Lemma get_object_found user db r :
  unique_keys R db -> r ∈ objects db -> owner r = u_id user ->
  get_object vs (pk r) user db = Ok (Some r).
Proof.
  intros Hk Hin Ho. unfold get_object. rewrite owned_queryset.
  destruct (NoDup_fmap_split pk _ r Hk Hin) as (l1 & l2 & -> & Hne).
  rewrite list_filter_filter.
  assert (filter (fun x => pk x = pk r /\ owner x = u_id user) (l1 ++ r :: l2) = [r]) as ->;
    [|done].
  rewrite filter_app, filter_cons_True by done. apply Forall_app in Hne as [H1 H2].
  rewrite !filter_none; [done|..]; (eapply Forall_impl; [eassumption|]); naive_solver.
Qed.

(** What [create] returns is what [retrieve] returns for the new key. *)
Lemma retrieve_created now data user db db' rep :
  create_action vs now data user db = Ok (db', Response 201, Some rep) ->
  retrieve vs (next_id (pk <$> objects db)) user db' = Ok (db', Response 200, Some rep).
Proof.
  intros [(_ & [=] & _)|(r & -> & _ & [= ->] & Ho & Hp & _)]%create_action_inv.
  unfold retrieve, get_object. rewrite owned_queryset, objects_set_objects, <- Hp.
  rewrite list_filter_filter, filter_app, filter_cons_True, filter_nil by done.
  rewrite filter_none; [done|]. apply Forall_forall. intros x Hx [Hpx _].
  apply (next_id_fresh (pk <$> objects db)). rewrite <- Hp, <- Hpx.
  apply list_elem_of_fmap. eauto.
Qed.

End OwnedActions.

(** *** The view set of doctor notes *)

Lemma user_key_valid_elem partial db u : u ∈ users db -> user_key_valid partial db (Some (u_id u)) = true.
Proof.
  intros Hu. unfold user_key_valid. apply qs_exists_elem. exists u.
  by apply list_elem_of_filter.
Qed.

(** The entry the view set creates is the entry [api_mood_create] saves,
    with the note trimmed. *)
Lemma create_action_api_mood_create now mood note user db :
  fst <$> (fst <$> create_action MoodEntryViewSet now
                     (mkMoodEntryData (Some mood) (Some note)) user db) =
  Ok (api_mood_create db now (u_id user) mood (char_value note)).
Proof.
  unfold create_action, api_mood_create. cbn -[valid_mood char_value].
  by destruct (valid_mood mood).
Qed.

(** Removing a row of a table with distinct keys through its view set. *)
Lemma mood_entry_destroy user db e :
  unique_keys MoodEntry db -> e ∈ moods_of db (u_id user) ->
  exists l1 l2,
    moods db = l1 ++ e :: l2 /\
    destroy MoodEntryViewSet (me_id e) user db =
    Ok (set_objects (l1 ++ l2) db, Response 204, None).
Proof.
  intros Hk [Hin Hu]%moods_of_elem.
  pose proof (get_object_found MoodEntryViewSet me_user user db e Hk Hin Hu) as Hg.
  destruct (NoDup_fmap_split me_id _ e Hk Hin) as (l1 & l2 & El & Hne).
  cbn [objects MoodEntry_model] in El.
  exists l1, l2. split; [done|]. unfold destroy. cbn [pk MoodEntry_model] in Hg. rewrite Hg.
  cbn [mbind result_bind objects pk MoodEntry_model]. rewrite El.
  by rewrite (filter_remove_key me_id (me_id e) l1 e l2 eq_refl Hne).
Qed.

(** The name of a registration that validates is not taken. *)
Lemma register_name_free db data :
  is_valid UserSerializer false db data = true ->
  exists name, ud_username data = Some name /\
               Forall (fun v => u_username v <> char_value name) (users db).
Proof.
  cbn [is_valid UserSerializer]. destruct (ud_username data) as [name|]; [|done].
  intros [[_ Hu%negb_true_iff%qs_exists_false]%andb_true_iff _]%andb_true_iff.
  exists name. split; [done|]. apply Forall_forall. intros v Hin E.
  assert (v ∈ filter (fun u => u_username u = char_value name) (users db)) as Hf
    by (by apply list_elem_of_filter).
  rewrite Hu in Hf. by apply elem_of_nil in Hf.
Qed.

(** ** Theorems *)

(** C8: a view set that keeps to the user's rows implements [own_step]:
    whatever the action, a request of a user adds, replaces or removes at
    most one row, a row of this user; the rows of the other users and the
    other tables are left as they are, and the keys stay distinct. *)
Theorem view_set_refines {R Data Repr} `{ModelLaws R} (vs : view_set R Data Repr)
    (owner : R -> Z) `{!Owned vs owner} now a user db db' resp :
  unique_keys R db ->
  dispatch vs now a (Some user) db = Ok (db', resp) ->
  own_step owner (u_id user) (objects db) (objects db') /\
  db' = set_objects (objects db') db /\
  unique_keys R db' /\
  filter (fun r => owner r <> u_id user) (objects db') =
  filter (fun r => owner r <> u_id user) (objects db).
Proof.
  intros Hk [Hs Hd]%(dispatch_own_step vs owner); [|done].
  split_and!; [done|done|by eapply own_step_keys|by apply own_step_private].
Qed.

Lemma view_set_refines_witness :
  let db' := set_objects (filter (fun e => me_id e <> 3) (moods sample_db)) sample_db in
  own_step me_user (u_id pat_one) (moods sample_db) (moods db') /\
  db' = set_objects (moods db') sample_db /\
  unique_keys MoodEntry db' /\
  filter (fun e => me_user e <> u_id pat_one) (moods db') =
  filter (fun e => me_user e <> u_id pat_one) (moods sample_db).
Proof.
  intros db'.
  apply (view_set_refines (H:=MoodEntry_model) MoodEntryViewSet me_user sample_now (Destroy 3)
           pat_one sample_db db' (Response 204)); [by_decide|by_compute].
Defined.

(** What [create] answers is what [retrieve] answers for the new key
    and what [list] shows last, for every view set that keeps to the
    user's rows. *)
Theorem retrieve_after_create {R Data Repr} `{ModelLaws R} (vs : view_set R Data Repr)
    (owner : R -> Z) `{!Owned vs owner} now data user db db' rep :
  create_action vs now data user db = Ok (db', Response 201, Some rep) ->
  retrieve vs (next_id (pk <$> objects db)) user db' = Ok (db', Response 200, Some rep) /\
  exists reps, list_action vs user db' = Ok (db', Response 200, Some (reps ++ [rep])).
Proof.
  intros Hc. split; [by eapply retrieve_created|].
  apply (create_action_inv vs owner) in Hc as [(_ & [=] & _)|(r & -> & _ & [= ->] & Ho & _)].
  unfold list_action. rewrite (owned_queryset (vs:=vs)), objects_set_objects.
  rewrite filter_app, filter_cons_True, filter_nil, fmap_app by done. by eexists.
Qed.

Lemma retrieve_after_create_witness :
  exists db' rep,
    create_action JournalViewSet sample_now (mkJournalData (Some " day ten ") (Some "calm"))
                  pat_one sample_db = Ok (db', Response 201, Some rep) /\
    jr_title rep = "day ten" /\
    retrieve JournalViewSet 1 pat_one db' = Ok (db', Response 200, Some rep).
Proof.
  eexists _, _. split; [by_compute|]. split; [by_compute|].
  apply (retrieve_after_create (H:=Journal_model) JournalViewSet j_user sample_now
           (mkJournalData (Some " day ten ") (Some "calm")) pat_one sample_db).
  by_compute.
Defined.

(** C21: [DoctorNoteViewSet.create] checks neither the role of the user
    nor an assignment: any authenticated user can store a note on any
    patient in the name of any doctor, and the patient sees it. *)
Theorem doctor_note_create_forged now user db patient doctor note :
  patient ∈ users db -> doctor ∈ users db -> char_value note <> "" ->
  exists n,
    dispatch DoctorNoteViewSet now
      (Create (mkDoctorNoteData (Some (u_id patient)) (Some (u_id doctor)) (Some note) None))
      (Some user) db =
    Ok (set_objects (doctor_notes db ++ [n]) db, Response 201) /\
    dn_doctor n = u_id doctor /\ dn_patient n = u_id patient /\
    dn_note n = char_value note /\
    (u_role patient = Patient -> n ∈ visible_notes (set_objects (doctor_notes db ++ [n]) db) patient).
Proof.
  intros Hp Hd Hn. eexists. unfold dispatch, is_authenticated, create_action.
  cbn [serializer_class DoctorNoteViewSet is_valid DoctorNoteSerializer dnd_patient
       dnd_doctor dnd_note].
  rewrite !user_key_valid_elem by done.
  rewrite (proj2 (char_field_valid_spec None note)) by done. cbn -[char_value].
  split_and!; [reflexivity|done..|].
  intros Hr. unfold visible_notes. rewrite decide_False by (rewrite Hr; auto).
  cbn -[char_value]. rewrite filter_app, elem_of_app. right.
  by rewrite filter_cons_True, filter_nil, list_elem_of_singleton.
Qed.

Lemma doctor_note_create_forged_witness :
  exists n,
    dispatch DoctorNoteViewSet sample_now
      (Create (mkDoctorNoteData (Some 1) (Some 10) (Some "stop your medication") None))
      (Some pat_two) clinic_db =
    Ok (set_objects (doctor_notes clinic_db ++ [n]) clinic_db, Response 201) /\
    dn_doctor n = 10 /\ dn_patient n = 1 /\ dn_note n = "stop your medication" /\
    (u_role pat_one = Patient ->
     n ∈ visible_notes (set_objects (doctor_notes clinic_db ++ [n]) clinic_db) pat_one).
Proof.
  apply (doctor_note_create_forged sample_now pat_two clinic_db pat_one dr_house
           "stop your medication"); by_decide.
Defined.

(** C37: the REST API lets a user delete a mood entry, and nothing looks at
    the achievements then: after the seventh entry is deleted the user
    still has "Week Warrior" with six entries, so the achievements are no
    longer those the counts call for. *)
Theorem mood_entry_destroy_breaks_match user db e :
  unique_keys MoodEntry db -> achievements_match db ->
  e ∈ moods_of db (u_id user) -> qs_count (moods_of db (u_id user)) = 7 ->
  exists db',
    destroy MoodEntryViewSet (me_id e) user db = Ok (db', Response 204, None) /\
    has_achievement db' (u_id user) "Week Warrior" /\
    qs_count (moods_of db' (u_id user)) = 6 /\
    ~ achievements_match db'.
Proof.
  intros Hk Hm He Hc. destruct (mood_entry_destroy user db e Hk He) as (l1 & l2 & El & ->).
  eexists. split; [reflexivity|].
  assert (has_achievement (set_objects (l1 ++ l2) db) (u_id user) "Week Warrior") as Hh.
  { destruct (Hm (u_id user)) as [Hw _]. apply Hw. lia. }
  assert (qs_count (moods_of (set_objects (l1 ++ l2) db) (u_id user)) = 6) as H6.
  { apply moods_of_elem in He as [_ Hu]. revert Hc. unfold qs_count, moods_of. rewrite El.
    cbn [moods set_objects MoodEntry_model].
    rewrite !filter_app, filter_cons_True by done. autorewrite with vyze. lia. }
  split_and!; [done..|]. intros Hm'. destruct (Hm' (u_id user)) as [Hw _].
  apply Hw in Hh. lia.
Qed.

Lemma mood_entry_destroy_breaks_match_witness :
  exists db',
    destroy MoodEntryViewSet 7 pat_one week_db = Ok (db', Response 204, None) /\
    has_achievement db' 1 "Week Warrior" /\
    qs_count (moods_of db' 1) = 6 /\
    ~ achievements_match db'.
Proof.
  apply (mood_entry_destroy_breaks_match pat_one week_db
           (mkMoodEntry 7 1 5 "" "" sample_now)); [by_decide| |by_decide|by_compute].
  unfold week_db. cbn [Nat.iter].
  repeat apply achievements_match_check_create. apply achievements_match_empty.
Defined.

(** [create_for_patient] takes the doctor from the request and the
    patient from the URL, yet its serializer requires both keys in the
    body: without them an assigned doctor is answered 400, and with them
    the note is stored for the doctor of the request and the patient of
    the URL, whatever keys the body names. *)
Theorem create_for_patient_needs_keys now pid data user db patient :
  u_role user = Doctor -> patients_with_id db pid = [patient] ->
  active_assignments db (u_id user) (u_id patient) <> [] ->
  (dnd_patient data = None \/ dnd_doctor data = None ->
   create_for_patient_action now pid data user db = Ok (db, Response 400)) /\
  (is_valid DoctorNoteSerializer false db data = true ->
   exists n,
     create_for_patient_action now pid data user db =
       Ok (set_objects (doctor_notes db ++ [n]) db, Response 201) /\
     dn_doctor n = u_id user /\ dn_patient n = u_id patient).
Proof.
  intros Hr Hp Ha%qs_exists_true. unfold create_for_patient_action, create_for_patient.
  rewrite decide_False by (rewrite Hr; auto). rewrite Hp.
  cbn [qs_get]. rewrite Ha. cbn [negb]. split.
  - intros Hn. assert (is_valid DoctorNoteSerializer false db data = false) as ->; [|done].
    cbn [is_valid DoctorNoteSerializer].
    destruct Hn as [-> | ->]; cbn [user_key_valid]; by rewrite ?andb_false_r.
  - intros ->. by eexists.
Qed.

Lemma create_for_patient_needs_keys_witness :
  create_for_patient_action sample_now 1 (mkDoctorNoteData None None (Some "rest") None)
    dr_house (set_objects [mkAssignment 1 10 1 0 true ""] clinic_db) =
  Ok (set_objects [mkAssignment 1 10 1 0 true ""] clinic_db, Response 400).
Proof.
  apply (create_for_patient_needs_keys sample_now 1
           (mkDoctorNoteData None None (Some "rest") None) dr_house
           (set_objects [mkAssignment 1 10 1 0 true ""] clinic_db) pat_one);
    [done|by_compute|by_decide|by left].
Defined.

(** [register_user] stores a user for data that validate: the name
    is the trimmed name of the request, the key is the next key, a
    patient gets a code nobody had, by which the lookup of
    [assign_patient] finds the new user, and the other users are left as
    they are. *)
Theorem register_user_creates fuel draws n data db code n' :
  Forall (fun v => u_id v <> 0) (users db) ->
  is_valid UserSerializer false db data = true ->
  generate_patient_id fuel draws n db = Some (code, n') ->
  exists db' user,
    register_user fuel draws n data db =
      Some (Ok (db', Response 201, Some (to_representation UserSerializer db' user)),
            if decide (u_role user = Patient) then n' else n) /\
    users db' = users db ++ [user] /\
    u_id user = next_id (u_id <$> users db) /\
    Some (u_username user) = char_value <$> ud_username data /\
    u_role user = default Patient (ud_role data) /\
    (u_role user = Patient ->
     u_patient_id user = Some code /\ users_coded db code = [] /\
     patients_coded db' code = [user]).
Proof.
  intros Hpos Hv Hg. unfold register_user. rewrite Hv.
  assert (users_coded db code = []) as Hc
    by (apply generate_patient_id_inv in Hg as (? & _ & _ & -> & ? & _); done).
  destruct (register_name_free db data Hv) as (name & En & Hname).
  rewrite (user_save_new fuel draws n db (create UserSerializer 0 0 data) code n' Hpos
             eq_refl eq_refl) by (cbn -[char_value]; by rewrite ?En).
  cbn [mbind option_bind]. set (u := create UserSerializer 0 0 data).
  assert (Some (u_username u) = char_value <$> ud_username data) as Hu
    by (subst u; cbn -[char_value]; by rewrite En).
  assert (u_role u = default Patient (ud_role data)) as Hrole by done.
  clearbody u. destruct (decide (u_role u = Patient)) as [Hr|Hr].
  - exists (set_objects (users db ++ [with_id (with_patient_id u (Some code))
                                          (next_id (u_id <$> users db))]) db),
      (with_id (with_patient_id u (Some code)) (next_id (u_id <$> users db))).
    cbn -[char_value next_id]. rewrite decide_True by done. split_and!; [done..|].
    intros _. split_and!; [done..|]. unfold patients_coded. cbn -[char_value next_id].
    rewrite filter_app, filter_cons_True, filter_nil by done.
    rewrite filter_none; [done|]. apply Forall_forall. intros v Hin [Hcv _].
    assert (v ∈ users_coded db code) as Hf by (by apply list_elem_of_filter).
    rewrite Hc in Hf. by apply elem_of_nil in Hf.
  - exists (set_objects (users db ++ [with_id u (next_id (u_id <$> users db))]) db),
      (with_id u (next_id (u_id <$> users db))).
    cbn -[char_value next_id]. rewrite decide_False by done. by split_and!.
Qed.

Lemma register_user_creates_witness :
  exists db' user,
    register_user 3 sample_draws 0 (mkUserData (Some " four ") None None None None)
                  clinic_db =
      Some (Ok (db', Response 201, Some (to_representation UserSerializer db' user)),
            if decide (u_role user = Patient) then 3%nat else 0%nat) /\
    users db' = users clinic_db ++ [user] /\
    u_id user = next_id (u_id <$> users clinic_db) /\
    Some (u_username user) = Some "four" /\
    u_role user = Patient /\
    (u_role user = Patient ->
     u_patient_id user = Some "0F9E8D7C" /\ users_coded clinic_db "0F9E8D7C" = [] /\
     patients_coded db' "0F9E8D7C" = [user]).
Proof.
  apply (register_user_creates 3 sample_draws 0
           (mkUserData (Some " four ") None None None None) clinic_db "0F9E8D7C" 3);
    [by_decide|by_compute|by_compute].
Defined.
