(* ===== verification/Journals.v ===== *)
(** * Journals: writing a journal entry

    The view [add_journal] of [src/dashboard/views.py] with the validation
    of [JournalForm] ([src/dashboard/forms.py]), beside the [create] of
    [JournalViewSet].  The theorems show that the view writes one row of
    the user and nothing else, that the view and the REST endpoint store
    the same row for the same data, and how the entries a user writes
    change the recommendations: the fifth entry replaces the invitation to
    write by the invitation to play. *)

From Stdlib Require Import ZArith QArith Lia Ascii String.
From stdpp Require Import base decidable option list strings.
From S2P Require Import Prelude Numeric Text Store Recommend Achievements Doctor Serializers Api.

(** ** Definitions *)

(** [JournalForm.is_valid()] on the two fields of the form: both are
    required, trimmed, and the title is at most 200 characters long. *)
Definition journal_form_valid (title content : string) : bool :=
  char_field_valid false (Some 200%nat) (Some title) &&
  char_field_valid false None (Some content).

(** [add_journal(request)] for the logged-in user. *)
Definition add_journal (now : Z) (method : http_method) (title content : string)
    : option User -> handler :=
  login_required (fun user db =>
    match method with
    | POST =>
        if journal_form_valid title content then
          let db := create_journal db now (u_id user) (char_value title) (char_value content) in
          mret (db, Redirect "patient_dashboard")
        else mret (db, Render "dashboard/add_journal.html")
    | GET => mret (db, Render "dashboard/add_journal.html")
    end).

(** The user writes [n] entries, one request after the other. *)
Fixpoint write_journals (n : nat) (now : Z) (user : User) (db : DB) : DB :=
  match n with
  | O => db
  | S n =>
      let db := write_journals n now user db in
      get_or db (fst <$> add_journal now POST "entry" "text" (Some user) db)
  end.

(** ** Lemmas *)

Lemma journals_of_create_journal db now uid title content u :
  journals_of (create_journal db now uid title content) u =
  journals_of db u ++
  (if decide (uid = u)
   then [mkJournal (next_id (j_id <$> journals db)) uid title content now] else []).
Proof.
  unfold journals_of, create_journal. cbn [journals].
  rewrite filter_app, filter_cons, filter_nil. by repeat case_decide.
Qed.

(** What the view does to the store when it answers. *)
Lemma add_journal_inv now method title content user db db' resp :
  add_journal now method title content (Some user) db = Ok (db', resp) ->
  (db' = db /\ resp = Render "dashboard/add_journal.html" /\
   (method = GET \/ journal_form_valid title content = false)) \/
  (method = POST /\ journal_form_valid title content = true /\
   db' = create_journal db now (u_id user) (char_value title) (char_value content) /\
   resp = Redirect "patient_dashboard").
Proof.
  unfold add_journal, login_required. destruct method; [intros [= <- <-]; left; auto|].
  destruct (journal_form_valid title content); intros [= <- <-]; [by right|left; auto].
Qed.

Lemma write_journals_S n now user db :
  write_journals (S n) now user db =
  create_journal (write_journals n now user db) now (u_id user) "entry" "text".
Proof. reflexivity. Qed.

Lemma count_write_journals n now user db :
  qs_count (journals_of (write_journals n now user db) (u_id user)) =
  qs_count (journals_of db (u_id user)) + Z.of_nat n.
Proof.
  induction n as [|n IH]; [simpl; lia|]. rewrite write_journals_S, journals_of_create_journal.
  rewrite decide_True by done. unfold qs_count in *. autorewrite with vyze. lia.
Qed.

(** ** Theorems *)

(** [add_journal] writes at most one row, a journal entry of the user
    with the trimmed title and text; it changes no other table and no
    entry of anybody, and it stores the row the [create] of
    [JournalViewSet] stores for the same data. *)
Theorem add_journal_writes now title content user db db' resp :
  add_journal now POST title content (Some user) db = Ok (db', resp) ->
  fst <$> (fst <$> create_action JournalViewSet now
                     (mkJournalData (Some title) (Some content)) user db) = Ok db' /\
  db' = set_objects (journals db') db /\
  (resp = Render "dashboard/add_journal.html" /\ db' = db \/
   resp = Redirect "patient_dashboard" /\
   journals db' =
     journals db ++ [mkJournal (next_id (j_id <$> journals db)) (u_id user)
                               (char_value title) (char_value content) now] /\
   char_value title <> "" /\ char_value content <> "").
Proof.
  intros [(-> & -> & [[=]|Hv])|(_ & Hv & -> & ->)]%add_journal_inv;
    unfold journal_form_valid in Hv; unfold create_action;
    cbn -[char_value char_field_valid]; rewrite Hv.
  - split_and!; [done|by destruct db|by left].
  - split_and!; [done..|]. right.
    apply andb_true_iff in Hv as [[? _]%char_field_valid_spec [? _]%char_field_valid_spec].
    by split_and!.
Qed.

Lemma add_journal_writes_witness :
  exists db',
    add_journal sample_now POST " day ten " "calm" (Some pat_one) sample_db =
      Ok (db', Redirect "patient_dashboard") /\
    journals db' = [mkJournal 1 1 "day ten" "calm" sample_now] /\
    fst <$> (fst <$> create_action JournalViewSet sample_now
                       (mkJournalData (Some " day ten ") (Some "calm")) pat_one sample_db) =
    Ok db'.
Proof.
  eexists. split; [by_compute|]. split; [by_compute|].
  eapply (add_journal_writes sample_now " day ten " "calm" pat_one sample_db). by_compute.
Defined.

(** The entries a user writes change the recommendations: while the
    trend is not declining, the last recommendation invites to write
    until the user has five entries and invites to play from then on;
    for a user without entries the fifth [add_journal] request makes the
    change. *)
Theorem add_journal_recommendations now user db avg_mood trend n :
  trend <> "declining" -> journals_of db (u_id user) = [] ->
  let db' := write_journals n now user db in
  qs_count (journals_of db' (u_id user)) = Z.of_nat n /\
  last (generate_ai_recommendations db' avg_mood trend (u_id user)) =
  Some (if decide (n < 5)%nat then journaling_message else games_message).
Proof.
  intros Ht Hj db'. assert (qs_count (journals_of db' (u_id user)) = Z.of_nat n) as Hc.
  { subst db'. rewrite count_write_journals, Hj. unfold qs_count. by cbn. }
  split; [done|]. rewrite generate_ai_recommendations_closed, decide_False, Hc by done.
  rewrite last_snoc. f_equal. repeat case_decide; (done || lia).
Qed.

Lemma add_journal_recommendations_witness :
  let db' := write_journals 5 sample_now pat_one sample_db in
  qs_count (journals_of db' (u_id pat_one)) = Z.of_nat 5 /\
  last (generate_ai_recommendations db' 7 "stable" (u_id pat_one)) =
  Some (if decide (5 < 5)%nat then journaling_message else games_message).
Proof.
  apply (add_journal_recommendations sample_now pat_one sample_db 7 "stable" 5); by_compute.
Defined.
