(* ===== verification/Registration.v ===== *)
(** * Registration: the form and the serializer that create users

    [UserRegistrationForm] of [src/accounts/forms.py] and
    [UserRegistrationSerializer] of [src/dashboard/serializers.py]: what
    they accept and the user they save.  The columns of the store carry no
    password, so the passwords are part of the data that are validated and
    of nothing else.  The checks that are the settings' or the
    framework's own (the format of an e-mail address, the password
    validators of the settings) are arguments ([settings]).  The theorems
    show that data that validate are saved without an error of the store,
    what the saved user is, and that the endpoint [register_user] of
    [src/dashboard/api.py] stores the same user as the serializer for
    registrations while it checks no password. *)

From Stdlib Require Import ZArith Lia Ascii String.
From stdpp Require Import base decidable option list strings.
From S2P Require Import Prelude Numeric Text Store Achievements Doctor Accounts.
From S2P Require Import Serializers Api.

(** ** Definitions *)

(** The checks of the framework that the model takes as given:
    [EmailValidator] and the [AUTH_PASSWORD_VALIDATORS] of the settings. *)
Record settings : Type := mkSettings {
  email_format : string -> bool;
  password_validators : string -> bool
}.

(** [User.ROLE_CHOICES]: the value a [ChoiceField] accepts, as a role. *)
Definition parse_role (s : string) : option role :=
  if decide (s = "patient") then Some Patient
  else if decide (s = "doctor") then Some Doctor
  else None.

(** *** [UserRegistrationForm] *)

(** The fields the form is posted with; a field that is left out is
    posted empty. *)
Record RegistrationPost : Type := mkRegistrationPost {
  rp_username : string;
  rp_email : string;
  rp_password1 : string;
  rp_password2 : string;
  rp_role : string;
  rp_date_of_birth : option Z;
  rp_phone_number : string
}.

(** [form.cleaned_data], in the order of [Meta.fields] without the
    passwords. *)
Record RegistrationCleaned : Type := mkRegistrationCleaned {
  rc_username : string;
  rc_email : string;
  rc_role : role;
  rc_date_of_birth : option Z;
  rc_phone_number : string
}.

(** [form.is_valid()] and the cleaned data: the name is required, at most
    150 characters long and not taken; the e-mail address is required and
    well-formed; the passwords are required, equal and pass the
    validators; the role is one of the choices; the phone number has at
    most 15 characters.  Text fields are trimmed, passwords are not. *)
Definition registration_clean (cfg : settings) (db : DB) (post : RegistrationPost)
    : option RegistrationCleaned :=
  let username := py_strip (rp_username post) in
  let email := py_strip (rp_email post) in
  let phone_number := py_strip (rp_phone_number post) in
  role ← parse_role (rp_role post);
  if bool_decide (username <> "") &&
     bool_decide (String.length username <= 150)%nat &&
     negb (qs_exists (filter (fun u => u_username u = username) (users db))) &&
     bool_decide (email <> "") && email_format cfg email &&
     bool_decide (rp_password1 post <> "") &&
     bool_decide (rp_password2 post = rp_password1 post) &&
     password_validators cfg (rp_password2 post) &&
     bool_decide (String.length phone_number <= 15)%nat
  then Some (mkRegistrationCleaned username email role (rp_date_of_birth post) phone_number)
  else None.

(** [if form.is_valid(): form.save()]: [None] for a form with errors. *)
Definition registration_submit (fuel : nat) (draws : uuid_source) (n : nat) (cfg : settings)
    (db : DB) (post : RegistrationPost) : option (option (result (DB * User) * nat)) :=
  c ← registration_clean cfg db post;
  Some (registration_save fuel draws n db (rc_username c) (rc_email c) (rc_role c)
                          (rc_date_of_birth c) (Some (rc_phone_number c))).

(** *** [UserRegistrationSerializer] *)

Record UserRegistrationData : Type := mkUserRegistrationData {
  urd_username : option string;
  urd_email : option string;
  urd_password : option string;
  urd_password_confirm : option string;
  urd_role : option role
}.

(** The fields that [UserSerializer] has too. *)
Definition user_data_of (data : UserRegistrationData) : UserData :=
  mkUserData (urd_username data) (urd_email data) (urd_role data) None None.

(** [serializer.is_valid()]: the fields of the model are validated as in
    [UserSerializer], the e-mail address must be well-formed when there
    is one, [password] has [min_length=8], [password_confirm] is
    required, and [validate] compares the two. *)
Definition registration_valid (cfg : settings) (db : DB) (data : UserRegistrationData)
    : bool :=
  is_valid UserSerializer false db (user_data_of data) &&
  match urd_email data with
  | Some email => bool_decide (char_value email = "") || email_format cfg (char_value email)
  | None => true
  end &&
  match urd_password data, urd_password_confirm data with
  | Some password, Some password_confirm =>
      bool_decide (8 <= String.length (char_value password))%nat &&
      negb (bool_decide (char_value password_confirm = "")) &&
      bool_decide (char_value password = char_value password_confirm)
  | _, _ => false
  end.

(** [serializer.create(validated_data)]: [User.objects.create_user]
    saves the user with [User.save]. *)
Definition registration_create (fuel : nat) (draws : uuid_source) (n : nat) (db : DB)
    (data : UserRegistrationData) : option (result (DB * User) * nat) :=
  user_save fuel draws n db (create UserSerializer 0 0 (user_data_of data)).

(** The store that saving a user leaves, or the error, and the position
    in the draws; the same of an answer of the API. *)
Definition saved_store (r : option (result (DB * User) * nat)) : option (result DB * nat) :=
  match r with
  | Some (saved, n) => Some (fst <$> saved, n)
  | None => None
  end.

Definition answered_store {Repr} (r : option (api_answer Repr * nat))
    : option (result DB * nat) :=
  match r with
  | Some (Ok (db, _, _), n) => Some (Ok db, n)
  | Some (Raise e, n) => Some (Raise e, n)
  | None => None
  end.

(** Settings for the examples: an address has an at sign, a password is
    not a common one. *)
Definition sample_settings : settings :=
  mkSettings (fun s => bool_decide ("@"%char ∈ list_ascii_of_string s))
             (fun s => negb (bool_decide (s = "password"))).

(** ** Lemmas *)

Lemma parse_role_inv s r :
  parse_role s = Some r -> s = match r with Patient => "patient" | Doctor => "doctor" end.
Proof. unfold parse_role. repeat case_decide; by intros [= <-]. Qed.

(** What a form that validates has been posted with. *)
Lemma registration_clean_inv cfg db post c :
  registration_clean cfg db post = Some c ->
  rc_username c = py_strip (rp_username post) /\ rc_username c <> "" /\
  (String.length (rc_username c) <= 150)%nat /\
  Forall (fun u => u_username u <> rc_username c) (users db) /\
  rc_email c = py_strip (rp_email post) /\ email_format cfg (rc_email c) = true /\
  parse_role (rp_role post) = Some (rc_role c) /\
  rp_password1 post <> "" /\ rp_password2 post = rp_password1 post /\
  password_validators cfg (rp_password1 post) = true /\
  rc_date_of_birth c = rp_date_of_birth post /\
  rc_phone_number c = py_strip (rp_phone_number post) /\
  (String.length (rc_phone_number c) <= 15)%nat.
Proof.
  unfold registration_clean. destruct (parse_role _) as [r|]; [|done]. cbn.
  case_match eqn:E; [|done]. intros [= <-]. cbn.
  repeat (apply andb_true_iff in E as [E ?]).
  repeat match goal with
         | H : bool_decide _ = true |- _ => apply bool_decide_eq_true in H
         | H : negb _ = true |- _ => apply negb_true_iff in H
         end.
  split_and!; try done; [|congruence].
  apply Forall_forall. intros u Hu Hn.
  match goal with
  | H : qs_exists _ = false |- _ =>
      apply qs_exists_false in H; by apply (filter_nil_not_elem_of _ _ u H)
  end.
Qed.

(** The serializer for registrations validates what [UserSerializer]
    validates, and the passwords. *)
Lemma registration_valid_inv cfg db data :
  registration_valid cfg db data = true ->
  is_valid UserSerializer false db (user_data_of data) = true /\
  exists password password_confirm,
    urd_password data = Some password /\ urd_password_confirm data = Some password_confirm /\
    (8 <= String.length (char_value password))%nat /\
    char_value password = char_value password_confirm.
Proof.
  unfold registration_valid. intros [[Hv _]%andb_true_iff Hp]%andb_true_iff. split; [done|].
  destruct (urd_password data) as [p|], (urd_password_confirm data) as [q|]; try done.
  apply andb_true_iff in Hp as [[Hl _]%andb_true_iff He]. exists p, q.
  by rewrite bool_decide_eq_true in Hl, He.
Qed.

(** ** Theorems *)

(** A form that validates is saved without an error of the store: the
    user is a new row with the next key, the trimmed name and address of
    the form and its role; a patient is given the generated code, and the
    phone number that was left out is stored as the empty text. *)
Theorem registration_submit_creates fuel draws n cfg db post c code n' :
  Forall (fun v => u_id v <> 0) (users db) ->
  generate_patient_id fuel draws n db = Some (code, n') ->
  registration_clean cfg db post = Some c ->
  exists user,
    registration_submit fuel draws n cfg db post =
      Some (Some (Ok (set_objects (users db ++ [user]) db, user),
                  if decide (rc_role c = Patient) then n' else n)) /\
    user = mkUser (next_id (u_id <$> users db)) (py_strip (rp_username post))
                  (py_strip (rp_email post)) (rc_role c) (rp_date_of_birth post)
                  (Some (py_strip (rp_phone_number post)))
                  (if decide (rc_role c = Patient) then Some code else None) None None 0 /\
    parse_role (rp_role post) = Some (rc_role c).
Proof.
  intros Hpos Hg Hc. unfold registration_submit, registration_save. rewrite Hc. cbn.
  destruct (registration_clean_inv _ _ _ _ Hc)
    as (Hu & _ & _ & Hfree & He & _ & Hr & _ & _ & _ & Hd & Hp & _).
  rewrite (user_save_new fuel draws n db
             (mkUser 0 (rc_username c) (rc_email c) (rc_role c) (rc_date_of_birth c)
                     (Some (rc_phone_number c)) None None None 0)
             code n' Hpos eq_refl eq_refl Hfree Hg).
  cbn. eexists. split; [reflexivity|]. rewrite <- Hu, <- He, <- Hd, <- Hp.
  split; [|done]. by case_decide.
Qed.

Lemma registration_submit_creates_witness :
  exists user,
    registration_submit 3 sample_draws 0 sample_settings clinic_db
      (mkRegistrationPost " three " "three@example.org" "s3cret-pw" "s3cret-pw" "patient"
                          None "") =
      Some (Some (Ok (set_objects (users clinic_db ++ [user]) clinic_db, user), 3%nat)) /\
    u_id user = 11 /\ u_username user = "three" /\ u_phone_number user = Some "" /\
    u_patient_id user = Some "0F9E8D7C".
Proof.
  destruct (registration_submit_creates 3 sample_draws 0 sample_settings clinic_db
              (mkRegistrationPost " three " "three@example.org" "s3cret-pw" "s3cret-pw"
                                  "patient" None "")
              (mkRegistrationCleaned "three" "three@example.org" Patient None "")
              "0F9E8D7C" 3)
    as (user & E & -> & _); [by_decide|by_compute|by_compute|].
  eexists. split; [exact E|]. by_compute.
Defined.

(** The endpoint [register_user] stores the user that the serializer for
    registrations would store for the same name, address and role, and it
    does so for data the serializer refuses: it validates with
    [UserSerializer], which has no password. *)
Theorem register_user_unchecked cfg fuel draws n db data :
  is_valid UserSerializer false db (user_data_of data) = true ->
  (registration_valid cfg db data = true ->
   exists password, urd_password data = Some password /\
                    (8 <= String.length (char_value password))%nat) /\
  answered_store (register_user fuel draws n (user_data_of data) db) =
  saved_store (registration_create fuel draws n db data).
Proof.
  intros Hv. split.
  - intros (_ & p & q & Hp & _ & Hl & _)%registration_valid_inv. eauto.
  - unfold register_user, registration_create. rewrite Hv.
    destruct (user_save _ _ _ _ _) as [[[[db' u]|e] n']|]; done.
Qed.

Lemma register_user_unchecked_witness :
  let data := mkUserRegistrationData (Some "three") None None None (Some Doctor) in
  registration_valid sample_settings clinic_db data = false /\
  answered_store (register_user 3 sample_draws 0 (user_data_of data) clinic_db) =
  saved_store (registration_create 3 sample_draws 0 clinic_db data).
Proof.
  split; [by_compute|].
  apply (register_user_unchecked sample_settings 3 sample_draws 0 clinic_db
           (mkUserRegistrationData (Some "three") None None None (Some Doctor))).
  by_compute.
Defined.
