(* ===== verification/Routes.v ===== *)
(** * Routes: the URL tables

    The tables of [src/vyze_project/urls.py], [src/dashboard/urls.py] and
    [src/dashboard/api_urls.py], with the view [home_redirect].  A URL is
    the list of the segments of its path ([dashboard/patient/5/] is
    ["dashboard"; "patient"; "5"]); a pattern is a list of literal
    segments and converters; [resolve] returns the first route of the
    table that matches, [reverse_url] builds the URL of a route from its name
    and arguments.  The routes of the REST router are generated as the
    framework's [DefaultRouter] generates them (list route, extra actions
    of the list, detail route), without the format suffixes and the root
    view.  The tables of [admin/] and [accounts/] are not part of the
    sources: a URL below them resolves to [External].  The theorems show
    that resolving a reversed URL gives the route back, except for the
    detail route of the doctor notes, which the route of
    [create_for_patient] shadows for every numeric key. *)

From Stdlib Require Import ZArith NArith Lia Ascii String Decimal DecimalString DecimalN.
From stdpp Require Import base decidable option list strings.
From S2P Require Import Prelude Store.

(** ** Definitions *)

(** *** Converters *)

(** [int(value)] for a segment that matches [[0-9]+]. *)
Definition parse_int (s : string) : option Z :=
  (fun d => Z.of_N (N.of_uint d)) <$> NilZero.uint_of_string s.

(** [str(value)] for an integer that is not negative. *)
Definition print_int (n : Z) : string := NilZero.string_of_uint (N.to_uint (Z.to_N n)).

(** The converters of the tables: [<int:name>] of [path()], the group
    [(?P<name>\d+)] of [create_for_patient], whose text the lookup by key
    reads as a number, and the lookup group [(?P<pk>[^/.]+)] of the
    router, which takes any segment that is not empty and has no dot. *)
Inductive converter : Type := IntConv | DigitsConv | PkConv.

Inductive segment : Type :=
| Lit (s : string)
| Param (c : converter) (name : string).

Definition pattern : Type := list segment.

(** The value a converter passes to the view: a number, or the text of a
    key that is not one. *)
Inductive arg : Type :=
| IntArg (n : Z)
| StrArg (s : string).

#[global] Instance converter_eq_dec : EqDecision converter.
Proof. solve_decision. Defined.
#[global] Instance segment_eq_dec : EqDecision segment.
Proof. solve_decision. Defined.
#[global] Instance arg_eq_dec : EqDecision arg.
Proof. solve_decision. Defined.

Definition has_dot (s : string) : bool :=
  bool_decide ("."%char ∈ list_ascii_of_string s).

Definition convert (c : converter) (s : string) : option arg :=
  match c with
  | IntConv | DigitsConv => IntArg <$> parse_int s
  | PkConv =>
      if bool_decide (s = "") || has_dot s then None
      else Some (default (StrArg s) (IntArg <$> parse_int s))
  end.

(** [pattern.match(path)]: the arguments, by name, when the whole path
    matches. *)
Fixpoint match_pattern (p : pattern) (path : list string) : option (list (string * arg)) :=
  match p, path with
  | [], [] => Some []
  | Lit s :: p, x :: path => if decide (x = s) then match_pattern p path else None
  | Param c name :: p, x :: path =>
      v ← convert c x;
      args ← match_pattern p path;
      Some ((name, v) :: args)
  | _, _ => None
  end.

(** *** Views *)

(** The view sets the router registers. *)
Inductive resource : Type := ResMoodEntry | ResJournal | ResAchievement | ResDoctorNote.

#[global] Instance resource_eq_dec : EqDecision resource.
Proof. solve_decision. Defined.

(** What a route leads to. *)
Inductive view_name : Type :=
| External (prefix : string)
| Home
| PatientDashboard | DoctorDashboard | AssignPatient | LogMood | AddJournal
| ProgressAnalytics | MiniGames | BreathingExercise | PositiveQuotes | CrisisSupport
| EmergencyContacts | AiMoodPrediction | PatientDetail | AddDoctorNote
| ApiLogin | ApiRegister | ApiCurrentUser | ApiDashboardStats | ApiAssignedPatients
| ApiAssignPatient | ApiPatientDetails
| ViewSetList (r : resource)
| ViewSetDetail (r : resource)
| CreateForPatient.

#[global] Instance view_name_eq_dec : EqDecision view_name.
Proof. solve_decision. Defined.

Record route : Type := mkRoute {
  rt_pattern : pattern;
  rt_view : view_name;
  rt_name : string
}.

#[global] Instance route_eq_dec : EqDecision route.
Proof. solve_decision. Defined.

(** [path(route, view, name=name)]: the segments of [route] are given one
    by one. *)
Definition path (p : pattern) (view : view_name) (name : string) : route :=
  mkRoute p view name.

(** [path(prefix, include(urls))]. *)
Definition include (prefix : string) (urls : list route) : list route :=
  (fun r => mkRoute (Lit prefix :: rt_pattern r) (rt_view r) (rt_name r)) <$> urls.

(** [router.register(prefix, viewset, basename=basename)]: the list
    route, the routes of the extra actions of the list, the detail
    route. *)
Definition register (prefix : string) (r : resource) (basename : string)
    (extra : list route) : list route :=
  [ path [Lit prefix] (ViewSetList r) (basename +:+ "-list") ] ++
  include prefix extra ++
  [ path [Lit prefix; Param PkConv "pk"] (ViewSetDetail r) (basename +:+ "-detail") ].

(** [dashboard/urls.py]. *)
Definition dashboard_urls : list route :=
  [ path [Lit "patient"] PatientDashboard "patient_dashboard";
    path [Lit "doctor"] DoctorDashboard "doctor_dashboard";
    path [Lit "assign-patient"] AssignPatient "assign_patient";
    path [Lit "log-mood"] LogMood "log_mood";
    path [Lit "add-journal"] AddJournal "add_journal";
    path [Lit "progress-analytics"] ProgressAnalytics "progress_analytics";
    path [Lit "mini-games"] MiniGames "mini_games";
    path [Lit "breathing-exercise"] BreathingExercise "breathing_exercise";
    path [Lit "positive-quotes"] PositiveQuotes "positive_quotes";
    path [Lit "crisis-support"] CrisisSupport "crisis_support";
    path [Lit "emergency-contacts"] EmergencyContacts "emergency_contacts";
    path [Lit "ai-mood-prediction"] AiMoodPrediction "ai_mood_prediction";
    path [Lit "patient"; Param IntConv "patient_id"] PatientDetail "patient_detail";
    path [Lit "patient"; Param IntConv "patient_id"; Lit "add-note"] AddDoctorNote
         "add_doctor_note" ].

(** The router of [dashboard/api_urls.py]; [create_for_patient] is an
    extra action of the list of doctor notes with the path
    [(?P<patient_id>\d+)]. *)
Definition router_urls : list route :=
  register "mood-entries" ResMoodEntry "mood-entry" [] ++
  register "journals" ResJournal "journal" [] ++
  register "achievements" ResAchievement "achievement" [] ++
  register "doctor-notes" ResDoctorNote "doctor-note"
    [ path [Param DigitsConv "patient_id"] CreateForPatient "doctor-note-create-for-patient" ].

(** [dashboard/api_urls.py]. *)
Definition api_urls : list route :=
  [ path [Lit "auth"; Lit "login"] ApiLogin "api_login";
    path [Lit "auth"; Lit "register"] ApiRegister "api_register";
    path [Lit "auth"; Lit "user"] ApiCurrentUser "api_current_user";
    path [Lit "dashboard"; Lit "stats"] ApiDashboardStats "api_dashboard_stats";
    path [Lit "doctor"; Lit "assigned-patients"] ApiAssignedPatients "api_assigned_patients";
    path [Lit "doctor"; Lit "assign-patient"] ApiAssignPatient "api_assign_patient";
    path [Lit "doctor"; Lit "patients"; Param IntConv "patient_id"] ApiPatientDetails
         "api_patient_details" ] ++
  router_urls.

(** [vyze_project/urls.py], without the two tables that are not part of
    the sources. *)
Definition urlpatterns : list route :=
  include "dashboard" dashboard_urls ++
  include "api" api_urls ++
  [ path [] Home "home" ].

(** *** Resolving and reversing *)

(** [resolve(path)]: the first route that matches; a path below [admin/]
    or [accounts/] belongs to a table outside the sources. *)
Definition resolve (url : list string) : option (view_name * list (string * arg)) :=
  if decide (head url = Some "admin") then Some (External "admin", [])
  else if decide (head url = Some "accounts") then Some (External "accounts", [])
  else
    head (omap (fun r => (fun args => (rt_view r, args)) <$> match_pattern (rt_pattern r) url)
               urlpatterns).

(** The URL of a pattern for the arguments of its converters, given by
    name in the order of the pattern: a number must not be negative, a
    text must be a key the converter takes as it is. *)
Fixpoint fill (p : pattern) (args : list (string * arg)) : option (list string) :=
  match p, args with
  | [], [] => Some []
  | Lit s :: p, _ => (s ::.) <$> fill p args
  | Param c name :: p, (name', v) :: args =>
      if decide (name' = name) then
        rest ← fill p args;
        match v with
        | IntArg n => if decide (0 <= n) then Some (print_int n :: rest) else None
        | StrArg s => if decide (convert c s = Some v) then Some (s :: rest) else None
        end
      else None
  | _, _ => None
  end.

(** [reverse(name, kwargs=args)] of [django.urls]. *)
Definition reverse_url (name : string) (args : list (string * arg)) : option (list string) :=
  r ← head (filter (fun r => rt_name r = name) urlpatterns);
  fill (rt_pattern r) args.

(** [home_redirect(request)]. *)
Definition home_redirect (user : option User) : response :=
  match user with
  | Some u =>
      if decide (u_role u = Patient) then Redirect "patient_dashboard"
      else Redirect "doctor_dashboard"
  | None => Render "accounts/landing.html"
  end.

(** The methods a route answers; the others get 405.  A view function
    answers every method (the [api_view] functions the methods they
    list), a route of a view set the methods the router maps to
    actions. *)
Definition allowed_methods (v : view_name) : list string :=
  match v with
  | ViewSetList ResAchievement => ["GET"]
  | ViewSetDetail ResAchievement => ["GET"]
  | ViewSetList _ => ["GET"; "POST"]
  | ViewSetDetail _ => ["GET"; "PUT"; "PATCH"; "DELETE"]
  | CreateForPatient => ["POST"]
  | ApiLogin | ApiRegister | ApiAssignPatient => ["POST"]
  | ApiCurrentUser | ApiDashboardStats | ApiAssignedPatients | ApiPatientDetails => ["GET"]
  | _ => ["GET"; "POST"; "PUT"; "PATCH"; "DELETE"]
  end.

(** *** Routes that can match the same URL *)

Definition seg_overlap (a b : segment) : bool :=
  match a, b with
  | Lit s, Lit t => bool_decide (s = t)
  | _, _ => true
  end.

(** A test that two patterns may match one URL: they are as long as each
    other and have no two different literals at one place. *)
Fixpoint overlap (p q : pattern) : bool :=
  match p, q with
  | [], [] => true
  | a :: p, b :: q => seg_overlap a b && overlap p q
  | _, _ => false
  end.

(** The pairs of an earlier and a later route of a table that may match
    one URL: the later route is never reached for such a URL. *)
Fixpoint shadows (rs : list route) : list (route * route) :=
  match rs with
  | [] => []
  | r :: rs =>
      ((fun q => (r, q)) <$>
         filter (fun q => overlap (rt_pattern r) (rt_pattern q) = true) rs) ++
      shadows rs
  end.

(** The URL does not belong to a table outside the sources. *)
Definition internal (url : list string) : Prop :=
  head url <> Some "admin" /\ head url <> Some "accounts".

#[global] Instance internal_dec url : Decision (internal url).
Proof. unfold internal. apply _. Defined.

(** The pattern is below [dashboard/] or [api/], or is the empty path. *)
Definition rooted (r : route) : bool :=
  match rt_pattern r with
  | [] => true
  | Lit s :: _ => bool_decide (s = "dashboard" \/ s = "api")
  | _ => false
  end.

(** ** Lemmas *)

(** *** Numbers in URLs *)

Lemma to_uint_not_nil (m : N) : N.to_uint m <> Nil.
Proof.
  destruct m as [|p]; [done|]. cbn. intros E.
  pose proof (DecimalPos.Unsigned.of_to p) as H. rewrite E in H. done.
Qed.

(** Printing a number and reading it gives the number back. *)
Lemma parse_print_int n : 0 <= n -> parse_int (print_int n) = Some n.
Proof.
  intros Hn. unfold parse_int, print_int. rewrite NilZero.usu by apply to_uint_not_nil.
  cbn. by rewrite DecimalN.Unsigned.of_to, Z2N.id.
Qed.

Lemma print_int_no_dot n : has_dot (print_int n) = false.
Proof.
  unfold has_dot, print_int. apply bool_decide_eq_false.
  assert (forall d, "."%char ∉ list_ascii_of_string (NilEmpty.string_of_uint d)) as H.
  { induction d; cbn; rewrite ?elem_of_cons; [apply not_elem_of_nil|..];
      (intros [E|Hin]; [discriminate E|by apply IHd]). }
  destruct (N.to_uint (Z.to_N n)) as [|d|d|d|d|d|d|d|d|d|d];
    [|apply (H (D0 d))|apply (H (D1 d))|apply (H (D2 d))|apply (H (D3 d))|apply (H (D4 d))
     |apply (H (D5 d))|apply (H (D6 d))|apply (H (D7 d))|apply (H (D8 d))|apply (H (D9 d))].
  cbn. rewrite elem_of_cons. intros [E'|Hin]; [discriminate E'|by apply elem_of_nil in Hin].
Qed.

Lemma print_int_not_empty n : print_int n <> "".
Proof.
  unfold print_int. intros E.
  pose proof (NilZero.usu (N.to_uint (Z.to_N n)) (to_uint_not_nil _)) as H.
  by rewrite E in H.
Qed.

(** Every converter reads a printed number as the number. *)
Lemma convert_print_int c n : 0 <= n -> convert c (print_int n) = Some (IntArg n).
Proof.
  intros Hn. unfold convert. rewrite parse_print_int by done.
  destruct c; [done..|].
  by rewrite print_int_no_dot, bool_decide_eq_false_2 by apply print_int_not_empty.
Qed.

#[global] Opaque print_int.

(** *** Matching *)

(** A URL built from a pattern matches it, with the arguments it was
    built from. *)
Lemma match_fill p : forall args url, fill p args = Some url -> match_pattern p url = Some args.
Proof.
  induction p as [|[s|c name] p IH]; intros args url.
  - destruct args; [|done]. by intros [= <-].
  - cbn. destruct (fill p args) as [rest|] eqn:E; [|done]. intros [= <-]. cbn.
    rewrite decide_True by done. by apply IH.
  - cbn. destruct args as [|[name' v] args]; [done|]. case_decide as En; [subst name'|done].
    destruct (fill p args) as [rest|] eqn:E; [|done]. cbn.
    destruct v as [n|s]; case_decide as Hv; intros [= <-]; cbn;
      rewrite ?convert_print_int, ?Hv by done; cbn; by rewrite (IH _ _ E).
Qed.

(** Patterns that match one URL pass the test. *)
Lemma match_pattern_cons x p u url a :
  match_pattern (x :: p) (u :: url) = Some a -> exists a', match_pattern p url = Some a'.
Proof.
  destruct x; cbn; [case_decide; [eauto|done]|].
  destruct (convert _ _); [|done]. cbn. destruct (match_pattern p url); eauto.
Qed.

Lemma match_overlap p : forall q url a b,
  match_pattern p url = Some a -> match_pattern q url = Some b -> overlap p q = true.
Proof.
  induction p as [|x p IH]; intros q url a b Hp Hq.
  - destruct url; [|done]. destruct q as [|[] q]; done.
  - destruct url as [|u url]; [by destruct x|]. destruct q as [|y q]; [done|].
    cbn. apply andb_true_iff. split.
    + destruct x as [s|], y as [t|]; try done. cbn in Hp, Hq.
      repeat case_decide; try done. apply bool_decide_eq_true. congruence.
    + apply match_pattern_cons in Hp as [a' Ha]. apply match_pattern_cons in Hq as [b' Hb].
      by eapply IH.
Qed.

Lemma elem_of_shadows l1 q l2 r l3 :
  overlap (rt_pattern q) (rt_pattern r) = true ->
  (q, r) ∈ shadows (l1 ++ q :: l2 ++ r :: l3).
Proof.
  intros Ho. induction l1 as [|x l1 IH]; cbn [shadows app]; rewrite elem_of_app.
  - left. apply list_elem_of_fmap. exists r. split; [done|].
    apply list_elem_of_filter. split; [done|]. rewrite elem_of_app, elem_of_cons. auto.
  - by right.
Qed.

(** The first match of a table is the route before which no route
    matches. *)
Lemma head_omap_first {A B} (f : A -> option B) l1 x l2 y :
  Forall (fun a => f a = None) l1 -> f x = Some y -> head (omap f (l1 ++ x :: l2)) = Some y.
Proof.
  intros H1 Hx. induction H1 as [|a l1 Ha _ IH]; csimpl; [by rewrite Hx|]. by rewrite Ha.
Qed.

(** A URL that matches a route the table does not shadow resolves to the
    route. *)
Lemma resolve_route l1 r l2 url args :
  urlpatterns = l1 ++ r :: l2 ->
  Forall (fun q => (q, r) ∉ shadows urlpatterns) l1 ->
  internal url -> match_pattern (rt_pattern r) url = Some args ->
  resolve url = Some (rt_view r, args).
Proof.
  intros El Hs [Ha Hc] Hm.
  unfold resolve. rewrite !decide_False by done.
  rewrite El. apply head_omap_first; [|by rewrite Hm].
  apply Forall_forall. intros q Hq. destruct (match_pattern (rt_pattern q) url) eqn:Eq; [|done].
  exfalso. rewrite Forall_forall in Hs. apply (Hs q Hq).
  apply list_elem_of_split in Hq as (l0 & l0' & ->). rewrite El, <- app_assoc. cbn [app].
  apply elem_of_shadows. by eapply match_overlap.
Qed.

(** *** The table *)

Lemma urlpatterns_names : NoDup (rt_name <$> urlpatterns).
Proof. by_decide. Qed.

(** Every route of the table starts below [dashboard/] or [api/], or is
    the empty path. *)
Lemma urlpatterns_internal r args url :
  r ∈ urlpatterns -> fill (rt_pattern r) args = Some url -> internal url.
Proof.
  intros Hr Hf.
  assert (Forall (fun r => rooted r = true) urlpatterns) as Hall by by_decide.
  rewrite Forall_forall in Hall. specialize (Hall r Hr). unfold rooted in Hall.
  destruct (rt_pattern r) as [|[s|] p]; [|cbn in Hf; apply bool_decide_eq_true in Hall|done].
  - destruct args; [|done]. by injection Hf as <-.
  - destruct (fill p args); [|done]. injection Hf as <-. by destruct Hall as [-> | ->].
Qed.

(** Reversing the name of a route fills the pattern of the route. *)
Lemma reverse_url_route r args :
  r ∈ urlpatterns -> reverse_url (rt_name r) args = fill (rt_pattern r) args.
Proof.
  intros Hr. unfold reverse_url.
  destruct (NoDup_fmap_split rt_name _ r urlpatterns_names Hr) as (l1 & l2 & -> & Hne).
  by rewrite (filter_key rt_name (rt_name r) l1 r l2 eq_refl Hne).
Qed.

(** The pairs of routes of the table that can match one URL. *)
Lemma shadows_urlpatterns :
  shadows urlpatterns =
  [ (mkRoute [Lit "api"; Lit "doctor-notes"; Param DigitsConv "patient_id"] CreateForPatient
             "doctor-note-create-for-patient",
     mkRoute [Lit "api"; Lit "doctor-notes"; Param PkConv "pk"] (ViewSetDetail ResDoctorNote)
             "doctor-note-detail") ].
Proof. by_compute. Qed.

(** The URL that [reverse] builds resolves to the route it was built
    from. *)
Lemma resolve_reverse_url r args url :
  r ∈ urlpatterns -> rt_name r <> "doctor-note-detail" ->
  reverse_url (rt_name r) args = Some url ->
  resolve url = Some (rt_view r, args).
Proof.
  intros Hr Hn. rewrite reverse_url_route by done. intros Hf.
  destruct (list_elem_of_split _ _ Hr) as (l1 & l2 & El).
  apply (resolve_route l1 r l2); [done| |by eapply urlpatterns_internal|by apply match_fill].
  apply Forall_forall. intros q _. rewrite shadows_urlpatterns, list_elem_of_singleton.
  intros [= _ ->]. by apply Hn.
Qed.

(** *** What a resolved URL says *)

Lemma parse_int_nonneg s n : parse_int s = Some n -> 0 <= n.
Proof.
  unfold parse_int. destruct (NilZero.uint_of_string s); [|done]. intros [= <-]. lia.
Qed.

(** A URL resolves to a view outside the sources or to a route of the
    table that matches it. *)
Lemma resolve_inv url view args :
  resolve url = Some (view, args) ->
  (exists prefix, view = External prefix /\ head url = Some prefix) \/
  exists r, r ∈ urlpatterns /\ rt_view r = view /\
            match_pattern (rt_pattern r) url = Some args.
Proof.
  unfold resolve. repeat case_decide; [intros [= <- _]; left; eauto..|].
  intros (r & Hr & E)%head_Some_elem_of%list_elem_of_omap. right. exists r.
  destruct (match_pattern _ _); [|done]. by injection E as <- <-.
Qed.

(** The arguments of [add_doctor_note]: the key of the patient, which is
    not negative. *)
Lemma resolve_add_doctor_note url args :
  resolve url = Some (AddDoctorNote, args) ->
  exists patient_id, 0 <= patient_id /\ args = [("patient_id", IntArg patient_id)].
Proof.
  intros [(? & [=] & _)|(r & Hr & Hv & Hm)]%resolve_inv.
  assert (Forall (fun r => rt_view r = AddDoctorNote ->
                           rt_pattern r = [Lit "dashboard"; Lit "patient";
                                           Param IntConv "patient_id"; Lit "add-note"])
                 urlpatterns) as Hall by by_decide.
  rewrite Forall_forall in Hall. rewrite (Hall r Hr Hv) in Hm. revert Hm.
  destruct url as [|a [|b [|c [|d [|? ?]]]]]; cbn; repeat case_decide; try done;
    destruct (parse_int c) as [n|] eqn:En; cbn; try done; repeat case_decide; try done.
  intros [= <-]. exists n. split; [by eapply parse_int_nonneg|done].
Qed.

(** The detail route of the doctor notes is reached by the keys that are
    no numbers only: a number is taken by [create_for_patient]. *)
Lemma resolve_doctor_note_detail url args :
  resolve url = Some (ViewSetDetail ResDoctorNote, args) ->
  exists s, args = [("pk", StrArg s)].
Proof.
  intros Hres. pose proof Hres as [(? & [=] & _)|(r & Hr & Hv & Hm)]%resolve_inv.
  assert (Forall (fun r => rt_view r = ViewSetDetail ResDoctorNote ->
                           rt_pattern r = [Lit "api"; Lit "doctor-notes"; Param PkConv "pk"])
                 urlpatterns) as Hall by by_decide.
  rewrite Forall_forall in Hall. rewrite (Hall r Hr Hv) in Hm. revert Hm.
  destruct url as [|a [|b [|c [|? ?]]]]; cbn; repeat case_decide; try done;
    destruct (_ || _); try done; subst a b.
  destruct (parse_int c) as [n|] eqn:En; cbn; intros [= <-]; [exfalso|by eexists].
  rewrite (resolve_route (take 28 urlpatterns)
             (mkRoute [Lit "api"; Lit "doctor-notes"; Param DigitsConv "patient_id"]
                      CreateForPatient "doctor-note-create-for-patient")
             (drop 29 urlpatterns) _ [("patient_id", IntArg n)]) in Hres;
    [done|by_compute| |by_decide|].
  - apply Forall_forall. intros q _. rewrite shadows_urlpatterns, list_elem_of_singleton.
    by intros [= _].
  - cbn. by rewrite !decide_True, En by done.
Qed.

(** ** Theorems *)

(** In the whole table one route hides another for some URL in one
    place only: the route of [create_for_patient], which the router puts
    before the detail route of the doctor notes and which takes every
    numeric key. *)
Theorem urlpatterns_shadows q r :
  (q, r) ∈ shadows urlpatterns <->
  q = mkRoute [Lit "api"; Lit "doctor-notes"; Param DigitsConv "patient_id"] CreateForPatient
              "doctor-note-create-for-patient" /\
  r = mkRoute [Lit "api"; Lit "doctor-notes"; Param PkConv "pk"] (ViewSetDetail ResDoctorNote)
              "doctor-note-detail".
Proof. rewrite shadows_urlpatterns, list_elem_of_singleton. naive_solver. Qed.

(** C22: resolving the URL that [reverse] builds for a route and its
    arguments gives the view of the route and the arguments back, for
    every route of the table but the detail route of the doctor notes. *)
Theorem reverse_resolve r args url :
  r ∈ urlpatterns -> rt_name r <> "doctor-note-detail" ->
  reverse_url (rt_name r) args = Some url ->
  resolve url = Some (rt_view r, args).
Proof. apply resolve_reverse_url. Qed.

Lemma reverse_resolve_witness :
  reverse_url "add_doctor_note" [("patient_id", IntArg 5)] =
    Some ["dashboard"; "patient"; print_int 5; "add-note"] /\
  resolve ["dashboard"; "patient"; print_int 5; "add-note"] =
    Some (AddDoctorNote, [("patient_id", IntArg 5)]).
Proof.
  split; [by_compute|].
  apply (reverse_resolve
           (mkRoute [Lit "dashboard"; Lit "patient"; Param IntConv "patient_id"; Lit "add-note"]
                    AddDoctorNote "add_doctor_note")); [by_decide|done|by_compute].
Defined.

(** C34: the URL of a doctor note with a numeric key resolves to
    [create_for_patient], which answers POST only: no request reaches
    [retrieve], [update] or [destroy] of the doctor notes by the key of a
    note. *)
Theorem doctor_note_detail_shadowed n :
  0 <= n ->
  reverse_url "doctor-note-detail" [("pk", IntArg n)] =
    Some ["api"; "doctor-notes"; print_int n] /\
  resolve ["api"; "doctor-notes"; print_int n] =
    Some (CreateForPatient, [("patient_id", IntArg n)]) /\
  allowed_methods CreateForPatient = ["POST"].
Proof.
  intros Hn. split_and!; [|..|done].
  - rewrite (reverse_url_route
               (mkRoute [Lit "api"; Lit "doctor-notes"; Param PkConv "pk"]
                        (ViewSetDetail ResDoctorNote) "doctor-note-detail")) by by_decide.
    cbn. by rewrite !decide_True by done.
  - apply (resolve_route (take 28 urlpatterns)
             (mkRoute [Lit "api"; Lit "doctor-notes"; Param DigitsConv "patient_id"]
                      CreateForPatient "doctor-note-create-for-patient")
             (drop 29 urlpatterns)); [by_compute| |by_decide|].
    + apply Forall_forall. intros q _. rewrite shadows_urlpatterns, list_elem_of_singleton.
      by intros [= _].
    + cbn -[convert]. by rewrite convert_print_int by done.
Qed.

Lemma doctor_note_detail_shadowed_witness :
  resolve ["api"; "doctor-notes"; print_int 7] =
  Some (CreateForPatient, [("patient_id", IntArg 7)]).
Proof. apply (doctor_note_detail_shadowed 7). lia. Defined.
