(* ===== verification/System.v ===== *)
(** * System: the application as one request handler

    The composition of the other files: a request is resolved by the URL
    table of [Routes] and served by the view of the route, with the user
    of the session read from the store.  [serve] says which view function
    of [src/dashboard/views.py] and [src/dashboard/api.py] a route calls,
    with which fields of the request; [handle] is the application, a step
    function on the store and the position in the stream of draws, and
    [browse] follows the redirects of an answer as a browser does.  The
    theorems are about every request: the constraints of the schema are
    an invariant of the application, a request without user changes
    nothing unless it registers, and no chain of redirects is longer than
    two. *)

From Stdlib Require Import ZArith QArith Lia Ascii String.
From stdpp Require Import base decidable option list strings.
From S2P Require Import Prelude Numeric Text Store Streak Trend Forecast Recommend.
From S2P Require Import Achievements Doctor Views Aggregate Accounts Dashboard Serializers.
From S2P Require Import Api Journals Routes.

(** ** Definitions *)

(** *** Requests *)

(** The methods of a request. *)
Inductive verb : Type := MGet | MPost | MPut | MPatch | MDelete.

#[global] Instance verb_eq_dec : EqDecision verb.
Proof. solve_decision. Defined.

Definition verb_name (m : verb) : string :=
  match m with
  | MGet => "GET"
  | MPost => "POST"
  | MPut => "PUT"
  | MPatch => "PATCH"
  | MDelete => "DELETE"
  end.

(** What the views look at: [request.method == 'POST']. *)
Definition method_of (m : verb) : http_method :=
  match m with
  | MPost => POST
  | _ => GET
  end.

(** The fields of [request.POST] and [request.data] that a view or a
    serializer of the application reads; a field the request does not
    have is [None]. *)
Record body : Type := mkBody {
  f_mood : option Z;
  f_note : option string;
  f_selected_tags : option string;
  f_title : option string;
  f_content : option string;
  f_patient_id : option string;
  f_is_visible_to_patient : option bool;
  f_patient : option Z;
  f_doctor : option Z;
  f_user : UserData
}.

Definition empty_body : body :=
  mkBody None None None None None None None None None (mkUserData None None None None None).

(** A request: [rq_session] is the key of the user who logged in, when
    one did. *)
Record request : Type := mkRequest {
  rq_method : verb;
  rq_url : list string;
  rq_body : body;
  rq_session : option Z
}.

(** What the surroundings give a request: the clock, the texts [uuid4]
    returns with the fuel of the loop that draws them, the number
    [random.choice] draws, and whether [authenticate] accepts the
    credentials of the request. *)
Record env : Type := mkEnv {
  e_now : Z;
  e_fuel : nat;
  e_draws : uuid_source;
  e_choice : nat;
  e_authenticate : bool
}.

(** [request.user], as the authentication middleware finds it: the row
    with the key of the session. *)
Definition get_user (db : DB) (session : option Z) : option User :=
  uid ← session; head (filter (fun u => u_id u = uid) (users db)).

(** The data the serializers take from a request. *)
Definition mood_entry_data (b : body) : MoodEntryData := mkMoodEntryData (f_mood b) (f_note b).

Definition journal_data (b : body) : JournalData := mkJournalData (f_title b) (f_content b).

Definition doctor_note_data (b : body) : DoctorNoteData :=
  mkDoctorNoteData (f_patient b) (f_doctor b) (f_note b) (f_is_visible_to_patient b).

(** *** Answers *)

(** What becomes of a request: the view answers and leaves a store and a
    position in the stream of draws; the view raises, which the server
    answers by its error page, the store left as it was; the URL belongs
    to a table that is not part of the sources; or the loop that draws a
    patient code runs out of fuel. *)
Inductive outcome : Type :=
| Answer (st : DB * nat) (resp : response)
| ServerError (e : exn)
| Outside (prefix : string)
| OutOfFuel.

(** A view that reads. *)
Definition reads {C} (view : DB -> page C) (st : DB * nat) : outcome :=
  match view st.1 with
  | Ok (resp, _) => Answer st resp
  | Raise e => ServerError e
  end.

(** A view that writes. *)
Definition writes (view : handler) (st : DB * nat) : outcome :=
  match view st.1 with
  | Ok (db, resp) => Answer (db, st.2) resp
  | Raise e => ServerError e
  end.

(** A view that writes and draws. *)
Definition draws_and_writes {C} (view : DB * nat -> writing_page C) (st : DB * nat)
    : outcome :=
  match view st with
  | Some (Ok (db, n, resp, _)) => Answer (db, n) resp
  | Some (Raise e) => ServerError e
  | None => OutOfFuel
  end.

(** The answer of [register_user]. *)
Definition registers (answer : option (api_answer UserRepr * nat)) : outcome :=
  match answer with
  | Some (Ok (db, resp, _), n) => Answer (db, n) resp
  | Some (Raise e, _) => ServerError e
  | None => OutOfFuel
  end.

(** *** Views *)

(** [@api_view(methods)] and the extra actions of a view set: a request
    that passed the permission check is answered 405 when the view does
    not allow its method. *)
Definition api_view (view : view_name) (m : verb) (permitted : bool)
    (k : DB * nat -> outcome) : DB * nat -> outcome :=
  fun st =>
    if permitted && negb (bool_decide (verb_name m ∈ allowed_methods view))
    then Answer st (Response 405)
    else k st.

(** The argument of a route with one number in its URL; a view that is
    called without it raises. *)
Definition with_int (args : list (string * arg)) (k : Z -> DB * nat -> outcome)
    : DB * nat -> outcome :=
  match args with
  | [(_, IntArg n)] => k n
  | _ => fun _ => ServerError TypeError
  end.

(** [CustomAuthToken.post]: the serializer of [ObtainAuthToken] validates
    the credentials with [authenticate] and raises its validation error,
    which the framework answers with 400; the table of tokens is not part
    of the store. *)
Definition custom_auth_token (authenticated : bool) : response :=
  if authenticated then Response 200 else Response 400.

(** The actions the router maps the methods of the list route and of the
    detail route to. *)
Definition list_route {Data} (m : verb) (data : Data) : option (action Data) :=
  match m with
  | MGet => Some List
  | MPost => Some (Create data)
  | _ => None
  end.

Definition detail_route {Data} (m : verb) (id : Z) (data : Data) : option (action Data) :=
  match m with
  | MGet => Some (Retrieve id)
  | MPut => Some (Update false id data)
  | MPatch => Some (Update true id data)
  | MDelete => Some (Destroy id)
  | MPost => None
  end.

(** The actions of a [ReadOnlyModelViewSet]. *)
Definition read_only {Data} (a : option (action Data)) : option (action Empty_set) :=
  match a with
  | Some List => Some List
  | Some (Retrieve id) => Some (Retrieve id)
  | _ => None
  end.

(** A route of a view set: the action of the method, or 405 for a user
    who passed the permission check. *)
Definition route_view {R Data Repr} `{Model R} (vs : view_set R Data Repr) (now : Z)
    (a : option (action Data)) (user : option User) : handler :=
  match a with
  | Some a => dispatch vs now a user
  | None => is_authenticated (fun _ db => mret (db, Response 405)) user
  end.

(** The view set of a resource on an action of a route. *)
Definition resource_view (r : resource) (now : Z) (b : body)
    (route : forall Data, Data -> option (action Data)) (user : option User) : handler :=
  match r with
  | ResMoodEntry => route_view MoodEntryViewSet now (route _ (mood_entry_data b)) user
  | ResJournal => route_view JournalViewSet now (route _ (journal_data b)) user
  | ResAchievement => route_view AchievementViewSet now (read_only (route _ tt)) user
  | ResDoctorNote => route_view DoctorNoteViewSet now (route _ (doctor_note_data b)) user
  end.

(** The detail route of a view set: a key that is no number finds no
    row. *)
Definition detail_view (r : resource) (now : Z) (m : verb) (b : body)
    (args : list (string * arg)) (user : option User) : handler :=
  match args with
  | [(_, IntArg id)] => resource_view r now b (fun _ => detail_route m id) user
  | _ => is_authenticated (fun _ db => mret (db, Response 404)) user
  end.

(** [log_mood] and [ai_mood_prediction] behind their decorator. *)
Definition log_mood_view (now : Z) (method : http_method) (b : body)
    : option User -> handler :=
  login_required (fun user db =>
    mret (log_mood db now (u_id user) method (default 0 (f_mood b)) (default "" (f_note b))
                   (default "" (f_selected_tags b)))).

Definition ai_mood_prediction_view : option User -> DB -> page prediction_data :=
  login_required (fun user db => ai_mood_prediction db user).

(** The view of a route, called with the arguments of the URL and the
    fields of the request it reads. *)
Definition serve (e : env) (view : view_name) (args : list (string * arg)) (m : verb)
    (b : body) (user : option User) : DB * nat -> outcome :=
  let now := e_now e in
  let method := method_of m in
  let authenticated := bool_decide (is_Some user) in
  match view with
  | External prefix => fun _ => Outside prefix
  | Home => fun st => Answer st (home_redirect user)
  | PatientDashboard =>
      draws_and_writes (patient_dashboard (e_fuel e) (e_draws e) now user)
  | DoctorDashboard => reads (doctor_dashboard user)
  | AssignPatient => writes (assign_patient now method (default "" (f_patient_id b)) user)
  | LogMood => writes (log_mood_view now method b user)
  | AddJournal =>
      writes (add_journal now method (default "" (f_title b)) (default "" (f_content b)) user)
  | ProgressAnalytics => reads (progress_analytics now user)
  | MiniGames => reads (mini_games user)
  | BreathingExercise => reads (breathing_exercise user)
  | PositiveQuotes => reads (positive_quotes (e_choice e) user)
  | CrisisSupport => reads (crisis_support user)
  | EmergencyContacts => reads (emergency_contacts user)
  | AiMoodPrediction => reads (ai_mood_prediction_view user)
  | PatientDetail => with_int args (fun patient_id => reads (patient_detail now patient_id user))
  | AddDoctorNote =>
      with_int args (fun patient_id =>
        writes (add_doctor_note now method patient_id (f_note b)
                                (bool_decide (f_is_visible_to_patient b = Some true)) user))
  | ApiLogin =>
      api_view view m true (fun st => Answer st (custom_auth_token (e_authenticate e)))
  | ApiRegister =>
      api_view view m true (fun st =>
        registers (register_user (e_fuel e) (e_draws e) st.2 (f_user b) st.1))
  | ApiCurrentUser =>
      api_view view m authenticated (writes (fun db => fst <$> current_user user db))
  | ApiDashboardStats => api_view view m authenticated (reads (dashboard_stats now user))
  | ApiAssignedPatients => api_view view m authenticated (reads (api_assigned_patients user))
  | ApiAssignPatient =>
      api_view view m authenticated
        (writes (api_assign_patient now (default "" (f_patient_id b)) user))
  | ApiPatientDetails =>
      with_int args (fun patient_id =>
        api_view view m authenticated (reads (patient_details now patient_id user)))
  | ViewSetList r => writes (resource_view r now b (fun _ => list_route m) user)
  | ViewSetDetail r => writes (detail_view r now m b args user)
  | CreateForPatient =>
      with_int args (fun patient_id =>
        api_view view m authenticated
          (writes (is_authenticated
                     (create_for_patient_action now patient_id (doctor_note_data b)) user)))
  end.

(** The application: the URL is resolved, the user of the session is
    read from the store, and the view of the route answers; a URL that no
    route matches is answered by the 404 page. *)
Definition handle (e : env) (rq : request) (st : DB * nat) : outcome :=
  match resolve (rq_url rq) with
  | Some (view, args) =>
      serve e view args (rq_method rq) (rq_body rq) (get_user st.1 (rq_session rq)) st
  | None => Answer st Http404
  end.

(** *** Redirects *)

(** The views behind [doctor_required], with [create_for_patient], which
    tests the role itself, and the views that send every user but a
    patient away. *)
Definition doctor_views : list view_name :=
  [ DoctorDashboard; AssignPatient; PatientDetail; AddDoctorNote; ApiAssignedPatients;
    ApiAssignPatient; ApiPatientDetails; CreateForPatient ].

Definition patient_views : list view_name :=
  [ PatientDashboard; ProgressAnalytics; MiniGames; BreathingExercise; PositiveQuotes;
    CrisisSupport; EmergencyContacts; AiMoodPrediction ].

(** The redirects of the application: which view sends which user where.
    A request without user is sent to the login page; a patient is sent
    to the patient dashboard, by [doctor_required], by [home_redirect]
    and after a mood or a journal entry is stored; a doctor is sent to
    the doctor dashboard by the views for patients and by
    [home_redirect], to the patient dashboard after a mood or a journal
    entry is stored, and to the page of the patient after a note is. *)
Definition redirects (user : option User) (view : view_name) (name : string) : Prop :=
  match u_role <$> user with
  | None => name = "login"
  | Some Patient =>
      name = "patient_dashboard" /\ view ∈ Home :: LogMood :: AddJournal :: doctor_views
  | Some Doctor =>
      name = "doctor_dashboard" /\ view ∈ Home :: patient_views \/
      name = "patient_dashboard" /\ view ∈ [LogMood; AddJournal] \/
      name = "patient_detail" /\ view = AddDoctorNote
  end.

(** An answer that is a redirect is one of [redirects]. *)
Definition sound (user : option User) (view : view_name) (resp : response) : Prop :=
  match resp with
  | Redirect name => redirects user view name
  | _ => True
  end.

(** The URL a redirect of the answer to [rq] sends the browser to: the
    login page is a route of [accounts/], [add_doctor_note] redirects
    with the [patient_id] of its own URL, and every other redirect has no
    arguments. *)
Definition location (rq : request) (name : string) : option (list string) :=
  if decide (name = "login") then Some ["accounts"; "login"]
  else if decide (name = "patient_detail") then
    '(_, args) ← resolve (rq_url rq);
    reverse_url name args
  else reverse_url name [].

(** The request of a browser that follows a redirect: GET, in the same
    session. *)
Definition follow (rq : request) (url : list string) : request :=
  mkRequest MGet url empty_body (rq_session rq).

(** How many redirects a request can be the first of: the variant of
    [browse]. *)
Definition rank (r : option role) (view : view_name) : nat :=
  match view, r with
  | External _, _ => 0
  | _, None => 1
  | PatientDashboard, Some Patient => 0
  | _, Some Patient => 1
  | (DoctorDashboard | PatientDetail), Some Doctor => 0
  | (LogMood | AddJournal), Some Doctor => 2
  | _, Some Doctor => 1
  end.

(** A browser that follows redirects, [hops] of them at most; a redirect
    to a name that has no URL is the error of the view that made it. *)
Fixpoint browse (hops : nat) (e : env) (rq : request) (st : DB * nat) : outcome :=
  match handle e rq st, hops with
  | Answer st' (Redirect name), S hops =>
      match location rq name with
      | Some url => browse hops e (follow rq url) st'
      | None => ServerError NoReverseMatch
      end
  | out, _ => out
  end.

(** *** The constraints of the schema *)

(** The primary keys of every table are distinct, no user has the key 0
    (which stands for an instance that is not saved), and the columns and
    pairs of columns that are declared unique are. *)
Record wf (db : DB) : Prop := mkWf {
  wf_user_ids : unique_ids db;
  wf_user_keys : Forall (fun u => u_id u <> 0) (users db);
  wf_usernames : unique_usernames db;
  wf_codes : unique_codes db;
  wf_pairs : unique_pairs db;
  wf_assignments : unique_keys DoctorPatientAssignment db;
  wf_moods : unique_keys MoodEntry db;
  wf_journals : unique_keys Journal db;
  wf_achievements : unique_keys Achievement db;
  wf_doctor_notes : unique_keys DoctorNote db
}.

(** A table whose only constraint is its primary key, and which is not
    the table of users. *)
Class Plain (R : Type) `{Model R} : Prop := {
  wf_unique_keys db : wf db -> unique_keys R db;
  wf_set_objects l db : wf db -> NoDup (pk <$> l) -> wf (set_objects l db);
  users_set_objects l db : users (set_objects l db) = users db
}.

(** The states of the application: those the requests lead to from the
    empty store. *)
Inductive reachable : DB * nat -> Prop :=
| reachable_init : reachable (empty_db, O)
| reachable_step e rq st st' resp :
    reachable st -> handle e rq st = Answer st' resp -> reachable st'.

(** The state after a sequence of requests, those that are not answered
    left out. *)
Definition run_requests (e : env) (rqs : list request) (st : DB * nat) : DB * nat :=
  foldl (fun st rq => match handle e rq st with Answer st' _ => st' | _ => st end) st rqs.

(** Requests for the examples: a patient and a doctor register, the
    patient (key 1) opens the dashboard and logs a mood, the doctor
    (key 2) assigns the patient by the code. *)
Definition sample_env : env := mkEnv sample_now 3 sample_draws 0 true.

Definition register_request (name : string) (r : role) : request :=
  mkRequest MPost ["api"; "auth"; "register"]
    (mkBody None None None None None None None None None
            (mkUserData (Some name) None (Some r) None None)) None.

Definition log_mood_request (session : Z) (mood : Z) : request :=
  mkRequest MPost ["dashboard"; "log-mood"]
    (mkBody (Some mood) (Some "fine") None None None None None None None
            (mkUserData None None None None None)) (Some session).

Definition sample_requests : list request :=
  [ register_request "ann" Patient; register_request "bob" Doctor;
    mkRequest MGet ["dashboard"; "patient"] empty_body (Some 1);
    log_mood_request 1 7 ].

Definition sample_state : DB * nat := run_requests sample_env sample_requests (empty_db, O).

(** *** What the views respect *)

(** A view that returns leaves a store that is related to the store it
    found. *)
Definition respects (R : relation DB) (view : handler) : Prop :=
  forall db db' resp, view db = Ok (db', resp) -> R db db'.

(** The same of a request that is answered. *)
Definition answers_respect (R : relation DB) (k : DB * nat -> outcome) : Prop :=
  forall st st' resp, k st = Answer st' resp -> R st.1 st'.1.

(** The users of the sessions stay users and keep their roles. *)
Definition keeps_roles : relation DB := fun db db' =>
  forall session u, get_user db session = Some u ->
  exists u', get_user db' session = Some u' /\ u_role u' = u_role u.

(** How the application changes a store: the constraints of the schema
    are kept, and the users keep their roles. *)
Definition evolves : relation DB := fun db db' => wf db -> wf db' /\ keeps_roles db db'.

(** ** Lemmas *)

#[global] Instance keeps_roles_preorder : PreOrder keeps_roles.
Proof.
  split; [intros db session u; eauto|].
  intros db1 db2 db3 H12 H23 session u (u2 & H2 & <-)%H12. by apply H23.
Qed.

#[global] Instance evolves_preorder : PreOrder evolves.
Proof.
  split; [by intros db H|]. intros db1 db2 db3 H12 H23 [H2 Hr]%H12.
  destruct (H23 H2) as [H3 Hr']. split; [done|by etrans].
Qed.

(** *** The decorators and the ways of serving respect what the views do *)

Section Respects.
Context (R : relation DB) `{!Reflexive R}.

Lemma respects_login_required view user :
  (forall u, respects R (view u)) -> respects R (login_required view user).
Proof.
  intros Hv db db' resp. destruct user as [u|]; [apply Hv|]. by intros [= <- _].
Qed.

Lemma respects_is_authenticated view user :
  (forall u, respects R (view u)) -> respects R (is_authenticated view user).
Proof.
  intros Hv db db' resp. destruct user as [u|]; [apply Hv|]. by intros [= <- _].
Qed.

Lemma respects_doctor_required view user :
  (forall u, respects R (view u)) -> respects R (doctor_required view user).
Proof.
  intros Hv db db' resp [->|(u & -> & _ & E)]%doctor_required_inv; [done|]. by eapply Hv.
Qed.

Lemma answers_reads {C} (view : DB -> page C) : answers_respect R (reads view).
Proof.
  intros st st' resp. unfold reads. destruct (view st.1) as [[r c]|]; [|done].
  by intros [= <- _].
Qed.

Lemma answers_writes view : respects R view -> answers_respect R (writes view).
Proof.
  intros Hv st st' resp. unfold writes. destruct (view st.1) as [[db r]|] eqn:E; [|done].
  intros [= <- <-]. by eapply Hv.
Qed.

Lemma answers_api_view view m permitted k :
  answers_respect R k -> answers_respect R (api_view view m permitted k).
Proof.
  intros Hk st st' resp. unfold api_view. destruct (_ && _); [by intros [= <- _]|apply Hk].
Qed.

Lemma answers_with_int args k :
  (forall n, answers_respect R (k n)) -> answers_respect R (with_int args k).
Proof.
  intros Hk. unfold with_int. by destruct args as [|[name [n|s]] [|? ?]].
Qed.

End Respects.

(** The same for a relation that depends on the user of the request: a
    decorator calls the view with this user, and the decorator for
    doctors with a doctor. *)
Section RespectsUser.
Context (R : option User -> relation DB) (HR : forall user, Reflexive (R user)).
Context (view : User -> handler).

Lemma respects_user_login_required user :
  (forall u, respects (R (Some u)) (view u)) -> respects (R user) (login_required view user).
Proof.
  intros Hv. destruct user as [u|]; [apply Hv|]. by intros db db' resp [= <- _].
Qed.

Lemma respects_user_is_authenticated user :
  (forall u, respects (R (Some u)) (view u)) ->
  respects (R user) (is_authenticated view user).
Proof.
  intros Hv. destruct user as [u|]; [apply Hv|]. by intros db db' resp [= <- _].
Qed.

Lemma respects_user_doctor_required user :
  (forall u, u_role u = Doctor -> respects (R (Some u)) (view u)) ->
  respects (R user) (doctor_required view user).
Proof.
  intros Hv db db' resp [->|(u & -> & Hr & E)]%doctor_required_inv; [done|].
  by eapply Hv.
Qed.

End RespectsUser.

(** *** The writers keep the constraints of the schema *)

#[global] Instance MoodEntry_plain : Plain MoodEntry.
Proof. split; [by intros db []| |done]. intros l db [] Hl. by split. Qed.
#[global] Instance Journal_plain : Plain Journal.
Proof. split; [by intros db []| |done]. intros l db [] Hl. by split. Qed.
#[global] Instance Achievement_plain : Plain Achievement.
Proof. split; [by intros db []| |done]. intros l db [] Hl. by split. Qed.
#[global] Instance DoctorNote_plain : Plain DoctorNote.
Proof. split; [by intros db []| |done]. intros l db [] Hl. by split. Qed.

(** A table takes a new row with the next key. *)
Lemma wf_create {R} `{Plain R} (r : R) db :
  wf db -> pk r = next_id (pk <$> objects db) -> wf (set_objects (objects db ++ [r]) db).
Proof.
  intros Hwf Hr. apply wf_set_objects; [done|].
  apply NoDup_fmap_snoc; [|by apply wf_unique_keys]. rewrite Hr. apply next_id_fresh.
Qed.

(** The rows the views create have the next key. *)
Ltac wf_new_row R row :=
  intros Hwf;
  match goal with
  | |- wf ?db' =>
      match type of Hwf with
      | wf ?db =>
          change db' with (set_objects (R:=R) (objects (R:=R) db ++ [row]) db);
          apply wf_create; done
      end
  end.

Lemma wf_create_mood db now uid mood note tags :
  wf db -> wf (create_mood db now uid mood note tags).
Proof.
  wf_new_row MoodEntry (mkMoodEntry (next_id (me_id <$> moods db)) uid mood note tags now).
Qed.

Lemma wf_create_journal db now uid title content :
  wf db -> wf (create_journal db now uid title content).
Proof.
  wf_new_row Journal (mkJournal (next_id (j_id <$> journals db)) uid title content now).
Qed.

Lemma wf_create_achievement db now uid title description points :
  wf db -> wf (create_achievement db now uid title description points).
Proof.
  wf_new_row Achievement
    (mkAchievement (next_id (ach_id <$> achievements db)) uid title description points now).
Qed.

Lemma wf_create_doctor_note db now patient doctor note is_visible :
  wf db -> wf (create_doctor_note db now patient doctor note is_visible).
Proof.
  wf_new_row DoctorNote
    (mkDoctorNote (next_id (dn_id <$> doctor_notes db)) patient doctor note now is_visible).
Qed.

Lemma wf_award db now uid c th t d p : wf db -> wf (award db now uid c th t d p).
Proof. unfold award. case_match; [apply wf_create_achievement|done]. Qed.

Lemma wf_check_achievements db now uid : wf db -> wf (check_achievements db now uid).
Proof. intros Hwf. by apply wf_award, wf_award. Qed.

Lemma wf_create_assignment db now doctor patient db' :
  wf db -> create_assignment db now doctor patient = Ok db' -> wf db'.
Proof.
  intros Hwf Hc. pose proof (unique_pairs_create _ _ _ _ _ Hc (wf_pairs _ Hwf)) as Hp.
  destruct (create_assignment_inv _ _ _ _ _ Hc) as [_ ->]. destruct Hwf. split; try done.
  apply NoDup_fmap_snoc; [apply next_id_fresh|done].
Qed.

(** Saving a user. *)
Lemma model_save_keys db u db' u' :
  Forall (fun v => u_id v <> 0) (users db) -> model_save db u = Ok (db', u') ->
  Forall (fun v => u_id v <> 0) (users db').
Proof.
  intros Hk. unfold model_save. destruct (qs_exists (conflicting db u)); [done|].
  destruct (qs_exists _); intros [= <- _]; cbn [users].
  - rewrite Forall_fmap. eapply Forall_impl; [done|]. intros v Hv. cbn.
    case_decide; congruence.
  - apply Forall_app. split; [done|]. apply Forall_singleton. case_decide as E; [|done].
    cbn. pose proof (next_id_pos (u_id <$> users db)). lia.
Qed.

Lemma wf_model_save db u db' u' : wf db -> model_save db u = Ok (db', u') -> wf db'.
Proof.
  intros Hwf Hs.
  destruct (model_save_shape db u db' u' (wf_user_ids _ Hwf) Hs) as (Hsh & Ha & Hm & Hj & Hc & Hn).
  pose proof (model_save_keys _ _ _ _ (wf_user_keys _ Hwf) Hs).
  pose proof (saved_shape_unique_ids _ _ _ _ Hsh (wf_user_ids _ Hwf)).
  pose proof (saved_shape_unique_codes _ _ _ _ Hsh (wf_codes _ Hwf)).
  pose proof (saved_shape_unique_usernames _ _ _ _ Hsh (wf_usernames _ Hwf)).
  destruct Hwf.
  split; try done; unfold unique_pairs, pair_assignments, unique_keys; cbn;
    by rewrite ?Ha, ?Hm, ?Hj, ?Hc, ?Hn.
Qed.

(** *** The views evolve the store *)

(** The user of a session is a row of the table, with the key of the
    session. *)
Lemma get_user_elem db session u :
  get_user db session = Some u -> u ∈ users db /\ session = Some (u_id u).
Proof.
  destruct session as [uid|]; [|done]. cbn. intros Hh%head_Some_elem_of.
  apply list_elem_of_filter in Hh as [<- Hu]. done.
Qed.

(** A view that leaves the users alone and keeps the constraints. *)
Lemma evolves_frame db db' : users db' = users db -> (wf db -> wf db') -> evolves db db'.
Proof.
  intros Hu Hwf H. split; [by apply Hwf|]. intros session u. unfold get_user. rewrite Hu. eauto.
Qed.

Lemma evolves_create_mood db now uid mood note tags :
  evolves db (create_mood db now uid mood note tags).
Proof. apply evolves_frame; [done|apply wf_create_mood]. Qed.

Lemma evolves_create_journal db now uid title content :
  evolves db (create_journal db now uid title content).
Proof. apply evolves_frame; [done|apply wf_create_journal]. Qed.

Lemma evolves_create_doctor_note db now patient doctor note is_visible :
  evolves db (create_doctor_note db now patient doctor note is_visible).
Proof. apply evolves_frame; [done|apply wf_create_doctor_note]. Qed.

Lemma evolves_check_achievements db now uid : evolves db (check_achievements db now uid).
Proof.
  apply evolves_frame; [|apply wf_check_achievements]. unfold check_achievements.
  cbv zeta. by rewrite !(proj1 (award_frame _ _ _ _ _ _ _ _)).
Qed.

Lemma evolves_create_assignment db now doctor patient db' :
  create_assignment db now doctor patient = Ok db' -> evolves db db'.
Proof.
  intros Hc. apply evolves_frame; [|intros; by eapply wf_create_assignment].
  by destruct (create_assignment_inv _ _ _ _ _ Hc) as [_ ->].
Qed.

(** The actions of a view set on a table without further constraints. *)
Lemma evolves_dispatch {R Data Repr} `{ModelLaws R} `{!Plain R} (vs : view_set R Data Repr)
    `{!Keyed vs} now a user :
  respects evolves (dispatch vs now a user).
Proof.
  intros db db' resp E Hwf.
  destruct (dispatch_keys vs now a user db db' resp (wf_unique_keys db Hwf) E) as [Hk ->].
  split; [by apply wf_set_objects|].
  intros session u. unfold get_user. rewrite users_set_objects. eauto.
Qed.

(** Saving a user who has the role of the row with the same key. *)
Lemma get_user_fmap (f : User -> User) db db' session u :
  users db' = f <$> users db -> (forall v, u_id (f v) = u_id v) ->
  get_user db session = Some u -> get_user db' session = Some (f u).
Proof.
  intros Hu Hf. destruct session as [uid|]; [|done]. cbn. rewrite Hu, head_filter_fmap.
  - by intros ->.
  - apply Forall_forall. intros v _. by rewrite Hf.
Qed.

Lemma evolves_model_save db u db' u' :
  (wf db -> forall v, v ∈ users db -> u_id v = u_id u -> u_role v = u_role u) ->
  model_save db u = Ok (db', u') -> evolves db db'.
Proof.
  intros Hrole Hs Hwf. specialize (Hrole Hwf). split; [by eapply wf_model_save|].
  intros session w Hw. revert Hs. unfold model_save.
  destruct (qs_exists (conflicting db u)); [done|].
  destruct (qs_exists _); intros [= <- _].
  - set (f := fun v : User => if decide (u_id v = u_id u) then u else v).
    exists (f w). split.
    + apply (get_user_fmap f db); [done| |done]. intros v. unfold f. by case_decide.
    + apply get_user_elem in Hw as [Hin _]. unfold f.
      case_decide; [symmetry; by apply Hrole|done].
  - exists w. split; [|done]. destruct session as [uid|]; [|done]. by apply head_filter_snoc.
Qed.

(** The views that write. *)
Lemma evolves_log_mood_view now method b user :
  respects evolves (log_mood_view now method b user).
Proof.
  apply respects_login_required; [apply _|]. intros u db db' resp [= E].
  destruct (log_mood_cases db now (u_id u) method (default 0 (f_mood b))
              (default "" (f_note b)) (default "" (f_selected_tags b))) as [E'|E'];
    rewrite E in E'; cbn in E'; subst db'; [done|].
  etrans; [apply evolves_create_mood|apply evolves_check_achievements].
Qed.

Lemma evolves_add_journal now method title content user :
  respects evolves (add_journal now method title content user).
Proof.
  apply respects_login_required; [apply _|]. intros u db db' resp.
  destruct method; [by intros [= <- _]|]. case_match; intros [= <- _]; [|done].
  apply evolves_create_journal.
Qed.

Lemma evolves_assign_patient_view now method pid u :
  respects evolves (assign_patient_view now method pid u).
Proof.
  intros db db' resp [_ [->|(p & _ & _ & Hc)]]%assign_patient_view_inv; [done|].
  by eapply evolves_create_assignment.
Qed.

Lemma evolves_assign_patient now method pid user :
  respects evolves (assign_patient now method pid user).
Proof.
  apply respects_login_required; [apply _|]. intros u.
  apply respects_doctor_required; [apply _|]. apply evolves_assign_patient_view.
Qed.

Lemma evolves_api_assign_patient now pid user :
  respects evolves (api_assign_patient now pid user).
Proof.
  apply respects_is_authenticated; [apply _|]. intros u.
  apply respects_doctor_required; [apply _|]. intros u' db db' resp E.
  pose proof (api_assign_patient_view_store now pid u' db) as Hs. rewrite E in Hs.
  symmetry in Hs. apply fst_ok_inv in Hs as [r Hs]. by eapply evolves_assign_patient_view.
Qed.

Lemma evolves_add_doctor_note now method pid note is_visible user :
  respects evolves (add_doctor_note now method pid note is_visible user).
Proof.
  apply respects_login_required; [apply _|]. intros u.
  apply respects_doctor_required; [apply _|]. intros u' db db' resp.
  unfold add_doctor_note_view. destruct (get_object_or_404 db pid) as [[p|]|]; cbn;
    [|by intros [= <- _]|done].
  destruct method; [by intros [= <- _]|]. destruct note as [note|]; [|done].
  intros [= <- _]. apply evolves_create_doctor_note.
Qed.

Lemma evolves_create_for_patient_action now pid data u :
  respects evolves (create_for_patient_action now pid data u).
Proof.
  intros db db' resp. unfold create_for_patient_action, create_for_patient.
  case_decide; [by intros [= <- _]|]. destruct (qs_get _) as [p|[]]; try done;
    [|by intros [= <- _]].
  destruct (negb _); [by intros [= <- _]|]. case_match; intros [= <- _]; [|done].
  apply evolves_create_doctor_note.
Qed.

Lemma evolves_route_view {R Data Repr} `{ModelLaws R} `{!Plain R} (vs : view_set R Data Repr)
    `{!Keyed vs} now a user :
  respects evolves (route_view vs now a user).
Proof.
  destruct a as [a|]; [by apply evolves_dispatch|].
  apply respects_is_authenticated; [apply _|]. by intros u db db' resp [= <- _].
Qed.

Lemma evolves_resource_view r now b route user :
  respects evolves (resource_view r now b route user).
Proof.
  destruct r;
    [apply (evolves_route_view MoodEntryViewSet)|apply (evolves_route_view JournalViewSet)
    |apply (evolves_route_view AchievementViewSet)|apply (evolves_route_view DoctorNoteViewSet)].
Qed.

Lemma evolves_detail_view r now m b args user :
  respects evolves (detail_view r now m b args user).
Proof.
  unfold detail_view. destruct args as [|[name [id|s]] [|? ?]];
    try apply evolves_resource_view;
    (apply respects_is_authenticated; [apply _|]; by intros u db db' resp [= <- _]).
Qed.

(** The views that save a user. *)
Lemma evolves_user_save fuel draws n db u db' u' n' :
  (wf db -> forall v, v ∈ users db -> u_id v = u_id u -> u_role v = u_role u) ->
  user_save fuel draws n db u = Some (Ok (db', u'), n') -> evolves db db'.
Proof.
  intros Hrole [(_ & _ & pid & _ & E)|(_ & _ & E)]%user_save_inv; symmetry in E;
    (eapply evolves_model_save; [|exact E]); exact Hrole.
Qed.

(** What the two views that save a user do when they answer: nothing to
    the store, or [User.save]. *)
Lemma patient_dashboard_inv e session st st' resp :
  draws_and_writes
    (patient_dashboard (e_fuel e) (e_draws e) (e_now e) (get_user st.1 session)) st =
    Answer st' resp ->
  st'.1 = st.1 \/
  exists u patient_id n1 u1 n2,
    get_user st.1 session = Some u /\
    user_save (e_fuel e) (e_draws e) n1 st.1 (with_patient_id u (Some patient_id)) =
      Some (Ok (st'.1, u1), n2).
Proof.
  destruct st as [db n]. unfold draws_and_writes, patient_dashboard. cbn [fst].
  rewrite login_required_patient. unfold patient_required.
  destruct (get_user db session) as [u|] eqn:Eu; [|intros [= <- _]; by left].
  case_decide; [intros [= <- _]; by left|]. unfold patient_dashboard_view.
  destruct (missing_code u); cbn [mbind option_bind];
    [|cbn; destruct (patient_dashboard_context _ _ _); [|done]; intros [= <- _]; by left].
  destruct (generate_patient_id _ _ _ _) as [[pid n1]|]; [|done]. cbn [mbind option_bind].
  destruct (user_save _ _ _ _ _) as [[[[db1 u1]|e1] n2]|] eqn:Es; try done. cbn.
  destruct (patient_dashboard_context _ _ _); [|done]. intros [= <- _]. right.
  by exists u, pid, n1, u1, n2.
Qed.

Lemma register_user_inv e b st st' resp :
  registers (register_user (e_fuel e) (e_draws e) st.2 (f_user b) st.1) = Answer st' resp ->
  st'.1 = st.1 \/
  exists u1 n2,
    user_save (e_fuel e) (e_draws e) st.2 st.1 (create UserSerializer 0 0 (f_user b)) =
      Some (Ok (st'.1, u1), n2).
Proof.
  destruct st as [db n]. unfold registers, register_user. cbn [fst snd].
  destruct (is_valid _ _ _ _); [|intros [= <- _]; by left].
  destruct (user_save _ _ _ _ _) as [[[[db1 u1]|e1] n2]|] eqn:Es; try done. cbn.
  intros [= <- _]. right. by exists u1, n2.
Qed.

(** The user of a session is the one row with its key. *)
Lemma get_user_role db session u v :
  wf db -> get_user db session = Some u -> v ∈ users db -> u_id v = u_id u ->
  u_role v = u_role u.
Proof.
  intros Hwf [Hu _]%get_user_elem Hv Hid.
  by rewrite (NoDup_fmap_elem_inj u_id (users db) v u (wf_user_ids _ Hwf) Hv Hu Hid).
Qed.

(** No row has the key of an instance that is not saved. *)
Lemma unsaved_role db (u v : User) :
  wf db -> u_id u = 0 -> v ∈ users db -> u_id v = u_id u -> u_role v = u_role u.
Proof.
  intros Hwf H0 Hv Hid. exfalso. pose proof (wf_user_keys _ Hwf) as Hk.
  rewrite Forall_forall in Hk. apply (Hk v Hv). by rewrite Hid.
Qed.

Lemma evolves_patient_dashboard e session st st' resp :
  draws_and_writes
    (patient_dashboard (e_fuel e) (e_draws e) (e_now e) (get_user st.1 session)) st =
    Answer st' resp ->
  evolves st.1 st'.1.
Proof.
  intros [->|(u & pid & n1 & u1 & n2 & Eu & Es)]%patient_dashboard_inv; [done|].
  eapply evolves_user_save; [|done]. intros Hwf v Hv Hid.
  exact (get_user_role _ session u v Hwf Eu Hv Hid).
Qed.

Lemma evolves_register_user e b :
  answers_respect evolves (fun st =>
    registers (register_user (e_fuel e) (e_draws e) st.2 (f_user b) st.1)).
Proof.
  intros st st' resp [->|(u1 & n2 & Es)]%register_user_inv; [done|].
  eapply evolves_user_save; [|done]. intros Hwf v. by apply unsaved_role.
Qed.

(** *** Every request evolves the store *)

(** The ways of serving are taken apart down to the view. *)
Ltac answers_step :=
  first
    [ apply answers_with_int; intros ?
    | apply answers_api_view; try apply _
    | apply answers_reads; apply _
    | apply answers_writes; try apply _ ].

Lemma evolves_current_user user : respects evolves (fun db => fst <$> current_user user db).
Proof. intros db db' resp. destruct user; by intros [= <- _]. Qed.

Lemma serve_respects e view args m b user :
  view <> PatientDashboard -> answers_respect evolves (serve e view args m b user).
Proof.
  intros Hv. destruct view; cbn [serve]; try done; repeat answers_step;
    auto using evolves_assign_patient, evolves_log_mood_view, evolves_add_journal,
      evolves_add_doctor_note, evolves_current_user, evolves_api_assign_patient,
      evolves_resource_view, evolves_detail_view, evolves_register_user.
  - by intros st st' resp [= <- _].
  - by intros st st' resp [= <- _].
  - apply respects_is_authenticated; [apply _|]. intros u.
    apply evolves_create_for_patient_action.
Qed.

Lemma handle_evolves e rq st st' resp :
  handle e rq st = Answer st' resp -> evolves st.1 st'.1.
Proof.
  unfold handle. destruct (resolve (rq_url rq)) as [[view args]|]; [|by intros [= <- _]].
  destruct (decide (view = PatientDashboard)) as [->|Hv]; [apply evolves_patient_dashboard|].
  by apply serve_respects.
Qed.

Lemma wf_empty : wf empty_db.
Proof.
  split; first [apply NoDup_nil_2|done|intros ?; cbn; lia|intros ? ?; cbn; lia].
Qed.

Lemma wf_run e rqs st : wf st.1 -> wf (run_requests e rqs st).1.
Proof.
  revert st. induction rqs as [|rq rqs IH]; intros st Hst; [done|]. apply IH.
  destruct (handle e rq st) eqn:E; [by apply (handle_evolves _ _ _ _ _ E)|done..].
Qed.

Lemma reachable_run e rqs st : reachable st -> reachable (run_requests e rqs st).
Proof.
  revert st. induction rqs as [|rq rqs IH]; intros st Hst; [done|]. apply IH.
  destruct (handle e rq st) eqn:E; [by eapply reachable_step|done..].
Qed.

(** *** Requests without a user *)

Lemma route_view_anonymous {R Data Repr} `{Model R} (vs : view_set R Data Repr) now a db :
  route_view vs now a None db = Ok (db, Response NOT_AUTHENTICATED).
Proof. by destruct a. Qed.

Lemma resource_view_anonymous r now b route db :
  resource_view r now b route None db = Ok (db, Response NOT_AUTHENTICATED).
Proof. destruct r; apply route_view_anonymous. Qed.

Lemma detail_view_anonymous r now m b args db :
  detail_view r now m b args None db = Ok (db, Response NOT_AUTHENTICATED).
Proof.
  unfold detail_view. destruct args as [|[name [id|s]] [|? ?]]; try done;
    apply resource_view_anonymous.
Qed.

(** *** The redirects of the views *)

Lemma reads_sound {C} (P : response -> Prop) (view : DB -> page C) st st' resp :
  ensures (fun t => P t.1) (view st.1) -> reads view st = Answer st' resp -> P resp.
Proof.
  intros Hv. unfold reads. destruct (view st.1) as [[r c]|] eqn:E; [|done].
  intros [= _ <-]. by apply (Hv _ eq_refl).
Qed.

Lemma writes_sound (P : response -> Prop) (view : handler) st st' resp :
  ensures (fun t => P t.2) (view st.1) -> writes view st = Answer st' resp -> P resp.
Proof.
  intros Hv. unfold writes. destruct (view st.1) as [[db r]|] eqn:E; [|done].
  intros [= _ <-]. by apply (Hv _ eq_refl).
Qed.

(** The views and their decorators, unfolded to the computations that
    answer. *)
Ltac unfold_views :=
  unfold doctor_dashboard, assign_patient, patient_detail, add_doctor_note,
    api_assigned_patients, api_assign_patient, patient_details, create_for_patient_action,
    create_for_patient, progress_analytics, progress_analytics_view,
    mini_games, breathing_exercise, patient_page, positive_quotes, crisis_support,
    emergency_contacts, ai_mood_prediction_view, ai_mood_prediction, log_mood_view, log_mood,
    add_journal, dashboard_stats, current_user, login_required, is_authenticated, on_user,
    doctor_required, patient_required, doctor_dashboard_view, assign_patient_view,
    api_assign_patient_view, patient_detail_view, patient_details_view, add_doctor_note_view,
    dashboard_stats_view, get_object_or_404, post_item, respond, handler_responds,
    page_responds, api_answer_responds, home_redirect, custom_auth_token.

(** An answer is looked up in the table of redirects, by the role of the
    user. *)
Ltac redirects_solve :=
  cbn [fst snd]; unfold sound, redirects; cbn [fmap option_fmap option_map];
  try match goal with |- context [u_role ?u] => destruct (u_role u) eqn:? end;
  try done;
  first [ split; [done|by_decide] | left; split; [done|by_decide]
        | right; left; split; [done|by_decide] | right; right; done ].

(** The actions of a view set answer with a status. *)
Lemma dispatch_status {R Data Repr} `{Model R} (vs : view_set R Data Repr) now a user db :
  ensures (fun t => exists status, t.2 = Response status) (dispatch vs now a user db).
Proof.
  unfold dispatch, is_authenticated, list_action, retrieve, create_action, update_action,
    destroy, get_object, respond, handler_responds.
  repeat ensures_step; cbn; eauto.
Qed.

Lemma resource_view_sound r now b route user view db :
  ensures (fun t => sound user view t.2) (resource_view r now b route user db).
Proof.
  assert (forall t : DB * response, (exists status, t.2 = Response status) -> sound user view t.2)
    as Hs by (by intros [? ?] [? ->]).
  unfold resource_view, route_view.
  repeat case_match; try (eapply ensures_impl; [exact Hs|apply dispatch_status]);
    unfold is_authenticated, respond, handler_responds; by repeat ensures_step.
Qed.

Lemma detail_view_sound r now m b args user view db :
  ensures (fun t => sound user view t.2) (detail_view r now m b args user db).
Proof.
  unfold detail_view. repeat case_match; try apply resource_view_sound;
    unfold is_authenticated, respond, handler_responds; by repeat ensures_step.
Qed.

Lemma serve_sound e view args m b user st st' resp :
  view <> PatientDashboard -> view <> ApiRegister ->
  serve e view args m b user st = Answer st' resp -> sound user view resp.
Proof.
  intros Hp Hr. destruct view; try done; cbn [serve]; unfold with_int, api_view;
    repeat case_match; try done;
    first [apply reads_sound|apply writes_sound|intros [= _ <-]];
    try apply resource_view_sound; try apply detail_view_sound;
    unfold_views; cbv zeta; repeat ensures_step; redirects_solve.
Qed.

Lemma patient_dashboard_sound e user st st' resp :
  draws_and_writes (patient_dashboard (e_fuel e) (e_draws e) (e_now e) user) st =
    Answer st' resp ->
  sound user PatientDashboard resp.
Proof.
  destruct st as [db n]. unfold draws_and_writes, patient_dashboard.
  rewrite login_required_patient. unfold patient_required.
  destruct user as [u|]; [|by intros [= _ <-]].
  case_decide; [intros [= _ <-]; redirects_solve|]. unfold patient_dashboard_view.
  destruct (if missing_code u then _ else _) as [[[[db1 u1]|e1] n1]|]; cbn; try done.
  destruct (patient_dashboard_context _ _ _); [|done]. by intros [= _ <-].
Qed.

Lemma register_user_sound e b user st st' resp :
  registers (register_user (e_fuel e) (e_draws e) st.2 (f_user b) st.1) = Answer st' resp ->
  sound user ApiRegister resp.
Proof.
  unfold registers, register_user.
  destruct (is_valid _ _ _ _); [|intros E; by simplify_eq].
  destruct (user_save _ _ _ _ _) as [[[[db1 u1]|e1] n1]|]; cbn; try done.
  intros E. by simplify_eq.
Qed.

(** Every answer of the application is in the table of redirects. *)
Lemma handle_sound e rq st st' resp view args :
  resolve (rq_url rq) = Some (view, args) -> handle e rq st = Answer st' resp ->
  sound (get_user st.1 (rq_session rq)) view resp.
Proof.
  intros Hv. unfold handle. rewrite Hv.
  destruct (decide (view = PatientDashboard)) as [->|Hp]; [apply patient_dashboard_sound|].
  destruct (decide (view = ApiRegister)) as [->|Hr]; [|by apply serve_sound].
  cbn [serve]. unfold api_view. case_match; [by intros [= _ <-]|apply register_user_sound].
Qed.

(** A request to a URL outside the tables of the sources is not
    answered. *)
Lemma handle_external e rq st prefix args :
  resolve (rq_url rq) = Some (External prefix, args) -> handle e rq st = Outside prefix.
Proof. intros Hv. unfold handle. by rewrite Hv. Qed.

(** *** Following redirects *)

(** The role of the user of a session after a request. *)
Lemma handle_role e rq st st' resp u :
  wf st.1 -> handle e rq st = Answer st' resp ->
  get_user st.1 (rq_session rq) = Some u ->
  u_role <$> get_user st'.1 (rq_session rq) = Some (u_role u).
Proof.
  intros Hwf Hh Hu. destruct (handle_evolves _ _ _ _ _ Hh Hwf) as [_ Hr].
  destruct (Hr _ _ Hu) as (u' & -> & <-). done.
Qed.

(** Every redirect leads to a URL of the table, and to a request of
    lower rank. *)
Lemma redirect_decreases e rq st st' name view args :
  wf st.1 -> resolve (rq_url rq) = Some (view, args) ->
  handle e rq st = Answer st' (Redirect name) ->
  exists url view' args',
    location rq name = Some url /\ resolve url = Some (view', args') /\
    (rank (u_role <$> get_user st'.1 (rq_session rq)) view' <
     rank (u_role <$> get_user st.1 (rq_session rq)) view)%nat.
Proof.
  intros Hwf Hv Hh. pose proof (handle_sound _ _ _ _ _ _ _ Hv Hh) as Hs.
  assert (forall prefix, view <> External prefix) as Hx
    by (intros prefix ->; by rewrite (handle_external _ _ _ _ _ Hv) in Hh).
  cbn in Hs. unfold redirects in Hs.
  destruct (get_user st.1 (rq_session rq)) as [u|] eqn:Hu; cbn in Hs.
  - rewrite (handle_role _ _ _ _ _ _ Hwf Hh Hu). unfold location, follow.
    cbn [fmap option_fmap option_map]. destruct (u_role u); [destruct Hs as [-> Hin]|destruct Hs as [[-> Hin]|[[-> Hin]|[-> ->]]]].
    + exists ["dashboard"; "patient"], PatientDashboard, []. split_and!; [by_compute..|].
      unfold doctor_views in Hin. repeat (apply elem_of_cons in Hin as [->|Hin]); cbn; try lia.
      by apply elem_of_nil in Hin.
    + exists ["dashboard"; "doctor"], DoctorDashboard, []. split_and!; [by_compute..|].
      unfold patient_views in Hin. repeat (apply elem_of_cons in Hin as [->|Hin]); cbn; try lia.
      by apply elem_of_nil in Hin.
    + exists ["dashboard"; "patient"], PatientDashboard, []. split_and!; [by_compute..|].
      repeat (apply elem_of_cons in Hin as [->|Hin]); cbn; try lia.
      by apply elem_of_nil in Hin.
    + destruct (resolve_add_doctor_note _ _ Hv) as (pid & Hpid & ->).
      rewrite decide_False, decide_True, Hv by done. cbn [mbind option_bind].
      exists ["dashboard"; "patient"; print_int pid], PatientDetail,
        [("patient_id", IntArg pid)].
      assert (reverse_url "patient_detail" [("patient_id", IntArg pid)] =
              Some ["dashboard"; "patient"; print_int pid]) as Hrev.
      { rewrite (reverse_url_route
                   (mkRoute [Lit "dashboard"; Lit "patient"; Param IntConv "patient_id"]
                            PatientDetail "patient_detail")) by by_decide.
        cbn. by rewrite !decide_True by done. }
      split_and!; [done| |cbn; lia].
      by apply (resolve_reverse_url
                  (mkRoute [Lit "dashboard"; Lit "patient"; Param IntConv "patient_id"]
                           PatientDetail "patient_detail")); [by_decide|..].
  - subst name. exists ["accounts"; "login"], (External "accounts"), [].
    split_and!; [by_compute..|]. destruct view as [p| | | | | | | | | | | | | | | | | | | | | | | | | ];
      cbn; try lia. by destruct (Hx p).
Qed.

(** The browser follows as many redirects as the rank of its request and
    is then shown an answer that is no redirect. *)
Lemma browse_rank hops : forall e rq st view args st' name,
  wf st.1 -> resolve (rq_url rq) = Some (view, args) ->
  (rank (u_role <$> get_user st.1 (rq_session rq)) view <= hops)%nat ->
  browse hops e rq st <> Answer st' (Redirect name).
Proof.
  induction hops as [|hops IH]; intros e rq st view args st' name Hwf Hv Hrank; cbn [browse];
    destruct (handle e rq st) as [st1 [name1| | |]| | |] eqn:Hh; try done;
    destruct (redirect_decreases _ _ _ _ _ _ _ Hwf Hv Hh) as (url & v1 & a1 & Hl & Hv1 & Hlt);
    [lia|]. rewrite Hl.
  apply (IH e (follow rq url) st1 v1 a1);
    [by apply (handle_evolves _ _ _ _ _ Hh)|done|cbn [follow rq_session]; lia].
Qed.

Lemma rank_le r view : (rank r view <= 2)%nat.
Proof. destruct view, r as [[]|]; cbn; lia. Qed.

(** ** Theorems *)

(** C5: every request keeps the constraints of the schema: when the store
    has distinct primary keys in every table, no user with the key 0,
    distinct user names and patient codes and at most one assignment per
    doctor and patient, then so has the store that any request, to any
    URL with any method and body in any session, leaves when it is
    answered. *)
Theorem handle_wf e rq st st' resp :
  wf st.1 -> handle e rq st = Answer st' resp -> wf st'.1.
Proof. intros Hwf Hh. by apply (handle_evolves _ _ _ _ _ Hh). Qed.

Lemma handle_wf_witness :
  exists st', handle sample_env (register_request "ann" Patient) (empty_db, O) =
                Answer st' (Response 201) /\
              wf st'.1.
Proof.
  eexists. split; [by_compute|].
  eapply (handle_wf sample_env (register_request "ann" Patient) (empty_db, O));
    [apply wf_empty|by_compute].
Defined.

(** The constraints of the schema hold in every state the
    application reaches from the empty store, whatever the requests, the
    clock and the draws are. *)
Theorem reachable_wf st : reachable st -> wf st.1.
Proof.
  induction 1 as [|e rq st st' resp _ IH Hh]; [apply wf_empty|].
  by apply (handle_evolves _ _ _ _ _ Hh).
Qed.

Lemma reachable_wf_witness :
  wf sample_state.1 /\
  length (users sample_state.1) = 2%nat /\ length (moods sample_state.1) = 1%nat.
Proof.
  split; [|by_compute]. apply (reachable_wf sample_state). apply reachable_run, reachable_init.
Defined.

(** A request without a user of the store (no session, or the session
    of a key that is no user) changes nothing and is answered by the
    redirect to the login page, by 401, by the 404 page or by the landing
    page, unless it goes to one of the two endpoints that allow anybody:
    the token login, which changes nothing either, and the
    registration. *)
Theorem anonymous_denied e rq st st' resp :
  get_user st.1 (rq_session rq) = None ->
  handle e rq st = Answer st' resp ->
  st' = st /\
  resp ∈ [Redirect "login"; Response NOT_AUTHENTICATED; Http404;
          Render "accounts/landing.html"] \/
  exists view args, resolve (rq_url rq) = Some (view, args) /\
                    (view = ApiLogin /\ st' = st \/ view = ApiRegister).
Proof.
  intros Hu. unfold handle. destruct (resolve (rq_url rq)) as [[view args]|];
    [|intros [= <- <-]; left; split; [done|by_decide]].
  rewrite Hu. destruct st as [db0 n0].
  destruct (decide (view = ApiRegister)) as [->|Hr]; [right; eauto|].
  destruct (decide (view = ApiLogin)) as [->|Hl].
  { intros Hs. right. exists ApiLogin, args. split; [done|]. left. split; [done|].
    revert Hs. unfold serve, api_view. by case_match; intros [= <- _]. }
  intros Hs. left. revert Hs.
  destruct view; try done; cbn [serve]; unfold with_int, api_view;
    repeat case_match; try done; unfold reads, writes, draws_and_writes;
    rewrite ?resource_view_anonymous, ?detail_view_anonymous;
    cbn; intros [= <- <-]; (split; [done|by_decide]).
Qed.

Lemma anonymous_denied_witness :
  (empty_db, O) = (empty_db, O) /\
  Redirect "login" ∈ [Redirect "login"; Response NOT_AUTHENTICATED; Http404;
                      Render "accounts/landing.html"] \/
  exists view args,
    resolve (rq_url (log_mood_request 1 7)) = Some (view, args) /\
    (view = ApiLogin /\ (empty_db, O) = (empty_db, O) \/ view = ApiRegister).
Proof.
  apply (anonymous_denied sample_env (log_mood_request 1 7) (empty_db, O)); by_compute.
Defined.

(** C23: the guards by role hold for every request: a patient who asks for
    a view of the doctors changes nothing and is sent to the patient
    dashboard (the REST endpoints behind [doctor_required] included, which
    answer with this redirect and not with 403) or is refused by
    [create_for_patient] with 403 or by the method check with 405; a
    doctor who asks for a page of the patients changes nothing and is
    sent to the doctor dashboard. *)
Theorem role_denied e rq st st' resp u view args :
  get_user st.1 (rq_session rq) = Some u ->
  resolve (rq_url rq) = Some (view, args) ->
  handle e rq st = Answer st' resp ->
  (u_role u = Patient -> view ∈ doctor_views ->
   st' = st /\ resp ∈ [Redirect "patient_dashboard"; Response 403; Response 405]) /\
  (u_role u = Doctor -> view ∈ patient_views ->
   st' = st /\ resp = Redirect "doctor_dashboard").
Proof.
  intros Hu Hr. unfold handle. rewrite Hr, Hu. destruct st as [db0 n0]. intros Hs.
  split; intros Hrole Hv; unfold doctor_views, patient_views in Hv;
    repeat (apply elem_of_cons in Hv as [->|Hv]); try (by apply elem_of_nil in Hv);
    revert Hs; cbn [serve]; unfold with_int, api_view; repeat case_match; try done;
    unfold reads, writes, draws_and_writes;
    unfold doctor_dashboard, assign_patient, patient_detail, add_doctor_note,
      api_assigned_patients, api_assign_patient, patient_details, create_for_patient_action,
      create_for_patient, patient_dashboard, progress_analytics, progress_analytics_view,
      mini_games, breathing_exercise, patient_page, positive_quotes, crisis_support,
      emergency_contacts, ai_mood_prediction_view, ai_mood_prediction, login_required,
      is_authenticated, on_user, doctor_required, patient_required;
    rewrite ?Hrole; cbn; intros [= <- <-]; (split; [done|by_decide || done]).
Qed.

Lemma role_denied_witness :
  sample_state = sample_state /\
  Redirect "patient_dashboard" ∈ [Redirect "patient_dashboard"; Response 403; Response 405].
Proof.
  edestruct (role_denied sample_env
               (mkRequest MGet ["api"; "doctor"; "assigned-patients"] empty_body (Some 1))
               sample_state sample_state (Redirect "patient_dashboard")) as [H _];
    [by_compute..|apply H; [reflexivity|by_decide]].
Defined.

(** C13: no chain of redirects is longer than two: a browser that follows
    the redirects of the application is shown, after two redirects at
    most, an answer that is no redirect (a page, a status, or the error
    of a view), or it has left for the login page.  The rank of a request
    (by the role of its user and its view) is the variant: every redirect
    leads to a request of lower rank. *)
Theorem browse_ends e rq st st' name :
  wf st.1 -> browse 2 e rq st <> Answer st' (Redirect name).
Proof.
  intros Hwf. destruct (resolve (rq_url rq)) as [[view args]|] eqn:Hv;
    [by eapply browse_rank, rank_le|].
  cbn [browse]. unfold handle. by rewrite Hv.
Qed.

Lemma browse_ends_witness :
  browse 2 sample_env (log_mood_request 2 5) sample_state <>
    Answer sample_state (Redirect "doctor_dashboard") /\
  (exists st', browse 1 sample_env (log_mood_request 2 5) sample_state =
               Answer st' (Redirect "doctor_dashboard")) /\
  (exists st', browse 2 sample_env (log_mood_request 2 5) sample_state =
               Answer st' (Render "dashboard/doctor_dashboard.html")).
Proof.
  split_and!; [|eexists; by_compute..].
  apply (browse_ends sample_env (log_mood_request 2 5) sample_state).
  apply wf_run, wf_empty.
Defined.
