(* ===== verification/Schemas.v ===== *)
(** * Schemas: the declared shapes of requests and responses

    The declarations of [src/dashboard/forms.py] and
    [src/dashboard/serializers.py] that no view of the sources
    instantiates by name or that only declare fields: [MoodEntryForm],
    whose validation [log_mood] runs; the model serializer of the
    assignments; and the plain serializers [DashboardStatsSerializer],
    [MoodAnalysisSerializer] and [GameSessionSerializer], which declare
    the keys of a response.  A plain serializer represents a dictionary by
    reading every declared field from it, and raises [KeyError] for a key
    that is missing; the conversion of the values is not modelled.  The
    theorems compare the declarations with what the views do and return:
    [log_mood] stores what the form cleans; data the assignment serializer
    accepts are stored without an error of the store, for a doctor and a
    patient; the dictionary of [dashboard_stats] has the declared keys for
    a patient and lacks them for a doctor; the analysis has the declared
    keys exactly when the user has an entry in the window. *)

From Stdlib Require Import ZArith QArith Lia Ascii String.
From stdpp Require Import base decidable option list strings.
From S2P Require Import Prelude Numeric Text Store Streak Trend Forecast Recommend.
From S2P Require Import Achievements Doctor Views Aggregate Accounts Dashboard Serializers.
From S2P Require Import Api Journals Routes System.

(** ** Definitions *)

(** *** [MoodEntryForm] *)

(** [form.is_valid()] and the cleaned data of the fields [mood] and
    [note]: the mood is required and one of [MOOD_CHOICES], the note may
    be left out and is trimmed. *)
Definition mood_entry_form_clean (mood : option Z) (note : option string)
    : option (Z * string) :=
  mood ← mood;
  if valid_mood mood then Some (mood, py_strip (default "" note)) else None.

(** *** [DoctorPatientAssignmentSerializer] *)

Record AssignmentData : Type := mkAssignmentData {
  ad_doctor : option Z;
  ad_patient : option Z;
  ad_is_active : option bool;
  ad_notes : option string
}.

Record AssignmentRepr : Type := mkAssignmentRepr {
  ar_id : Z;
  ar_doctor : Z;
  ar_patient : Z;
  ar_assigned_date : Z;
  ar_is_active : bool;
  ar_notes : string;
  ar_doctor_name : string;
  ar_patient_name : string;
  ar_patient_id_display : option string
}.

(** [serializer.data] of an assignment. *)
Definition assignment_representation (db : DB) (a : DoctorPatientAssignment)
    : AssignmentRepr :=
  mkAssignmentRepr (dpa_id a) (dpa_doctor a) (dpa_patient a) (dpa_assigned_date a)
    (dpa_is_active a) (dpa_notes a) (username_of db (dpa_doctor a))
    (username_of db (dpa_patient a))
    (head (filter (fun u => u_id u = dpa_patient a) (users db)) ≫= u_patient_id).

(** A related field whose queryset is narrowed by [limit_choices_to]. *)
Definition role_key_valid (r : role) (db : DB) (v : option Z) : bool :=
  match v with
  | None => false
  | Some id => qs_exists (filter (fun u => u_id u = id /\ u_role u = r) (users db))
  end.

(** [serializer.is_valid()] for a new assignment: the doctor is the key
    of a doctor and the patient the key of a patient, and the validator
    of [unique_together] finds no row of the pair. *)
Definition assignment_valid (db : DB) (data : AssignmentData) : bool :=
  role_key_valid Doctor db (ad_doctor data) &&
  role_key_valid Patient db (ad_patient data) &&
  negb (qs_exists (pair_assignments db (default 0 (ad_doctor data))
                                    (default 0 (ad_patient data)))).

(** [serializer.save()] for a new assignment, at time [now]: the store
    refuses a second row for the pair. *)
Definition assignment_create (db : DB) (now : Z) (data : AssignmentData) : result DB :=
  let doctor := default 0 (ad_doctor data) in
  let patient := default 0 (ad_patient data) in
  if qs_exists (pair_assignments db doctor patient) then Raise IntegrityError
  else
    let row := mkAssignment (next_id (dpa_id <$> assignments db)) doctor patient now
                            (default true (ad_is_active data))
                            (default "" (ad_notes data)) in
    mret (set_objects (assignments db ++ [row]) db).

(** *** Plain serializers *)

(** The declared fields of a [serializers.Serializer], by name. *)
Definition DashboardStatsSerializer : list string :=
  [ "total_moods"; "total_journals"; "current_streak"; "avg_mood"; "mood_distribution";
    "recent_entries"; "recent_journals"; "achievements"; "doctor_notes";
    "assigned_doctors"; "mood_analysis" ].

Definition MoodAnalysisSerializer : list string :=
  [ "trend"; "avg_mood"; "message"; "data_points" ].

Definition GameSessionSerializer : list string :=
  [ "id"; "user"; "game_type"; "score"; "duration"; "completed_at" ].

(** [serializer.data] for a dictionary with the given keys: every
    declared field is read, and a key that is missing raises. *)
Definition serializer_data (fields keys : list string) : result (list string) :=
  if bool_decide (Forall (fun f => f ∈ keys) fields) then Ok fields else Raise KeyError.

(** A key that a dictionary has when a branch set it. *)
Definition key_of {A} (name : string) (v : option A) : list string :=
  match v with
  | Some _ => [name]
  | None => []
  end.

(** The keys of the dictionary [analyze_mood_trends] returns. *)
Definition analysis_keys (a : analysis) : list string :=
  ["trend"] ++ key_of "mood_level" (a_mood_level a) ++ key_of "avg_mood" (a_avg_mood a) ++
  ["message"] ++ key_of "additional_message" (a_additional_message a) ++
  key_of "recommendations" (a_recommendations a) ++ key_of "data_points" (a_data_points a).

(** The keys of the dictionary [stats] of [dashboard_stats]. *)
Definition stats_keys (d : dashboard_data) : list string :=
  match d with
  | PatientData _ =>
      [ "total_moods"; "total_journals"; "current_streak"; "avg_mood"; "mood_distribution";
        "recent_entries"; "recent_journals"; "achievements"; "doctor_notes";
        "assigned_doctors"; "mood_analysis" ]
  | DoctorData _ => [ "patients"; "recent_entries" ]
  end.

(** ** Lemmas *)

Lemma role_key_valid_elem r db v :
  role_key_valid r db v = true -> exists u, v = Some (u_id u) /\ u ∈ users db /\ u_role u = r.
Proof.
  destruct v as [id|]; [|done]. cbn.
  intros (u & [[<- Hr] Hu]%list_elem_of_filter)%qs_exists_elem. eauto.
Qed.

(** The analysis of the API has the keys of its branch. *)
Lemma api_analyze_rows_keys recent a :
  api_analyze_rows recent = Ok a ->
  analysis_keys a =
  if qs_exists recent then ["trend"; "avg_mood"; "message"; "data_points"]
  else ["trend"; "message"; "recommendations"].
Proof.
  unfold api_analyze_rows. destruct (qs_exists recent); cbn [negb]; [|by intros [= <-]].
  destruct (mean _) as [avg|]; [|done]. cbn. destruct (api_trend_slope _ _) as [s|]; [|done].
  cbn. destruct (api_classify_trend s). by intros [= <-].
Qed.

(** ** Theorems *)

(** [log_mood] stores what [MoodEntryForm] cleans: a POST whose form
    validates stores the mood and the trimmed note for the user, with the
    tags of the request, and checks the achievements; a POST whose form
    has errors renders the form again and stores nothing. *)
Theorem log_mood_view_form now b user db :
  log_mood_view now POST b (Some user) db =
  Ok (match mood_entry_form_clean (f_mood b) (f_note b) with
      | Some (mood, note) =>
          (check_achievements
             (create_mood db now (u_id user) mood note (default "" (f_selected_tags b)))
             now (u_id user),
           Redirect "patient_dashboard")
      | None => (db, Render "dashboard/log_mood.html")
      end).
Proof.
  unfold log_mood_view, login_required, log_mood, mood_entry_form_clean.
  destruct (f_mood b) as [mood|]; cbn; [by destruct (valid_mood mood)|done].
Qed.

(** Data the serializer of the assignments accepts are stored without an
    error of the store: the row is the assignment of a doctor and a
    patient of the store, and the pairs stay unique. *)
Theorem assignment_create_valid db now data :
  unique_pairs db -> assignment_valid db data = true ->
  exists row doctor patient,
    assignment_create db now data = Ok (set_objects (assignments db ++ [row]) db) /\
    doctor ∈ users db /\ u_role doctor = Doctor /\ dpa_doctor row = u_id doctor /\
    patient ∈ users db /\ u_role patient = Patient /\ dpa_patient row = u_id patient /\
    unique_pairs (set_objects (assignments db ++ [row]) db).
Proof.
  intros Hu [[Hd Hp]%andb_true_iff Hn%negb_true_iff]%andb_true_iff.
  apply role_key_valid_elem in Hd as (d & Ed & Hd & Hrd).
  apply role_key_valid_elem in Hp as (p & Ep & Hp & Hrp).
  unfold assignment_create. rewrite Hn. rewrite Ed, Ep in *. cbn [default] in *.
  eexists _, d, p. split; [reflexivity|]. split_and!; try done.
  intros d' p'. specialize (Hu d' p'). unfold pair_assignments in *. cbn [assignments set_objects
    DoctorPatientAssignment_model]. rewrite filter_app, length_app, filter_cons, filter_nil.
  apply qs_exists_false in Hn. case_decide as E; [|cbn; lia].
  destruct E as [<- <-]. cbn in Hn |- *. rewrite Hn. cbn. lia.
Qed.

Lemma assignment_create_valid_witness :
  exists db', assignment_create clinic_db sample_now
                (mkAssignmentData (Some 10) (Some 1) None None) = Ok db' /\
              len (assignments db') = 1.
Proof.
  destruct (assignment_create_valid clinic_db sample_now
              (mkAssignmentData (Some 10) (Some 1) None None))
    as (row & d & p & E & _); [intros ? ?; cbn; lia|by_compute|].
  eexists. split; [exact E|]. by_compute.
Defined.

(** C31: the analysis of the API has the keys [MoodAnalysisSerializer]
    declares exactly when the user has an entry in the window: for a user
    without one the dictionary lacks [avg_mood] and [data_points], and
    the serializer raises. *)
Theorem mood_analysis_data db now uid a :
  api_analyze_mood_trends db now uid = Ok a ->
  serializer_data MoodAnalysisSerializer (analysis_keys a) =
  if qs_exists (recent_moods db now uid) then Ok MoodAnalysisSerializer else Raise KeyError.
Proof.
  intros Ha%api_analyze_rows_keys. rewrite Ha. by destruct (qs_exists _).
Qed.

Lemma mood_analysis_data_witness :
  serializer_data MoodAnalysisSerializer (analysis_keys no_data_analysis) = Raise KeyError.
Proof.
  apply (mood_analysis_data empty_db sample_now 1 no_data_analysis). by_compute.
Defined.

(** The dictionary of [dashboard_stats] has the keys
    [DashboardStatsSerializer] declares for a patient; for a doctor it
    has two other keys, and the serializer raises. *)
Theorem dashboard_stats_data now user db resp d :
  dashboard_stats_view now user db = Ok (resp, Some d) ->
  serializer_data DashboardStatsSerializer (stats_keys d) =
  if decide (u_role user = Patient) then Ok DashboardStatsSerializer else Raise KeyError.
Proof.
  unfold dashboard_stats_view. case_decide.
  - destruct (api_analyze_mood_trends _ _ _); [|done]. by intros [= _ <-].
  - by intros [= _ <-].
Qed.

Lemma dashboard_stats_data_witness :
  exists d,
    dashboard_stats_view sample_now dr_house clinic_db = Ok (Response 200, Some d) /\
    serializer_data DashboardStatsSerializer (stats_keys d) = Raise KeyError.
Proof.
  eexists. split; [by_compute|].
  by apply (dashboard_stats_data sample_now dr_house clinic_db (Response 200)).
Defined.
