(* ===== verification/Isolation.v ===== *)
(** * Isolation: what a request can change

    A request is made in the name of the user of its session.  This file
    states what such a request may do to the tables ([confined]): the mood
    entries and the journals of the other users stay as they are, the
    achievements, the assignments and the doctor notes only grow, by rows
    of the user where the table has an owner, and the rows of the other
    users in the table of users stay.  Every view of
    [src/dashboard/views.py] and [src/dashboard/api.py] is shown to keep
    to it, through the decorators and the routes of [System], and with it
    the application: the diary of a user is changed by the requests of
    this user only, whatever the others send.  For the doctor notes this
    rests on the URL table: the routes of [update] and [destroy] are hidden
    behind [create_for_patient], and the view set behind them would let a
    patient delete the notes of a doctor. *)

From Stdlib Require Import ZArith QArith Lia Ascii String.
From stdpp Require Import base decidable option list strings.
From S2P Require Import Prelude Numeric Text Store Streak Trend Forecast Recommend.
From S2P Require Import Achievements Doctor Views Aggregate Accounts Dashboard Serializers.
From S2P Require Import Api Journals Routes System.

(** ** Definitions *)

(** The rows of a table that do not belong to [me]; all of them for a
    request without user. *)
Definition foreign {R} (owner : R -> Z) (me : option Z) (l : list R) : list R :=
  filter (fun r => Some (owner r) <> me) l.

#[global] Arguments foreign : simpl never.

(** What a request in the name of [me] may do to the store. *)
Record confined (me : option Z) (db db' : DB) : Prop := mkConfined {
  conf_users : foreign u_id me (users db) `prefix_of` foreign u_id me (users db');
  conf_moods : foreign me_user me (moods db') = foreign me_user me (moods db);
  conf_journals : foreign j_user me (journals db') = foreign j_user me (journals db);
  conf_achievements_grow : achievements db `prefix_of` achievements db';
  conf_achievements :
    foreign ach_user me (achievements db') = foreign ach_user me (achievements db);
  conf_assignments_grow : assignments db `prefix_of` assignments db';
  conf_assignments :
    foreign dpa_doctor me (assignments db') = foreign dpa_doctor me (assignments db);
  conf_doctor_notes : doctor_notes db `prefix_of` doctor_notes db'
}.

(** The same of a store that satisfies the constraints of the schema. *)
Definition within (me : option Z) : relation DB := fun db db' => wf db -> confined me db db'.

(** The user a request is made for. *)
Definition requester (rq : request) (db : DB) : option Z := u_id <$> get_user db (rq_session rq).

(** What a user has recorded: the mood entries, the journal and the
    achievements of the user. *)
Definition diary (db : DB) (v : Z) : list MoodEntry * list Journal * list Achievement :=
  (moods_of db v, journals_of db v, filter (fun a => ach_user a = v) (achievements db)).

(** The actions of a view set that add rows at most. *)
Definition appends {Data} (a : action Data) : bool :=
  match a with
  | List | Retrieve _ | Create _ => true
  | Update _ _ _ | Destroy _ => false
  end.


(** ** Lemmas *)

(** *** Rows of the others *)

Section Foreign.
Context {R : Type} (owner : R -> Z).

Lemma foreign_some uid (l : list R) :
  foreign owner (Some uid) l = filter (fun r => owner r <> uid) l.
Proof. apply list_filter_iff. intros r. split; congruence. Qed.

Lemma foreign_snoc me (l : list R) r :
  Some (owner r) = me -> foreign owner me (l ++ [r]) = foreign owner me l.
Proof.
  intros Hr. unfold foreign. rewrite filter_app, filter_cons_False, filter_nil by auto.
  apply app_nil_r.
Qed.

(** The rows of a user [v] who is not the requester are among the rows of
    the others. *)
Lemma foreign_of me v (l l' : list R) :
  Some v <> me -> foreign owner me l' = foreign owner me l ->
  filter (fun r => owner r = v) l' = filter (fun r => owner r = v) l.
Proof.
  intros Hv Hl.
  assert (forall k : list R, filter (fun r => owner r = v) k =
                             filter (fun r => owner r = v) (foreign owner me k)) as E.
  { intros k. unfold foreign. rewrite list_filter_filter. apply list_filter_iff.
    intros r. split; [intros <-; done|tauto]. }
  by rewrite (E l), (E l'), Hl.
Qed.

End Foreign.

(** *** The relation *)

#[global] Instance confined_preorder me : PreOrder (confined me).
Proof.
  split; [by intros db|]. intros db1 db2 db3 [] []. split; by etrans.
Qed.

#[global] Instance within_reflexive me : Reflexive (within me).
Proof. by intros db _. Qed.

(** A row of [me] is added to one table. *)
Lemma confined_create_mood db now uid mood note tags :
  confined (Some uid) db (create_mood db now uid mood note tags).
Proof. split; cbn; (done || by apply prefix_app_r || by rewrite foreign_snoc). Qed.

Lemma confined_create_journal db now uid title content :
  confined (Some uid) db (create_journal db now uid title content).
Proof. split; cbn; (done || by apply prefix_app_r || by rewrite foreign_snoc). Qed.

Lemma confined_create_achievement db now uid title description points :
  confined (Some uid) db (create_achievement db now uid title description points).
Proof. split; cbn; (done || by apply prefix_app_r || by rewrite foreign_snoc). Qed.

Lemma confined_create_doctor_note me db now patient doctor note is_visible :
  confined me db (create_doctor_note db now patient doctor note is_visible).
Proof. split; cbn; (done || by apply prefix_app_r). Qed.

Lemma confined_create_assignment db now doctor patient db' :
  create_assignment db now doctor patient = Ok db' -> confined (Some doctor) db db'.
Proof.
  intros [_ ->]%create_assignment_inv.
  split; cbn; (done || by apply prefix_app_r || by rewrite foreign_snoc).
Qed.

Lemma confined_check_achievements db now uid :
  confined (Some uid) db (check_achievements db now uid).
Proof.
  assert (forall db c th t d p, confined (Some uid) db (award db now uid c th t d p)) as Ha.
  { intros. unfold award. case_match; [apply confined_create_achievement|done]. }
  unfold check_achievements. cbv zeta. etrans; apply Ha.
Qed.

(** One table is replaced. *)
Lemma confined_set_moods me l db :
  foreign me_user me l = foreign me_user me (moods db) ->
  confined me db (set_objects (R:=MoodEntry) l db).
Proof. by split. Qed.

Lemma confined_set_journals me l db :
  foreign j_user me l = foreign j_user me (journals db) ->
  confined me db (set_objects (R:=Journal) l db).
Proof. by split. Qed.

Lemma confined_set_doctor_notes me l db :
  doctor_notes db `prefix_of` l -> confined me db (set_objects (R:=DoctorNote) l db).
Proof. by split. Qed.

(** *** The decorators *)

(** A view behind a decorator is called with the user of the request. *)
Section Decorators.
Context (view : User -> handler).
Context (Hview : forall u, respects (within (Some (u_id u))) (view u)).

Lemma within_login_required user :
  respects (within (u_id <$> user)) (login_required view user).
Proof.
  apply (respects_user_login_required (fun user => within (u_id <$> user)) (fun _ => within_reflexive _)).
  done.
Qed.

Lemma within_is_authenticated user :
  respects (within (u_id <$> user)) (is_authenticated view user).
Proof.
  apply (respects_user_is_authenticated (fun user => within (u_id <$> user)) (fun _ => within_reflexive _)).
  done.
Qed.

Lemma within_doctor_required user :
  respects (within (u_id <$> user)) (doctor_required view user).
Proof.
  apply (respects_user_doctor_required (fun user => within (u_id <$> user)) (fun _ => within_reflexive _)).
  intros u _. exact (Hview u).
Qed.

End Decorators.

(** *** The view sets *)

Section ViewSets.
Context {R Data Repr : Type} `{ModelLaws R} (vs : view_set R Data Repr).

(** Without [update] and [destroy] a view set adds rows at most. *)
Lemma dispatch_appends now a user db db' resp :
  appends a = true -> dispatch vs now a user db = Ok (db', resp) ->
  objects db `prefix_of` objects db' /\ db' = set_objects (objects db') db.
Proof.
  assert (forall d, d = db -> objects db `prefix_of` objects d /\
                              d = set_objects (objects d) db) as Hread
    by (intros d ->; split; [done|by rewrite set_objects_objects]).
  intros Ha. unfold dispatch, is_authenticated. destruct user as [user|];
    [|intros [= <- _]; by apply Hread].
  destruct a as [|id|data| |]; try done; intros [rep E]%fst_ok_inv.
  - apply Hread. by injection E as <-.
  - apply Hread. unfold retrieve in E.
    destruct (get_object vs id user db) as [[r|]|]; [by injection E as <-..|done].
  - unfold create_action in E. case_match; injection E as <- _ _; [|by apply Hread].
    rewrite !objects_set_objects. split; [by apply prefix_app_r|done].
Qed.

(** [list] and [retrieve] write nothing. *)
Lemma route_view_reads now (a : option (action Data)) user db db' resp :
  match a with Some (Create _ | Update _ _ _ | Destroy _) => False | _ => True end ->
  route_view vs now a user db = Ok (db', resp) -> db' = db.
Proof.
  unfold route_view, dispatch, is_authenticated. destruct user as [user|];
    [|destruct a; by intros _ [= <- _]].
  destruct a as [[|id| | |]|]; try done; intros _.
  - by intros [= <- _].
  - unfold retrieve. destruct (get_object vs id user db) as [[r|]|]; by intros [= <- _].
  - by intros [= <- _].
Qed.

End ViewSets.

(** A view set that keeps to the rows of the user changes the rows of
    the user only. *)
Lemma within_route_moods now a user :
  respects (within (u_id <$> user)) (route_view MoodEntryViewSet now a user).
Proof.
  destruct a as [a|]; [|apply within_is_authenticated; by intros u db db' resp [= <- _]].
  destruct user as [u|]; [|by intros db db' resp [= <- _]]. intros db db' resp E Hwf.
  destruct (dispatch_own_step MoodEntryViewSet me_user now a u db db' resp
              (wf_moods _ Hwf) E) as [Hs ->].
  apply confined_set_moods. cbn [fmap option_fmap option_map]. rewrite !foreign_some. by apply (own_step_private me_user).
Qed.

Lemma within_route_journals now a user :
  respects (within (u_id <$> user)) (route_view JournalViewSet now a user).
Proof.
  destruct a as [a|]; [|apply within_is_authenticated; by intros u db db' resp [= <- _]].
  destruct user as [u|]; [|by intros db db' resp [= <- _]]. intros db db' resp E Hwf.
  destruct (dispatch_own_step JournalViewSet j_user now a u db db' resp
              (wf_journals _ Hwf) E) as [Hs ->].
  apply confined_set_journals. cbn [fmap option_fmap option_map]. rewrite !foreign_some. by apply (own_step_private j_user).
Qed.

(** The achievements are read only. *)
Lemma within_route_achievements {Data} me now (a : option (action Data)) user :
  respects (within me) (route_view AchievementViewSet now (read_only a) user).
Proof.
  intros db db' resp ->%route_view_reads; [done|]. by destruct a as [[]|].
Qed.

(** The list route of the doctor notes adds a note at most. *)
Lemma within_route_doctor_notes me now a user :
  from_option appends true a = true ->
  respects (within me) (route_view DoctorNoteViewSet now a user).
Proof.
  intros Ha db db' resp E _. destruct a as [a|].
  - apply dispatch_appends in E as [Hp ->]; [|done]. by apply confined_set_doctor_notes.
  - assert (db' = db) as -> by (destruct user; by injection E as <-). done.
Qed.

(** The routes of a resource. *)
Lemma within_resource_list r now b m user :
  respects (within (u_id <$> user)) (resource_view r now b (fun _ => list_route m) user).
Proof.
  destruct r; cbn [resource_view];
    [apply within_route_moods|apply within_route_journals|apply within_route_achievements|].
  apply within_route_doctor_notes. by destruct m.
Qed.

Lemma within_detail_view r now m b args user :
  (r = ResDoctorNote -> exists s, args = [("pk", StrArg s)]) ->
  respects (within (u_id <$> user)) (detail_view r now m b args user).
Proof.
  intros Hr. unfold detail_view. destruct args as [|[name [id|s]] [|? ?]];
    try (apply within_is_authenticated; by intros u db db' resp [= <- _]).
  destruct r; cbn [resource_view];
    [apply within_route_moods|apply within_route_journals|apply within_route_achievements|].
  by destruct Hr as [s [=]].
Qed.

(** *** The views that write *)

Lemma within_log_mood_view now method b user :
  respects (within (u_id <$> user)) (log_mood_view now method b user).
Proof.
  apply within_login_required. intros u db db' resp [= E] _.
  destruct (log_mood_cases db now (u_id u) method (default 0 (f_mood b))
              (default "" (f_note b)) (default "" (f_selected_tags b))) as [E'|E'];
    rewrite E in E'; cbn in E'; subst db'; [done|].
  etrans; [apply confined_create_mood|apply confined_check_achievements].
Qed.

Lemma within_add_journal now method title content user :
  respects (within (u_id <$> user)) (add_journal now method title content user).
Proof.
  apply within_login_required. intros u db db' resp.
  destruct method; [by intros [= <- _]|]. case_match; intros [= <- _] _; [|done].
  apply confined_create_journal.
Qed.

Lemma within_assign_patient_view now method pid u :
  respects (within (Some (u_id u))) (assign_patient_view now method pid u).
Proof.
  intros db db' resp [_ [->|(p & _ & _ & Hc)]]%assign_patient_view_inv _; [done|].
  by eapply confined_create_assignment.
Qed.

Lemma within_assign_patient now method pid user :
  respects (within (u_id <$> user)) (assign_patient now method pid user).
Proof.
  apply within_login_required. intros u. apply (fun Hv => within_doctor_required _ Hv (Some u)).
  apply within_assign_patient_view.
Qed.

Lemma within_api_assign_patient now pid user :
  respects (within (u_id <$> user)) (api_assign_patient now pid user).
Proof.
  apply within_is_authenticated. intros u. apply (fun Hv => within_doctor_required _ Hv (Some u)).
  intros u' db db' resp E.
  pose proof (api_assign_patient_view_store now pid u' db) as Hs. rewrite E in Hs.
  symmetry in Hs. apply fst_ok_inv in Hs as [r Hs]. by eapply within_assign_patient_view.
Qed.

Lemma within_add_doctor_note now method pid note is_visible user :
  respects (within (u_id <$> user)) (add_doctor_note now method pid note is_visible user).
Proof.
  apply within_login_required. intros u. apply (fun Hv => within_doctor_required _ Hv (Some u)).
  intros u' db db' resp. unfold add_doctor_note_view.
  destruct (get_object_or_404 db pid) as [[p|]|]; cbn; [|by intros [= <- _]|done].
  destruct method; [by intros [= <- _]|]. destruct note as [note|]; [|done].
  intros [= <- _] _. apply confined_create_doctor_note.
Qed.

Lemma within_create_for_patient_action me now pid data u :
  respects (within me) (create_for_patient_action now pid data u).
Proof.
  intros db db' resp. unfold create_for_patient_action, create_for_patient.
  case_decide; [by intros [= <- _]|]. destruct (qs_get _) as [p|[]]; try done;
    [|by intros [= <- _]].
  destruct (negb _); [by intros [= <- _]|]. case_match; intros [= <- _] _; [|done].
  apply confined_create_doctor_note.
Qed.

Lemma within_current_user me user : respects (within me) (fun db => fst <$> current_user user db).
Proof. intros db db' resp. destruct user; by intros [= <- _]. Qed.

(** *** Saving a user *)

Lemma foreign_replace me (u : User) (l : list User) :
  Some (u_id u) = me ->
  foreign u_id me ((fun v => if decide (u_id v = u_id u) then u else v) <$> l) =
  foreign u_id me l.
Proof.
  intros Hu. unfold foreign. induction l as [|v l IH]; [done|]. csimpl.
  rewrite !filter_cons, IH. destruct (decide (u_id v = u_id u)) as [Hv|Hv]; [|done].
  rewrite !decide_False; [done|rewrite Hv; tauto|tauto].
Qed.

(** A user is saved: the row of the user is replaced, or a row is
    added. *)
Lemma confined_model_save me db u db' u' :
  (forall v, v ∈ users db -> u_id v = u_id u -> Some (u_id u) = me) ->
  model_save db u = Ok (db', u') -> confined me db db'.
Proof.
  intros Hme. unfold model_save. destruct (qs_exists (conflicting db u)); [done|].
  destruct (qs_exists _) eqn:Ee; intros [= <- _]; split; cbn; try done.
  - apply qs_exists_elem in Ee as (v0 & [Hi Hv]%list_elem_of_filter).
    rewrite foreign_replace; [done|by eapply Hme].
  - unfold foreign. rewrite filter_app. by apply prefix_app_r.
Qed.

Lemma confined_user_save me fuel draws n db u db' u' n' :
  (forall v, v ∈ users db -> u_id v = u_id u -> Some (u_id u) = me) ->
  user_save fuel draws n db u = Some (Ok (db', u'), n') -> confined me db db'.
Proof.
  intros Hme [(_ & _ & pid & _ & E)|(_ & _ & E)]%user_save_inv; symmetry in E;
    (eapply confined_model_save; [|exact E]); exact Hme.
Qed.

(** The first visit of the dashboard saves the user with a code. *)
Lemma within_patient_dashboard e session st st' resp :
  draws_and_writes
    (patient_dashboard (e_fuel e) (e_draws e) (e_now e) (get_user st.1 session)) st =
    Answer st' resp ->
  within (u_id <$> get_user st.1 session) st.1 st'.1.
Proof.
  intros [->|(u & pid & n1 & u1 & n2 & Eu & Es)]%patient_dashboard_inv _; [done|].
  rewrite Eu. eapply confined_user_save; [|exact Es]. by intros.
Qed.

(** A registration adds a user. *)
Lemma within_register_user me e b :
  answers_respect (within me) (fun st =>
    registers (register_user (e_fuel e) (e_draws e) st.2 (f_user b) st.1)).
Proof.
  intros st st' resp [->|(u1 & n2 & Es)]%register_user_inv Hwf; [done|].
  eapply confined_user_save; [|exact Es]. intros v Hv Hid.
  exfalso. pose proof (wf_user_keys _ Hwf) as Hk. rewrite Forall_forall in Hk.
  by apply (Hk v Hv).
Qed.

(** *** Every request keeps to the rows of its user *)

Lemma serve_within e view args m b user :
  view <> PatientDashboard ->
  (view = ViewSetDetail ResDoctorNote -> exists s, args = [("pk", StrArg s)]) ->
  answers_respect (within (u_id <$> user)) (serve e view args m b user).
Proof.
  intros Hv Hd. destruct view; cbn [serve]; try done; repeat answers_step;
    auto using within_assign_patient, within_log_mood_view, within_add_journal,
      within_add_doctor_note, within_current_user, within_api_assign_patient,
      within_resource_list, within_register_user.
  - by intros st st' resp [= <- _].
  - by intros st st' resp [= <- _].
  - apply within_detail_view. intros ->. by apply Hd.
  - apply (within_is_authenticated _ (fun u => within_create_for_patient_action _ _ _ _ u)).
Qed.

Lemma handle_within e rq st st' resp :
  handle e rq st = Answer st' resp -> within (requester rq st.1) st.1 st'.1.
Proof.
  unfold handle, requester.
  destruct (resolve (rq_url rq)) as [[view args]|] eqn:Er; [|by intros [= <- _]].
  destruct (decide (view = PatientDashboard)) as [->|Hv]; [apply within_patient_dashboard|].
  apply serve_within; [done|]. intros ->. by eapply resolve_doctor_note_detail.
Qed.

(** *** The diary of another user *)

(** A session is the key of its user. *)
Lemma requester_other rq db v : rq_session rq <> Some v -> Some v <> requester rq db.
Proof.
  unfold requester. intros Hs. destruct (get_user db (rq_session rq)) as [u|] eqn:E; [|done].
  apply get_user_elem in E as [_ E]. cbn. congruence.
Qed.

Lemma confined_diary me v db db' : Some v <> me -> confined me db db' -> diary db' v = diary db v.
Proof.
  intros Hv []. unfold diary, moods_of, journals_of.
  by rewrite (foreign_of me_user me v (moods db) (moods db')),
    (foreign_of j_user me v (journals db) (journals db')),
    (foreign_of ach_user me v (achievements db) (achievements db')).
Qed.

Lemma run_requests_cons e rq rqs st :
  run_requests e (rq :: rqs) st =
  run_requests e rqs (match handle e rq st with Answer st' _ => st' | _ => st end).
Proof. done. Qed.

(** The tables that only grow, along the requests. *)
Lemma run_grows e rqs st :
  wf st.1 ->
  let db' := (run_requests e rqs st).1 in
  achievements st.1 `prefix_of` achievements db' /\
  assignments st.1 `prefix_of` assignments db' /\
  doctor_notes st.1 `prefix_of` doctor_notes db'.
Proof.
  revert st. induction rqs as [|rq rqs IH]; intros st Hwf; [done|].
  rewrite run_requests_cons.
  destruct (handle e rq st) as [st1 resp| | |] eqn:E; try by apply IH.
  destruct (handle_within _ _ _ _ _ E Hwf).
  destruct (IH st1) as (? & ? & ?); [by apply (handle_evolves _ _ _ _ _ E)|].
  split_and!; by etrans.
Qed.

(** *** A note a patient sees *)


(** ** Theorems *)



(** C18: the diary of a user is changed by the requests of this user only:
    whatever the others send, in whatever order, the mood entries, the
    journal and the achievements of the user stay as they are. *)
Theorem diary_private e rqs st v :
  wf st.1 -> Forall (fun rq => rq_session rq <> Some v) rqs ->
  diary (run_requests e rqs st).1 v = diary st.1 v.
Proof.
  revert st. induction rqs as [|rq rqs IH]; intros st Hwf Hall; [done|].
  apply Forall_cons in Hall as [Hrq Hrqs]. rewrite run_requests_cons.
  destruct (handle e rq st) as [st1 resp| | |] eqn:E; try by apply IH.
  rewrite IH; [|by apply (handle_evolves _ _ _ _ _ E)|done].
  eapply confined_diary; [by apply requester_other|]. by apply (handle_within _ _ _ _ _ E).
Qed.

Lemma diary_private_witness :
  diary (run_requests sample_env
           [ log_mood_request 2 3;
             mkRequest MDelete ["api"; "mood-entries"; "1"] empty_body (Some 2) ]
           sample_state).1 1 =
  diary sample_state.1 1.
Proof.
  apply (diary_private sample_env _ sample_state 1); [|by_decide].
  apply (wf_run sample_env sample_requests (empty_db, O)), wf_empty.
Defined.


