(* ===== verification/Integrity.v ===== *)
(** * Integrity: the rows refer to users

    The foreign keys of [src/dashboard/models.py]: every mood entry,
    journal, achievement and doctor note refers to users of the store, and
    every assignment links a doctor to a patient, as [limit_choices_to]
    asks of a form but not of the views.  The database enforces the
    existence of the rows a key refers to; the model shows that the views
    never meet this constraint, nor break the roles of an assignment: both
    are invariants of the application ([linked]).  With them the methods
    of the models that follow a key return in every state the application
    reaches. *)

From Stdlib Require Import ZArith QArith Lia Ascii String.
From stdpp Require Import base decidable option list strings.
From S2P Require Import Prelude Numeric Text Store Streak Trend Forecast Recommend.
From S2P Require Import Achievements Doctor Views Aggregate Accounts Dashboard Models.
From S2P Require Import Serializers Api Journals Routes System Isolation.

(** ** Definitions *)

(** The key of a user of the store, and of a user with a role. *)
Definition known (db : DB) (id : Z) : Prop := id ∈ u_id <$> users db.

Definition known_as (r : role) (db : DB) (id : Z) : Prop :=
  Exists (fun u => u_id u = id /\ u_role u = r) (users db).

(** The foreign keys of the five tables refer to users, and an assignment
    links a doctor to a patient. *)
Definition linked (db : DB) : Prop :=
  Forall (fun a => known_as Doctor db (dpa_doctor a) /\ known_as Patient db (dpa_patient a))
         (assignments db) /\
  Forall (fun e => known db (me_user e)) (moods db) /\
  Forall (fun j => known db (j_user j)) (journals db) /\
  Forall (fun a => known db (ach_user a)) (achievements db) /\
  Forall (fun n => known db (dn_patient n) /\ known db (dn_doctor n)) (doctor_notes db).

#[global] Instance linked_dec db : Decision (linked db).
Proof. unfold linked, known, known_as. apply _. Defined.

(** The users stay, with their keys and roles. *)
Definition persists (db db' : DB) : Prop :=
  forall u, u ∈ users db ->
  exists u', u' ∈ users db' /\ u_id u' = u_id u /\ u_role u' = u_role u.

(** What a request of [user] keeps: the foreign keys refer to users after
    it, when they did before and the user is a user of the store. *)
Definition linking (user : option User) : relation DB := fun db db' =>
  wf db -> linked db -> (forall u, user = Some u -> u ∈ users db) -> linked db'.

(** ** Lemmas *)

#[global] Instance linking_reflexive user : Reflexive (linking user).
Proof. by intros db _ Hl _. Qed.

#[global] Instance persists_preorder : PreOrder persists.
Proof.
  split; [intros db u; eauto|]. intros db1 db2 db3 H12 H23 u (u2 & H2 & <- & <-)%H12.
  by apply H23.
Qed.

Lemma known_elem db u : u ∈ users db -> known db (u_id u).
Proof. intros Hu. apply list_elem_of_fmap. eauto. Qed.

Lemma known_as_elem db u : u ∈ users db -> known_as (u_role u) db (u_id u).
Proof. intros Hu. apply Exists_exists. eauto. Qed.

Lemma known_as_known r db id : known_as r db id -> known db id.
Proof. intros (u & Hu & <- & _)%Exists_exists. by apply known_elem. Qed.

Section Persists.
Context (db db' : DB) (Hp : persists db db').

Lemma known_persists id : known db id -> known db' id.
Proof.
  intros (u & -> & (u' & Hu' & <- & _)%Hp)%list_elem_of_fmap. by apply known_elem.
Qed.

Lemma known_as_persists r id : known_as r db id -> known_as r db' id.
Proof.
  intros (u & (u' & Hu' & <- & <-)%Hp & <- & <-)%Exists_exists. by apply known_as_elem.
Qed.

(** The rows stay linked while the users stay and the new rows refer to
    them. *)
Lemma linked_persists :
  linked db ->
  Forall (fun a => a ∈ assignments db \/
                   (known_as Doctor db (dpa_doctor a) /\ known_as Patient db (dpa_patient a)))
         (assignments db') ->
  Forall (fun e => e ∈ moods db \/ known db (me_user e)) (moods db') ->
  Forall (fun j => j ∈ journals db \/ known db (j_user j)) (journals db') ->
  Forall (fun a => a ∈ achievements db \/ known db (ach_user a)) (achievements db') ->
  Forall (fun n => n ∈ doctor_notes db \/ (known db (dn_patient n) /\ known db (dn_doctor n)))
         (doctor_notes db') ->
  linked db'.
Proof.
  intros (La & Lm & Lj & Lc & Ln). rewrite !Forall_forall in *.
  pose proof known_persists. pose proof known_as_persists.
  intros Ha Hm Hj Hc Hn. split_and!; apply Forall_forall; intros x Hx;
    [destruct (Ha x Hx)|destruct (Hm x Hx)|destruct (Hj x Hx)|destruct (Hc x Hx)
    |destruct (Hn x Hx)]; naive_solver.
Qed.

End Persists.

(** A list that has grown by rows with a property. *)
Lemma Forall_old {A} (P : A -> Prop) (l : list A) : Forall (fun x => x ∈ l \/ P x) l.
Proof. apply Forall_forall. auto. Qed.

Lemma Forall_snoc_new {A} (P : A -> Prop) (l : list A) x :
  P x -> Forall (fun y => y ∈ l \/ P y) (l ++ [x]).
Proof.
  intros Hx. apply Forall_app. split; [apply Forall_old|]. apply Forall_singleton. auto.
Qed.

(** The users of a store that evolves stay. *)
Lemma evolves_persists db db' : wf db -> evolves db db' -> persists db db'.
Proof.
  intros Hwf He u Hu. destruct (He Hwf) as [_ Hk].
  destruct (Hk (Some (u_id u)) u) as (u' & Hg & Hr).
  - cbn. destruct (NoDup_fmap_split u_id _ u (wf_user_ids _ Hwf) Hu) as (l1 & l2 & -> & Hne).
    by rewrite (filter_key u_id (u_id u) l1 u l2 eq_refl Hne).
  - apply get_user_elem in Hg as [Hu' [= Hid]]. eauto.
Qed.

Lemma persists_users db db' : users db' = users db -> persists db db'.
Proof. intros E u Hu. rewrite E. eauto. Qed.

(** *** The writers *)

(** A row is added to one table and the users are left alone: the rows
    stay linked when the new row refers to users. *)
Ltac linked_new :=
  match goal with
  | Hl : linked ?db |- linked _ =>
      apply (linked_persists db); [by apply persists_users|done|..]; cbn;
      try apply Forall_old; apply Forall_snoc_new; auto
  end.

Lemma linked_create_mood db now uid mood note tags :
  known db uid -> linked db -> linked (create_mood db now uid mood note tags).
Proof. intros Hk Hl. linked_new. Qed.

Lemma linked_create_journal db now uid title content :
  known db uid -> linked db -> linked (create_journal db now uid title content).
Proof. intros Hk Hl. linked_new. Qed.

Lemma linked_create_achievement db now uid title description points :
  known db uid -> linked db -> linked (create_achievement db now uid title description points).
Proof. intros Hk Hl. linked_new. Qed.

Lemma linked_create_doctor_note db now patient doctor note is_visible :
  known db patient -> known db doctor -> linked db ->
  linked (create_doctor_note db now patient doctor note is_visible).
Proof. intros Hp Hd Hl. linked_new. Qed.

Lemma linked_create_assignment db now doctor patient db' :
  known_as Doctor db doctor -> known_as Patient db patient -> linked db ->
  create_assignment db now doctor patient = Ok db' -> linked db'.
Proof. intros Hd Hp Hl [_ ->]%create_assignment_inv. linked_new. Qed.

Lemma linked_check_achievements db now uid :
  known db uid -> linked db -> linked (check_achievements db now uid).
Proof.
  assert (forall db c th t d p, known db uid -> linked db ->
                                linked (award db now uid c th t d p) /\
                                known (award db now uid c th t d p) uid) as Ha.
  { intros. unfold award. case_match; [|done]. split; [by apply linked_create_achievement|done]. }
  intros Hk Hl. unfold check_achievements. cbv zeta.
  destruct (Ha db (qs_count (moods_of db uid)) 7 "Week Warrior" "Logged mood for 7 days!" 10)
    as [Hl1 Hk1]; [done..|]. by apply Ha.
Qed.

(** *** The views that write rows *)

Lemma linking_log_mood_view now method b user :
  respects (linking user) (log_mood_view now method b user).
Proof.
  apply (respects_user_login_required linking linking_reflexive).
  intros u db db' resp [= E] _ Hl Hu.
  specialize (Hu u eq_refl). apply known_elem in Hu.
  destruct (log_mood_cases db now (u_id u) method (default 0 (f_mood b))
              (default "" (f_note b)) (default "" (f_selected_tags b))) as [E'|E'];
    rewrite E in E'; cbn in E'; subst db'; [done|].
  by apply linked_check_achievements, linked_create_mood.
Qed.

Lemma linking_add_journal now method title content user :
  respects (linking user) (add_journal now method title content user).
Proof.
  apply (respects_user_login_required linking linking_reflexive).
  intros u db db' resp. destruct method; [by intros [= <- _]|].
  case_match; intros [= <- _] _ Hl Hu; [|done].
  apply linked_create_journal; [by apply known_elem, Hu|done].
Qed.

(** The patient of an assignment is found by the code, among the
    patients. *)
Lemma linking_assign_patient_view now method pid u :
  u_role u = Doctor -> respects (linking (Some u)) (assign_patient_view now method pid u).
Proof.
  intros Hr db db' resp [_ [->|(p & _ & Hp & Hc)]]%assign_patient_view_inv _ Hl Hu; [done|].
  assert (p ∈ patients_coded db (py_upper (py_strip pid))) as [[_ Hrp] Hin]%list_elem_of_filter
    by (rewrite Hp; left).
  eapply linked_create_assignment; [| |done|exact Hc].
  - rewrite <- Hr. by apply known_as_elem, Hu.
  - rewrite <- Hrp. by apply known_as_elem.
Qed.

Lemma linking_assign_patient now method pid user :
  respects (linking user) (assign_patient now method pid user).
Proof.
  apply (respects_user_login_required linking linking_reflexive). intros u.
  apply (respects_user_doctor_required linking linking_reflexive _ (Some u)).
  apply linking_assign_patient_view.
Qed.

Lemma linking_api_assign_patient now pid user :
  respects (linking user) (api_assign_patient now pid user).
Proof.
  apply (respects_user_is_authenticated linking linking_reflexive). intros u.
  apply (respects_user_doctor_required linking linking_reflexive _ (Some u)).
  intros u' Hr db db' resp E.
  pose proof (api_assign_patient_view_store now pid u' db) as Hs. rewrite E in Hs.
  symmetry in Hs. apply fst_ok_inv in Hs as [r Hs]. by eapply linking_assign_patient_view.
Qed.

(** The patient of a note is found by the key. *)
Lemma linking_add_doctor_note now method pid note is_visible user :
  respects (linking user) (add_doctor_note now method pid note is_visible user).
Proof.
  apply (respects_user_login_required linking linking_reflexive). intros u.
  apply (respects_user_doctor_required linking linking_reflexive _ (Some u)).
  intros u' _ db db' resp. unfold add_doctor_note_view, get_object_or_404.
  destruct (qs_get _) as [p|[]] eqn:Ep; cbn; try done; [|by intros [= <- _]].
  apply qs_get_ok in Ep. destruct method; [by intros [= <- _]|].
  destruct note as [note|]; [|done]. intros [= <- _] _ Hl Hu.
  assert (p ∈ patients_with_id db pid) as [_ Hin]%list_elem_of_filter
    by (rewrite Ep; left).
  apply linked_create_doctor_note; [by apply known_elem|by apply known_elem, Hu|done].
Qed.

Lemma linking_create_for_patient_action now pid data u :
  respects (linking (Some u)) (create_for_patient_action now pid data u).
Proof.
  intros db db' resp. unfold create_for_patient_action, create_for_patient.
  case_decide; [by intros [= <- _]|]. destruct (qs_get _) as [p|[]] eqn:Ep; try done;
    [|by intros [= <- _]].
  apply qs_get_ok in Ep. destruct (negb _); [by intros [= <- _]|].
  case_match; intros [= <- _] _ Hl Hu; [|done].
  assert (p ∈ patients_with_id db pid) as [_ Hin]%list_elem_of_filter
    by (rewrite Ep; left).
  apply linked_create_doctor_note; [by apply known_elem|by apply known_elem, Hu|done].
Qed.

(** *** The view sets *)

(** A view set that keeps to the rows of the user writes rows of the
    user. *)
Lemma linking_route_moods now a user :
  respects (linking user) (route_view MoodEntryViewSet now a user).
Proof.
  destruct a as [a|];
    [|apply (respects_user_is_authenticated linking linking_reflexive);
      by intros u db db' resp [= <- _]].
  destruct user as [u|]; [|by intros db db' resp [= <- _]]. intros db db' resp E Hwf Hl Hu.
  destruct (dispatch_own_step MoodEntryViewSet me_user now a u db db' resp
              (wf_moods _ Hwf) E) as [Hs ->].
  apply (linked_persists db); [by apply persists_users|done|..]; cbn; try apply Forall_old.
  apply (own_step_Forall me_user (u_id u) _ (moods db)); [|done|apply Forall_old].
  intros r ->. right. by apply known_elem, Hu.
Qed.

Lemma linking_route_journals now a user :
  respects (linking user) (route_view JournalViewSet now a user).
Proof.
  destruct a as [a|];
    [|apply (respects_user_is_authenticated linking linking_reflexive);
      by intros u db db' resp [= <- _]].
  destruct user as [u|]; [|by intros db db' resp [= <- _]]. intros db db' resp E Hwf Hl Hu.
  destruct (dispatch_own_step JournalViewSet j_user now a u db db' resp
              (wf_journals _ Hwf) E) as [Hs ->].
  apply (linked_persists db); [by apply persists_users|done|..]; cbn; try apply Forall_old.
  apply (own_step_Forall j_user (u_id u) _ (journals db)); [|done|apply Forall_old].
  intros r ->. right. by apply known_elem, Hu.
Qed.

Lemma linking_route_achievements {Data} now (a : option (action Data)) user :
  respects (linking user) (route_view AchievementViewSet now (read_only a) user).
Proof.
  intros db db' resp ->%route_view_reads; [done|]. by destruct a as [[]|].
Qed.

(** A key that the serializer of the notes has validated is the key of a
    user. *)
Lemma user_key_valid_known partial db id :
  user_key_valid partial db (Some id) = true -> known db id.
Proof.
  cbn. intros (u & [<- Hu]%list_elem_of_filter)%qs_exists_elem. by apply known_elem.
Qed.

(** The notes a request writes through the view set have validated keys
    or the keys of the note they replace. *)
Lemma linking_dispatch_doctor_notes now a user :
  respects (linking user) (dispatch DoctorNoteViewSet now a user).
Proof.
  unfold dispatch, is_authenticated. destruct user as [u|]; [|by intros db db' resp [= <- _]].
  intros db db' resp E _ Hl _. revert E.
  assert (forall l, Forall (fun n => n ∈ doctor_notes db \/
                                     (known db (dn_patient n) /\ known db (dn_doctor n))) l ->
                    linked (set_objects (R:=DoctorNote) l db)) as Hset.
  { intros l Hall. apply (linked_persists db); [by apply persists_users|done|..]; cbn;
      try apply Forall_old. done. }
  pose proof Hl as (_ & _ & _ & _ & Hn). rewrite Forall_forall in Hn.
  destruct a as [|id|data|partial id data|id]; intros [rep E]%fst_ok_inv; revert E;
    unfold list_action, retrieve, create_action, update_action, destroy;
    try (destruct (get_object _ id u db) as [[n|]|] eqn:Eg; cbn; try done);
    try by intros [= <- _ _].
  - case_match eqn:Hv; intros [= <- _ _]; [|done]. apply Hset, Forall_snoc_new.
    cbn in Hv |- *. apply andb_true_iff in Hv as [[Hp Hd]%andb_true_iff _].
    destruct (dnd_patient data), (dnd_doctor data); try done.
    split; by eapply user_key_valid_known.
  - case_match eqn:Hv; intros [= <- _ _]; [|done].
    apply (Hset (_ <$> doctor_notes db)), Forall_fmap, Forall_forall.
    intros r Hr. cbn. case_decide; [right|by left].
    apply andb_true_iff in Hv as [[Hp Hd]%andb_true_iff _].
    destruct (Hn n (get_object_elem DoctorNoteViewSet _ _ _ _ Eg)) as [Hkp Hkd].
    destruct (dnd_patient data), (dnd_doctor data); cbn;
      split; (done || by eapply user_key_valid_known).
  - intros [= <- _ _]. apply (Hset (filter _ (doctor_notes db))), Forall_forall.
    intros r [_ Hr]%list_elem_of_filter. by left.
Qed.

Lemma linking_route_doctor_notes now a user :
  respects (linking user) (route_view DoctorNoteViewSet now a user).
Proof.
  destruct a as [a|]; [apply linking_dispatch_doctor_notes|].
  apply (respects_user_is_authenticated linking linking_reflexive).
  by intros u db db' resp [= <- _].
Qed.

Lemma linking_resource_view r now b route user :
  respects (linking user) (resource_view r now b route user).
Proof.
  destruct r; cbn [resource_view];
    [apply linking_route_moods|apply linking_route_journals|apply linking_route_achievements
    |apply linking_route_doctor_notes].
Qed.

Lemma linking_detail_view r now m b args user :
  respects (linking user) (detail_view r now m b args user).
Proof.
  unfold detail_view. destruct args as [|[name [id|s]] [|? ?]];
    try apply linking_resource_view;
    (apply (respects_user_is_authenticated linking linking_reflexive);
     by intros u db db' resp [= <- _]).
Qed.

Lemma linking_current_user user : respects (linking user) (fun db => fst <$> current_user user db).
Proof. intros db db' resp. destruct user; by intros [= <- _]. Qed.

(** *** The views that save a user *)

(** Saving a user who keeps the role of the row with the same key. *)
Lemma linked_user_save fuel draws n db u db' u' n' :
  wf db -> linked db ->
  (forall v, v ∈ users db -> u_id v = u_id u -> u_role v = u_role u) ->
  user_save fuel draws n db u = Some (Ok (db', u'), n') -> linked db'.
Proof.
  intros Hwf Hl Hrole Hs.
  assert (persists db db') as Hp
    by (eapply evolves_persists, evolves_user_save; [done| |exact Hs]; done).
  assert (exists v, model_save db v = Ok (db', u')) as [v Hv]
    by (apply user_save_inv in Hs as [(_ & _ & pid & _ & E)|(_ & _ & E)]; eauto).
  destruct (model_save_shape db v db' u' (wf_user_ids _ Hwf) Hv)
    as (_ & Ha & Hm & Hj & Hc & Hn).
  apply (linked_persists db); [done..| | | | |]; rewrite ?Ha, ?Hm, ?Hj, ?Hc, ?Hn;
    apply Forall_old.
Qed.

(** *** Every request keeps the rows linked *)

Lemma serve_linking e view args m b user :
  view <> PatientDashboard -> view <> ApiRegister ->
  answers_respect (linking user) (serve e view args m b user).
Proof.
  intros Hv Hr. destruct view; cbn [serve]; try done; repeat answers_step;
    auto using linking_assign_patient, linking_log_mood_view, linking_add_journal,
      linking_add_doctor_note, linking_current_user, linking_api_assign_patient,
      linking_resource_view, linking_detail_view.
  - by intros st st' resp [= <- _].
  - by intros st st' resp [= <- _].
  - apply (respects_user_is_authenticated linking linking_reflexive).
    apply linking_create_for_patient_action.
Qed.

Lemma handle_linked e rq st st' resp :
  wf st.1 -> linked st.1 -> handle e rq st = Answer st' resp -> linked st'.1.
Proof.
  intros Hwf Hl. unfold handle.
  destruct (resolve (rq_url rq)) as [[view args]|] eqn:Er; [|by intros [= <- _]].
  destruct (decide (view = PatientDashboard)) as [->|Hv].
  { intros [->|(u & pid & n1 & u1 & n2 & Eu & Es)]%patient_dashboard_inv; [done|].
    eapply linked_user_save; [done..| |exact Es]. intros v Hv Hid.
    exact (get_user_role _ _ u v Hwf Eu Hv Hid). }
  destruct (decide (view = ApiRegister)) as [->|Hr].
  { cbn [serve]. unfold api_view. case_match; [by intros [= <- _]|].
    intros [->|(u1 & n2 & Es)]%register_user_inv; [done|].
    eapply linked_user_save; [done..| |exact Es]. intros v. by apply unsaved_role. }
  intros Hs. apply (serve_linking _ _ _ _ _ _ Hv Hr _ _ _ Hs Hwf Hl).
  intros u Hu. by apply get_user_elem in Hu as [Hu _].
Qed.

Lemma linked_empty : linked empty_db.
Proof. by_decide. Qed.

(** ** Theorems *)

(** The schema and the foreign keys hold together along the requests. *)
Lemma reachable_invariants st : reachable st -> wf st.1 /\ linked st.1.
Proof.
  induction 1 as [|e rq st st' resp _ [Hwf Hl] Hh]; [split; [apply wf_empty|apply linked_empty]|].
  split; [by apply (handle_evolves _ _ _ _ _ Hh)|by eapply handle_linked].
Qed.

(** C28: the foreign keys are an invariant of the application: in every
    state the requests lead to from the empty store, whatever they are,
    every mood entry, journal, achievement and doctor note refers to users
    of the store, every assignment links a doctor to a patient, and the
    constraints of the schema hold. *)
Theorem reachable_linked st : reachable st -> wf st.1 /\ linked st.1.
Proof. apply reachable_invariants. Qed.

Lemma reachable_linked_witness : wf sample_state.1 /\ linked sample_state.1.
Proof.
  apply reachable_linked, (reachable_run sample_env sample_requests (empty_db, O)).
  constructor.
Defined.

(** In every state the application reaches, the methods of the models
    that follow a foreign key return: [__str__] of a doctor note and of
    an assignment name the users, and the doctors [get_visible_doctors]
    names for a mood entry are doctors of the store. *)
Theorem reachable_str st :
  reachable st ->
  Forall (fun n => exists text, doctor_note_str st.1 n = Ok text) (doctor_notes st.1) /\
  Forall (fun a => exists text, assignment_str st.1 a = Ok text) (assignments st.1) /\
  Forall (fun e => Forall (known_as Doctor st.1) (get_visible_doctors st.1 e)) (moods st.1).
Proof.
  intros [Hwf (La & _ & _ & _ & Ln)]%reachable_invariants. pose proof (wf_user_ids _ Hwf) as Hk.
  assert (forall id, known st.1 id -> exists u, related_user st.1 id = Ok u) as Hrel.
  { intros id (u & -> & Hu)%list_elem_of_fmap. exists u. by apply related_user_elem. }
  split_and!; apply Forall_forall.
  - intros n Hn. rewrite Forall_forall in Ln. destruct (Ln n Hn) as [[p Hp]%Hrel [d Hd]%Hrel].
    unfold doctor_note_str. rewrite Hp, Hd. cbn. eauto.
  - intros a Ha. rewrite Forall_forall in La.
    destruct (La a Ha) as [[d Hd]%known_as_known%Hrel [p Hp]%known_as_known%Hrel].
    unfold assignment_str. rewrite Hd, Hp. cbn. eauto.
  - intros e _. apply Forall_forall. intros d (a & -> & Hin)%list_elem_of_fmap.
    rewrite order_by_desc_perm in Hin. apply list_elem_of_filter in Hin as [_ Hin].
    rewrite Forall_forall in La. by destruct (La a Hin).
Qed.
