(* ===== verification/Tokens.v ===== *)
(** * Tokens: the credentials of the API

    [CustomAuthToken.post] and [register_user] of [src/dashboard/api.py]
    end with [Token.objects.get_or_create(user=user)] and answer with the
    key of the token.  This file holds the two tables behind them, which
    are the framework's: the tokens, one for a user at most
    ([OneToOneField]) and with the key as primary key, and the column
    [password] of the users, kept beside the store because nothing but the
    log-in reads it.  The tokens are a finite map from the key of the user
    to the row; hashing is taken as exact, so the column holds the
    password that checks against it; the keys that [os.urandom] gives are
    a stream, as the draws of [uuid4] are.  The theorems show what
    [get_or_create] returns and leaves, that it keeps the keys of the
    tokens apart, and that a key finds the user it was issued to. *)

From Stdlib Require Import ZArith Lia Ascii String.
From stdpp Require Import base decidable option list strings gmap.
From S2P Require Import Prelude Numeric Text Store Accounts Serializers.

(** ** Definitions *)

(** A row of [authtoken.Token]; its user is the key of the map. *)
Record Token : Type := mkToken {
  t_key : string;
  t_created : Z
}.

#[global] Instance Token_eq_dec : EqDecision Token.
Proof. solve_decision. Defined.

(** The keys [Token.generate_key] draws, by position. *)
Definition key_source : Type := nat -> string.

(** The tables of the credentials and the position in the stream of
    keys. *)
Record Auth : Type := mkAuth {
  tokens : gmap Z Token;
  passwords : gmap Z string;
  drawn : nat
}.

Definition empty_auth : Auth := mkAuth ∅ ∅ O.

(** [Token.objects.get(key=key).user_id]. *)
Definition token_owner (a : Auth) (key : string) : option Z :=
  fst <$> head (filter (fun row => t_key row.2 = key) (map_to_list (tokens a))).

(** [Token.objects.get_or_create(user=user)] at time [now]: the token of
    the user when there is one, and a new token otherwise, whose key is
    drawn; the insertion of a key that is taken violates the primary key.
    The table is returned beside the result, because the draw is made
    whether the insertion succeeds or not. *)
Definition get_or_create (keys : key_source) (now : Z) (uid : Z) (a : Auth)
    : Auth * result (Token * bool) :=
  match tokens a !! uid with
  | Some token => (a, Ok (token, false))
  | None =>
      let key := keys (drawn a) in
      let a := mkAuth (tokens a) (passwords a) (S (drawn a)) in
      if bool_decide (is_Some (token_owner a key)) then (a, Raise IntegrityError)
      else
        let token := mkToken key now in
        (mkAuth (<[uid := token]> (tokens a)) (passwords a) (drawn a), Ok (token, true))
  end.

(** [user.set_password(raw)] and [user.check_password(raw)]: no password
    checks against an empty column. *)
Definition set_password (uid : Z) (raw : string) (a : Auth) : Auth :=
  mkAuth (tokens a) (<[uid := raw]> (passwords a)) (drawn a).

Definition check_password (a : Auth) (uid : Z) (raw : string) : bool :=
  bool_decide (passwords a !! uid = Some raw).

(** [authenticate(username=username, password=password)] with the
    backend of the models: the user of this name, when the password
    checks. *)
Definition authenticate (db : DB) (a : Auth) (username password : string) : option User :=
  user ← head (filter (fun u => u_username u = username) (users db));
  if check_password a (u_id user) password then Some user else None.

(** [serializer.is_valid()] and [validated_data['user']] of the
    serializer of [ObtainAuthToken]: both fields are required and not
    blank, the name is trimmed and the password is not. *)
Definition auth_token_user (db : DB) (a : Auth) (username password : option string)
    : option User :=
  username ← username;
  password ← password;
  if bool_decide (char_value username <> "") && bool_decide (password <> "")
  then authenticate db a (char_value username) password
  else None.

(** [CustomAuthToken.post]: the credentials are validated, which the
    framework answers with 400 when they are not valid, and the token of
    the user is found or made; the answer carries its key and the user. *)
Definition CustomAuthToken_post (keys : key_source) (now : Z) (db : DB)
    (username password : option string) (a : Auth)
    : Auth * result (response * option (string * UserRepr)) :=
  match auth_token_user db a username password with
  | Some user =>
      let '(a, made) := get_or_create keys now (u_id user) a in
      (a, '(token, _) ← made;
          mret (Response 200, Some (t_key token, to_representation UserSerializer db user)))
  | None => (a, mret (Response 400, None))
  end.

(** The keys of the tokens are apart, as the primary key asks. *)
Definition keys_apart (a : Auth) : Prop :=
  forall u v t t', tokens a !! u = Some t -> tokens a !! v = Some t' ->
                   t_key t = t_key t' -> u = v.

(** A stream of keys and tables for the examples: user 1 has a password
    and a token. *)
Definition sample_keys : key_source :=
  fun n => match n with
           | O => "9944b09199c62bcf9418ad846dd0e4bbdfc6ee4b"
           | 1%nat => "9944b09199c62bcf9418ad846dd0e4bbdfc6ee4b"
           | _ => "c0ffee0199c62bcf9418ad846dd0e4bbdfc6ee4b"
           end.

Definition sample_auth : Auth :=
  (get_or_create sample_keys sample_now 1 (set_password 1 "correct horse" empty_auth)).1.

(** ** Lemmas *)

Section Lookup.
Context {A : Type} (P : A -> Prop) `{!forall x, Decision (P x)}.

(** The first row that satisfies a test is a row that satisfies it, and
    there is one when some row does. *)
Lemma head_filter_Some (l : list A) x : head (filter P l) = Some x -> x ∈ l /\ P x.
Proof. intros Hx%head_Some_elem_of. by apply list_elem_of_filter in Hx as [? ?]. Qed.

Lemma head_filter_is_Some (l : list A) x : x ∈ l -> P x -> is_Some (head (filter P l)).
Proof.
  intros Hx HP. apply head_is_Some. intros E.
  by apply (filter_nil_not_elem_of P l x).
Qed.

End Lookup.

(** The owner of a key has a token with this key. *)
Lemma token_owner_Some a key u :
  token_owner a key = Some u -> exists t, tokens a !! u = Some t /\ t_key t = key.
Proof.
  unfold token_owner. destruct (head _) as [[v t]|] eqn:E; [|done].
  intros [= <-]. apply head_filter_Some in E as [Hin Hk].
  exists t. split; [by apply elem_of_map_to_list|done].
Qed.

(** A key that no token has finds nobody. *)
Lemma token_owner_None a key :
  token_owner a key = None <-> forall u t, tokens a !! u = Some t -> t_key t <> key.
Proof.
  split.
  - intros E u t Hu Hk. unfold token_owner in E. apply fmap_None in E.
    destruct (head_filter_is_Some (fun row => t_key row.2 = key) (map_to_list (tokens a))
                (u, t)) as [row Hrow]; [by apply elem_of_map_to_list|done|congruence].
  - intros Hno. destruct (token_owner a key) as [u|] eqn:E; [|done].
    apply token_owner_Some in E as (t & Hu & Hk). by destruct (Hno u t).
Qed.

(** A key whose tokens are apart finds the user of its token. *)
Lemma token_owner_lookup a u t :
  keys_apart a -> tokens a !! u = Some t -> token_owner a (t_key t) = Some u.
Proof.
  intros Ha Hu. destruct (token_owner a (t_key t)) as [v|] eqn:E.
  - apply token_owner_Some in E as (t' & Hv & Hk). f_equal. by apply (Ha v u t' t).
  - by destruct (proj1 (token_owner_None a (t_key t)) E u t).
Qed.

(** What [get_or_create] returns and leaves: the token of the user, and
    the table as it was unless the token is new; a new token has the key
    that was drawn, which no token had. *)
Lemma get_or_create_inv keys now uid a a' token created :
  get_or_create keys now uid a = (a', Ok (token, created)) ->
  tokens a' !! uid = Some token /\ passwords a' = passwords a /\
  if created
  then tokens a !! uid = None /\ tokens a' = <[uid := token]> (tokens a) /\
       token = mkToken (keys (drawn a)) now /\ drawn a' = S (drawn a) /\
       forall u t, tokens a !! u = Some t -> t_key t <> t_key token
  else a' = a.
Proof.
  unfold get_or_create. destruct (tokens a !! uid) as [t|] eqn:E; [by intros [= <- <- <-]|].
  case_bool_decide as Hk; [done|]. intros [= <- <- <-]. cbn.
  rewrite lookup_insert_eq. split_and!; try done.
  apply token_owner_None. by apply eq_None_not_Some.
Qed.

(** The failure of [get_or_create]: the user has no token and the key
    that was drawn is taken; the draw is made. *)
Lemma get_or_create_raises keys now uid a a' e :
  get_or_create keys now uid a = (a', Raise e) ->
  e = IntegrityError /\ tokens a !! uid = None /\
  a' = mkAuth (tokens a) (passwords a) (S (drawn a)) /\
  is_Some (token_owner a (keys (drawn a))).
Proof.
  unfold get_or_create. destruct (tokens a !! uid) as [t|] eqn:E; [done|].
  case_bool_decide as Hk; [|done]. by intros [= <- <-].
Qed.

(** The tokens stay. *)
Lemma get_or_create_grows keys now uid a :
  tokens a ⊆ tokens (get_or_create keys now uid a).1 /\
  passwords (get_or_create keys now uid a).1 = passwords a.
Proof.
  unfold get_or_create. destruct (tokens a !! uid) as [t|] eqn:E; [done|].
  case_bool_decide; [done|]. split; [|done]. by apply insert_subseteq.
Qed.

(** The keys stay apart. *)
Lemma get_or_create_keys_apart keys now uid a :
  keys_apart a -> keys_apart (get_or_create keys now uid a).1.
Proof.
  intros Ha. destruct (get_or_create keys now uid a) as [a' [[token created]|e]] eqn:E.
  - apply get_or_create_inv in E as (_ & _ & H). destruct created; [|by rewrite H].
    destruct H as (_ & Ht & _ & _ & Hfresh). cbn. intros u v t t'. rewrite Ht.
    rewrite !lookup_insert_Some. intros [[<- <-]|[? Hu]] [[<- <-]|[? Hv]] Hk; try done.
    + by destruct (Hfresh v t').
    + by destruct (Hfresh u t).
    + by apply (Ha u v t t').
  - apply get_or_create_raises in E as (_ & _ & -> & _). exact Ha.
Qed.

Lemma keys_apart_empty : keys_apart empty_auth.
Proof. intros u v t t'. cbn. by rewrite lookup_empty. Qed.

Lemma keys_apart_set_password uid raw a : keys_apart a -> keys_apart (set_password uid raw a).
Proof. done. Qed.

(** The user [authenticate] returns is a user of the store with the name
    and the password. *)
Lemma authenticate_Some db a username password user :
  authenticate db a username password = Some user ->
  user ∈ users db /\ u_username user = username /\
  passwords a !! u_id user = Some password.
Proof.
  unfold authenticate, check_password.
  destruct (head _) as [u|] eqn:E; [|done]. cbn. case_bool_decide; [|done].
  intros [= <-]. by apply head_filter_Some in E as [? ?].
Qed.

Lemma auth_token_user_Some db a username password user :
  auth_token_user db a username password = Some user ->
  exists name raw, username = Some name /\ password = Some raw /\ raw <> "" /\
                   authenticate db a (char_value name) raw = Some user.
Proof.
  unfold auth_token_user. destruct username as [name|], password as [raw|]; try done. cbn.
  do 2 (case_bool_decide; [|done]). cbn. eauto 6.
Qed.

(** A user without a password is not authenticated. *)
Lemma auth_token_user_no_password db a username password user :
  auth_token_user db a username password = Some user -> is_Some (passwords a !! u_id user).
Proof.
  intros (name & raw & _ & _ & _ & (_ & _ & Hp)%authenticate_Some)%auth_token_user_Some.
  eauto.
Qed.

(** ** Theorems *)

(** [get_or_create] is idempotent: once it returned a token for a
    user, it returns this token again, whatever the stream of keys and
    the time, says that it did not create it, and leaves the table as it
    found it. *)
Theorem get_or_create_idempotent keys now keys' now' uid a a' token created :
  get_or_create keys now uid a = (a', Ok (token, created)) ->
  get_or_create keys' now' uid a' = (a', Ok (token, false)).
Proof.
  intros [Hu _]%get_or_create_inv. unfold get_or_create. by rewrite Hu.
Qed.

Lemma get_or_create_idempotent_witness :
  get_or_create sample_keys (sample_now + 60) 1 sample_auth =
    (sample_auth, Ok (mkToken "9944b09199c62bcf9418ad846dd0e4bbdfc6ee4b" sample_now, false)).
Proof.
  apply (get_or_create_idempotent sample_keys sample_now sample_keys (sample_now + 60) 1
           (set_password 1 "correct horse" empty_auth) sample_auth _ true).
  by vm_compute.
Defined.

(** A key that is drawn twice: the first user gets the token, and the
    insertion for the second user violates the primary key, with the
    draw made; the next call draws another key and succeeds. *)
Theorem get_or_create_collision :
  exists a,
    get_or_create sample_keys sample_now 2 sample_auth = (a, Raise IntegrityError) /\
    tokens a = tokens sample_auth /\
    exists a' token, get_or_create sample_keys sample_now 2 a = (a', Ok (token, true)) /\
                     token_owner a' (t_key token) = Some 2.
Proof.
  eexists. split; [by vm_compute|]. split; [done|]. eexists _, _. split; by vm_compute.
Qed.

(** A key finds the user it was issued to: after [get_or_create] for a
    user, the key of the token it returned is the key of this user. *)
Theorem token_owner_get_or_create keys now uid a a' token created :
  keys_apart a -> get_or_create keys now uid a = (a', Ok (token, created)) ->
  token_owner a' (t_key token) = Some uid.
Proof.
  intros Ha E. apply token_owner_lookup; [|by apply get_or_create_inv in E as [? _]].
  pose proof (get_or_create_keys_apart keys now uid a Ha) as Ha'. by rewrite E in Ha'.
Qed.

Lemma token_owner_get_or_create_witness :
  token_owner sample_auth "9944b09199c62bcf9418ad846dd0e4bbdfc6ee4b" = Some 1.
Proof.
  apply (token_owner_get_or_create sample_keys sample_now 1
           (set_password 1 "correct horse" empty_auth) sample_auth
           (mkToken "9944b09199c62bcf9418ad846dd0e4bbdfc6ee4b" sample_now) true).
  - apply keys_apart_empty.
  - by vm_compute.
Defined.
