(* ===== verification/Site.v ===== *)
(** * Site: the application with its credentials

    The application of [System] sees a request with the user of its
    session and takes the outcome of [authenticate] from the
    surroundings.  Here the requests carry what a client sends (nothing, the
    cookie of a session, or a token in the header [Authorization]), and
    the state has the tables of [Tokens] beside the store: the views of
    the API find their user by the token, [CustomAuthToken.post] checks
    the name and the password and answers with the token of the user, and
    [register_user] ends with the token of the user it created.  A user
    gets a password by the form of [src/accounts/forms.py], whose [save]
    sets it.  The authentication classes are the settings', which are not
    part of the sources: the model takes the session and the token, a
    request carrying one of them at most.

    The theorems show that this application refines the one of [System]
    (every outcome is the outcome of [handle] for the user the
    credentials stand for, the tokens put aside), that it reaches every
    store the application of the sessions reaches, and that a log-in with
    valid credentials is answered as soon as a key that is drawn is
    free.  The invariants of the credentials are in [Credentials]. *)

From Stdlib Require Import ZArith QArith Lia Ascii String.
From stdpp Require Import base decidable option list strings relations gmap.
From S2P Require Import Prelude Numeric Text Store Streak Trend Forecast Recommend.
From S2P Require Import Achievements Doctor Views Aggregate Accounts Dashboard Models.
From S2P Require Import Serializers Api Journals Registration Routes System Isolation.
From S2P Require Import Integrity Tokens.

(** ** Definitions *)

(** What a request carries to say who sends it: nothing, the cookie of a
    session in which the user with this key logged in, or a token. *)
Inductive credentials : Type :=
| Anonymous
| Session (uid : Z)
| Bearer (key : string).

(** A request as the client sends it; the field [username] of a log-in
    is read from the fields of the user in the body. *)
Record site_request : Type := mkSiteRequest {
  sr_method : verb;
  sr_url : list string;
  sr_body : body;
  sr_password : option string;
  sr_credentials : credentials
}.

(** The state of the application and the tables of the credentials. *)
Record site : Type := mkSite {
  s_state : DB * nat;
  s_auth : Auth
}.

Definition empty_site : site := mkSite (empty_db, O) empty_auth.

(** What becomes of a request: an answer, with the key of the token when
    the answer carries one; an error, which leaves the state that was
    committed before it; a URL that is not of the sources; or the loop of
    the patient codes out of fuel. *)
Inductive site_outcome : Type :=
| SiteAnswer (s : site) (resp : response) (token : option string)
| SiteError (s : site) (e : exn)
| SiteOutside (prefix : string)
| SiteOutOfFuel.

(** The views under [api/], which authenticate with the classes of the
    framework. *)
Definition is_api (view : view_name) : bool :=
  match view with
  | ApiLogin | ApiRegister | ApiCurrentUser | ApiDashboardStats | ApiAssignedPatients
  | ApiAssignPatient | ApiPatientDetails | ViewSetList _ | ViewSetDetail _
  | CreateForPatient => true
  | _ => false
  end.

(** The key of the user a view sees: a session stands for its user, a
    token for its owner in a view of the API and for nobody in the other
    views; a view of the API does not accept a token that no user has
    ([None], which the framework answers with 401). *)
Definition session_of (a : Auth) (url : list string) (c : credentials)
    : option (option Z) :=
  match c with
  | Anonymous => Some None
  | Session uid => Some (Some uid)
  | Bearer key =>
      match resolve url with
      | Some (view, _) => if is_api view then Some <$> token_owner a key else Some None
      | None => Some None
      end
  end.

(** The request the views see. *)
Definition request_of (rq : site_request) (session : option Z) : request :=
  mkRequest (sr_method rq) (sr_url rq) (sr_body rq) session.

(** The outcome of a view that does not touch the credentials. *)
Definition with_auth (s : site) (o : outcome) : site_outcome :=
  match o with
  | Answer st resp => SiteAnswer (mkSite st (s_auth s)) resp None
  | ServerError e => SiteError s e
  | Outside prefix => SiteOutside prefix
  | OutOfFuel => SiteOutOfFuel
  end.

(** [CustomAuthToken.post] on the state. *)
Definition api_login (e : env) (keys : key_source) (rq : site_request) (s : site)
    : site_outcome :=
  let '(a, answer) :=
    CustomAuthToken_post keys (e_now e) (s_state s).1 (ud_username (f_user (sr_body rq)))
                         (sr_password rq) (s_auth s) in
  match answer with
  | Ok (resp, data) => SiteAnswer (mkSite (s_state s) a) resp (fst <$> data)
  | Raise err => SiteError (mkSite (s_state s) a) err
  end.

(** [register_user] with its token: the user is saved, and then the token
    is found or made; an error of the second step leaves the user. *)
Definition api_register (e : env) (keys : key_source) (rq : site_request) (s : site)
    : site_outcome :=
  match register_user (e_fuel e) (e_draws e) (s_state s).2 (f_user (sr_body rq))
                      (s_state s).1 with
  | Some (Ok (db, resp, Some user), n) =>
      let '(a, made) := get_or_create keys (e_now e) (ur_id user) (s_auth s) in
      match made with
      | Ok (token, _) => SiteAnswer (mkSite (db, n) a) resp (Some (t_key token))
      | Raise err => SiteError (mkSite (db, n) a) err
      end
  | Some (Ok (db, resp, None), n) => SiteAnswer (mkSite (db, n) (s_auth s)) resp None
  | Some (Raise err, _) => SiteError s err
  | None => SiteOutOfFuel
  end.

(** A view that allows one method only, behind the check of the
    framework. *)
Definition allowing (view : view_name) (m : verb) (k : site -> site_outcome)
    : site -> site_outcome :=
  fun s =>
    if bool_decide (verb_name m ∈ allowed_methods view) then k s
    else SiteAnswer s (Response 405) None.

(** The application: the credentials are resolved to a user, and the view
    of the route answers; the two views that issue tokens work on the
    tables of the credentials, the others are those of [handle]. *)
Definition handle_site (e : env) (keys : key_source) (rq : site_request) (s : site)
    : site_outcome :=
  match session_of (s_auth s) (sr_url rq) (sr_credentials rq) with
  | None => SiteAnswer s (Response 401) None
  | Some session =>
      match resolve (sr_url rq) with
      | Some (ApiLogin, _) => allowing ApiLogin (sr_method rq) (api_login e keys rq) s
      | Some (ApiRegister, _) => allowing ApiRegister (sr_method rq) (api_register e keys rq) s
      | _ => with_auth s (handle e (request_of rq session) (s_state s))
      end
  end.

(** The form of the registration, submitted and saved:
    [UserCreationForm.save] sets the password the form was posted with
    before [UserRegistrationForm.save] stores the user.  [None] when the
    form has errors, the store refuses the user or the fuel runs out. *)
Definition register_form (fuel : nat) (draws : uuid_source) (cfg : settings)
    (post : RegistrationPost) (s : site) : option site :=
  match registration_submit fuel draws (s_state s).2 cfg (s_state s).1 post with
  | Some (Some (Ok (db, user), n)) =>
      Some (mkSite (db, n) (set_password (u_id user) (rp_password1 post) (s_auth s)))
  | _ => None
  end.

(** The steps of the application: a request that is answered or fails,
    and a registration by the form. *)
Inductive site_step : relation site :=
| step_answer e keys rq s s' resp token :
    handle_site e keys rq s = SiteAnswer s' resp token -> site_step s s'
| step_error e keys rq s s' err :
    handle_site e keys rq s = SiteError s' err -> site_step s s'
| step_form fuel draws cfg post s s' :
    register_form fuel draws cfg post s = Some s' -> site_step s s'.

(** The state a request leaves, and the outcome without the token. *)
Definition after (o : site_outcome) : option site :=
  match o with
  | SiteAnswer s _ _ | SiteError s _ => Some s
  | SiteOutside _ | SiteOutOfFuel => None
  end.




(** A key that is drawn while a token has it turns an answer into an
    error: the state is the one of the answer, and the tokens are as they
    were. *)
Definition collides (keys : key_source) (s : site) (o : site_outcome) (o' : outcome) : Prop :=
  exists s' resp,
    o = SiteError s' IntegrityError /\ o' = Answer (s_state s') resp /\
    s_auth s' = mkAuth (tokens (s_auth s)) (passwords (s_auth s)) (S (drawn (s_auth s))) /\
    is_Some (token_owner (s_auth s) (keys (drawn (s_auth s)))).

(** The state after a sequence of requests; a request without an answer
    or an error leaves none. *)
Definition run_site (e : env) (keys : key_source) (rqs : list site_request) (s : site)
    : site :=
  foldl (fun s rq => default s (after (handle_site e keys rq s))) s rqs.

(** A request of a session as the client sends it. *)
Definition site_request_of (rq : request) : site_request :=
  mkSiteRequest (rq_method rq) (rq_url rq) (rq_body rq) None
                (match rq_session rq with Some uid => Session uid | None => Anonymous end).

(** Requests for the examples: ann registers as a patient by the form
    (key 1), bob registers as a doctor by the API (key 2) and gets a
    token, and ann logs in twice, because the key that is drawn at first
    is the key of the token of bob. *)
Definition sample_post : RegistrationPost :=
  mkRegistrationPost "ann" "ann@example.org" "correct horse" "correct horse" "patient"
                     None "".

Definition login_request (name password : string) : site_request :=
  mkSiteRequest MPost ["api"; "auth"; "login"]
    (mkBody None None None None None None None None None
            (mkUserData (Some name) None None None None))
    (Some password) Anonymous.

Definition api_register_request (name : string) (r : role) : site_request :=
  mkSiteRequest MPost ["api"; "auth"; "register"] (rq_body (register_request name r))
                None Anonymous.

Definition form_site : site :=
  default empty_site (register_form 3 sample_draws sample_settings sample_post empty_site).

Definition bob_site : site :=
  run_site sample_env sample_keys [api_register_request "bob" Doctor] form_site.

Definition sample_site : site :=
  run_site sample_env sample_keys
    [login_request "ann" "correct horse"; login_request "ann" "correct horse"] bob_site.

(** A mood entry posted to the view set with a token, and the state in
    which ann has posted one. *)
Definition mood_request (key : string) (mood : Z) : site_request :=
  mkSiteRequest MPost ["api"; "mood-entries"] (rq_body (log_mood_request 0 mood)) None
                (Bearer key).

Definition diary_site : site :=
  run_site sample_env sample_keys
    [mood_request "c0ffee0199c62bcf9418ad846dd0e4bbdfc6ee4b" 4] sample_site.

(** ** Lemmas *)

(** *** The outcomes *)


Lemma after_with_auth s o s' :
  after (with_auth s o) = Some s' ->
  s' = s \/ exists resp, o = Answer (s_state s') resp /\ s_auth s' = s_auth s.
Proof. destruct o; cbn; intros [= <-]; eauto. Qed.


(** The log-in and the registration of [handle]. *)
Lemma handle_login e rq st args :
  resolve (rq_url rq) = Some (ApiLogin, args) ->
  handle e rq st =
  if bool_decide (verb_name (rq_method rq) ∈ allowed_methods ApiLogin)
  then Answer st (custom_auth_token (e_authenticate e)) else Answer st (Response 405).
Proof. unfold handle. intros ->. cbn [serve]. unfold api_view. by case_bool_decide. Qed.

Lemma handle_register e rq st args :
  resolve (rq_url rq) = Some (ApiRegister, args) ->
  handle e rq st =
  if bool_decide (verb_name (rq_method rq) ∈ allowed_methods ApiRegister)
  then registers (register_user (e_fuel e) (e_draws e) st.2 (f_user (rq_body rq)) st.1)
  else Answer st (Response 405).
Proof. unfold handle. intros ->. cbn [serve]. unfold api_view. by case_bool_decide. Qed.

(** *** The two views that issue tokens *)

(** What the log-in answers and leaves: 400 and the tables as they were
    for credentials that are not valid; the token of the user otherwise,
    or the error of its insertion. *)
Lemma api_login_inv e keys rq s :
  match auth_token_user (s_state s).1 (s_auth s) (ud_username (f_user (sr_body rq)))
                        (sr_password rq) with
  | None => api_login e keys rq s = SiteAnswer s (Response 400) None
  | Some user =>
      let '(a, made) := get_or_create keys (e_now e) (u_id user) (s_auth s) in
      api_login e keys rq s =
      match made with
      | Ok (token, _) => SiteAnswer (mkSite (s_state s) a) (Response 200) (Some (t_key token))
      | Raise err => SiteError (mkSite (s_state s) a) err
      end
  end.
Proof.
  unfold api_login, CustomAuthToken_post. destruct (auth_token_user _ _ _ _) as [user|].
  - by destruct (get_or_create _ _ _ _) as [a [[token created]|err]].
  - by destruct s.
Qed.

(** The user [register_user] answers with is the user it saved. *)
Lemma register_user_created fuel draws n data db db' resp user n' :
  register_user fuel draws n data db = Some (Ok (db', resp, Some user), n') ->
  resp = Response 201 /\
  exists u, user_save fuel draws n db (create UserSerializer 0 0 data) =
              Some (Ok (db', u), n') /\ ur_id user = u_id u.
Proof.
  unfold register_user. destruct (is_valid _ _ _ _); [|done].
  destruct (user_save _ _ _ _ _) as [[[[db1 u1]|e1] n2]|]; try done. cbn.
  intros [= <- <- <- <-]. eauto.
Qed.

(** Saving an instance that has no key yet adds a user with a key that
    no user had. *)
Lemma user_save_unsaved fuel draws n db u db' u' n' :
  wf db -> u_id u = 0 -> user_save fuel draws n db u = Some (Ok (db', u'), n') ->
  u' ∈ users db' /\ ~ known db (u_id u').
Proof.
  intros Hwf H0 Hs.
  assert (exists v, u_id v = 0 /\ model_save db v = Ok (db', u')) as (v & Hv0 & Hv)
    by (apply user_save_inv in Hs as [(_ & _ & pid & _ & E)|(_ & _ & E)];
        eexists; (split; [|by symmetry]); done).
  split.
  { destruct (model_save_shape db v db' u' (wf_user_ids _ Hwf) Hv) as [Hsh _].
    by eapply saved_shape_elem. }
  revert Hv. unfold model_save. destruct (qs_exists (conflicting db v)); [done|].
  destruct (qs_exists _) eqn:Ee.
  - apply qs_exists_elem in Ee as (w & [Hi Hw]%list_elem_of_filter).
    pose proof (wf_user_keys _ Hwf) as Hk. rewrite Forall_forall in Hk.
    destruct (Hk w Hw). congruence.
  - rewrite decide_True by done. intros [= _ <-]. apply next_id_fresh.
Qed.

(** [User.save] keeps the name. *)
Lemma user_save_username fuel draws n db u db' u' n' :
  user_save fuel draws n db u = Some (Ok (db', u'), n') -> u_username u' = u_username u.
Proof.
  assert (forall v, model_save db v = Ok (db', u') -> u_username u' = u_username v) as Hm.
  { intros v. unfold model_save. destruct (qs_exists (conflicting db v)); [done|].
    destruct (qs_exists _); intros [= _ <-]; [done|]. by case_decide. }
  intros [(_ & _ & pid & _ & E)|(_ & _ & E)]%user_save_inv; symmetry in E;
    by apply Hm in E.
Qed.

(** The registration with the data of a user who was registered is
    refused: the name is taken. *)
Lemma register_user_again fuel draws n data db db' resp user n' fuel' draws' m :
  wf db -> register_user fuel draws n data db = Some (Ok (db', resp, Some user), n') ->
  register_user fuel' draws' m data db' = Some (Ok (db', Response 400, None), m).
Proof.
  intros Hwf Hr. pose proof Hr as (_ & u & Hs & _)%register_user_created.
  apply user_save_username in Hs as Hname. apply user_save_unsaved in Hs as [Hu _]; [|done..].
  revert Hr. unfold register_user. destruct (is_valid _ _ _ _) eqn:Ev; [intros _|done].
  apply register_name_free in Ev as (name & En & _).
  assert (is_valid UserSerializer false db' data = false) as ->; [|done].
  cbn [is_valid UserSerializer]. rewrite En.
  assert (qs_exists (filter (fun v => u_username v = char_value name) (users db')) = true)
    as ->; [|by rewrite andb_false_r].
  apply qs_exists_elem. exists u. apply list_elem_of_filter. split; [|done].
  rewrite Hname. cbn -[char_value]. by rewrite En.
Qed.

(** *** The refinement *)

Section Refinement.
Context (e : env) (keys : key_source) (rq : site_request) (s : site) (session : option Z).
Context (Hs : session_of (s_auth s) (sr_url rq) (sr_credentials rq) = Some session).





End Refinement.

(** *** The views of a request *)

(** The views a request can reach. *)
Lemma handle_site_cases e keys rq s :
  handle_site e keys rq s = SiteAnswer s (Response 401) None \/
  exists session,
    session_of (s_auth s) (sr_url rq) (sr_credentials rq) = Some session /\
    (handle_site e keys rq s = SiteAnswer s (Response 405) None \/
     handle_site e keys rq s = api_login e keys rq s \/
     (handle_site e keys rq s = api_register e keys rq s /\
      handle e (request_of rq session) (s_state s) =
        registers (register_user (e_fuel e) (e_draws e) (s_state s).2 (f_user (sr_body rq))
                                 (s_state s).1)) \/
     handle_site e keys rq s = with_auth s (handle e (request_of rq session) (s_state s))).
Proof.
  unfold handle_site, allowing. destruct (session_of _ _ _) as [session|]; [|by left].
  right. exists session. split; [done|].
  destruct (resolve (sr_url rq)) as [[view args]|] eqn:Er; [|by eauto 6].
  destruct view; try (by eauto 6); case_bool_decide as Hm; auto.
  do 2 right. left. split; [done|].
  rewrite (handle_register e (request_of rq session) _ args Er). cbn [request_of rq_method].
  by rewrite bool_decide_eq_true_2.
Qed.

(** *** The store *)

(** The store a request leaves is the store it found or the store
    [handle] leaves for the user of the credentials, also when the
    request fails with its token. *)
Lemma handle_site_state e keys rq s s' :
  after (handle_site e keys rq s) = Some s' ->
  s_state s' = s_state s \/
  exists session resp,
    session_of (s_auth s) (sr_url rq) (sr_credentials rq) = Some session /\
    handle e (request_of rq session) (s_state s) = Answer (s_state s') resp.
Proof.
  destruct (handle_site_cases e keys rq s) as [->|(session & Hs & [->|[->|[[-> Hh]| ->]]])];
    try (intros [= <-]; by left).
  - pose proof (api_login_inv e keys rq s) as Hl.
    destruct (auth_token_user _ _ _ _); [|rewrite Hl; intros [= <-]; by left].
    destruct (get_or_create _ _ _ _) as [a [[token created]|err]]; rewrite Hl;
      intros [= <-]; by left.
  - unfold api_register. unfold registers in Hh.
    destruct (register_user _ _ _ _ _) as [[[[[db resp] [user|]]|err] n]|];
      try (intros [= <-]; by eauto).
    destruct (get_or_create _ _ _ _) as [a [[token created]|err]]; intros [= <-]; by eauto.
  - intros [->|(resp & Ho & _)]%after_with_auth; by eauto.
Qed.

(** The store evolves, and the foreign keys stay. *)
Lemma handle_site_evolves e keys rq s s' :
  after (handle_site e keys rq s) = Some s' -> evolves (s_state s).1 (s_state s').1.
Proof.
  intros [->|(session & resp & _ & Hh)]%handle_site_state; [done|].
  by apply (handle_evolves _ _ _ _ _ Hh).
Qed.

Lemma handle_site_linked e keys rq s s' :
  wf (s_state s).1 -> linked (s_state s).1 -> after (handle_site e keys rq s) = Some s' ->
  linked (s_state s').1.
Proof.
  intros Hwf Hl [->|(session & resp & _ & Hh)]%handle_site_state; [done|].
  by apply (handle_linked _ _ _ _ _ Hwf Hl Hh).
Qed.

(** *** The runs *)

Lemma run_site_snoc e keys rqs rq s :
  run_site e keys (rqs ++ [rq]) s =
  default (run_site e keys rqs s) (after (handle_site e keys rq (run_site e keys rqs s))).
Proof. unfold run_site. by rewrite foldl_app. Qed.

Lemma site_step_after e keys rq s s' : after (handle_site e keys rq s) = Some s' -> site_step s s'.
Proof.
  destruct (handle_site e keys rq s) as [s1 resp token|s1 err| |] eqn:E; intros [= <-].
  - by eapply step_answer.
  - by eapply step_error.
Qed.

Lemma run_site_steps e keys rqs s : rtc site_step s (run_site e keys rqs s).
Proof.
  induction rqs as [|rq rqs IH] using rev_ind; [done|]. rewrite run_site_snoc.
  destruct (after _) as [s'|] eqn:E; [|done]. eapply rtc_r; [done|]. by eapply site_step_after.
Qed.

Lemma form_site_step : site_step empty_site form_site.
Proof. by apply (step_form 3 sample_draws sample_settings sample_post). Qed.

Lemma sample_site_steps : rtc site_step empty_site sample_site.
Proof.
  eapply rtc_l; [apply form_site_step|]. etrans; apply run_site_steps.
Qed.

(** *** The requests of the sessions *)

Lemma session_of_site_request a rq :
  session_of a (sr_url (site_request_of rq)) (sr_credentials (site_request_of rq)) =
  Some (rq_session rq).
Proof. destruct rq as [m url b [uid|]]; done. Qed.

Lemma request_of_site_request rq : request_of (site_request_of rq) (rq_session rq) = rq.
Proof. by destruct rq. Qed.

(** The store an answer of [handle] leaves is the store the same request
    leaves with the credentials beside it, or the store as it was. *)
Lemma handle_site_session e keys rq st st' resp a :
  handle e rq st = Answer st' resp ->
  st' = st \/
  exists a', after (handle_site e keys (site_request_of rq) (mkSite st a)) = Some (mkSite st' a').
Proof.
  intros Hh. unfold handle_site. rewrite session_of_site_request, request_of_site_request.
  cbn [sr_url sr_method site_request_of s_state].
  destruct (resolve (rq_url rq)) as [[view args]|] eqn:Er; [|right; exists a; by rewrite Hh].
  destruct (decide (view = ApiLogin)) as [->|Hl].
  { left. rewrite (handle_login _ _ _ args Er) in Hh. by case_bool_decide; simplify_eq. }
  destruct (decide (view = ApiRegister)) as [->|Hr].
  - rewrite (handle_register _ _ _ args Er) in Hh. unfold allowing.
    case_bool_decide; [|left; by simplify_eq]. right. unfold api_register, registers in *.
    cbn [s_state s_auth sr_body site_request_of].
    destruct (register_user _ _ _ _ _) as [[[[[db r] [user|]]|err] n]|]; simplify_eq;
      [|by eexists].
    destruct (get_or_create _ _ _ _) as [a' [[token created]|err]]; by eexists.
  - right. exists a. destruct view; try done; by rewrite Hh.
Qed.

(** *** The log-in, tried again *)

Lemma run_site_cons e keys rq rqs s :
  run_site e keys (rq :: rqs) s =
  run_site e keys rqs (default s (after (handle_site e keys rq s))).
Proof. done. Qed.

(** The user of a name and a password depends on the passwords, and the
    owner of a key on the tokens. *)
Lemma auth_token_user_passwords db a a' username password :
  passwords a' = passwords a ->
  auth_token_user db a' username password = auth_token_user db a username password.
Proof. unfold auth_token_user, authenticate, check_password. by intros ->. Qed.

Lemma token_owner_tokens a a' key : tokens a' = tokens a -> token_owner a' key = token_owner a key.
Proof. unfold token_owner. by intros ->. Qed.

(** A log-in of a client without other credentials is [CustomAuthToken.post]. *)
Lemma handle_site_login e keys rq s args :
  resolve (sr_url rq) = Some (ApiLogin, args) -> sr_method rq = MPost ->
  sr_credentials rq = Anonymous -> handle_site e keys rq s = api_login e keys rq s.
Proof. unfold handle_site, allowing. by intros -> -> ->. Qed.

(** ** Theorems *)


(** The log-in of ann that draws the key of bob's token fails where the
    application of the sessions answers 200. *)
Example handle_site_refines_collision :
  collides sample_keys bob_site
    (handle_site sample_env sample_keys (login_request "ann" "correct horse") bob_site)
    (handle sample_env (request_of (login_request "ann" "correct horse") None)
            (s_state bob_site)).
Proof.
  eexists _, (Response 200). split; [vm_compute; reflexivity|].
  split_and!; [by vm_compute..|]. vm_compute. by eexists.
Qed.

(** The states of the application of the sessions are states of the
    application with its credentials: every store the requests of
    [handle] reach is reached, with some tables of credentials beside it,
    by the same requests sent with their sessions.  With the refinement
    the two applications reach the same stores but for the users the form
    registers. *)
Theorem reachable_site st : reachable st -> exists a, rtc site_step empty_site (mkSite st a).
Proof.
  induction 1 as [|e rq st st' resp _ [a IH] Hh]; [by exists empty_auth|].
  destruct (handle_site_session e (fun _ => "") rq st st' resp a Hh) as [->|[a' Ha]]; [by exists a|].
  exists a'. eapply rtc_r; [done|]. by eapply site_step_after.
Qed.

Lemma reachable_site_witness : exists a, rtc site_step empty_site (mkSite sample_state a).
Proof.
  apply (reachable_site sample_state), (reachable_run sample_env sample_requests (empty_db, O)).
  constructor.
Defined.

(** C36: the log-in answers in the end: for a name and a password that
    are valid, when the key drawn [k] draws from now is free, one of the
    first [k + 1] tries of the log-in is answered 200 with the key of a
    token; every try before it fails on a key that is taken and draws the
    next. *)
Theorem login_eventually e keys rq args user k s :
  resolve (sr_url rq) = Some (ApiLogin, args) -> sr_method rq = MPost ->
  sr_credentials rq = Anonymous ->
  auth_token_user (s_state s).1 (s_auth s) (ud_username (f_user (sr_body rq)))
                  (sr_password rq) = Some user ->
  token_owner (s_auth s) (keys (drawn (s_auth s) + k)%nat) = None ->
  exists i s' key,
    (i <= k)%nat /\
    handle_site e keys rq (run_site e keys (replicate i rq) s) =
      SiteAnswer s' (Response 200) (Some key).
Proof.
  intros Er Hm Hc. revert s. induction k as [|k IH]; intros s Hu Hfree;
    pose proof (api_login_inv e keys rq s) as Hl; rewrite Hu in Hl;
    destruct (get_or_create _ _ _ _) as [a' [[token created]|err]] eqn:Eg;
    try (exists O, (mkSite (s_state s) a'), (t_key token); split; [lia|];
         by rewrite (handle_site_login _ _ _ _ args)).
  - apply get_or_create_raises in Eg as (_ & _ & _ & Htaken).
    rewrite Nat.add_0_r in Hfree. rewrite Hfree in Htaken. by destruct Htaken.
  - apply get_or_create_raises in Eg as (_ & _ & -> & _).
    destruct (IH (mkSite (s_state s) (mkAuth (tokens (s_auth s)) (passwords (s_auth s))
                                             (S (drawn (s_auth s))))))
      as (i & s' & key & Hi & Hh).
    + by rewrite <- Hu.
    + rewrite <- Hfree. cbn. by rewrite Nat.add_succ_r.
    + exists (S i), s', key. split; [lia|]. cbn [replicate]. rewrite run_site_cons.
      by rewrite (handle_site_login e keys rq s args Er Hm Hc), Hl.
Qed.

Lemma login_eventually_witness :
  exists i s',
    (i <= 1)%nat /\
    handle_site sample_env sample_keys (login_request "ann" "correct horse")
      (run_site sample_env sample_keys (replicate i (login_request "ann" "correct horse"))
                bob_site) =
      SiteAnswer s' (Response 200) (Some "c0ffee0199c62bcf9418ad846dd0e4bbdfc6ee4b").
Proof.
  destruct (login_eventually sample_env sample_keys (login_request "ann" "correct horse") []
              (mkUser 1 "ann" "ann@example.org" Patient None (Some "") (Some "AB12CD34")
                      None None 0) 1 bob_site)
    as (i & s' & key & Hi & Hh); [by vm_compute..|].
  exists i, s'. split; [done|]. rewrite Hh. f_equal.
  destruct i as [|[|i]]; [|clear Hi|lia]; vm_compute in Hh; by simplify_eq.
Defined.

