(* ===== verification/Credentials.v ===== *)
(** * Credentials: the invariants of the tokens and the passwords

    What the application of [Site] keeps: the store with its schema and
    foreign keys, the keys of the tokens apart, and the tokens and the
    passwords with users of the store ([site_wf]).  The theorems show that
    every state the steps reach has these properties, that a token that
    was issued stands for its user in every later state, that a request
    without the session or a token of a user leaves the diary of this user
    alone, and what follows from the order of the two steps of
    [register_user]: the users it creates have a token and no password,
    and a user whose token fails has neither. *)

From Stdlib Require Import ZArith QArith Lia Ascii String.
From stdpp Require Import base decidable option list strings relations gmap.
From S2P Require Import Prelude Numeric Text Store Streak Trend Forecast Recommend.
From S2P Require Import Achievements Doctor Views Aggregate Accounts Dashboard Models.
From S2P Require Import Serializers Api Journals Registration Routes System Isolation.
From S2P Require Import Integrity Tokens Site.

(** ** Definitions *)

(** The user a token stands for. *)
Definition bearer (s : site) (key : string) : option User :=
  uid ← token_owner (s_auth s) key; get_user (s_state s).1 (Some uid).

(** The credentials belong to users of the store, and the keys of the
    tokens are apart. *)
Record auth_wf (db : DB) (a : Auth) : Prop := mkAuthWf {
  awf_keys : keys_apart a;
  awf_tokens : forall uid, is_Some (tokens a !! uid) -> known db uid;
  awf_passwords : forall uid, is_Some (passwords a !! uid) -> known db uid
}.

(** How a request changes the credentials: the passwords stay, and the
    tokens stay or get one more, for a user of the store who had none and
    with a key that no token had. *)
Definition issues (db' : DB) (a a' : Auth) : Prop :=
  passwords a' = passwords a /\
  (tokens a' = tokens a \/
   exists uid token,
     known db' uid /\ tokens a !! uid = None /\ tokens a' = <[uid := token]> (tokens a) /\
     forall u t, tokens a !! u = Some t -> t_key t <> t_key token).

(** What every step keeps: the users with their roles, the tokens, and
    the passwords of the users of the store. *)
Definition keeps (s s' : site) : Prop :=
  persists (s_state s).1 (s_state s').1 /\
  tokens (s_auth s) ⊆ tokens (s_auth s') /\
  forall uid, known (s_state s).1 uid ->
              passwords (s_auth s') !! uid = passwords (s_auth s) !! uid.

(** The invariant of the application with its credentials. *)
Definition site_wf (s : site) : Prop :=
  wf (s_state s).1 /\ linked (s_state s).1 /\ auth_wf (s_state s).1 (s_auth s).

(** ** Lemmas *)

(** *** The credentials *)

Lemma issues_refl db a : issues db a a.
Proof. split; auto. Qed.

Lemma get_or_create_issues keys now uid db a :
  known db uid -> issues db a (get_or_create keys now uid a).1.
Proof.
  intros Hk. destruct (get_or_create keys now uid a) as [a' [[token created]|err]] eqn:E.
  - apply get_or_create_inv in E as (_ & Hp & H). split; [done|].
    destruct created; [|left; by rewrite H]. destruct H as (Hn & Ht & _ & _ & Hf).
    right. by exists uid, token.
  - apply get_or_create_raises in E as (_ & _ & -> & _). split; auto.
Qed.

Lemma api_login_issues e keys rq s s' :
  after (api_login e keys rq s) = Some s' -> issues (s_state s').1 (s_auth s) (s_auth s').
Proof.
  pose proof (api_login_inv e keys rq s) as Hl.
  destruct (auth_token_user _ _ _ _) as [user|] eqn:Eu;
    [|rewrite Hl; intros [= <-]; apply issues_refl].
  apply auth_token_user_Some in Eu as (name & raw & _ & _ & _ & (Hu & _)%authenticate_Some).
  pose proof (get_or_create_issues keys (e_now e) (u_id user) (s_state s).1 (s_auth s)
                (known_elem _ _ Hu)) as Hi.
  destruct (get_or_create _ _ _ _) as [a [[token created]|err]]; rewrite Hl;
    by intros [= <-].
Qed.

Lemma api_register_issues e keys rq s s' :
  wf (s_state s).1 -> after (api_register e keys rq s) = Some s' ->
  issues (s_state s').1 (s_auth s) (s_auth s').
Proof.
  intros Hwf. unfold api_register.
  destruct (register_user _ _ _ _ _) as [[[[[db resp] [user|]]|err] n]|] eqn:Er;
    try (intros [= <-]; apply issues_refl).
  apply register_user_created in Er as (_ & u & [Hu _]%user_save_unsaved & Hid); [|done..].
  pose proof (get_or_create_issues keys (e_now e) (ur_id user) db (s_auth s)) as Hi.
  rewrite Hid in Hi. specialize (Hi (known_elem _ _ Hu)). rewrite <- Hid in Hi.
  destruct (get_or_create _ _ _ _) as [a [[token created]|err]]; by intros [= <-].
Qed.

(** A request issues a token at most. *)
Lemma handle_site_issues e keys rq s s' :
  wf (s_state s).1 -> after (handle_site e keys rq s) = Some s' ->
  issues (s_state s').1 (s_auth s) (s_auth s').
Proof.
  intros Hwf.
  destruct (handle_site_cases e keys rq s) as [->|(session & _ & [->|[->|[[-> _]| ->]]])];
    try (intros [= <-]; apply issues_refl).
  - apply api_login_issues.
  - by apply api_register_issues.
  - intros [->|(resp & _ & ->)]%after_with_auth; apply issues_refl.
Qed.

(** *** The invariant *)

(** The credentials stay well-formed when the users stay and a token is
    issued. *)
Lemma auth_wf_issues db db' a a' :
  persists db db' -> issues db' a a' -> auth_wf db a -> auth_wf db' a'.
Proof.
  intros Hp [Hpw Ht] [Hk Hkt Hkp]. split.
  - destruct Ht as [Ht|(uid & token & _ & Hn & Ht & Hf)]; intros u v t t'; rewrite Ht; [by apply Hk|].
    rewrite !lookup_insert_Some. intros [[<- <-]|[? Hu]] [[<- <-]|[? Hv]] Hkey; try done.
    + by destruct (Hf v t').
    + by destruct (Hf u t).
    + by apply (Hk u v t t').
  - intros uid. destruct Ht as [->|(uid' & token & Hknown & _ & -> & _)].
    + intros Hu. by apply (known_persists db db' Hp), Hkt.
    + rewrite lookup_insert_is_Some. intros [<-|[_ Hu]]; [done|].
      by apply (known_persists db db' Hp), Hkt.
  - intros uid. rewrite Hpw. intros Hu. by apply (known_persists db db' Hp), Hkp.
Qed.

(** The form keeps the invariant: the user it saves is new. *)
Lemma register_form_inv fuel draws cfg post s s' :
  wf (s_state s).1 -> register_form fuel draws cfg post s = Some s' ->
  exists c user,
    registration_clean cfg (s_state s).1 post = Some c /\
    user_save fuel draws (s_state s).2 (s_state s).1
      (mkUser 0 (rc_username c) (rc_email c) (rc_role c) (rc_date_of_birth c)
              (Some (rc_phone_number c)) None None None 0) = Some (Ok ((s_state s').1, user), (s_state s').2) /\
    s_auth s' = set_password (u_id user) (rp_password1 post) (s_auth s) /\
    user ∈ users (s_state s').1 /\ ~ known (s_state s).1 (u_id user).
Proof.
  intros Hwf. unfold register_form, registration_submit, registration_save.
  destruct (registration_clean _ _ _) as [c|]; [|done]. cbn.
  destruct (user_save _ _ _ _ _) as [[[[db user]|err] n]|] eqn:Es; try done.
  intros [= <-]. apply user_save_unsaved in Es as Hu; [|done..]. destruct Hu.
  by exists c, user.
Qed.

Lemma auth_wf_set_password db db' uid raw a :
  persists db db' -> known db' uid -> auth_wf db a -> auth_wf db' (set_password uid raw a).
Proof.
  intros Hp Hu [Hk Hkt Hkp]. split; [done|..]; intros v; cbn.
  - intros Hv. by apply (known_persists db db' Hp), Hkt.
  - rewrite lookup_insert_is_Some. intros [<-|[_ Hv]]; [done|].
    by apply (known_persists db db' Hp), Hkp.
Qed.

Lemma site_wf_empty : site_wf empty_site.
Proof.
  split_and!; [apply wf_empty|apply linked_empty|].
  split; [apply keys_apart_empty|..]; intros uid; cbn; rewrite lookup_empty;
    by intros ?%is_Some_None.
Qed.

(** A request keeps the invariant, whether it is answered or fails. *)
Lemma site_wf_handle e keys rq s s' :
  after (handle_site e keys rq s) = Some s' -> site_wf s -> site_wf s'.
Proof.
  intros Ha (Hwf & Hl & Hauth). pose proof (handle_site_evolves _ _ _ _ _ Ha) as He.
  split_and!; [by apply He|by eapply handle_site_linked|].
  eapply auth_wf_issues; [by apply evolves_persists|by eapply handle_site_issues|done].
Qed.

Lemma site_wf_form fuel draws cfg post s s' :
  register_form fuel draws cfg post s = Some s' -> site_wf s -> site_wf s'.
Proof.
  intros Hf (Hwf & Hl & Hauth).
  apply register_form_inv in Hf as (c & user & _ & Es & Ha & Hu & _); [|done].
  assert (evolves (s_state s).1 (s_state s').1) as He
    by (eapply evolves_user_save; [|exact Es]; intros _ v; by apply unsaved_role).
  split_and!; [by apply He| |].
  - eapply linked_user_save; [done..| |exact Es]. intros v. by apply unsaved_role.
  - rewrite Ha. apply (auth_wf_set_password (s_state s).1);
      [by apply evolves_persists|by apply known_elem|done].
Qed.

Lemma site_wf_step s s' : site_step s s' -> site_wf s -> site_wf s'.
Proof.
  destruct 1 as [e keys rq s s' resp token H|e keys rq s s' err H|fuel draws cfg post s s' H].
  - apply (site_wf_handle e keys rq). by rewrite H.
  - apply (site_wf_handle e keys rq). by rewrite H.
  - by apply (site_wf_form fuel draws cfg post).
Qed.

Lemma site_wf_steps s s' : rtc site_step s s' -> site_wf s -> site_wf s'.
Proof. induction 1; eauto using site_wf_step. Qed.

(** *** The tokens and the passwords stay *)

Lemma keeps_handle e keys rq s s' :
  after (handle_site e keys rq s) = Some s' -> site_wf s -> keeps s s'.
Proof.
  intros Ha (Hwf & _). pose proof (handle_site_evolves _ _ _ _ _ Ha) as He.
  destruct (handle_site_issues _ _ _ _ _ Hwf Ha) as [Hp Ht].
  split_and!; [by apply evolves_persists| |by rewrite Hp].
  destruct Ht as [->|(uid & token & _ & Hn & -> & _)]; [done|by apply insert_subseteq].
Qed.

Lemma keeps_form fuel draws cfg post s s' :
  register_form fuel draws cfg post s = Some s' -> site_wf s -> keeps s s'.
Proof.
  intros Hf (Hwf & _).
  apply register_form_inv in Hf as (c & user & _ & Es & Ha & _ & Hnew); [|done].
  unfold keeps. rewrite Ha. split_and!; [|done|].
  - apply evolves_persists; [done|]. eapply evolves_user_save; [|exact Es].
    intros _ v. by apply unsaved_role.
  - intros uid Hk. cbn. apply lookup_insert_ne. by intros <-.
Qed.

Lemma keeps_step s s' : site_step s s' -> site_wf s -> keeps s s'.
Proof.
  destruct 1 as [e keys rq s s' resp token H|e keys rq s s' err H|fuel draws cfg post s s' H].
  - apply (keeps_handle e keys rq). by rewrite H.
  - apply (keeps_handle e keys rq). by rewrite H.
  - by apply (keeps_form fuel draws cfg post).
Qed.

Lemma keeps_steps s s' : rtc site_step s s' -> site_wf s -> keeps s s'.
Proof.
  induction 1 as [s|s1 s2 s3 H12 _ IH]; intros Hwf.
  { split_and!; [done|done|done]. }
  destruct (keeps_step _ _ H12 Hwf) as (Hp & Ht & Hpw).
  destruct (IH (site_wf_step _ _ H12 Hwf)) as (Hp' & Ht' & Hpw').
  split_and!; [by etrans|by etrans|].
  intros uid Hk. rewrite Hpw' by by apply (known_persists _ _ Hp). by apply Hpw.
Qed.

(** *** The user of a token *)

Lemma get_user_lookup db u : wf db -> u ∈ users db -> get_user db (Some (u_id u)) = Some u.
Proof.
  intros Hwf Hu. cbn.
  destruct (NoDup_fmap_split u_id _ u (wf_user_ids _ Hwf) Hu) as (l1 & l2 & -> & Hne).
  by rewrite (filter_key u_id (u_id u) l1 u l2 eq_refl Hne).
Qed.

(** The key of a token stands for the user of the token. *)
Lemma bearer_lookup s uid t :
  site_wf s -> tokens (s_auth s) !! uid = Some t ->
  exists u, bearer s (t_key t) = Some u /\ u_id u = uid.
Proof.
  intros (Hwf & _ & [Hk Hkt _]) Ht.
  assert (known (s_state s).1 uid) as Hu by eauto.
  apply list_elem_of_fmap in Hu as (u & -> & Hu). exists u.
  unfold bearer. rewrite (token_owner_lookup _ _ _ Hk Ht). cbn [mbind option_bind].
  split; [by apply get_user_lookup|done].
Qed.

Lemma bearer_inv s key u :
  bearer s key = Some u ->
  u ∈ users (s_state s).1 /\ exists t, tokens (s_auth s) !! u_id u = Some t /\ t_key t = key.
Proof.
  unfold bearer. destruct (token_owner _ _) as [uid|] eqn:E; [|done]. cbn [mbind option_bind].
  intros [Hu [= ->]]%get_user_elem. split; [done|]. by apply token_owner_Some.
Qed.

(** A token stands for its user, with the same role, as long as the users
    and the tokens stay. *)
Lemma bearer_keeps s s' key u :
  keeps s s' -> site_wf s' -> bearer s key = Some u ->
  exists u', bearer s' key = Some u' /\ u_id u' = u_id u /\ u_role u' = u_role u.
Proof.
  intros (Hp & Ht & _) Hwf' (Hu & t & Hlook & <-)%bearer_inv.
  destruct (bearer_lookup s' (u_id u) t Hwf') as (u' & Hb & Hid); [by eapply lookup_weaken|].
  exists u'. split_and!; [done..|]. destruct (Hp u Hu) as (u2 & Hu2 & Hid2 & <-).
  apply bearer_inv in Hb as [Hu' _]. destruct Hwf' as (Hwf' & _).
  f_equal. apply (NoDup_fmap_elem_inj u_id (users (s_state s').1)); [|done..|congruence].
  apply (wf_user_ids _ Hwf').
Qed.

(** An answer with a token: the log-in of a user whose credentials are
    valid, or the registration of a user, who is new and gets no
    password. *)
Lemma handle_site_token e keys rq s s' resp key :
  site_wf s -> handle_site e keys rq s = SiteAnswer s' resp (Some key) ->
  exists uid t,
    tokens (s_auth s') !! uid = Some t /\ t_key t = key /\
    passwords (s_auth s') = passwords (s_auth s) /\
    ((resp = Response 200 /\ s_state s' = s_state s /\
      exists user, u_id user = uid /\
        auth_token_user (s_state s).1 (s_auth s) (ud_username (f_user (sr_body rq)))
                        (sr_password rq) = Some user) \/
     (resp = Response 201 /\ ~ known (s_state s).1 uid)).
Proof.
  intros (Hwf & _).
  destruct (handle_site_cases e keys rq s) as [->|(session & _ & [->|[->|[[-> _]| ->]]])];
    try done.
  - pose proof (api_login_inv e keys rq s) as Hl.
    destruct (auth_token_user _ _ _ _) as [user|]; [|by rewrite Hl].
    destruct (get_or_create _ _ _ _) as [a [[token created]|err]] eqn:Eg; rewrite Hl; [|done].
    intros [= <- <- <-]. apply get_or_create_inv in Eg as (Ht & Hp & _).
    exists (u_id user), token. split_and!; [done..|]. left. eauto.
  - unfold api_register.
    destruct (register_user _ _ _ _ _) as [[[[[db resp'] [user|]]|err] n]|] eqn:Er; try done.
    apply register_user_created in Er as (-> & u & [_ Hnew]%user_save_unsaved & Hid);
      [|done..].
    destruct (get_or_create _ _ _ _) as [a [[token created]|err]] eqn:Eg; [|done].
    intros [= <- <- <-]. apply get_or_create_inv in Eg as (Ht & Hp & _).
    exists (ur_id user), token. split_and!; [done..|]. right. by rewrite Hid.
  - by destruct (handle _ _ _).
Qed.

(** *** The rows of the others *)

(** Credentials that are neither the session nor a token of a user do not
    stand for this user. *)
Lemma session_of_other a url c session v :
  session_of a url c = Some session -> c <> Session v ->
  (forall key, c = Bearer key -> token_owner a key <> Some v) -> session <> Some v.
Proof.
  intros Hs Hc Hk ->. destruct c as [|uid|key]; cbn in Hs; simplify_eq.
  specialize (Hk key eq_refl). destruct (resolve url) as [[view args]|]; [|done].
  destruct (is_api view); [|done]. destruct (token_owner a key); cbn in Hs; by simplify_eq.
Qed.

(** A request changes the rows of the user its credentials stand for. *)
Lemma handle_site_within e keys rq s s' :
  after (handle_site e keys rq s) = Some s' ->
  s_state s' = s_state s \/
  exists session,
    session_of (s_auth s) (sr_url rq) (sr_credentials rq) = Some session /\
    within (u_id <$> get_user (s_state s).1 session) (s_state s).1 (s_state s').1.
Proof.
  intros [->|(session & resp & Hs & Hh)]%handle_site_state; [by left|].
  right. exists session. split; [done|]. apply (handle_within _ _ _ _ _ Hh).
Qed.

(** ** Theorems *)

(** C29: in every state the application reaches from the empty one, by
    requests that are answered or fail and by registrations with the
    form, the store keeps its schema and its foreign keys, the keys of
    the tokens are apart, and the tokens and the passwords belong to
    users of the store. *)
Theorem site_reachable_wf s : rtc site_step empty_site s -> site_wf s.
Proof. intros Hs. apply (site_wf_steps _ _ Hs), site_wf_empty. Qed.

Lemma site_reachable_wf_witness : site_wf sample_site.
Proof. apply (site_reachable_wf sample_site), sample_site_steps. Defined.

(** C20: a token that was issued stands for its user from then on: the
    key an answer carries is the key of a user of the store (the user
    whose credentials were valid, when the answer is the one of the
    log-in), and in every later state a view of the API finds a user
    with the same key and role by it. *)
Theorem token_roundtrip e keys rq s s' resp key s'' :
  site_wf s -> handle_site e keys rq s = SiteAnswer s' resp (Some key) ->
  rtc site_step s' s'' ->
  exists u u'',
    bearer s' key = Some u /\ bearer s'' key = Some u'' /\
    u_id u'' = u_id u /\ u_role u'' = u_role u /\
    (resp = Response 200 ->
     auth_token_user (s_state s).1 (s_auth s) (ud_username (f_user (sr_body rq)))
                     (sr_password rq) = Some u) /\
    forall url view args,
      resolve url = Some (view, args) -> is_api view = true ->
      session_of (s_auth s'') url (Bearer key) = Some (Some (u_id u)).
Proof.
  intros Hwf Hh Hsteps.
  assert (site_wf s') as Hwf' by (apply (site_wf_handle e keys rq s); [by rewrite Hh|done]).
  pose proof (site_wf_steps _ _ Hsteps Hwf') as Hwf''.
  destruct (handle_site_token _ _ _ _ _ _ _ Hwf Hh) as (uid & t & Ht & <- & _ & Hwho).
  destruct (bearer_lookup s' uid t Hwf' Ht) as (u & Hb & <-).
  destruct (bearer_keeps s' s'' _ u (keeps_steps _ _ Hsteps Hwf') Hwf'' Hb) as (u'' & Hb'' & Hid & Hr).
  exists u, u''. split_and!; try done.
  - intros ->. destruct Hwho as [(_ & Est & user & Hid' & Hu)|[? _]]; [|done].
    rewrite Hu. f_equal.
    apply auth_token_user_Some in Hu as (? & ? & _ & _ & _ & [Hin _]%authenticate_Some).
    apply bearer_inv in Hb as [Hin' _]. rewrite Est in Hin'. destruct Hwf as (Hwf & _).
    by apply (NoDup_fmap_elem_inj u_id (users (s_state s).1) user u (wf_user_ids _ Hwf)).
  - intros url view args Er Hapi. unfold session_of. rewrite Er, Hapi.
    apply bearer_inv in Hb'' as (_ & t'' & Ht'' & <-). destruct Hwf'' as (_ & _ & [Hk _ _]).
    by rewrite (token_owner_lookup _ _ _ Hk Ht''), Hid.
Qed.

Lemma token_roundtrip_witness :
  exists u, bearer sample_site "c0ffee0199c62bcf9418ad846dd0e4bbdfc6ee4b" = Some u /\
            u_id u = 1 /\ u_role u = Patient.
Proof.
  destruct (token_roundtrip sample_env sample_keys (login_request "ann" "correct horse")
              (run_site sample_env sample_keys [login_request "ann" "correct horse"] bob_site)
              sample_site (Response 200) "c0ffee0199c62bcf9418ad846dd0e4bbdfc6ee4b"
              sample_site)
    as (u & u'' & Hb & Hb'' & Hid & Hr & Hu & _).
  - apply (site_wf_steps empty_site), site_wf_empty.
    eapply rtc_l; [apply form_site_step|]. etrans; apply run_site_steps.
  - by vm_compute.
  - done.
  - exists u''. split; [exact Hb''|]. rewrite Hid, Hr. clear Hb Hb'' Hid Hr.
    specialize (Hu eq_refl). vm_compute in Hu. injection Hu as <-. split; reflexivity.
Defined.

(** C38: a user [register_user] creates has a token and no password:
    the answer 201 carries the key of the token, which stands for the new
    user, and in no later state do a name and a password log this user
    in, because a password is set by the form only, for the user it
    creates. *)
Theorem api_registered_no_password e keys rq s s' key s'' :
  site_wf s -> handle_site e keys rq s = SiteAnswer s' (Response 201) (Some key) ->
  rtc site_step s' s'' ->
  exists u,
    bearer s' key = Some u /\ ~ known (s_state s).1 (u_id u) /\
    forall username password v,
      auth_token_user (s_state s'').1 (s_auth s'') username password = Some v ->
      u_id v <> u_id u.
Proof.
  intros Hwf Hh Hsteps.
  assert (site_wf s') as Hwf' by (apply (site_wf_handle e keys rq s); [by rewrite Hh|done]).
  destruct (handle_site_token _ _ _ _ _ _ _ Hwf Hh) as (uid & t & Ht & <- & Hp & Hwho).
  destruct Hwho as [[[=] _]|[_ Hnew]].
  destruct (bearer_lookup s' uid t Hwf' Ht) as (u & Hb & <-).
  exists u. split_and!; [done..|]. intros username password v Hv%auth_token_user_no_password Hid.
  destruct (keeps_steps _ _ Hsteps Hwf') as (_ & _ & Hkeep).
  rewrite Hid, Hkeep, Hp in Hv by (apply bearer_inv in Hb as [Hu _]; by apply known_elem).
  destruct Hwf as (_ & _ & [_ _ Hkp]). by apply Hnew, Hkp.
Qed.

Lemma api_registered_no_password_witness :
  exists u, bearer bob_site "9944b09199c62bcf9418ad846dd0e4bbdfc6ee4b" = Some u /\
            auth_token_user (s_state sample_site).1 (s_auth sample_site)
                            (Some (u_username u)) (Some "") = None.
Proof.
  destruct (api_registered_no_password sample_env sample_keys
              (api_register_request "bob" Doctor) form_site bob_site
              "9944b09199c62bcf9418ad846dd0e4bbdfc6ee4b" sample_site)
    as (u & Hb & _ & Hno).
  - apply (site_wf_step empty_site), site_wf_empty. apply form_site_step.
  - by vm_compute.
  - apply run_site_steps.
  - exists u. split; [exact Hb|]. vm_compute in Hb. injection Hb as <-. vm_compute. reflexivity.
Defined.

(** The diary of a user is changed by those who hold the session or
    a token of the user only: a request with other credentials, whether
    it is answered or fails, leaves the mood entries, the journal and the
    achievements of the user as they are. *)
Theorem site_diary_private e keys rq s s' v :
  site_wf s -> after (handle_site e keys rq s) = Some s' ->
  sr_credentials rq <> Session v ->
  (forall key, sr_credentials rq = Bearer key -> token_owner (s_auth s) key <> Some v) ->
  diary (s_state s').1 v = diary (s_state s).1 v.
Proof.
  intros (Hwf & _) [->|(session & Hs & Hin)]%handle_site_within Hc Hk; [done|].
  eapply confined_diary; [|by apply Hin]. intros Hv.
  apply (session_of_other _ _ _ _ v Hs Hc Hk).
  destruct (get_user _ session) as [u|] eqn:Eu; [|done].
  apply get_user_elem in Eu as [_ ->]. cbn in Hv. congruence.
Qed.

Lemma site_diary_private_witness :
  exists s',
    handle_site sample_env sample_keys
      (mood_request "9944b09199c62bcf9418ad846dd0e4bbdfc6ee4b" 9) diary_site =
      SiteAnswer s' (Response 201) None /\
    me_user <$> moods (s_state s').1 = [1; 2] /\
    diary (s_state s').1 1 = diary (s_state diary_site).1 1.
Proof.
  eexists. split; [by vm_compute|]. split; [by vm_compute|].
  apply (site_diary_private sample_env sample_keys
           (mood_request "9944b09199c62bcf9418ad846dd0e4bbdfc6ee4b" 9) diary_site).
  - apply site_wf_steps with empty_site; [|apply site_wf_empty].
    etrans; [apply sample_site_steps|apply run_site_steps].
  - by vm_compute.
  - done.
  - intros key [= <-]. by vm_compute.
Defined.

(** A token is a credential of the API only: the key of the token of ann
    lets her create a mood entry by the view set, and the HTML view
    [log_mood] sends the same request to the log-in. *)
Example bearer_api_only :
  let key := "c0ffee0199c62bcf9418ad846dd0e4bbdfc6ee4b" in
  (exists s', handle_site sample_env sample_keys (mood_request key 4) sample_site =
                SiteAnswer s' (Response 201) None /\
              me_user <$> moods (s_state s').1 = [1]) /\
  handle_site sample_env sample_keys
    (mkSiteRequest MPost ["dashboard"; "log-mood"] (rq_body (log_mood_request 0 4)) None
                   (Bearer key)) sample_site =
    SiteAnswer sample_site (Redirect "login") None.
Proof. split; [eexists; split|]; by vm_compute. Qed.

(** A registration whose token fails leaves an account nobody can use:
    when [register_user] fails after it saved the user, the user is in
    the store without a token and without a password, and the same
    registration sent again is answered 400, because the name is taken. *)
Theorem register_token_failure e keys rq s s' err args :
  site_wf s -> resolve (sr_url rq) = Some (ApiRegister, args) ->
  handle_site e keys rq s = SiteError s' err -> s_state s' <> s_state s ->
  exists u,
    u ∈ users (s_state s').1 /\ ~ known (s_state s).1 (u_id u) /\
    tokens (s_auth s') !! u_id u = None /\ passwords (s_auth s') !! u_id u = None /\
    forall e' keys', handle_site e' keys' rq s' = SiteAnswer s' (Response 400) None.
Proof.
  intros (Hwf & _ & [_ _ Hkp]) Er. unfold handle_site at 1, allowing.
  destruct (session_of (s_auth s) _ _) as [session|] eqn:Hs; [|done]. rewrite Er.
  case_bool_decide as Hm; [|done]. unfold api_register.
  destruct (register_user _ _ _ _ _) as [[[[[db resp] [user|]]|err'] n]|] eqn:Hr; try done;
    [|intros [= <- _] Hne; by destruct Hne].
  pose proof Hr as (_ & u & [Hu Hnew]%user_save_unsaved & Hid)%register_user_created;
    [|done..].
  destruct (get_or_create _ _ _ _) as [a' [[token created]|err'']] eqn:Eg; [intros [=]|].
  apply get_or_create_raises in Eg as (_ & Hnone & -> & _). intros [= <- _] _.
  rewrite Hid in Hnone. exists u. split_and!; [done..| |].
  { apply eq_None_not_Some. intros Hp. by apply Hnew, Hkp. }
  intros e' keys'. unfold handle_site, allowing. cbn [s_auth s_state tokens].
  assert (session_of (mkAuth (tokens (s_auth s)) (passwords (s_auth s)) (S (drawn (s_auth s))))
            (sr_url rq) (sr_credentials rq) = Some session) as ->
    by (rewrite <- Hs; unfold session_of; destruct (sr_credentials rq); try done;
        by rewrite (token_owner_tokens _ (s_auth s))).
  rewrite Er, bool_decide_eq_true_2 by done. unfold api_register. cbn [s_state s_auth fst snd].
  by rewrite (register_user_again _ _ _ _ _ _ _ _ _ (e_fuel e') (e_draws e') n Hwf Hr).
Qed.

(** The registration of carl draws the key of the token of bob. *)
Example register_token_failure_carl :
  let rq := api_register_request "carl" Patient in
  let s' := run_site sample_env sample_keys [rq] bob_site in
  handle_site sample_env sample_keys rq bob_site = SiteError s' IntegrityError /\
  u_username <$> users (s_state s').1 = ["ann"; "bob"; "carl"] /\
  handle_site sample_env sample_keys rq s' = SiteAnswer s' (Response 400) None.
Proof. split_and!; vm_compute; reflexivity. Qed.
