(* ===== verification/Binary64.v ===== *)
(** * Binary64: the floats of the mood analysis

    The other files compute the mean of the moods, the difference of the
    half means and the rounded mean on exact rationals.  The program
    computes them on binary64 floats.  This file has the float version of
    the numeric path of [analyze_mood_trends] of [src/dashboard/views.py]
    (and of its copy in [src/dashboard/api.py], which takes the same
    steps): the true division of two integers, the subtraction, the
    comparisons with 0.5, 8, 6 and 4, and [round(x, 1)], on the binary64
    floats of the kernel ([PrimFloat]), whose operations are those of
    the processor the interpreter of the program runs on.

    The theorems compare the two versions on every window of at most 31
    mood entries with moods from 1 to 10, by computing both on all sums
    such windows have: the level is the same; the trend is the same
    unless the exact difference of the half means is one half, and the
    rounded mean unless ten times the mean is half way between two
    integers.  In these cases the program follows the rounding errors of
    the divisions, and examples show both outcomes. *)

From Stdlib Require Import ZArith QArith Qabs Qround Lia Lqa String.
From Stdlib Require Import Numbers.Cyclic.Int63.Uint63 Floats.SpecFloat Floats.PrimFloat Floats.FloatOps.
From stdpp Require Import base decidable option list.
From S2P Require Import Prelude Numeric Store Trend.

(** ** Definitions *)

(** A Python [float]: a binary64 float. *)
Definition float : Type := PrimFloat.float.

(** [float(z)], for integers below [2 ^ 63]; it is exact below [2 ^ 53]. *)
Definition of_int (z : Z) : float :=
  match z with
  | Z0 => PrimFloat.zero
  | Zpos _ => PrimFloat.of_uint63 (Uint63.of_Z z)
  | Zneg p => PrimFloat.opp (PrimFloat.of_uint63 (Uint63.of_Z (Zpos p)))
  end.

(** The quotient of two floats, and [a / b] on integers, which is the
    quotient of their floats when both are below [2 ^ 53]. *)
Definition float_div (x y : float) : float := PrimFloat.div x y.

Definition int_truediv (a b : Z) : result float :=
  if decide (b = 0) then Raise ZeroDivisionError
  else Ok (float_div (of_int a) (of_int b)).

Definition float_sub (x y : float) : float := PrimFloat.sub x y.

(** The literal [0.5]. *)
Definition float_half : float := 0.5%float.

(** The number a float stands for, read off its sign, mantissa and
    exponent. *)
Definition float_value (x : float) : option Q :=
  match Prim2SF x with
  | S754_zero _ => Some 0%Q
  | S754_finite s m e =>
      let z := if s then Z.neg m else Z.pos m in
      Some (if decide (0 <= e) then inject_Z (z * 2 ^ e) else z # Z.to_pos (2 ^ (- e)))
  | S754_infinity _ | S754_nan => None
  end.

(** The float that is next to [n / 10], and [round(x, 1)]: the decimal
    with one digit that is next to the number [x] stands for, ties to
    the even digit, and the float next to this decimal. *)
Definition tenths (n : Z) : float := float_div (of_int n) (of_int 10).

Definition float_round1 (x : float) : float :=
  match float_value x with
  | Some q => tenths (round_half_even (q * 10))
  | None => x
  end.

(** [sum(l) / len(l)]. *)
Definition float_mean (l : list Z) : result float := int_truediv (sumZ l) (len l).

(** [sum(half) / len(half) if half else avg_mood]. *)
Definition float_half_avg (half : list Z) (avg_mood : float) : result float :=
  match half with
  | [] => Ok avg_mood
  | _ :: _ => float_mean half
  end.

(** The trend slope of the program. *)
Definition float_trend_slope (y_values : list Z) (avg_mood : float) : result float :=
  if decide (3 <= len y_values) then
    if decide (1 < len y_values) then
      first_avg ← float_half_avg (first_half y_values) avg_mood;
      second_avg ← float_half_avg (second_half y_values) avg_mood;
      mret (float_sub second_avg first_avg)
    else mret (of_int 0)
  else mret (of_int 0).

(** [trend_slope > 0.5], [trend_slope < -0.5]. *)
Definition float_trend (trend_slope : float) : trend :=
  if PrimFloat.ltb float_half trend_slope then Improving
  else if PrimFloat.ltb trend_slope (PrimFloat.opp float_half) then Declining
  else Stable.

(** [avg_mood >= 8], [>= 6], [>= 4]. *)
Definition float_level (avg_mood : float) : mood_level :=
  if PrimFloat.leb (of_int 8) avg_mood then Excellent
  else if PrimFloat.leb (of_int 6) avg_mood then Good
  else if PrimFloat.leb (of_int 4) avg_mood then Moderate
  else NeedsAttention.

(** What the analysis computes from the moods of a window that is not
    empty. *)
Record float_analysis : Type := mkFloatAnalysis {
  fa_trend : trend;
  fa_mood_level : mood_level;
  fa_avg_mood : float
}.

Definition float_analyze (y_values : list Z) : result float_analysis :=
  avg_mood ← float_mean y_values;
  trend_slope ← float_trend_slope y_values avg_mood;
  mret (mkFloatAnalysis (float_trend trend_slope) (float_level avg_mood)
                        (float_round1 avg_mood)).

(** *** The two versions on the sums of a window *)

(** The exact mean and the exact slope of sums and lengths. *)
Definition exact_mean (s n : Z) : Q := (inject_Z s / inject_Z n)%Q.

Definition exact_slope (s1 n1 s2 n2 : Z) : Q := (exact_mean s2 n2 - exact_mean s1 n1)%Q.

(** The exact slope is one half, up or down. *)
Definition slope_tie (q : Q) : Prop := (Qabs q == 1 # 2)%Q.

(** Ten times the mean is half way between two integers. *)
Definition round_tie (q : Q) : Prop := (q * 10 - inject_Z (Qfloor (q * 10)) == 1 # 2)%Q.

#[global] Instance slope_tie_dec q : Decision (slope_tie q).
Proof. unfold slope_tie. apply _. Defined.

#[global] Instance round_tie_dec q : Decision (round_tie q).
Proof. unfold round_tie. apply _. Defined.

(** The trend of the floats is the trend of the exact slope, unless the
    slope is a tie. *)
Definition trend_agrees (s1 n1 : Z) (a1 : float) (s2 n2 : Z) (a2 : float) : bool :=
  let q := exact_slope s1 n1 s2 n2 in
  bool_decide (slope_tie q) ||
  bool_decide (float_trend (float_sub a2 a1) = (classify_trend q).1.1).

(** The level of the float is the level of the exact mean, and the
    float rounds to the decimal the mean rounds to unless the mean is a
    tie. *)
Definition mean_agrees (s n : Z) (a : float) : bool :=
  let q := exact_mean s n in
  bool_decide (float_level a = (classify_level q).1) &&
  (bool_decide (round_tie q) ||
   match float_value a with
   | Some v => bool_decide (round_half_even (v * 10) = round_half_even (q * 10))
   | None => false
   end).

(** The float of a mean is within [2 ^ -50] of the mean, which is half a
    unit in the last place of the floats from 8 to 16. *)
Definition mean_close (s n : Z) (a : float) : bool :=
  match float_value a with
  | Some v => bool_decide (Qabs (v - exact_mean s n) <= 1 # 2 ^ 50)%Q
  | None => false
  end.

(** The sums of [n] moods from 1 to 10, with the float of their mean. *)
Definition averages (n : Z) : list (Z * float) :=
  (fun s => (s, float_div (of_int s) (of_int n))) <$> seqZ n (9 * n + 1).

(** A comparison of the means of the halves on all windows whose first
    half has [bound] entries at most. *)
Definition pair_table (check : Z -> Z -> float -> Z -> Z -> float -> bool) (bound : Z) : bool :=
  forallb (fun n1 =>
    forallb (fun n2 =>
      let second := averages n2 in
      forallb (fun p1 => forallb (fun p2 => check p1.1 n1 p1.2 p2.1 n2 p2.2) second)
              (averages n1))
      [n1; n1 + 1])
    (seqZ 1 bound).

Definition trend_table (bound : Z) : bool := pair_table trend_agrees bound.

Definition mean_table (bound : Z) : bool :=
  forallb (fun n => forallb (fun p => mean_agrees p.1 n p.2 && mean_close p.1 n p.2)
                            (averages n))
          (seqZ 1 bound).

(** *** Rounding decided on integers *)

(** The integers from [z] on, [k] of them. *)
Fixpoint zrange (k : nat) (z : Z) : list Z :=
  match k with
  | O => []
  | S k => z :: zrange k (z + 1)
  end.

(** [round_half_even (v * 10) = k] for the number [v = z / 2 ^ s] of a
    float, decided on the mantissa [z]: on its leading bits ([near]) when
    these suffice, on all of them ([nearest]) otherwise. *)
Definition near (z s k : Z) : bool :=
  let t := s - 16 in
  let w := Z.shiftr z t in
  (0 <=? t) && ((2 * k - 1) * 65536 <? 20 * w) && (20 * w + 20 <=? (2 * k + 1) * 65536).

Definition nearest (z s k : Z) : bool :=
  Z.abs (20 * z - Z.shiftl (2 * k) s) <? Z.shiftl 1 s.

Definition rounds_to (x : float) (k : Z) : bool :=
  match Prim2SF x with
  | S754_zero _ => k =? 0
  | S754_finite s m e =>
      let z := if s then Z.neg m else Z.pos m in
      (e <? 0) && (near z (- e) k || nearest z (- e) k)
  | S754_infinity _ | S754_nan => false
  end.

(** The integer next to [a / d] for [0 < d], after the flag of a tie. *)
Definition frac_round (a d : Z) : bool * Z :=
  let (f, r) := Z.div_eucl a d in
  (2 * r =? d, if 2 * r <? d then f else f + 1).

(** [check x (frac_round (a + i * step) d)] for [x + i], [i < k], with
    the quotient and the remainder carried along: [a = d * f + r] and
    [step = d * qs + rs]. *)
Fixpoint forall_round (check : Z -> bool * Z -> bool) (d qs rs : Z) (k : nat) (x f r : Z) :
    bool :=
  match k with
  | O => true
  | S k =>
      check x (2 * r =? d, if 2 * r <? d then f else f + 1) &&
      let r' := r + rs in
      if r' <? d then forall_round check d qs rs k (x + 1) (f + qs) r'
      else forall_round check d qs rs k (x + 1) (f + qs + 1) (r' - d)
  end.

(** The exact slope and the exact mean of a window. *)
Definition window_slope (y_values : list Z) : Q :=
  exact_slope (sumZ (first_half y_values)) (len (first_half y_values))
              (sumZ (second_half y_values)) (len (second_half y_values)).

Definition window_mean (y_values : list Z) : Q := exact_mean (sumZ y_values) (len y_values).

(** The rows of a window, for the examples. *)
Definition rows_of (y_values : list Z) : list MoodEntry :=
  (fun mood => mkMoodEntry 0 0 mood "" "" 0) <$> y_values.


Definition tie_flat : list Z := [1; 1; 2; 2; 2; 2; 2; 2; 2; 2; 2; 3].

Definition tie_round : list Z := replicate 13 6 ++ replicate 7 7.

(** ** Lemmas *)

(** *** Rounding *)

Lemma zrange_In k z x : z <= x < z + Z.of_nat k -> In x (zrange k z).
Proof.
  revert z. induction k as [|k IH]; intros z Hx; [lia|]. cbn [zrange In].
  destruct (decide (x = z)) as [->|Hne]; [by left|right]. apply IH. lia.
Qed.

(** A number within one half of an integer rounds to it. *)
Lemma round_half_even_within q k :
  (inject_Z k - (1 # 2) < q < inject_Z k + (1 # 2))%Q -> round_half_even q = k.
Proof.
  intros [H1 H2]. pose proof (round_half_even_near q) as [H3 H4].
  assert (inject_Z (round_half_even q) < inject_Z (k + 1))%Q as H5
    by (rewrite inject_Z_plus; change (inject_Z 1) with 1%Q; lra).
  assert (inject_Z (k - 1) < inject_Z (round_half_even q))%Q as H6
    by (unfold Z.sub; rewrite inject_Z_plus; change (inject_Z (- (1))) with (-1 # 1)%Q; lra).
  rewrite <- Zlt_Qlt in H5, H6. lia.
Qed.

Lemma round_half_even_frac a (d : positive) k :
  - Z.pos d < 2 * (a - k * Z.pos d) < Z.pos d -> round_half_even (a # d) = k.
Proof.
  intros H. apply round_half_even_within. unfold Qlt, Qminus, Qplus, Qopp, inject_Z. cbn. lia.
Qed.

Lemma near_nearest z s k : near z s k = true -> nearest z s k = true.
Proof.
  unfold near, nearest.
  intros [[Ht%Z.leb_le H1%Z.ltb_lt]%andb_true_iff H2%Z.leb_le]%andb_true_iff.
  apply Z.ltb_lt. rewrite !Z.shiftl_mul_pow2 by lia. rewrite Z.shiftr_div_pow2 in H1, H2 by done.
  replace s with (16 + (s - 16)) by lia. rewrite Z.pow_add_r by lia.
  pose proof (Z.pow_pos_nonneg 2 (s - 16) ltac:(lia) Ht) as Hp.
  pose proof (Z.div_mod z (2 ^ (s - 16)) ltac:(lia)) as Hd.
  pose proof (Z.mod_pos_bound z (2 ^ (s - 16)) Hp) as Hm.
  change (2 ^ 16) with 65536. nia.
Qed.

Lemma rounds_to_sound x k :
  rounds_to x k = true -> exists v, float_value x = Some v /\ round_half_even (v * 10) = k.
Proof.
  unfold rounds_to, float_value. destruct (Prim2SF x) as [| | |s m e]; try done.
  { intros ->%Z.eqb_eq. by eexists. }
  intros [He%Z.ltb_lt Hn]%andb_true_iff. rewrite decide_False by lia.
  eexists. split; [done|].
  assert (nearest (if s then Z.neg m else Z.pos m) (- e) k = true) as Hk
    by (apply orb_true_iff in Hn as [Hn|Hn]; [by apply near_nearest|done]).
  unfold nearest in Hk. apply Z.ltb_lt in Hk. rewrite !Z.shiftl_mul_pow2 in Hk by lia.
  pose proof (Z.pow_pos_nonneg 2 (- e) ltac:(lia) ltac:(lia)) as Hp.
  set (z := if s then _ else _) in *. unfold Qmult. cbn [Qnum Qden].
  rewrite Pos.mul_1_r. apply round_half_even_frac. rewrite Z2Pos.id by done. lia.
Qed.

(** [frac_round] is the rounding of the fraction unless it is a tie. *)
Lemma frac_round_spec a (d : positive) :
  let q := (a # d)%Q in
  if (frac_round a (Z.pos d)).1
  then (q - inject_Z (Qfloor q) == 1 # 2)%Q
  else round_half_even q = (frac_round a (Z.pos d)).2.
Proof.
  unfold frac_round. pose proof (Z_div_mod a (Z.pos d) ltac:(lia)) as Hd.
  destruct (Z.div_eucl a (Z.pos d)) as [f r] eqn:E. destruct Hd as [Ha Hr]. cbn [fst snd].
  destruct (Z.eqb_spec (2 * r) (Z.pos d)) as [Ht|Ht].
  - assert (Qfloor (a # d) = f) as -> by (cbn; apply (f_equal fst) in E; exact E).
    unfold Qeq, Qminus, Qplus, Qopp, inject_Z. cbn. lia.
  - apply round_half_even_frac. destruct (Z.ltb_spec (2 * r) (Z.pos d)); lia.
Qed.

Lemma frac_round_unique a d f r :
  a = d * f + r -> 0 <= r < d ->
  frac_round a d = (2 * r =? d, if 2 * r <? d then f else f + 1).
Proof.
  intros Ha Hr. unfold frac_round. pose proof (Z_div_mod a d ltac:(lia)) as Hd.
  destruct (Z.div_eucl a d) as [f' r']. destruct Hd as [Hd Hr'].
  assert (f' = f) as -> by nia. by assert (r' = r) as -> by lia.
Qed.

Lemma forall_round_sound check d qs rs k x f r a step i :
  a = d * f + r -> 0 <= r < d -> step = d * qs + rs -> 0 <= rs < d ->
  forall_round check d qs rs k x f r = true -> 0 <= i < Z.of_nat k ->
  check (x + i) (frac_round (a + i * step) d) = true.
Proof.
  revert x f r a i. induction k as [|k IH]; intros x f r a i Ha Hr Hs Hrs Hc Hi; [lia|].
  cbn [forall_round] in Hc. apply andb_true_iff in Hc as [Hx Hc].
  destruct (decide (i = 0)) as [->|Hne].
  { by rewrite Z.add_0_r, Z.mul_0_l, Z.add_0_r, (frac_round_unique a d f r). }
  replace (x + i) with (x + 1 + (i - 1)) by lia.
  replace (a + i * step) with (a + step + (i - 1) * step) by lia.
  cbn zeta in Hc. destruct (Z.ltb_spec (r + rs) d).
  - apply (IH _ (f + qs) (r + rs)); [lia..|done|lia].
  - apply (IH _ (f + qs + 1) (r + rs - d)); [lia..|done|lia].
Qed.

(** *** The tables *)

Lemma averages_In n s :
  n <= s <= 10 * n -> In (s, float_div (of_int s) (of_int n)) (averages n).
Proof.
  intros Hs. apply list_elem_of_In, list_elem_of_fmap. exists s. split; [done|].
  apply elem_of_seqZ. lia.
Qed.

Lemma seqZ_In m n k : m <= k < m + n -> In k (seqZ m n).
Proof. intros Hk. by apply list_elem_of_In, elem_of_seqZ. Qed.

Lemma pair_table_sound check bound n1 n2 s1 s2 :
  pair_table check bound = true -> 1 <= n1 <= bound -> n2 = n1 \/ n2 = n1 + 1 ->
  n1 <= s1 <= 10 * n1 -> n2 <= s2 <= 10 * n2 ->
  check s1 n1 (float_div (of_int s1) (of_int n1)) s2 n2 (float_div (of_int s2) (of_int n2)) = true.
Proof.
  intros Ht Hn1 Hn2 Hs1 Hs2. unfold pair_table in Ht. rewrite forallb_forall in Ht.
  specialize (Ht n1 (seqZ_In 1 bound n1 ltac:(lia))). rewrite forallb_forall in Ht.
  specialize (Ht n2 ltac:(destruct Hn2 as [-> | ->]; cbn; auto)).
  rewrite forallb_forall in Ht. specialize (Ht _ (averages_In n1 s1 Hs1)).
  rewrite forallb_forall in Ht. exact (Ht _ (averages_In n2 s2 Hs2)).
Qed.

Lemma mean_table_sound bound n s :
  mean_table bound = true -> 1 <= n <= bound -> n <= s <= 10 * n ->
  mean_agrees s n (float_div (of_int s) (of_int n)) = true /\
  mean_close s n (float_div (of_int s) (of_int n)) = true.
Proof.
  intros Ht Hn Hs. unfold mean_table in Ht. rewrite forallb_forall in Ht.
  specialize (Ht n (seqZ_In 1 bound n ltac:(lia))). rewrite forallb_forall in Ht.
  by apply andb_true_iff, (Ht _ (averages_In n s Hs)).
Qed.

Lemma trend_table_sound bound n1 n2 s1 s2 :
  trend_table bound = true -> 1 <= n1 <= bound -> n2 = n1 \/ n2 = n1 + 1 ->
  n1 <= s1 <= 10 * n1 -> n2 <= s2 <= 10 * n2 ->
  trend_agrees s1 n1 (float_div (of_int s1) (of_int n1))
               s2 n2 (float_div (of_int s2) (of_int n2)) = true.
Proof. apply pair_table_sound. Qed.

(** The two versions on all windows of at most 31 entries, computed. *)
Lemma trend_table_15 : trend_table 15 = true.
Proof. vm_compute. reflexivity. Qed.

Lemma mean_table_31 : mean_table 31 = true.
Proof. vm_compute. reflexivity. Qed.

(** *** The windows *)

Lemma float_mean_ok l :
  l <> [] -> float_mean l = Ok (float_div (of_int (sumZ l)) (of_int (len l))).
Proof.
  intros Hl. unfold float_mean, int_truediv. apply len_pos in Hl.
  by rewrite decide_False by lia.
Qed.

Lemma float_half_avg_nonempty half avg : half <> [] -> float_half_avg half avg = float_mean half.
Proof. by destruct half. Qed.

Lemma float_trend_slope_short ys avg :
  len ys < 3 -> float_trend_slope ys avg = Ok (of_int 0).
Proof. intros Hn. unfold float_trend_slope. destruct (decide _); [lia|done]. Qed.

Lemma float_trend_slope_long ys avg :
  3 <= len ys ->
  float_trend_slope ys avg =
  Ok (float_sub (float_div (of_int (sumZ (second_half ys))) (of_int (len (second_half ys))))
                (float_div (of_int (sumZ (first_half ys))) (of_int (len (first_half ys))))).
Proof.
  intros Hn. unfold float_trend_slope.
  destruct (halves_nonempty ys) as [H1 H2]; [lia|]. rewrite !decide_True by lia.
  by rewrite !float_half_avg_nonempty, !float_mean_ok by done.
Qed.

(** The sums and the lengths of the halves of a window are in the
    tables. *)
Lemma halves_in_table bound ys :
  all_between 1 10 ys -> 3 <= len ys <= 2 * bound + 1 ->
  let n1 := len (first_half ys) in
  let n2 := len (second_half ys) in
  1 <= n1 <= bound /\ (n2 = n1 \/ n2 = n1 + 1) /\
  n1 <= sumZ (first_half ys) <= 10 * n1 /\ n2 <= sumZ (second_half ys) <= 10 * n2.
Proof.
  intros Hb Hn n1 n2. pose proof (first_half_le_second ys) as Hh.
  pose proof (f_equal len (halves_app ys)) as Hl. rewrite len_app in Hl.
  destruct (halves_nonempty ys) as [H1%len_pos H2%len_pos]; [lia|].
  pose proof (sumZ_between 1 10 (first_half ys) (Forall_take _ _ _ Hb)).
  pose proof (sumZ_between 1 10 (second_half ys) (Forall_drop _ _ _ Hb)).
  subst n1 n2. unfold len in *. lia.
Qed.

(** ** Theorems *)

(** On a window of at most 31 mood entries the trend the program
    computes on floats is the trend of the exact difference of the half
    means, unless this difference is one half up or down: then the
    rounding errors of the two divisions decide. *)
Theorem float_trend_agrees ys favg qavg :
  all_between 1 10 ys -> len ys <= 31 ->
  exists t q,
    float_trend_slope ys favg = Ok t /\ trend_slope ys qavg = Ok q /\
    ((q == window_slope ys)%Q \/ len ys < 3) /\
    (slope_tie q \/ float_trend t = (classify_trend q).1.1).
Proof.
  intros Hb Hn. destruct (decide (3 <= len ys)) as [H3|H3].
  - eexists _, _. split; [by apply float_trend_slope_long|].
    split; [by apply trend_slope_long|]. split; [by left|].
    destruct (halves_in_table 15 ys Hb) as (Hn1 & Hn2 & Hs1 & Hs2); [lia|].
    pose proof (trend_table_sound 15 _ _ _ _ trend_table_15 Hn1 Hn2 Hs1 Hs2) as Ht.
    apply orb_true_iff in Ht as [Ht%bool_decide_eq_true|Ht%bool_decide_eq_true]; auto.
  - eexists _, _. split; [apply float_trend_slope_short; lia|].
    split; [apply trend_slope_short; lia|]. split; [right; lia|]. by right.
Qed.

Lemma float_trend_agrees_witness :
  exists t, float_trend_slope tie_flat (of_int 0) = Ok t /\ float_trend t = Stable.
Proof.
  destruct (float_trend_agrees tie_flat (of_int 0) 0%Q) as (t & q & Ht & Hq & _ & Hc);
    [by_decide|by vm_compute|].
  exists t. split; [done|]. vm_compute in Ht. injection Ht as <-. by vm_compute.
Defined.

(** On a window of at most 31 entries the level of the float mean is the
    level of the exact mean, and the float the program shows for the
    rounded mean is the float nearest to the rounded exact mean unless
    ten times the mean is half way between two integers. *)
Theorem float_mean_agrees ys :
  ys <> [] -> all_between 1 10 ys -> len ys <= 31 ->
  exists a,
    float_mean ys = Ok a /\ mean ys = Ok (window_mean ys) /\
    float_level a = (classify_level (window_mean ys)).1 /\
    (round_tie (window_mean ys) \/
     float_round1 a = tenths (round_half_even (window_mean ys * 10))).
Proof.
  intros Hne Hb Hn. eexists. split; [by apply float_mean_ok|]. split; [by apply mean_ok|].
  pose proof (len_pos ys Hne). pose proof (sumZ_between 1 10 ys Hb).
  destruct (mean_table_sound 31 (len ys) (sumZ ys) mean_table_31) as [Ht _]; [lia..|].
  apply andb_true_iff in Ht as [Hl%bool_decide_eq_true Hr]. split; [done|].
  apply orb_true_iff in Hr as [Hr%bool_decide_eq_true|Hr]; [by left|right].
  unfold float_round1. destruct (float_value _) as [v|]; [|done].
  apply bool_decide_eq_true in Hr. by rewrite Hr.
Qed.

(** C27: the float of the mean of a window of at most 31 mood entries
    stands for a number within [2 ^ -50] of the exact mean; in particular
    the division neither overflows nor returns a value that is no
    number. *)
Theorem float_mean_error ys :
  ys <> [] -> all_between 1 10 ys -> len ys <= 31 ->
  exists a v,
    float_mean ys = Ok a /\ float_value a = Some v /\
    (Qabs (v - window_mean ys) <= 1 # 2 ^ 50)%Q.
Proof.
  intros Hne Hb Hn. pose proof (len_pos ys Hne). pose proof (sumZ_between 1 10 ys Hb).
  destruct (mean_table_sound 31 (len ys) (sumZ ys) mean_table_31) as [_ Hc]; [lia..|].
  unfold mean_close in Hc. destruct (float_value _) as [v|] eqn:Ev; [|done].
  eexists _, v. split; [by apply float_mean_ok|]. split; [done|].
  by apply bool_decide_eq_true in Hc.
Qed.

Lemma float_mean_error_witness :
  exists a v, float_mean tie_round = Ok a /\ float_value a = Some v /\ (v < 635 # 100)%Q.
Proof.
  destruct (float_mean_error tie_round) as (a & v & Ha & Hv & _); [done|by_decide|by vm_compute|].
  exists a, v. split_and!; [done..|]. vm_compute in Ha. injection Ha as <-.
  vm_compute in Hv. injection Hv as <-. by vm_compute.
Defined.

(** C6: the analysis on floats and the analysis on exact rationals: on a
    window of at most 31 mood entries both return, with the same level;
    the trend is the same unless the exact difference of the half means
    is one half up or down, and the mean the program shows is the float
    next to the rounded exact mean unless ten times the mean is half way
    between two integers. *)
Theorem float_analyze_agrees recent :
  recent <> [] -> all_between 1 10 (me_mood <$> recent) -> len recent <= 31 ->
  let ys := me_mood <$> recent in
  exists fa a,
    float_analyze ys = Ok fa /\ analyze_rows recent = Ok a /\
    a_mood_level a = Some (fa_mood_level fa) /\
    (slope_tie (window_slope ys) \/ a_trend a = fa_trend fa) /\
    a_avg_mood a = Some (round1 (window_mean ys)) /\
    (round_tie (window_mean ys) \/
     fa_avg_mood fa = tenths (round_half_even (window_mean ys * 10))).
Proof.
  intros Hne Hb Hn ys. assert (ys <> []) as Hys by (by destruct recent).
  assert (len ys <= 31) as Hlen by (subst ys; by rewrite len_fmap).
  destruct (float_mean_agrees ys Hys Hb Hlen) as (favg & Hf & Hq & Hl & Hr).
  destruct (float_trend_agrees ys favg (window_mean ys) Hb Hlen)
    as (t & q & Ht & Hs & Hw & Hc).
  unfold float_analyze, analyze_rows. rewrite Hf. cbn [mbind result_bind]. rewrite Ht.
  destruct recent as [|e recent]; [done|]. cbn [qs_exists negb]. fold ys.
  rewrite Hq. cbn [mbind result_bind]. rewrite Hs. cbn [mbind result_bind].
  destruct (classify_trend q) as [[tr msg] recs] eqn:Ec.
  destruct (classify_level (window_mean ys)) as [level add] eqn:El.
  eexists _, _. split; [done|]. split; [done|]. cbn. split_and!; [by rewrite Hl|..|done|done].
  destruct Hc as [Hc|Hc]; [|by right]. destruct Hw as [Hw|Hw].
  - left. unfold slope_tie in *. rewrite <- Hc. apply Qabs_wd. by symmetry.
  - right. rewrite trend_slope_short in Hs by done. injection Hs as <-.
    rewrite float_trend_slope_short in Ht by done. injection Ht as <-.
    by injection Ec as <- _ _.
Qed.

Lemma float_analyze_agrees_witness :
  exists fa, float_analyze tie_flat = Ok fa /\ fa_mood_level fa = NeedsAttention.
Proof.
  destruct (float_analyze_agrees (rows_of tie_flat)) as (fa & a & Hf & Ha & Hl & _);
    [done|by_decide|by vm_compute|].
  exists fa. split; [exact Hf|]. vm_compute in Ha. injection Ha as <-. by injection Hl as <-.
Defined.


(** The mean 127/20 is shown as 6.3: the float of 6.35 is below 6.35,
    where the decimal is half way between 6.3 and 6.4 and rounds to
    6.4. *)
Theorem float_round1_tie :
  (window_mean tie_round == 635 # 100)%Q /\
  fa_avg_mood <$> float_analyze tie_round = Ok (tenths 63) /\
  a_avg_mood <$> analyze_rows (rows_of tie_round) = Ok (Some (64 # 10)%Q) /\
  tenths 63 <> tenths 64.
Proof. split_and!; by vm_compute. Qed.
