(* ===== verification/FloatForecast.v ===== *)
(** * FloatForecast: the floats of the prediction view

    [ai_mood_prediction] of [src/dashboard/views.py] compares the means
    of the two halves of the latest moods and calls [predict_next_mood],
    which fits a line through them.  [Trend] and [Forecast] compute both
    on exact rationals; this file has them on the binary64 floats of
    [Binary64], operation by operation as the program evaluates them,
    with the values [min] and [max] return (the integer bound or the
    float).

    The theorems compare the two versions by computing both on all sums
    the windows of the view have (7 to 14 moods from 1 to 10; the tables
    start at 3 moods, where the fit starts): the comparison of the half
    means never differs, and the prediction differs only when ten times
    the fitted value is half way between two integers, where it follows
    the rounding errors of the fit. *)

From Stdlib Require Import ZArith QArith Qabs Qround Qminmax Lia Lqa String.
From Stdlib Require Import Floats.PrimFloat.
From stdpp Require Import base decidable option list strings.
From S2P Require Import Prelude Numeric Store Trend Forecast Binary64.

(** ** Definitions *)

Definition float_mul (x y : float) : float := PrimFloat.mul x y.

Definition float_add (x y : float) : float := PrimFloat.add x y.

(** [x / n] for a float and an integer. *)
Definition float_truediv (x : float) (n : Z) : result float :=
  if decide (n = 0) then Raise ZeroDivisionError else Ok (float_div x (of_int n)).

(** A Python number: an [int] or a [float]. *)
Inductive number : Type :=
| Int (z : Z)
| Float (x : float).

(** The float a number is compared as. *)
Definition number_float (a : number) : float :=
  match a with
  | Int z => of_int z
  | Float x => x
  end.

(** [min(a, b)] and [max(a, b)]: the first argument, unless the second
    is strictly smaller (larger). *)
Definition py_min (a b : number) : number :=
  if PrimFloat.ltb (number_float b) (number_float a) then b else a.

Definition py_max (a b : number) : number :=
  if PrimFloat.ltb (number_float a) (number_float b) then b else a.

(** [max(1, min(10, x))]. *)
Definition float_clamp (x : float) : number := py_max (Int 1) (py_min (Int 10) (Float x)).

(** [predict_next_mood(mood_values)]. *)
Definition float_predict_next_mood (mood_values : list Z) : result number :=
  if decide (len mood_values < 3) then Float <$> float_mean mood_values
  else
    let n := len mood_values in
    let x_values := range (length mood_values) in
    let y_values := mood_values in
    let sum_x := sumZ x_values in
    let sum_y := sumZ y_values in
    slope ← int_truediv (ols_num y_values) (ols_den (length y_values));
    intercept ← float_truediv (float_sub (of_int sum_y) (float_mul slope (of_int sum_x))) n;
    let next_x := n in
    let predicted := float_add (float_mul slope (of_int next_x)) intercept in
    mret (float_clamp (float_round1 predicted)).

(** The trend test of [ai_mood_prediction]. *)
Definition float_ai_trend (mood_values : list Z) : result (option (trend * string)) :=
  if decide (7 <= len mood_values) then
    first ← float_mean (first_half mood_values);
    second ← float_mean (second_half mood_values);
    if PrimFloat.ltb first second then
      mret (Some (Improving,
                  "Your mood has been trending upward! Keep up the great work."))
    else if PrimFloat.ltb second first then
      mret (Some (Declining,
                  "Your mood has been trending downward. Consider reaching out for support."))
    else
      mret (Some (Stable,
                  "Your mood has been relatively stable. This consistency is positive."))
  else mret None.

(** *** The two versions on the sums of a window *)

(** The sum of [x * y] over the entries of a window. *)
Definition sum_xy (y_values : list Z) : Z :=
  sumZ (zip_with Z.mul (range (length y_values)) y_values).

(** The value of the fitted line at [n], exactly and on floats, from the
    sums of a window of [n] entries. *)
Definition exact_fit (n sum_y sxy : Z) : Q :=
  let sum_x := sumZ (range (Z.to_nat n)) in
  let slope := (inject_Z (n * sxy - sum_x * sum_y) / inject_Z (ols_den (Z.to_nat n)))%Q in
  let intercept := ((inject_Z sum_y - slope * inject_Z sum_x) / inject_Z n)%Q in
  (slope * inject_Z n + intercept)%Q.

Definition float_fit (n sum_y sxy : Z) : float :=
  let sum_x := sumZ (range (Z.to_nat n)) in
  let slope := float_div (of_int (n * sxy - sum_x * sum_y)) (of_int (ols_den (Z.to_nat n))) in
  let intercept := float_div (float_sub (of_int sum_y) (float_mul slope (of_int sum_x)))
                             (of_int n) in
  float_add (float_mul slope (of_int n)) intercept.

(** The fitted value of a window. *)
Definition window_fit (y_values : list Z) : Q :=
  exact_fit (len y_values) (sumZ y_values) (sum_xy y_values).

(** The float of the fit rounds to the decimal the exact fit rounds to,
    unless the exact fit is a tie. *)
Definition fit_agrees (n sum_y sxy : Z) : Prop :=
  round_tie (exact_fit n sum_y sxy) \/
  float_round1 (float_fit n sum_y sxy) = tenths (round_half_even (exact_fit n sum_y sxy * 10)).

(** Ten times the exact fit is [fit_num / fit_den]. *)
Definition fit_num (n sum_x den sum_y sxy : Z) : Z :=
  10 * ((n * sxy - sum_x * sum_y) * (n * n - sum_x) + sum_y * den).

Definition fit_den (n den : Z) : Z := den * n.

(** The comparison for the sums of one window, given the rounding [r]
    of the exact fit and the floats of what depends on [n] and [sum_y]
    only. *)
Definition fit_check (n sum_x : Z) (fn fsx fden : float) (sum_y : Z) (fsy : float)
    (sxy : Z) (r : bool * Z) : bool :=
  let slope := float_div (of_int (n * sxy - sum_x * sum_y)) fden in
  let intercept := float_div (float_sub fsy (float_mul slope fsx)) fn in
  r.1 || rounds_to (float_add (float_mul slope fn) intercept) r.2.

(** The comparison on all sums of the windows of [n] entries. *)
Definition fit_table (n : Z) : bool :=
  let sum_x := sumZ (range (Z.to_nat n)) in
  let den := ols_den (Z.to_nat n) in
  let fn := of_int n in
  let fsx := of_int sum_x in
  let fden := of_int den in
  let d := fit_den n den in
  let step := Z.div_eucl (10 * (n * (n * n - sum_x))) d in
  forallb (fun sum_y =>
             let first := Z.div_eucl (fit_num n sum_x den sum_y sum_x) d in
             forall_round (fit_check n sum_x fn fsx fden sum_y (of_int sum_y)) d step.1 step.2
                          (Z.to_nat (9 * sum_x + 1)) sum_x first.1 first.2)
          (zrange (Z.to_nat (9 * n + 1)) n).

(** The floats of two means are in the order of the means. *)
Definition order_agrees (s1 n1 : Z) (a1 : float) (s2 n2 : Z) (a2 : float) : bool :=
  bool_decide (PrimFloat.ltb a1 a2 = bool_decide (s1 * n2 < s2 * n1)) &&
  bool_decide (PrimFloat.ltb a2 a1 = bool_decide (s2 * n1 < s1 * n2)).

Definition order_table (bound : Z) : bool := pair_table order_agrees bound.


(** ** Lemmas *)

(** *** The fit on the sums *)

Lemma exact_fit_frac n sum_y sxy :
  0 < n -> 0 < ols_den (Z.to_nat n) ->
  (exact_fit n sum_y sxy * 10 ==
   fit_num n (sumZ (range (Z.to_nat n))) (ols_den (Z.to_nat n)) sum_y sxy
   # Z.to_pos (fit_den n (ols_den (Z.to_nat n))))%Q.
Proof.
  intros Hn Hd. unfold exact_fit, fit_num, fit_den. cbn zeta.
  set (sx := sumZ _). set (den := ols_den _) in *.
  rewrite (Qmake_Qdiv _ (Z.to_pos _)), Z2Pos.id by lia.
  rewrite !inject_Z_mult, !inject_Z_plus, !inject_Z_mult, !inject_Z_minus, !inject_Z_mult.
  field. split; apply inject_Z_nonzero; lia.
Qed.

Lemma fit_check_sound n sum_y sxy :
  0 < n -> 0 < ols_den (Z.to_nat n) ->
  let sum_x := sumZ (range (Z.to_nat n)) in
  let den := ols_den (Z.to_nat n) in
  fit_check n sum_x (of_int n) (of_int sum_x) (of_int den) sum_y (of_int sum_y) sxy
            (frac_round (fit_num n sum_x den sum_y sxy) (fit_den n den)) = true ->
  fit_agrees n sum_y sxy.
Proof.
  intros Hn Hd sum_x den Hc. pose proof (exact_fit_frac n sum_y sxy Hn Hd) as Hq.
  fold sum_x den in Hq. unfold fit_check in Hc.
  pose proof (frac_round_spec (fit_num n sum_x den sum_y sxy) (Z.to_pos (fit_den n den))) as Hr.
  rewrite Z2Pos.id in Hr by (unfold fit_den; lia). cbn zeta in Hr, Hc.
  destruct (frac_round _ _) as [[] k]; cbn [fst snd orb] in Hc, Hr.
  - left. unfold round_tie. by rewrite (Qfloor_comp _ _ Hq), Hq.
  - right. apply rounds_to_sound in Hc as (v & Hv & Hk).
    unfold float_round1. replace (float_value (float_fit n sum_y sxy)) with (Some v) by done.
    by rewrite Hk, Hq, Hr.
Qed.

Lemma fit_table_sound n sum_y sxy :
  fit_table n = true -> 0 < n -> 0 < ols_den (Z.to_nat n) ->
  n <= sum_y <= 10 * n ->
  sumZ (range (Z.to_nat n)) <= sxy <= 10 * sumZ (range (Z.to_nat n)) ->
  fit_agrees n sum_y sxy.
Proof.
  intros Ht Hn Hd Hy Hxy. apply fit_check_sound; [done..|]. cbn zeta.
  unfold fit_table in Ht. cbn zeta in Ht. set (sx := sumZ _) in *. set (den := ols_den _) in *.
  rewrite forallb_forall in Ht. specialize (Ht sum_y (zrange_In (Z.to_nat (9 * n + 1)) n sum_y ltac:(lia))).
  assert (0 < fit_den n den) as Hp by (unfold fit_den; lia).
  pose proof (Z_div_mod (10 * (n * (n * n - sx))) (fit_den n den) ltac:(lia)) as Hs.
  pose proof (Z_div_mod (fit_num n sx den sum_y sx) (fit_den n den) ltac:(lia)) as Hf.
  destruct (Z.div_eucl (10 * _) _) as [qs rs], (Z.div_eucl (fit_num _ _ _ _ _) _) as [f r].
  destruct Hs as [Hs Hrs], Hf as [Hf Hr]. cbn [fst snd] in Ht.
  assert (0 <= sxy - sx < Z.of_nat (Z.to_nat (9 * sx + 1))) as Hi by lia.
  pose proof (forall_round_sound _ _ _ _ _ _ _ _ _ _ _ Hf Hr Hs Hrs Ht Hi) as Hc.
  replace (sx + (sxy - sx)) with sxy in Hc by lia.
  replace (fit_num n sx den sum_y sx + _) with (fit_num n sx den sum_y sxy) in Hc
    by (unfold fit_num; lia).
  exact Hc.
Qed.

(** The tables, computed: one for each length of a window. *)
Lemma fit_table_3 : fit_table 3 = true.
Proof. vm_compute. reflexivity. Qed.

Lemma fit_table_4 : fit_table 4 = true.
Proof. vm_compute. reflexivity. Qed.

Lemma fit_table_5 : fit_table 5 = true.
Proof. vm_compute. reflexivity. Qed.

Lemma fit_table_6 : fit_table 6 = true.
Proof. vm_compute. reflexivity. Qed.

Lemma fit_table_7 : fit_table 7 = true.
Proof. vm_compute. reflexivity. Qed.

Lemma fit_table_8 : fit_table 8 = true.
Proof. vm_compute. reflexivity. Qed.

Lemma fit_table_9 : fit_table 9 = true.
Proof. vm_compute. reflexivity. Qed.

Lemma fit_table_10 : fit_table 10 = true.
Proof. vm_compute. reflexivity. Qed.

Lemma fit_table_11 : fit_table 11 = true.
Proof. vm_compute. reflexivity. Qed.

Lemma fit_table_12 : fit_table 12 = true.
Proof. vm_compute. reflexivity. Qed.

Lemma fit_table_13 : fit_table 13 = true.
Proof. vm_compute. reflexivity. Qed.

Lemma fit_table_14 : fit_table 14 = true.
Proof. vm_compute. reflexivity. Qed.

Lemma fit_tables n : 3 <= n <= 14 -> fit_table n = true.
Proof.
  intros Hn. assert (In n (zrange 12 3)) as Hi by (apply zrange_In; lia).
  cbn in Hi. destruct Hi as [<-|[<-|[<-|[<-|[<-|[<-|[<-|[<-|[<-|[<-|[<-|[<-|[]]]]]]]]]]]]];
    [exact fit_table_3|exact fit_table_4|exact fit_table_5|exact fit_table_6|exact fit_table_7|exact fit_table_8|exact fit_table_9|exact fit_table_10|exact fit_table_11|exact fit_table_12|exact fit_table_13|exact fit_table_14].
Qed.

(** *** The windows *)

Lemma range_nonneg n : Forall (fun x => 0 <= x) (range n).
Proof. apply Forall_forall. intros x Hx%elem_of_seqZ. lia. Qed.

Lemma sumZ_zip_between xs ys :
  length xs = length ys -> Forall (fun x => 0 <= x) xs -> all_between 1 10 ys ->
  sumZ xs <= sumZ (zip_with Z.mul xs ys) <= 10 * sumZ xs.
Proof.
  intros Hl Hx. revert ys Hl. induction Hx as [|x xs Hx _ IH]; intros [|y ys] Hl Hy; try done.
  apply Forall_cons in Hy as [Hy Hys]. specialize (IH ys ltac:(by injection Hl) Hys).
  cbn [zip_with]. autorewrite with vyze. nia.
Qed.

Lemma sum_xy_between ys :
  all_between 1 10 ys ->
  sumZ (range (length ys)) <= sum_xy ys <= 10 * sumZ (range (length ys)).
Proof.
  intros Hb. apply sumZ_zip_between; [|apply range_nonneg|done].
  unfold range. rewrite length_seqZ. lia.
Qed.

Lemma to_nat_len {A} (l : list A) : Z.to_nat (len l) = length l.
Proof. apply Nat2Z.id. Qed.

Lemma float_predict_next_mood_long ys :
  3 <= len ys ->
  float_predict_next_mood ys =
  Ok (float_clamp (float_round1 (float_fit (len ys) (sumZ ys) (sum_xy ys)))).
Proof.
  intros Hn. unfold float_predict_next_mood, int_truediv, float_truediv, float_fit.
  pose proof (ols_den_pos (length ys) ltac:(unfold len in Hn; lia)).
  rewrite to_nat_len, !decide_False by lia. cbn [mbind result_bind].
  by rewrite decide_False by lia.
Qed.

Lemma predict_next_mood_fit ys :
  3 <= len ys -> predict_next_mood ys = Ok (clamp_max_min 1 10 (round1 (window_fit ys))).
Proof.
  intros Hn. rewrite predict_next_mood_long by done.
  unfold window_fit, exact_fit. by rewrite to_nat_len.
Qed.

(** *** The order of the half means *)

Lemma order_table_7 : order_table 7 = true.
Proof. vm_compute. reflexivity. Qed.

Lemma order_table_sound bound n1 n2 s1 s2 :
  order_table bound = true -> 1 <= n1 <= bound -> n2 = n1 \/ n2 = n1 + 1 ->
  n1 <= s1 <= 10 * n1 -> n2 <= s2 <= 10 * n2 ->
  order_agrees s1 n1 (float_div (of_int s1) (of_int n1))
               s2 n2 (float_div (of_int s2) (of_int n2)) = true.
Proof. apply pair_table_sound. Qed.

Lemma Qlt_frac s1 n1 s2 n2 :
  0 < n1 -> 0 < n2 ->
  (inject_Z s1 / inject_Z n1 < inject_Z s2 / inject_Z n2)%Q <-> s1 * n2 < s2 * n1.
Proof.
  intros H1 H2. destruct n1 as [|p1|], n2 as [|p2|]; try lia.
  unfold Qlt, Qdiv, Qmult, Qinv, inject_Z. cbn. rewrite ?Pos.mul_1_l. lia.
Qed.

(** The floats of the half means of a window are ordered as the exact
    half means. *)
Lemma half_means_order ys :
  all_between 1 10 ys -> 3 <= len ys <= 15 ->
  exists a1 a2 q1 q2,
    float_mean (first_half ys) = Ok a1 /\ float_mean (second_half ys) = Ok a2 /\
    mean (first_half ys) = Ok q1 /\ mean (second_half ys) = Ok q2 /\
    PrimFloat.ltb a1 a2 = bool_decide (q1 < q2)%Q /\
    PrimFloat.ltb a2 a1 = bool_decide (q2 < q1)%Q.
Proof.
  intros Hb Hn. destruct (halves_nonempty ys) as [H1 H2]; [lia|].
  destruct (halves_in_table 7 ys Hb) as (Hn1 & Hn2 & Hs1 & Hs2); [lia|].
  pose proof (order_table_sound 7 _ _ _ _ order_table_7 Hn1 Hn2 Hs1 Hs2)
    as [Ho1%bool_decide_eq_true Ho2%bool_decide_eq_true]%andb_true_iff.
  eexists _, _, _, _.
  split_and!; [by apply float_mean_ok|by apply float_mean_ok|by apply mean_ok|by apply mean_ok| |].
  - rewrite Ho1. apply bool_decide_ext. symmetry. apply Qlt_frac; lia.
  - rewrite Ho2. apply bool_decide_ext. symmetry. apply Qlt_frac; lia.
Qed.

(** *** The clamp *)

(** [max(1, min(10, x))] is the integer 1, the integer 10, or [x]
    strictly between them. *)
Lemma float_clamp_cases x :
  float_clamp x = Int 1 \/ float_clamp x = Int 10 \/
  (float_clamp x = Float x /\ PrimFloat.ltb (of_int 1) x = true /\
   PrimFloat.ltb x (of_int 10) = true).
Proof.
  unfold float_clamp, py_min, py_max. cbn [number_float].
  destruct (PrimFloat.ltb x (of_int 10)) eqn:E10; cbn [number_float].
  - destruct (PrimFloat.ltb (of_int 1) x) eqn:E1; auto.
  - right. by left.
Qed.

(** ** Theorems *)

(** C12: the trend test of the prediction view on floats is the test on
    exact rationals: on every window of at most 15 moods from 1 to 10 the
    floats of the two half means are in the order of the half means, so
    the view shows the same trend and message. *)
Theorem float_ai_trend_agrees ys :
  all_between 1 10 ys -> len ys <= 15 -> float_ai_trend ys = ai_trend ys.
Proof.
  intros Hb Hn. unfold float_ai_trend, ai_trend.
  destruct (decide (7 <= len ys)) as [H7|H7]; [|done].
  destruct (half_means_order ys Hb) as (a1 & a2 & q1 & q2 & -> & -> & -> & -> & H1 & H2); [lia|].
  cbn [mbind result_bind]. rewrite H1, H2.
  by repeat case_bool_decide; repeat destruct (decide _).
Qed.

Lemma float_ai_trend_agrees_witness :
  float_ai_trend [7; 6; 5; 4; 3; 2; 1] = ai_trend [7; 6; 5; 4; 3; 2; 1].
Proof. apply float_ai_trend_agrees; [by_decide|by vm_compute]. Defined.

(** C10: [predict_next_mood] on floats and on exact rationals: on a window
    of 3 to 14 moods from 1 to 10 both return; the exact version returns
    the fitted value rounded to one decimal and clamped, and the program
    returns the clamped float next to the same decimal unless ten times
    the fitted value is half way between two integers. *)
Theorem float_predict_next_mood_agrees ys :
  all_between 1 10 ys -> 3 <= len ys <= 14 ->
  predict_next_mood ys = Ok (clamp_max_min 1 10 (round1 (window_fit ys))) /\
  exists r,
    float_predict_next_mood ys = Ok r /\
    (round_tie (window_fit ys) \/
     r = float_clamp (tenths (round_half_even (window_fit ys * 10)))).
Proof.
  intros Hb Hn. split; [apply predict_next_mood_fit; lia|].
  eexists. split; [apply float_predict_next_mood_long; lia|].
  pose proof (sumZ_between 1 10 ys Hb). pose proof (sum_xy_between ys Hb) as Hxy.
  pose proof (ols_den_pos (length ys) ltac:(unfold len in Hn; lia)) as Hd.
  rewrite <- (to_nat_len ys) in Hxy, Hd.
  destruct (fit_table_sound (len ys) (sumZ ys) (sum_xy ys)) as [Ht|Ht];
    [apply fit_tables; lia|lia..|by left|right].
  unfold window_fit. by rewrite Ht.
Qed.

Lemma float_predict_next_mood_agrees_witness :
  let ys := [5; 5; 5; 5; 5] in
  predict_next_mood ys = Ok (clamp_max_min 1 10 (round1 (window_fit ys))) /\
  exists r,
    float_predict_next_mood ys = Ok r /\
    (round_tie (window_fit ys) \/
     r = float_clamp (tenths (round_half_even (window_fit ys * 10)))).
Proof. apply float_predict_next_mood_agrees; [by_decide|by vm_compute]. Defined.

(** The prediction of the program is the integer 1, the integer 10 or
    a float strictly between them, on every window of three moods or
    more: the bounds are returned as integers, and a value that is no
    number would be shown as 10. *)
Theorem float_predict_next_mood_range ys :
  3 <= len ys ->
  exists r, float_predict_next_mood ys = Ok r /\
    (r = Int 1 \/ r = Int 10 \/
     exists x, r = Float x /\ PrimFloat.ltb (of_int 1) x = true /\
               PrimFloat.ltb x (of_int 10) = true).
Proof.
  intros Hn. eexists. split; [by apply float_predict_next_mood_long|].
  destruct (float_clamp_cases
              (float_round1 (float_fit (len ys) (sumZ ys) (sum_xy ys)))) as [H|[H|H]]; eauto.
Qed.

Lemma float_predict_next_mood_range_witness :
  exists r, float_predict_next_mood [1; 1; 10; 10] = Ok r /\
    (r = Int 1 \/ r = Int 10 \/
     exists x, r = Float x /\ PrimFloat.ltb (of_int 1) x = true /\
               PrimFloat.ltb x (of_int 10) = true).
Proof. apply float_predict_next_mood_range. by vm_compute. Defined.



(** The flat window of the specification: five moods of 5 predict the
    float 5.0, and five moods of 10 the integer 10. *)
Example float_predict_next_mood_flat :
  float_predict_next_mood [5; 5; 5; 5; 5] = Ok (Float (of_int 5)) /\
  float_predict_next_mood [10; 10; 10; 10; 10] = Ok (Int 10).
Proof. split; by vm_compute. Qed.
